(** * DailyArxivPaper: the ingestion pipeline and its upsert semantics

  A shallow embedding of the ingestion code of the repository:

  - [period_fetcher.py] / [fetcher.py]: [insert_paper_data] (one record,
    one transaction), [fetch_papers_by_category_to_db] (bounded retry loop)
    and [fetch_daily_papers_to_db] (the tier schedule);
  - [db_tools/import_arxiv.py]: [main], the batched JSON import;
  - [test/dailyarxivfetcher.py]: [fetch_papers_by_category], the JSON fetch
    variant that retries by calling itself.

  The relational store is external to the repository.  Its tables are
  modelled as lists of rows, and every SQL statement of the source as a
  function on those lists that follows the statement's [ON CONFLICT] clause.
  Errors of the driver are modelled by a schedule [raises]: the [k]-th
  statement sent on a connection raises [psycopg2.Error] exactly when
  [raises k] holds.  The schedule stands for every reason the store may have
  to refuse a statement (column widths, foreign keys, a lost connection, a
  row proposed twice to one [DO UPDATE] statement). *)

From Stdlib Require Import List String Ascii ZArith Lia Bool Arith PeanoNat.
Import ListNotations.
Open Scope string_scope.
Open Scope list_scope.

Set Implicit Arguments.

(** ** Python values and built-ins used by the source *)

Module Py.

(** Truth value of a [str]: only the empty string is falsy. *)
Definition truthy (s : string) : bool := negb (String.eqb s "").

(** Truth value of an optional [str] ([None] is falsy). *)
Definition truthy_opt (o : option string) : bool :=
  match o with
  | Some s => truthy s
  | None => false
  end.

(** [c in s] for a one-character [c]. *)
Fixpoint contains (c : ascii) (s : string) : bool :=
  match s with
  | EmptyString => false
  | String d r => Ascii.eqb d c || contains c r
  end.

(** [s.split(sep)[-1]]: the text after the last [sep] (all of [s] when
    [sep] does not occur). *)
Fixpoint last_segment (sep : ascii) (s : string) : string :=
  match s with
  | EmptyString => EmptyString
  | String c r =>
      if contains sep r then last_segment sep r
      else if Ascii.eqb c sep then r
      else s
  end.

(** [s.replace("\n", " ")]. *)
Fixpoint replace_newlines (s : string) : string :=
  match s with
  | EmptyString => EmptyString
  | String c r =>
      String (if Ascii.eqb c "010"%char then " "%char else c)
             (replace_newlines r)
  end.

(** [range(start, stop, step)] for a positive [step]. *)
Definition range (start stop step : nat) : list nat :=
  map (fun k => start + k * step)
      (seq 0 ((stop - start + step - 1) / step)).

(** [l[i:j]]. *)
Definition slice {A} (l : list A) (i j : nat) : list A :=
  firstn (j - i) (skipn i l).

(** [[l[i:i+n] for i in range(0, len(l), n)]]. *)
Definition groups_of {A} (n : nat) (l : list A) : list (list A) :=
  map (fun i => slice l i (i + n)) (range 0 (List.length l) n).

(** [enumerate(l, start)]. *)
Fixpoint enumerate {A} (start : nat) (l : list A) : list (nat * A) :=
  match l with
  | [] => []
  | x :: r => (start, x) :: enumerate (S start) r
  end.

(** [datetime.datetime], always UTC in the source. *)
Record datetime := {
  year : Z; month : Z; day : Z;
  hour : Z; minute : Z; second : Z; microsecond : Z
}.

End Py.

(** ** The relational store *)

Module Store.

(** A row of [papers].  [title] is always given as a string by both write
    paths; the other columns are nullable. *)
Record PaperRow := {
  id : string;
  title : string;
  abstract : option string;
  primary_category_code : option string;
  pdf_url : option string;
  arxiv_published_at : option Py.datetime;
  arxiv_updated_at : option Py.datetime;
  summary_ai : option string;
  detailed_review_ai : option string;
  journal_ref : option string;
  doi : option string
}.

(** [authors (author_id, name)], [categories_meta (category_code,
    description)], [paper_authors (paper_id, author_id, author_order)],
    [paper_categories (paper_id, category_code)]. *)
Definition AuthorRow : Type := nat * string.
Definition CategoryRow : Type := string * option string.
Definition PaperAuthorRow : Type := string * nat * nat.
Definition PaperCategoryRow : Type := string * string.

Record t := {
  papers : list PaperRow;
  authors : list AuthorRow;
  author_seq : nat;   (* last value drawn from the [author_id] sequence *)
  categories_meta : list CategoryRow;
  paper_authors : list PaperAuthorRow;
  paper_categories : list PaperCategoryRow
}.

Definition empty : t :=
  {| papers := []; authors := []; author_seq := 0; categories_meta := [];
     paper_authors := []; paper_categories := [] |}.

(** *** Keys of the unique constraints *)

Definition pa_key (r : PaperAuthorRow) : string * nat := (fst (fst r), snd (fst r)).

Definition pa_key_eqb (k1 k2 : string * nat) : bool :=
  String.eqb (fst k1) (fst k2) && Nat.eqb (snd k1) (snd k2).

Definition pc_eqb (r1 r2 : PaperCategoryRow) : bool :=
  String.eqb (fst r1) (fst r2) && String.eqb (snd r1) (snd r2).

Definition has_paper (pid : string) (s : t) : bool :=
  existsb (fun r => String.eqb (id r) pid) (papers s).

Definition has_category (code : string) (s : t) : bool :=
  existsb (fun r => String.eqb (fst r) code) (categories_meta s).

Definition find_author (name : string) (s : t) : option nat :=
  option_map fst (find (fun r => String.eqb (snd r) name) (authors s)).

Definition has_paper_author (k : string * nat) (s : t) : bool :=
  existsb (fun r => pa_key_eqb (pa_key r) k) (paper_authors s).

Definition has_paper_category (r : PaperCategoryRow) (s : t) : bool :=
  existsb (pc_eqb r) (paper_categories s).

(** Rows of [papers] with a given identifier, and the ordinal stored for
    a (paper, author) pair. *)
Definition papers_with_id (pid : string) (s : t) : list PaperRow :=
  filter (fun r => String.eqb (id r) pid) (papers s).

Definition author_order (k : string * nat) (s : t) : option nat :=
  option_map snd (find (fun r => pa_key_eqb (pa_key r) k) (paper_authors s)).

(** *** Field updates *)

Definition set_papers (l : list PaperRow) (s : t) : t :=
  {| papers := l; authors := authors s; author_seq := author_seq s;
     categories_meta := categories_meta s;
     paper_authors := paper_authors s;
     paper_categories := paper_categories s |}.

Definition set_authors (l : list AuthorRow) (n : nat) (s : t) : t :=
  {| papers := papers s; authors := l; author_seq := n;
     categories_meta := categories_meta s;
     paper_authors := paper_authors s;
     paper_categories := paper_categories s |}.

Definition set_author_seq (n : nat) (s : t) : t :=
  {| papers := papers s; authors := authors s; author_seq := n;
     categories_meta := categories_meta s;
     paper_authors := paper_authors s;
     paper_categories := paper_categories s |}.

Definition set_categories_meta (l : list CategoryRow) (s : t) : t :=
  {| papers := papers s; authors := authors s; author_seq := author_seq s;
     categories_meta := l;
     paper_authors := paper_authors s;
     paper_categories := paper_categories s |}.

Definition set_paper_authors (l : list PaperAuthorRow) (s : t) : t :=
  {| papers := papers s; authors := authors s; author_seq := author_seq s;
     categories_meta := categories_meta s;
     paper_authors := l;
     paper_categories := paper_categories s |}.

Definition set_paper_categories (l : list PaperCategoryRow) (s : t) : t :=
  {| papers := papers s; authors := authors s; author_seq := author_seq s;
     categories_meta := categories_meta s;
     paper_authors := paper_authors s;
     paper_categories := l |}.

(** *** The statements of the source, one proposed row at a time *)

(** [INSERT INTO categories_meta ... ON CONFLICT (category_code) DO NOTHING]. *)
Definition insert_category_do_nothing (r : CategoryRow) (s : t) : t :=
  if has_category (fst r) s then s
  else set_categories_meta (categories_meta s ++ [r]) s.

(** The [SET] list of [insert_paper_data]'s upsert: the nine bibliographic
    columns come from the proposed row [n], the two derived columns stay. *)
Definition overwrite_bibliographic (n old : PaperRow) : PaperRow :=
  {| id := id old;
     title := title n;
     abstract := abstract n;
     primary_category_code := primary_category_code n;
     pdf_url := pdf_url n;
     arxiv_published_at := arxiv_published_at n;
     arxiv_updated_at := arxiv_updated_at n;
     summary_ai := summary_ai old;
     detailed_review_ai := detailed_review_ai old;
     journal_ref := journal_ref n;
     doi := doi n |}.

(** [INSERT INTO papers (...) ON CONFLICT (id) DO UPDATE SET ...]. *)
Definition upsert_paper (n : PaperRow) (s : t) : t :=
  if has_paper (id n) s then
    set_papers
      (map (fun old => if String.eqb (id old) (id n)
                       then overwrite_bibliographic n old else old)
           (papers s)) s
  else set_papers (papers s ++ [n]) s.

(** [INSERT INTO papers (...) ON CONFLICT (id) DO NOTHING RETURNING id]:
    the result is the row returned, if any. *)
Definition insert_paper_do_nothing (n : PaperRow) (s : t) : option string * t :=
  if has_paper (id n) s then (None, s)
  else (Some (id n), set_papers (papers s ++ [n]) s).

(** [INSERT INTO authors (name) ... ON CONFLICT (name) DO UPDATE SET name =
    EXCLUDED.name RETURNING author_id].  The identifier is drawn from the
    sequence before the conflict is detected, so the sequence advances in
    both cases. *)
Definition upsert_author (name : string) (s : t) : option nat * t :=
  let fresh := S (author_seq s) in
  match find_author name s with
  | Some aid => (Some aid, set_authors (authors s) fresh s)
  | None => (Some fresh, set_authors (authors s ++ [(fresh, name)]) fresh s)
  end.

(** [INSERT INTO authors (name) ... ON CONFLICT (name) DO NOTHING]. *)
Definition insert_author_do_nothing (name : string) (s : t) : t :=
  let fresh := S (author_seq s) in
  match find_author name s with
  | Some _ => set_authors (authors s) fresh s
  | None => set_authors (authors s ++ [(fresh, name)]) fresh s
  end.

(** [SELECT author_id FROM authors WHERE name = %s]. *)
Definition select_author_id (name : string) (s : t) : option nat :=
  find_author name s.

(** [INSERT INTO paper_authors ... ON CONFLICT (paper_id, author_id)
    DO UPDATE SET author_order = EXCLUDED.author_order], for one row.  A
    statement that proposes the same pair twice, as the record of an author
    listed twice does, is refused by PostgreSQL; this is one of the errors
    that a schedule of raising statements stands for. *)
Definition upsert_paper_author (r : PaperAuthorRow) (s : t) : t :=
  if has_paper_author (pa_key r) s then
    set_paper_authors
      (map (fun old => if pa_key_eqb (pa_key old) (pa_key r)
                       then (fst old, snd r) else old)
           (paper_authors s)) s
  else set_paper_authors (paper_authors s ++ [r]) s.

(** [INSERT INTO paper_authors ... ON CONFLICT DO NOTHING]. *)
Definition insert_paper_author_do_nothing (r : PaperAuthorRow) (s : t) : t :=
  if has_paper_author (pa_key r) s then s
  else set_paper_authors (paper_authors s ++ [r]) s.

(** [INSERT INTO paper_categories ... ON CONFLICT ... DO NOTHING]. *)
Definition insert_paper_category_do_nothing (r : PaperCategoryRow) (s : t) : t :=
  if has_paper_category r s then s
  else set_paper_categories (paper_categories s ++ [r]) s.

(** A multi-row [VALUES] list proposes its rows in order. *)
Definition insert_rows {R} (row : R -> t -> t) (rows : list R) (s : t) : t :=
  fold_left (fun acc r => row r acc) rows s.

(** *** The unique constraints REQUIRED of the schema *)

Record unique (s : t) : Prop := {
  unique_paper_id : NoDup (map id (papers s));
  unique_author_name : NoDup (map snd (authors s));
  unique_author_id : NoDup (map fst (authors s));
  author_id_drawn : forall r, In r (authors s) -> fst r <= author_seq s;
  unique_category_code : NoDup (map fst (categories_meta s));
  unique_paper_author : NoDup (map pa_key (paper_authors s));
  unique_paper_category : NoDup (paper_categories s)
}.

End Store.

(** ** Exceptions, connections and transactions *)

(** The exception classes the source distinguishes in its handlers. *)
Inductive exn : Type :=
| Psycopg2Error      (* [psycopg2.Error] *)
| HTTPError          (* [arxiv.HTTPError] *)
| OtherException.    (* any other [Exception] *)

(** A computation returns a value or raises. *)
Inductive outcome (A : Type) : Type :=
| Ok (a : A)
| Raise (e : exn).

Arguments Ok {A} a.
Arguments Raise {A} e.

(** Code that mutates a state of type [S] and may raise: when it raises, the
    mutations made so far stay. *)
Definition M (S A : Type) : Type := S -> outcome A * S.

Definition ret {S A} (a : A) : M S A := fun s => (Ok a, s).

Definition bind {S A B} (m : M S A) (k : A -> M S B) : M S B :=
  fun s =>
    match m s with
    | (Ok a, s') => k a s'
    | (Raise e, s') => (Raise e, s')
    end.

Notation "x <- m ;; k" := (bind m (fun x => k))
  (at level 61, m at next level, right associativity).
Notation "m ;;; k" := (bind m (fun _ => k))
  (at level 61, right associativity).

(** [for x in l: body(x)]. *)
Fixpoint for_each {S A} (l : list A) (body : A -> M S unit) : M S unit :=
  match l with
  | [] => ret tt
  | x :: r => body x ;;; for_each r body
  end.

(** A loop that threads an accumulator. *)
Fixpoint fold_each {S A B} (l : list A) (body : B -> A -> M S B) (acc : B) : M S B :=
  match l with
  | [] => ret acc
  | x :: r => acc' <- body acc x ;; fold_each r body acc'
  end.

Module Db.

(** A [psycopg2] connection with [autocommit] off: the store as of the last
    commit, the store the open transaction sees, and the number of
    statements sent so far. *)
Record conn := {
  committed : Store.t;
  working : Store.t;
  clock : nat
}.

(** A fresh connection to a store. *)
Definition connect (s : Store.t) : conn :=
  {| committed := s; working := s; clock := 0 |}.

(** No write is left uncommitted on the connection: what its transaction
    has is what is durable. *)
Definition clean (c : conn) : Prop := working c = committed c.

(** [conn.rollback()]: the tables are again those of the last commit.  The
    [author_id] sequence is not transactional: the values drawn in the
    transaction stay drawn, and since a sequence only advances its value
    is the larger of the two. *)
Definition rollback (c : conn) : conn :=
  let s :=
    Store.set_author_seq
      (Nat.max (Store.author_seq (committed c)) (Store.author_seq (working c)))
      (committed c) in
  {| committed := s; working := s; clock := clock c |}.

Section Statements.

(** [raises k]: the [k]-th statement sent on the connection raises
    [psycopg2.Error]. *)
Variable raises : nat -> bool.

(** [cur.execute(...)] of a statement with a result. *)
Definition query {A} (q : Store.t -> A * Store.t) : M conn A :=
  fun c =>
    if raises (clock c) then
      (Raise Psycopg2Error,
       {| committed := committed c; working := working c; clock := S (clock c) |})
    else
      let (a, s) := q (working c) in
      (Ok a, {| committed := committed c; working := s; clock := S (clock c) |}).

(** [cur.execute(...)] of a statement without a result. *)
Definition execute (q : Store.t -> Store.t) : M conn unit :=
  query (fun s => (tt, q s)).

(** [conn.commit()]. *)
Definition commit : M conn unit :=
  fun c =>
    if raises (clock c) then
      (Raise Psycopg2Error,
       {| committed := committed c; working := working c; clock := S (clock c) |})
    else
      (Ok tt, {| committed := working c; working := working c; clock := S (clock c) |}).

(** [psycopg2.extras.execute_values(cur, sql, rows)]: the rows are sent in
    pages of [page_size = 100], one statement per page. *)
Definition execute_values {R} (row : R -> Store.t -> Store.t) (rows : list R)
  : M conn unit :=
  for_each (Py.groups_of 100 rows)
           (fun page => execute (Store.insert_rows row page)).

End Statements.

End Db.

(** ** [period_fetcher.py] (and its single-day twin [fetcher.py]) *)

Module PeriodFetcher.

(** The fields of an [arxiv.Result] the source reads. *)
Record Result := {
  entry_id : string;
  title : string;
  summary : string;
  primary_category : option string;
  authors : list string;          (* [author_obj.name] of each author *)
  categories : list string;
  pdf_url : option string;
  published : Py.datetime;
  updated : Py.datetime;
  journal_ref : option string;
  doi : option string
}.

(** [paper_result.entry_id.split("/")[-1]]. *)
Definition paper_id (r : Result) : string :=
  Py.last_segment "/"%char (entry_id r).

(** [f"Category - {code.split('.')[-1] if '.' in code else code}"]. *)
Definition category_description (code : string) : string :=
  "Category - " ++
  (if Py.contains "."%char code then Py.last_segment "."%char code else code).

(** The parameters of the [INSERT INTO papers] of [insert_paper_data]; the
    two derived columns are not listed by the statement and default to NULL. *)
Definition paper_row (r : Result) : Store.PaperRow :=
  {| Store.id := paper_id r;
     Store.title := title r;
     Store.abstract := Some (Py.replace_newlines (summary r));
     Store.primary_category_code := primary_category r;
     Store.pdf_url := pdf_url r;
     Store.arxiv_published_at := Some (published r);
     Store.arxiv_updated_at := Some (updated r);
     Store.summary_ai := None;
     Store.detailed_review_ai := None;
     Store.journal_ref := journal_ref r;
     Store.doi := doi r |}.

Section WithSchedule.

Variable raises : nat -> bool.

(** Step 3 of [insert_paper_data], one author: upsert the name, read the
    returned identifier (or select it when nothing was returned) and append
    the relation with ordinal [i + 1]. *)
Definition link_author (pid : string)
    (author_ids_order : list Store.PaperAuthorRow) (ia : nat * string)
  : M Db.conn (list Store.PaperAuthorRow) :=
  let (i, author_name) := ia in
  author_id_tuple <- Db.query raises (Store.upsert_author author_name) ;;
  match author_id_tuple with
  | Some aid => ret (author_ids_order ++ [(pid, aid, i + 1)])
  | None =>
      author_id_tuple <- Db.query raises
        (fun s => (Store.select_author_id author_name s, s)) ;;
      match author_id_tuple with
      | Some aid => ret (author_ids_order ++ [(pid, aid, i + 1)])
      | None => ret author_ids_order
      end
  end.

(** The body of the [try] block of [insert_paper_data], steps 1 to 4 and the
    commit. *)
Definition insert_paper_steps (r : Result) : M Db.conn unit :=
  let pid := paper_id r in
  (* 1. primary category *)
  (match primary_category r with
   | Some primary_cat_code =>
       if Py.truthy primary_cat_code then
         Db.execute raises
           (Store.insert_category_do_nothing
              (primary_cat_code, Some (category_description primary_cat_code)))
       else ret tt
   | None => ret tt
   end) ;;;
  (* 2. paper *)
  Db.execute raises (Store.upsert_paper (paper_row r)) ;;;
  (* 3. authors and their relation to the paper *)
  author_ids_order <-
    fold_each (Py.enumerate 0 (authors r)) (link_author pid) [] ;;
  (match author_ids_order with
   | [] => ret tt
   | _ => Db.execute_values raises Store.upsert_paper_author author_ids_order
   end) ;;;
  (* 4. categories and their relation to the paper *)
  (match categories r with
   | [] => ret tt
   | all_category_codes =>
       let cat_meta_data :=
         map (fun c => (c, Some (category_description c)))
             (filter Py.truthy all_category_codes) in
       (match cat_meta_data with
        | [] => ret tt
        | _ => Db.execute_values raises Store.insert_category_do_nothing cat_meta_data
        end) ;;;
       let paper_cat_data :=
         map (fun c => (pid, c)) (filter Py.truthy all_category_codes) in
       (match paper_cat_data with
        | [] => ret tt
        | _ => Db.execute_values raises
                 Store.insert_paper_category_do_nothing paper_cat_data
        end)
   end) ;;;
  Db.commit raises.

(** [insert_paper_data(conn, paper_result)]: [True] after the commit,
    [False] after the rollback of either handler. *)
Definition insert_paper_data (c : Db.conn) (r : Result) : bool * Db.conn :=
  match insert_paper_steps r c with
  | (Ok _, c') => (true, c')
  | (Raise _, c') => (false, Db.rollback c')
  end.

(** *** The catalog and the observable schedule *)

(** What a run does besides writing to the store: calls of
    [fetch_papers_by_category_to_db], queries sent to the catalog, the
    [time.sleep(15)] before a retry and the [time.sleep(sleep_t)] after a
    group of categories. *)
Inductive event : Type :=
| FetchCategory (category : string) (max_total : option nat)
| ApiQuery (query : string) (max_results : option nat)
| RetryWait (seconds : nat)
| Pause (seconds : nat).

Record world := {
  db : Db.conn;
  api_calls : nat;         (* queries sent to the catalog so far *)
  trace : list event       (* oldest first *)
}.

Definition log (e : event) (w : world) : world :=
  {| db := db w; api_calls := api_calls w; trace := trace w ++ [e] |}.

Definition set_db (c : Db.conn) (w : world) : world :=
  {| db := c; api_calls := api_calls w; trace := trace w |}.

Definition count_api_call (w : world) : world :=
  {| db := db w; api_calls := S (api_calls w); trace := trace w |}.

(** [api k query max_results]: what [list(arxiv_client.results(search))]
    gives for the [k]-th query of the run, a list of results or an exception. *)
Variable api : nat -> string -> option nat -> outcome (list Result).

Definition date_query_start (date_str : string) : string := date_str ++ "000000".
Definition date_query_end (date_str : string) : string := date_str ++ "235959".

(** [f"submittedDate:[{date_query_start} TO {date_query_end}] AND cat:{category}"]. *)
Definition fetch_query (category date_str : string) : string :=
  "submittedDate:[" ++ date_query_start date_str ++ " TO " ++
  date_query_end date_str ++ "] AND cat:" ++ category.

Definition max_api_call_failures : nat := 3.

(** Truth value of [max_total] ([None] and [0] are falsy). *)
Definition truthy_nat (o : option nat) : bool :=
  match o with
  | Some (S _) => true
  | _ => false
  end.

(** The [for result in results_list] loop. *)
Fixpoint insert_results (results_list : list Result) (inserted_count : nat)
    (c : Db.conn) : nat * Db.conn :=
  match results_list with
  | [] => (inserted_count, c)
  | result :: rest =>
      let (ok, c') := insert_paper_data c result in
      insert_results rest (if ok then inserted_count + 1 else inserted_count) c'
  end.

(** The body of the [try] block of one attempt: it returns the value of the
    function or raises what the catalog raised. *)
Definition fetch_attempt (category date_str : string) (max_total : option nat)
    (inserted_count : nat) (w : world) : outcome nat * world :=
  let max_results := if truthy_nat max_total then max_total else None in
  let query := fetch_query category date_str in
  let w1 := count_api_call (log (ApiQuery query max_results) w) in
  match api (api_calls w) query max_results with
  | Raise e => (Raise e, w1)
  | Ok [] => (Ok 0, w1)
  | Ok results_list =>
      let (n, c) := insert_results results_list inserted_count (db w1) in
      (Ok n, set_db c w1)
  end.

(** The [while failures < max_api_call_failures] loop with its handlers.
    [fuel] bounds the number of iterations; [None] means it ran out. *)
Fixpoint fetch_loop (fuel : nat) (category date_str : string)
    (max_total : option nat) (failures inserted_count : nat) (w : world)
  : option (outcome nat * world) :=
  match fuel with
  | 0 => None
  | S fuel' =>
      if (failures <? max_api_call_failures)%nat then
        match fetch_attempt category date_str max_total inserted_count w with
        | (Ok n, w1) => Some (Ok n, w1)
        | (Raise HTTPError, w1) =>
            let failures := failures + 1 in
            if (failures <? max_api_call_failures)%nat then
              fetch_loop fuel' category date_str max_total failures
                         inserted_count (log (RetryWait 15) w1)
            else Some (Ok inserted_count, w1)
        | (Raise _, w1) => Some (Ok inserted_count, w1)
        end
      else Some (Ok inserted_count, w)
  end.

(** [fetch_papers_by_category_to_db(category, date_str, arxiv_client,
    db_conn, batch_size, max_total)]; [batch_size] is not used by the body. *)
Definition fetch_papers_by_category_to_db (category date_str : string)
    (max_total : option nat) (w : world) : option (outcome nat * world) :=
  fetch_loop (S max_api_call_failures) category date_str max_total 0 0 w.

(** *** The daily schedule *)

Definition HIGH_VOLUME_CATEGORIES : list string :=
  ["cs.AI"; "cs.CV"; "cs.LG"; "cs.CL"].

Definition MEDIUM_VOLUME_CATEGORIES : list string :=
  ["cs.CR"; "cs.NE"; "cs.RO"; "cs.IR"; "cs.SE"; "cs.SI"; "cs.HC"; "cs.DB"].

Definition LOW_VOLUME_CATEGORIES : list string :=
  ["cs.AR"; "cs.CC"; "cs.CE"; "cs.CG"; "cs.CY"; "cs.DC"; "cs.DL"; "cs.DM";
   "cs.DS"; "cs.ET"; "cs.FL"; "cs.GL"; "cs.GR"; "cs.GT"; "cs.IT"; "cs.LO";
   "cs.MA"; "cs.MM"; "cs.MS"; "cs.NA"; "cs.NI"; "cs.OH"; "cs.OS";
   "cs.PF"; "cs.PL"; "cs.SC"; "cs.SD"; "cs.SY"].

(** One entry of [category_processing_order]:
    [(categories, vol_type, batch_size, max_total, sleep_time)]. *)
Record tier := {
  tier_categories : list string;
  vol_type : string;
  batch_s : nat;
  max_t : nat;
  sleep_t : nat
}.

Definition category_processing_order : list tier :=
  [ {| tier_categories := HIGH_VOLUME_CATEGORIES; vol_type := "HIGH";
       batch_s := 50; max_t := 500; sleep_t := 5 |};
    {| tier_categories := MEDIUM_VOLUME_CATEGORIES; vol_type := "MEDIUM";
       batch_s := 100; max_t := 300; sleep_t := 3 |};
    {| tier_categories := LOW_VOLUME_CATEGORIES; vol_type := "LOW";
       batch_s := 100; max_t := 150; sleep_t := 2 |} ].

(** The [groups] of a tier. *)
Definition tier_groups (t : tier) : list (list string) :=
  if String.eqb (vol_type t) "MEDIUM" then Py.groups_of 2 (tier_categories t)
  else if String.eqb (vol_type t) "LOW" then Py.groups_of 5 (tier_categories t)
  else map (fun cat => [cat]) (tier_categories t).

(** The loops of [fetch_daily_papers_to_db] thread the running total and the
    world; a fetch that raised would end them. *)
Definition run (A : Type) : Type := world -> option (outcome A * world).

Definition run_bind {A B} (m : run A) (k : A -> run B) : run B :=
  fun w =>
    match m w with
    | Some (Ok a, w') => k a w'
    | Some (Raise e, w') => Some (Raise e, w')
    | None => None
    end.

Fixpoint run_fold {A S} (l : list A) (body : S -> A -> run S) (acc : S) : run S :=
  match l with
  | [] => fun w => Some (Ok acc, w)
  | x :: r => run_bind (body acc x) (fun acc' => run_fold r body acc')
  end.

(** [for category in category_group] and the pause after the group. *)
Definition process_group (date_str_format : string) (t : tier)
    (total : nat) (category_group : list string) : run nat :=
  run_bind
    (run_fold category_group
       (fun total category w =>
          run_bind
            (fetch_papers_by_category_to_db category date_str_format
                                            (Some (max_t t)))
            (fun count w' => Some (Ok (total + count), w'))
            (log (FetchCategory category (Some (max_t t))) w))
       total)
    (fun total w =>
       if (0 <? List.length category_group)%nat
       then Some (Ok total, log (Pause (sleep_t t)) w)
       else Some (Ok total, w)).

(** [for categories, vol_type, batch_s, max_t, sleep_t in
    category_processing_order]. *)
Definition process_tiers (date_str_format : string) : run nat :=
  run_fold category_processing_order
    (fun total t => run_fold (tier_groups t) (process_group date_str_format t) total)
    0.

(** Decimal digits of [strftime]. *)
Definition digit (n : Z) : ascii := ascii_of_nat (48 + Z.to_nat (n mod 10)).

Definition pad2 (n : Z) : string :=
  String (digit (n / 10)) (String (digit n) EmptyString).

Definition pad4 (n : Z) : string := pad2 (n / 100) ++ pad2 n.

(** [%Y] of [strftime], for the years 1 to 9999 of a [datetime]: the year
    in decimal.  The C library decides whether it is padded to four digits;
    the one of Linux does not pad, and writes 999 for the year 999. *)
Definition strftime_Y (year : Z) : string :=
  if (year <? 10)%Z then String (digit year) EmptyString
  else if (year <? 100)%Z then pad2 year
  else if (year <? 1000)%Z then String (digit (year / 100)) (pad2 year)
  else pad4 year.

(** [dt.strftime('%Y%m%d')]. *)
Definition strftime_Ymd (dt : Py.datetime) : string :=
  strftime_Y (Py.year dt) ++ pad2 (Py.month dt) ++ pad2 (Py.day dt).

(** [dt.strftime('%Y%m%d%H%M%S')]. *)
Definition strftime_YmdHMS (dt : Py.datetime) : string :=
  strftime_Ymd dt ++ pad2 (Py.hour dt) ++ pad2 (Py.minute dt) ++ pad2 (Py.second dt).

(** [generate_db_statistics]: two read-only statements whose rows are only
    printed; they are sent outside any handler. *)
Definition generate_db_statistics : M Db.conn unit :=
  Db.query raises (fun s => (tt, s)) ;;;
  Db.query raises (fun s => (tt, s)).

(** [fetch_daily_papers_to_db(target_date_dt)], on a new connection to the
    store the previous day left. *)
Definition fetch_daily_papers_to_db (target_date_dt : Py.datetime) : run nat :=
  fun w =>
    let date_str_format := strftime_Ymd target_date_dt in
    let db_conn := Db.connect (Db.committed (db w)) in
    run_bind (process_tiers date_str_format)
      (fun total w' =>
         match generate_db_statistics (db w') with
         | (Ok _, c) => Some (Ok total, set_db c w')
         | (Raise e, c) => Some (Raise e, set_db c w')
         end)
      (set_db db_conn w).

End WithSchedule.

End PeriodFetcher.

(** ** [db_tools/import_arxiv.py]: the batched JSON import *)

Module ImportArxiv.

(** One element of the JSON list, with the keys [main] reads.  The values
    have the types of the export the script is written for: strings for
    the scalar keys, lists of strings for [categories] and [authors], or
    [null].  A scalar key that is absent or [null] is [None].  For
    [categories] and [authors], [Some l] is the list the key holds, or the
    empty list when the key is absent, as [paper.get(..., [])] gives;
    [None] is a key that holds [null], which [paper.get] returns as it is
    and a [for] cannot iterate.  In a list, an element that is [null]
    counts as the empty string: both are skipped by the same tests. *)
Record Paper := {
  p_id : option string;
  p_title : option string;
  p_abstract : option string;
  p_primary_category_code : option string;
  p_pdf_url : option string;
  p_arxiv_published_at : option string;
  p_arxiv_updated_at : option string;
  p_summary_ai : option string;
  p_detailed_review_ai : option string;
  p_journal_ref : option string;
  p_doi : option string;
  p_categories : option (list string);
  p_authors : option (list string)
}.

(** The lines [main] prints once the file is read and the connection is
    open. *)
Inductive message : Type :=
| LoadingExisting                   (* "Loading existing authors and categories..." *)
| StartingImport                    (* "Starting import process..." *)
| WarnMissingId (index : nat)       (* "Warning: Skipping paper at index i - missing ID" *)
| WarnNoTitle (paper_id : string)   (* "Warning: Paper ... has no title, ..." *)
| WarnDatetime (dt_str : string)    (* "Warning: Could not parse datetime '...': ..." *)
| ErrorProcessing (paper_id : string)
| ErrorDuringImport
| ImportComplete
| ConnectionClosed.                 (* "Database connection closed." *)

(** The connection and the local variables of [main].  [author_name_to_id] is
    a [dict] (insertion-ordered), [category_code_set] a [set]. *)
Record state := {
  conn : Db.conn;
  author_name_to_id : list (string * option nat);
  category_code_set : list string;
  new_categories : list string;
  new_authors : list string;
  new_paper_authors : list Store.PaperAuthorRow;
  new_paper_categories : list Store.PaperCategoryRow;
  messages : list message
}.

Definition set_conn (c : Db.conn) (st : state) : state :=
  {| conn := c; author_name_to_id := author_name_to_id st;
     category_code_set := category_code_set st;
     new_categories := new_categories st; new_authors := new_authors st;
     new_paper_authors := new_paper_authors st;
     new_paper_categories := new_paper_categories st;
     messages := messages st |}.

Definition set_author_name_to_id (d : list (string * option nat)) (st : state) : state :=
  {| conn := conn st; author_name_to_id := d;
     category_code_set := category_code_set st;
     new_categories := new_categories st; new_authors := new_authors st;
     new_paper_authors := new_paper_authors st;
     new_paper_categories := new_paper_categories st;
     messages := messages st |}.

Definition set_category_code_set (l : list string) (st : state) : state :=
  {| conn := conn st; author_name_to_id := author_name_to_id st;
     category_code_set := l;
     new_categories := new_categories st; new_authors := new_authors st;
     new_paper_authors := new_paper_authors st;
     new_paper_categories := new_paper_categories st;
     messages := messages st |}.

Definition set_new_categories (l : list string) (st : state) : state :=
  {| conn := conn st; author_name_to_id := author_name_to_id st;
     category_code_set := category_code_set st;
     new_categories := l; new_authors := new_authors st;
     new_paper_authors := new_paper_authors st;
     new_paper_categories := new_paper_categories st;
     messages := messages st |}.

Definition set_new_authors (l : list string) (st : state) : state :=
  {| conn := conn st; author_name_to_id := author_name_to_id st;
     category_code_set := category_code_set st;
     new_categories := new_categories st; new_authors := l;
     new_paper_authors := new_paper_authors st;
     new_paper_categories := new_paper_categories st;
     messages := messages st |}.

Definition set_new_paper_authors (l : list Store.PaperAuthorRow) (st : state) : state :=
  {| conn := conn st; author_name_to_id := author_name_to_id st;
     category_code_set := category_code_set st;
     new_categories := new_categories st; new_authors := new_authors st;
     new_paper_authors := l;
     new_paper_categories := new_paper_categories st;
     messages := messages st |}.

Definition set_new_paper_categories (l : list Store.PaperCategoryRow) (st : state) : state :=
  {| conn := conn st; author_name_to_id := author_name_to_id st;
     category_code_set := category_code_set st;
     new_categories := new_categories st; new_authors := new_authors st;
     new_paper_authors := new_paper_authors st;
     new_paper_categories := l;
     messages := messages st |}.

Definition print (m : message) (st : state) : state :=
  {| conn := conn st; author_name_to_id := author_name_to_id st;
     category_code_set := category_code_set st;
     new_categories := new_categories st; new_authors := new_authors st;
     new_paper_authors := new_paper_authors st;
     new_paper_categories := new_paper_categories st;
     messages := messages st ++ [m] |}.

(** A statement of the connection, run from [main]. *)
Definition db {A} (m : M Db.conn A) : M state A :=
  fun st => let (r, c) := m (conn st) in (r, set_conn c st).

(** An assignment to local variables. *)
Definition modify (f : state -> state) : M state unit :=
  fun st => (Ok tt, f st).

(** *** [dict] and [set] *)

Definition dict_mem (d : list (string * option nat)) (k : string) : bool :=
  existsb (fun kv => String.eqb (fst kv) k) d.

Definition dict_get (d : list (string * option nat)) (k : string) : option (option nat) :=
  option_map snd (find (fun kv => String.eqb (fst kv) k) d).

Definition dict_set (d : list (string * option nat)) (k : string) (v : option nat)
  : list (string * option nat) :=
  if dict_mem d k
  then map (fun kv => if String.eqb (fst kv) k then (k, v) else kv) d
  else d ++ [(k, v)].

Definition set_mem (l : list string) (x : string) : bool :=
  existsb (String.eqb x) l.

Definition set_add (l : list string) (x : string) : list string :=
  if set_mem l x then l else l ++ [x].

Section WithEnvironment.

Variable raises : nat -> bool.

(** [datetime.fromisoformat] and [datetime.strptime]; [None] when they raise. *)
Variable fromisoformat : string -> option Py.datetime.
Variable strptime : string -> string -> option Py.datetime.

(** [dt_str.replace('Z', '+00:00')]. *)
Fixpoint replace_Z (s : string) : string :=
  match s with
  | EmptyString => EmptyString
  | String c r =>
      if Ascii.eqb c "Z"%char then "+00:00" ++ replace_Z r
      else String c (replace_Z r)
  end.

Definition formats : list string :=
  ["%Y-%m-%dT%H:%M:%S.%fZ"; "%Y-%m-%dT%H:%M:%SZ"; "%Y-%m-%d %H:%M:%S"; "%Y-%m-%d"].

(** [parse_datetime(dt_str)]. *)
Definition parse_datetime (dt_str : option string) : option Py.datetime :=
  match dt_str with
  | None => None
  | Some s =>
      if negb (Py.truthy s) then None
      else
        match fromisoformat (replace_Z s) with
        | Some dt => Some dt
        | None =>
            fold_right (fun fmt rest =>
                          match strptime s fmt with
                          | Some dt => Some dt
                          | None => rest
                          end) None formats
        end
  end.

(** What [parse_datetime(dt_str)] prints: the warning, when [dt_str] is not
    empty and every parser raised. *)
Definition parse_datetime_prints (dt_str : option string) : list message :=
  match dt_str with
  | None => []
  | Some s =>
      if negb (Py.truthy s) then []
      else match parse_datetime dt_str with
           | Some _ => []
           | None => [WarnDatetime s]
           end
  end.

(** [for x in l], when [l] is [None]: [TypeError], which no [except
    psycopg2.Error] catches. *)
Definition not_iterable {A} : M state A := fun st => (Raise OtherException, st).

(** The two [SELECT]s that fill the caches before the loop. *)
Definition preload : M state unit :=
  rows <- db (Db.query raises (fun s => (Store.authors s, s))) ;;
  modify (fun st =>
            set_author_name_to_id
              (fold_left (fun d r => dict_set d (snd r) (Some (fst r)))
                         rows (author_name_to_id st)) st) ;;;
  codes <- db (Db.query raises (fun s => (map fst (Store.categories_meta s), s))) ;;
  modify (fun st =>
            set_category_code_set
              (fold_left set_add codes (category_code_set st)) st).

(** [for cat in categories]: remember the codes not seen. *)
Definition collect_categories (categories : list string) (st : state) : state :=
  fold_left
    (fun st cat =>
       if Py.truthy cat && negb (set_mem (category_code_set st) cat)
       then set_category_code_set (set_add (category_code_set st) cat)
              (set_new_categories (new_categories st ++ [cat]) st)
       else st)
    categories st.

(** [for author in authors]: remember the names not seen, with no identifier
    yet. *)
Definition collect_authors (authors : list string) (st : state) : state :=
  fold_left
    (fun st author =>
       if negb (Py.truthy author) then st
       else if negb (dict_mem (author_name_to_id st) author)
       then set_author_name_to_id
              (dict_set (author_name_to_id st) author None)
              (set_new_authors (new_authors st ++ [author]) st)
       else st)
    authors st.

(** The parameters of the [INSERT INTO papers], [title] being [paper["title"]]
    after the check of the required fields. *)
Definition paper_row (pid title : string) (paper : Paper) : Store.PaperRow :=
  {| Store.id := pid;
     Store.title := title;
     Store.abstract := p_abstract paper;
     Store.primary_category_code := p_primary_category_code paper;
     Store.pdf_url := p_pdf_url paper;
     Store.arxiv_published_at := parse_datetime (p_arxiv_published_at paper);
     Store.arxiv_updated_at := parse_datetime (p_arxiv_updated_at paper);
     Store.summary_ai := p_summary_ai paper;
     Store.detailed_review_ai := p_detailed_review_ai paper;
     Store.journal_ref := p_journal_ref paper;
     Store.doi := p_doi paper |}.

(** [for order, author in enumerate(authors, 1)]: the rows appended to
    [new_paper_authors] for one paper, one for each named author whose
    identifier is cached, [order] being the 1-based position of the name in
    the list. *)
Definition paper_relations (cache : list (string * option nat)) (pid : string)
    (authors : list string) : list Store.PaperAuthorRow :=
  flat_map
    (fun oa : nat * string =>
       let (order, author) := oa in
       if negb (Py.truthy author) || negb (dict_mem cache author) then []
       else match dict_get cache author with
            | Some (Some author_id) => [(pid, author_id, order)]
            | _ => []
            end)
    (Py.enumerate 1 authors).

(** [for paper in ps: if "id" not in paper or not paper["id"]: continue;
    for order, author in enumerate(paper.get("authors", []), 1): ...]. *)
Definition append_relations (ps : list Paper) : M state unit :=
  for_each ps
    (fun paper =>
       match p_id paper with
       | None => ret tt
       | Some pid =>
           if negb (Py.truthy pid) then ret tt
           else
             match p_authors paper with
             | None => not_iterable
             | Some authors =>
                 modify (fun st =>
                           set_new_paper_authors
                             (new_paper_authors st ++
                              paper_relations (author_name_to_id st) pid authors)
                             st)
             end
       end).

(** [for author in author_name_to_id: if author_name_to_id[author] is None:
    SELECT ...]. *)
Definition refresh_author_ids : M state unit :=
  fun st0 =>
    for_each (map fst (author_name_to_id st0))
      (fun author st =>
         match dict_get (author_name_to_id st) author with
         | Some None =>
             (result <- db (Db.query raises
                              (fun s => (Store.select_author_id author s, s))) ;;
              match result with
              | Some aid =>
                  modify (fun st =>
                            set_author_name_to_id
                              (dict_set (author_name_to_id st) author (Some aid)) st)
              | None => ret tt
              end) st
         | _ => (Ok tt, st)
         end)
      st0.

(** [if rows: execute_values(cur, sql, rows)] on a local list. *)
Definition flush_list {R} (rows : state -> list R)
    (row : R -> Store.t -> Store.t) : M state unit :=
  fun st =>
    match rows st with
    | [] => (Ok tt, st)
    | l => db (Db.execute_values raises row l) st
    end.

Definition flush_categories : M state unit :=
  flush_list (fun st => map (fun c => (c, @None string)) (new_categories st))
             Store.insert_category_do_nothing.

Definition flush_authors : M state unit :=
  flush_list new_authors Store.insert_author_do_nothing.

Definition flush_paper_authors : M state unit :=
  flush_list new_paper_authors Store.insert_paper_author_do_nothing.

Definition flush_paper_categories : M state unit :=
  flush_list new_paper_categories Store.insert_paper_category_do_nothing.

Definition nonempty {A} (l : list A) : bool :=
  match l with [] => false | _ => true end.

(** The flush of a window, [if (i + 1) % 100 == 0]. *)
Definition flush_window (papers : list Paper) (i : nat) : M state unit :=
  (fun st =>
     if nonempty (new_categories st)
     then (flush_categories ;;; modify (set_new_categories [])) st
     else (Ok tt, st)) ;;;
  (fun st =>
     if nonempty (new_authors st)
     then (flush_authors ;;; modify (set_new_authors []) ;;; refresh_author_ids) st
     else (Ok tt, st)) ;;;
  append_relations (Py.slice papers (Nat.max 0 (i - 99)) (i + 1)) ;;;
  (fun st =>
     if nonempty (new_paper_authors st)
     then (flush_paper_authors ;;; modify (set_new_paper_authors [])) st
     else (Ok tt, st)) ;;;
  (fun st =>
     if nonempty (new_paper_categories st)
     then (flush_paper_categories ;;; modify (set_new_paper_categories [])) st
     else (Ok tt, st)) ;;;
  db (Db.commit raises).

(** The body of the inner [try] for the paper at index [i]: the parameters
    of the [INSERT] are evaluated, [parse_datetime] printing its warnings,
    before the statement is sent. *)
Definition try_paper (papers : list Paper) (i : nat) (pid title : string)
    (paper : Paper) : M state unit :=
  modify (fun st =>
            fold_left (fun st m => print m st)
              (parse_datetime_prints (p_arxiv_published_at paper) ++
               parse_datetime_prints (p_arxiv_updated_at paper)) st) ;;;
  paper_inserted <-
    db (Db.query raises (Store.insert_paper_do_nothing (paper_row pid title paper))) ;;
  (* [if paper_inserted or True] *)
  (match p_categories paper with
   | None => not_iterable
   | Some categories =>
       modify (fun st =>
                 set_new_paper_categories
                   (new_paper_categories st ++
                    map (fun cat => (pid, cat)) (filter Py.truthy categories))
                   st)
   end) ;;;
  if Nat.eqb ((i + 1) mod 100) 0 then flush_window papers i else ret tt.

(** One iteration of [for i, paper in enumerate(papers)]; only what the
    inner handler does not catch is raised: the loops over the categories
    and the authors come before the inner [try]. *)
Definition import_paper (papers : list Paper) (ip : nat * Paper) : M state unit :=
  fun st =>
    let (i, paper) := ip in
    if negb (Py.truthy_opt (p_id paper)) then
      (Ok tt, print (WarnMissingId i) st)
    else
      let pid := match p_id paper with Some s => s | None => "" end in
      let (title, st1) :=
        if negb (Py.truthy_opt (p_title paper))
        then ("", print (WarnNoTitle pid) st)
        else (match p_title paper with Some s => s | None => "" end, st) in
      match p_categories paper with
      | None => (Raise OtherException, st1)
      | Some categories =>
          let st1' := collect_categories categories st1 in
          match p_authors paper with
          | None => (Raise OtherException, st1')
          | Some authors =>
              let st2 := collect_authors authors st1' in
              match try_paper papers i pid title paper st2 with
              | (Ok _, st3) => (Ok tt, st3)
              | (Raise Psycopg2Error, st3) =>
                  (Ok tt, set_conn (Db.rollback (conn st3))
                            (print (ErrorProcessing pid) st3))
              | (Raise e, st3) => (Raise e, st3)
              end
          end
      end.

(** What follows the loop: the rest of the lists, the relations of every
    paper of the file, and the last commit. *)
Definition finish (papers : list Paper) : M state unit :=
  flush_categories ;;;
  (fun st =>
     if nonempty (new_authors st)
     then (flush_authors ;;; refresh_author_ids) st
     else (Ok tt, st)) ;;;
  append_relations papers ;;;
  flush_paper_authors ;;;
  flush_paper_categories ;;;
  db (Db.commit raises) ;;;
  modify (print ImportComplete).

Definition initial (s : Store.t) : state :=
  {| conn := Db.connect s; author_name_to_id := []; category_code_set := [];
     new_categories := []; new_authors := []; new_paper_authors := [];
     new_paper_categories := []; messages := [] |}.

(** [main()] from the connection on, for the list [papers] read from the
    file: the outer [try], its handler, its [finally], and the state when
    the connection is closed. *)
Definition main (papers : list Paper) (s : Store.t) : state :=
  print ConnectionClosed
    match (modify (print LoadingExisting) ;;;
           preload ;;;
           modify (print StartingImport) ;;;
           for_each (Py.enumerate 0 papers) (import_paper papers) ;;;
           finish papers) (initial s) with
    | (Ok _, st) => st
    | (Raise _, st) =>
        print ErrorDuringImport (set_conn (Db.rollback (conn st)) st)
    end.

(** What is durable once the connection is closed. *)
Definition imported (papers : list Paper) (s : Store.t) : Store.t :=
  Db.committed (conn (main papers s)).

End WithEnvironment.

End ImportArxiv.

(** ** The catalog's reading of a fetch query, and the calendar *)

Module Catalog.

(** Modelled from the spec: the catalog source is an external service; the
    spec gives its range clause [submittedDate:[lo TO hi]] as an inclusive
    date-time range whose bounds are written [YYYYMMDDhhmmss].  A record
    satisfies the clause when its submission instant, written in the format
    of the bounds, lies between them, both bounds included. *)
Definition in_date_range (lo hi : string) (submitted : Py.datetime) : bool :=
  String.leb lo (PeriodFetcher.strftime_YmdHMS submitted) &&
  String.leb (PeriodFetcher.strftime_YmdHMS submitted) hi.

(** A record is returned for [fetch_query category date_str] when it
    satisfies the range clause and carries the category. *)
Definition selected (category date_str : string)
    (submitted : Py.datetime) (categories : list string) : bool :=
  in_date_range (PeriodFetcher.date_query_start date_str)
                (PeriodFetcher.date_query_end date_str) submitted &&
  existsb (String.eqb category) categories.

Definition is_leap (y : Z) : bool :=
  ((y mod 4 =? 0) && (negb (y mod 100 =? 0) || (y mod 400 =? 0)))%Z.

Definition days_in_month (y m : Z) : Z :=
  if (m =? 2)%Z then (if is_leap y then 29 else 28)%Z
  else if ((m =? 4) || (m =? 6) || (m =? 9) || (m =? 11))%Z then 30%Z
  else 31%Z.

(** A calendar date as [datetime.datetime] accepts it (years 1 to 9999). *)
Definition valid_date (dt : Py.datetime) : Prop :=
  (1 <= Py.year dt <= 9999 /\ 1 <= Py.month dt <= 12 /\
   1 <= Py.day dt <= days_in_month (Py.year dt) (Py.month dt))%Z.

(** The instant [h:m:s.us] of the day of [dt]. *)
Definition at_time (dt : Py.datetime) (h m s us : Z) : Py.datetime :=
  {| Py.year := Py.year dt; Py.month := Py.month dt; Py.day := Py.day dt;
     Py.hour := h; Py.minute := m; Py.second := s; Py.microsecond := us |}.

(** [dt + datetime.timedelta(days=1)]. *)
Definition next_day (dt : Py.datetime) : Py.datetime :=
  let y := Py.year dt in
  let m := Py.month dt in
  let d := Py.day dt in
  let '(y', m', d') :=
    if (d <? days_in_month y m)%Z then (y, m, d + 1)%Z
    else if (m <? 12)%Z then (y, m + 1, 1)%Z
    else (y + 1, 1, 1)%Z in
  {| Py.year := y'; Py.month := m'; Py.day := d';
     Py.hour := Py.hour dt; Py.minute := Py.minute dt;
     Py.second := Py.second dt; Py.microsecond := Py.microsecond dt |}.

End Catalog.

(** ** [test/dailyarxivfetcher.py]: the JSON fetch variant *)

Module DailyFetcher.

(** The [dict] built for each result. *)
Record paper := {
  paper_id : string;
  paper_title : string;
  paper_authors : list string;
  paper_abstract : string;
  paper_categories : list string;
  paper_primary_category : option string;
  paper_pdf_url : option string;
  paper_published : string;
  paper_updated : string;
  paper_summary : option string;
  paper_detailed_review : option string
}.

(** [dt.strftime("%Y-%m-%d")]. *)
Definition strftime_Y_m_d (dt : Py.datetime) : string :=
  PeriodFetcher.strftime_Y (Py.year dt) ++ "-" ++ PeriodFetcher.pad2 (Py.month dt)
  ++ "-" ++ PeriodFetcher.pad2 (Py.day dt).

Definition to_paper (paper_result : PeriodFetcher.Result) : paper :=
  {| paper_id := Py.last_segment "/"%char (PeriodFetcher.entry_id paper_result);
     paper_title := PeriodFetcher.title paper_result;
     paper_authors := PeriodFetcher.authors paper_result;
     paper_abstract := Py.replace_newlines (PeriodFetcher.summary paper_result);
     paper_categories := PeriodFetcher.categories paper_result;
     paper_primary_category := PeriodFetcher.primary_category paper_result;
     paper_pdf_url := PeriodFetcher.pdf_url paper_result;
     paper_published := strftime_Y_m_d (PeriodFetcher.published paper_result);
     paper_updated := strftime_Y_m_d (PeriodFetcher.updated paper_result);
     paper_summary := None;
     paper_detailed_review := None |}.

(** Calls made to the catalog and the [time.sleep] durations, oldest first. *)
Record world := {
  calls : nat;
  slept : list nat
}.

Definition sleep (n : nat) (w : world) : world :=
  {| calls := calls w; slept := slept w ++ [n] |}.

Definition count_call (w : world) : world :=
  {| calls := S (calls w); slept := slept w |}.

Section WithClient.

(** [client k query max_results]: for the [k]-th search of the run, the
    results the generator yields and whether it then raises. *)
Variable client : nat -> string -> option nat -> list PeriodFetcher.Result * bool.

(** [for i, result in enumerate(results)]: the papers of the batches that
    were completed, the batch being filled, whether the loop ended by
    [break], and the world. *)
Fixpoint consume (batch_size : nat) (max_total : option nat)
    (items : list (nat * PeriodFetcher.Result))
    (batch : list PeriodFetcher.Result) (papers : list paper) (w : world)
  : list paper * list PeriodFetcher.Result * bool * world :=
  match items with
  | [] => (papers, batch, false, w)
  | (i, result) :: rest =>
      let batch := batch ++ [result] in
      let reached :=
        match max_total with
        | Some (S n) => (S n <=? i + 1)%nat
        | _ => false
        end in
      if (batch_size <=? List.length batch)%nat || reached then
        let papers := papers ++ map to_paper batch in
        let w := sleep 3 w in
        if reached then (papers, [], true, w)
        else consume batch_size max_total rest [] papers w
      else consume batch_size max_total rest batch papers w
  end.

Definition max_failures : nat := 3.

(** [fetch_papers_by_category(category, date_str, client, batch_size,
    max_total)].  [fuel] bounds the depth of the calls to itself; [None]
    means it ran out. *)
Fixpoint fetch_papers_by_category (fuel : nat) (category date_str : string)
    (batch_size : nat) (max_total : option nat) (w : world)
  : option (list paper * world) :=
  match fuel with
  | 0 => None
  | S fuel' =>
      let date_query := ("submittedDate:[" ++ date_str ++ "000000 TO " ++
                         date_str ++ "235959]")%string in
      let query := ("(" ++ date_query ++ ") AND (cat:" ++ category ++ ")")%string in
      let failures := 0 in
      let (yielded, raised) := client (calls w) query max_total in
      let '(papers, batch, broke, w1) :=
        consume batch_size max_total (Py.enumerate 0 yielded) [] [] (count_call w) in
      if broke || negb raised then
        (* the [try] block ran to its end *)
        Some (papers ++ map to_paper batch, w1)
      else
        (* [except Exception] *)
        let failures := failures + 1 in
        if (failures <? max_failures)%nat then
          let w2 := sleep 10 w1 in
          let max_retry :=
            match max_total with
            | Some (S n) => Nat.max 50 (S n / 2)
            | _ => 200
            end in
          match fetch_papers_by_category fuel' category date_str batch_size
                                         (Some max_retry) w2 with
          | Some (retry_papers, w3) => Some (papers ++ retry_papers, w3)
          | None => None
          end
        else Some (papers, w1)
  end.

End WithClient.

End DailyFetcher.

(** ** [test/dailyarxivfetcher.py]: the merge of the fetched papers *)

Module DailyFetcherMerge.

(** [if paper["id"] not in unique_papers: unique_papers[paper["id"]] = paper];
    a [dict] keeps its keys in the order of their first insertion. *)
Definition remember (unique_papers : list (string * DailyFetcher.paper))
    (paper : DailyFetcher.paper) : list (string * DailyFetcher.paper) :=
  if existsb (fun kv => String.eqb (fst kv) (DailyFetcher.paper_id paper)) unique_papers
  then unique_papers
  else unique_papers ++ [(DailyFetcher.paper_id paper, paper)].

(** The end of [fetch_daily_papers] and of [merge_temp_papers]:
    [for paper in all_papers: ...] and [list(unique_papers.values())]. *)
Definition result_papers (all_papers : list DailyFetcher.paper) : list DailyFetcher.paper :=
  map snd (fold_left remember all_papers []).

End DailyFetcherMerge.

(** ** [period_fetcher.py] and [fetcher.py]: what the script does before [main] *)

Module PeriodFetcherInit.

Definition ALL_CS_CATEGORIES : list string :=
  PeriodFetcher.HIGH_VOLUME_CATEGORIES ++ PeriodFetcher.MEDIUM_VOLUME_CATEGORIES
  ++ PeriodFetcher.LOW_VOLUME_CATEGORIES.

(** [f"Computer Science - {desc_suffix}"]. *)
Definition description (cat_code : string) : string :=
  "Computer Science - " ++
  (if Py.contains "."%char cat_code then Py.last_segment "."%char cat_code
   else cat_code).

Definition category_data : list Store.CategoryRow :=
  map (fun cat_code => (cat_code, Some (description cat_code))) ALL_CS_CATEGORIES.

Section WithSchedule.

Variable raises : nat -> bool.

(** The body of the [try]: one [execute_values] and the commit. *)
Definition prepopulate_steps : M Db.conn unit :=
  match category_data with
  | [] => ret tt
  | _ =>
      Db.execute_values raises Store.insert_category_do_nothing category_data ;;;
      Db.commit raises
  end.

(** The block under [if __name__ == "__main__"] up to the call of [main],
    on its own connection to the store [s]: what is durable when the
    connection is closed. *)
Definition prepopulate (s : Store.t) : Store.t :=
  match prepopulate_steps (Db.connect s) with
  | (Ok _, conn_init) => Db.committed conn_init
  | (Raise _, conn_init) => Db.committed (Db.rollback conn_init)
  end.

End WithSchedule.

End PeriodFetcherInit.

(** ** [period_fetcher.py]: [main], from the command line to the days it runs *)

Module PeriodFetcherMain.

(** The arguments of the command line are modelled as ASCII text, one
    character per byte: for such a [str], [len] is the number of bytes and
    [isdigit] holds when every character is one of 0 to 9.  Outside ASCII
    both depend on the Unicode database ([isdigit] and [int] accept the
    decimal digits of other scripts), which the model does not have; the
    properties of these functions are stated for ASCII arguments. *)

(** The value of a decimal digit of the command line (ASCII), [None] for
    any other character. *)
Definition digit_value (c : ascii) : option Z :=
  let n := nat_of_ascii c in
  if (48 <=? n)%nat && (n <=? 57)%nat then Some (Z.of_nat (n - 48)) else None.

(** [s.isdigit()], for an ASCII [s]. *)
Fixpoint all_digits (s : string) : bool :=
  match s with
  | EmptyString => true
  | String c r =>
      match digit_value c with Some _ => all_digits r | None => false end
  end.

Definition isdigit (s : string) : bool :=
  negb (String.eqb s "") && all_digits s.

(** [int(s)] for a string of ASCII digits. *)
Fixpoint int_from (acc : Z) (s : string) : Z :=
  match s with
  | EmptyString => acc
  | String c r =>
      int_from (10 * acc + match digit_value c with Some v => v | None => 0 end) r
  end.

Definition int (s : string) : Z := int_from 0 s.

(** [datetime.datetime(year, month, day, tzinfo=datetime.timezone.utc)];
    [None] when it raises [ValueError]. *)
Definition datetime_utc (year month day : Z) : option Py.datetime :=
  if ((1 <=? year) && (year <=? 9999) && (1 <=? month) && (month <=? 12) &&
      (1 <=? day) && (day <=? Catalog.days_in_month year month))%Z
  then Some {| Py.year := year; Py.month := month; Py.day := day;
               Py.hour := 0; Py.minute := 0; Py.second := 0; Py.microsecond := 0 |}
  else None.

(** [parse_date_str(date_str, date_description)], for an ASCII [date_str];
    [None] when it raises [ValueError]. *)
Definition parse_date_str (date_str : string) : option Py.datetime :=
  if negb (Nat.eqb (String.length date_str) 8 && isdigit date_str) then None
  else
    let year := int (String.substring 0 4 date_str) in
    let month := int (String.substring 4 2 date_str) in
    let day := int (String.substring 6 (String.length date_str - 6) date_str) in
    datetime_utc year month day.

(** [a <= b] on [datetime] values of one time zone. *)
Fixpoint lex_leb (a b : list Z) : bool :=
  match a, b with
  | x :: a', y :: b' => (x <? y)%Z || ((x =? y)%Z && lex_leb a' b')
  | _, _ => true
  end.

Definition fields (dt : Py.datetime) : list Z :=
  [Py.year dt; Py.month dt; Py.day dt; Py.hour dt; Py.minute dt; Py.second dt;
   Py.microsecond dt].

Definition datetime_leb (a b : Py.datetime) : bool := lex_leb (fields a) (fields b).

(** [s.lower()] on ASCII. *)
Definition lower_char (c : ascii) : ascii :=
  let n := nat_of_ascii c in
  if (65 <=? n)%nat && (n <=? 90)%nat then ascii_of_nat (n + 32) else c.

Fixpoint lower (s : string) : string :=
  match s with
  | EmptyString => EmptyString
  | String c r => String (lower_char c) (lower r)
  end.

(** [while current_dt <= end_dt: target_dates_dt_list.append(current_dt);
    current_dt += datetime.timedelta(days=1)].  The addition raises
    [OverflowError] past the year 9999.  [fuel] bounds the number of
    iterations; [None] means it ran out. *)
Fixpoint date_range (fuel : nat) (current_dt end_dt : Py.datetime)
  : option (outcome (list Py.datetime)) :=
  match fuel with
  | 0 => None
  | S fuel' =>
      if datetime_leb current_dt end_dt then
        if (9999 <? Py.year (Catalog.next_day current_dt))%Z
        then Some (Raise OtherException)
        else
          match date_range fuel' (Catalog.next_day current_dt) end_dt with
          | Some (Ok l) => Some (Ok (current_dt :: l))
          | other => other
          end
      else Some (Ok [])
  end.

(** What the first part of [main] decides: the days to process, or
    [sys.exit(1)]. *)
Inductive plan : Type :=
| Exit (status : nat)
| Dates (target_dates_dt_list : list Py.datetime).

(** The [try] block that reads [start_date] and [--end_date], with
    [script_run_utc_datetime] the time of the run. *)
Definition target_dates (fuel : nat) (script_run_utc_datetime : Py.datetime)
    (start_date_input_str : string) (end_date_input_str : option string)
  : option plan :=
  match parse_date_str start_date_input_str with
  | None => Some (Exit 1)
  | Some start_dt =>
      let end_dt :=
        match end_date_input_str with
        | None => Some start_dt
        | Some e =>
            if String.eqb (lower e) "today"
            then Some (Catalog.at_time script_run_utc_datetime 0 0 0 0)
            else parse_date_str e
        end in
      match end_dt with
      | None => Some (Exit 1)
      | Some end_dt =>
          if negb (datetime_leb start_dt end_dt) then Some (Exit 1)
          else
            match date_range fuel start_dt end_dt with
            | None => None
            | Some (Raise _) => Some (Exit 1)
            | Some (Ok []) => Some (Exit 1)
            | Some (Ok l) => Some (Dates l)
            end
      end
  end.

Section WithSchedule.

Variable raises : nat -> bool.
Variable api : nat -> string -> option nat -> outcome (list PeriodFetcher.Result).

(** [for i, target_date_dt_loop_var in enumerate(target_dates_dt_list)]:
    one daily run per day and [time.sleep(10)] between two days. *)
Definition process_dates (target_dates_dt_list : list Py.datetime)
  : PeriodFetcher.run nat :=
  PeriodFetcher.run_fold (Py.enumerate 0 target_dates_dt_list)
    (fun total (id : nat * Py.datetime) =>
       let (i, target_date_dt_loop_var) := id in
       PeriodFetcher.run_bind
         (PeriodFetcher.fetch_daily_papers_to_db raises api target_date_dt_loop_var)
         (fun inserted_for_day w =>
            if (1 <? List.length target_dates_dt_list)%nat &&
               (i <? List.length target_dates_dt_list - 1)%nat
            then Some (Ok (total + inserted_for_day),
                       PeriodFetcher.log (PeriodFetcher.Pause 10) w)
            else Some (Ok (total + inserted_for_day), w)))
    0.

End WithSchedule.

End PeriodFetcherMain.

(** ** [db_tools/import_arxiv.py]: the helper [batch_insert] *)

Module ImportArxivBatch.

Section WithSchedule.

Variable raises : nat -> bool.

(** [batch_insert(cur, table, columns, values, batch_size)]: one
    [execute_values] of an [INSERT ... ON CONFLICT DO NOTHING] per slice
    [values[i:i+batch_size]]; [row] is what the statement does with one
    row of [table].  [range] raises [ValueError] for a step of 0. *)
Definition batch_insert {R} (row : R -> Store.t -> Store.t) (values : list R)
    (batch_size : nat) : M Db.conn unit :=
  match batch_size with
  | 0 => fun c => (Raise OtherException, c)
  | _ =>
      for_each (Py.range 0 (List.length values) batch_size)
        (fun i =>
           let batch := Py.slice values i (i + batch_size) in
           Db.execute_values raises row batch)
  end.

End WithSchedule.

End ImportArxivBatch.

(** ** [period_fetcher.py]: the window of [generate_db_statistics] *)

Module PeriodFetcherStatistics.

(** [datetime.datetime(y, m, d, 0, 0, 0, tzinfo=utc)] of the target day. *)
Definition date_start_dt (target_date_dt : Py.datetime) : Py.datetime :=
  Catalog.at_time target_date_dt 0 0 0 0.

(** [datetime.datetime(y, m, d, 23, 59, 59, 999999, tzinfo=utc)]. *)
Definition date_end_dt (target_date_dt : Py.datetime) : Py.datetime :=
  Catalog.at_time target_date_dt 23 59 59 999999.

(** [WHERE arxiv_published_at >= %s AND arxiv_published_at <= %s] with
    the two bounds as parameters; a NULL timestamp is not selected. *)
Definition in_window (target_date_dt : Py.datetime) (row : Store.PaperRow) : bool :=
  match Store.arxiv_published_at row with
  | Some published =>
      PeriodFetcherMain.datetime_leb (date_start_dt target_date_dt) published
      && PeriodFetcherMain.datetime_leb published (date_end_dt target_date_dt)
  | None => false
  end.

(** [total_published_today]: the sum of the [COUNT(id)] of the groups,
    that is the number of selected rows. *)
Definition total_published_today (target_date_dt : Py.datetime) (s : Store.t) : nat :=
  List.length (filter (in_window target_date_dt) (Store.papers s)).

(** [SELECT COUNT( * ) FROM papers]. *)
Definition total_papers_in_db (s : Store.t) : nat := List.length (Store.papers s).

End PeriodFetcherStatistics.

(** * Vocabulary of the properties *)

(** The part of a trace written by the scheduler itself. *)
Definition is_schedule_event (e : PeriodFetcher.event) : bool :=
  match e with
  | PeriodFetcher.FetchCategory _ _ => true
  | PeriodFetcher.Pause _ => true
  | _ => false
  end.

Definition schedule_of (trace : list PeriodFetcher.event) : list PeriodFetcher.event :=
  filter is_schedule_event trace.

(** A schedule in which no statement raises. *)
Definition never : nat -> bool := fun _ => false.

(** The effect of a computation on a connection never touches what is
    durable unless it commits. *)
Definition keeps_committed {A} (m : M Db.conn A) : Prop :=
  forall c r c', m c = (r, c') -> Db.committed c' = Db.committed c.

(** A property of stores that every state of a connection enjoys. *)
Definition on_both (P : Store.t -> Prop) (c : Db.conn) : Prop :=
  P (Db.committed c) /\ P (Db.working c).

(** [m] maintains [I]. *)
Definition maintains {S A} (I : S -> Prop) (m : M S A) : Prop :=
  forall s r s', I s -> m s = (r, s') -> I s'.

(** [s] has the tables of [s0], row for row; the sequence may differ. *)
Definition same_tables (s0 s : Store.t) : Prop :=
  Store.papers s = Store.papers s0 /\
  Store.authors s = Store.authors s0 /\
  Store.categories_meta s = Store.categories_meta s0 /\
  Store.paper_authors s = Store.paper_authors s0 /\
  Store.paper_categories s = Store.paper_categories s0.

(** A property of stores that does not depend on how far the sequence has
    advanced beyond the identifiers in use. *)
Definition past_draws (P : Store.t -> Prop) : Prop :=
  forall s n, P s -> Store.author_seq s <= n -> P (Store.set_author_seq n s).

(** The two raw records of the end-to-end scenario; the fields the scenario
    does not give are arbitrary, and the primary category is the first of
    the categories, as the catalog has it. *)
Definition scenario_record (title : string) (authors categories : list string)
    (rest : PeriodFetcher.Result) : PeriodFetcher.Result :=
  {| PeriodFetcher.entry_id := "http://arxiv.org/abs/2401.00001";
     PeriodFetcher.title := title;
     PeriodFetcher.summary := PeriodFetcher.summary rest;
     PeriodFetcher.primary_category := hd_error categories;
     PeriodFetcher.authors := authors;
     PeriodFetcher.categories := categories;
     PeriodFetcher.pdf_url := PeriodFetcher.pdf_url rest;
     PeriodFetcher.published := PeriodFetcher.published rest;
     PeriodFetcher.updated := PeriodFetcher.updated rest;
     PeriodFetcher.journal_ref := PeriodFetcher.journal_ref rest;
     PeriodFetcher.doi := PeriodFetcher.doi rest |}.

(** Both records applied in order to the empty store, no statement raising:
    the two results of [insert_paper_data] and what is durable afterwards. *)
Definition scenario_store (rest1 rest2 : PeriodFetcher.Result) : bool * bool * Store.t :=
  let (ok1, c1) :=
    PeriodFetcher.insert_paper_data never (Db.connect Store.empty)
      (scenario_record "A" ["X"; "Y"] ["cs.AI"; "cs.LG"] rest1) in
  let (ok2, c2) :=
    PeriodFetcher.insert_paper_data never c1
      (scenario_record "A revised" ["Y"; "X"] ["cs.AI"] rest2) in
  (ok1, ok2, Db.committed c2).

(** A catalog client whose every search raises before it yields a result. *)
Definition always_raising : nat -> string -> option nat -> list PeriodFetcher.Result * bool :=
  fun _ _ _ => ([], true).

(** The schedule written by a tier: its groups in order, each category of a
    group fetched under the tier's cap, and the tier's pause after each
    group that is not empty. *)
Definition group_schedule (t : PeriodFetcher.tier) (g : list string)
  : list PeriodFetcher.event :=
  map (fun c => PeriodFetcher.FetchCategory c (Some (PeriodFetcher.max_t t))) g ++
  (if (0 <? List.length g)%nat then [PeriodFetcher.Pause (PeriodFetcher.sleep_t t)] else []).

Definition tiers_schedule (ts : list PeriodFetcher.tier) : list PeriodFetcher.event :=
  flat_map (fun t => flat_map (group_schedule t) (PeriodFetcher.tier_groups t)) ts.

(** The query and the [max_results] of a fetch. *)
Definition query_event (category date_str : string) (max_total : option nat)
  : PeriodFetcher.event :=
  PeriodFetcher.ApiQuery (PeriodFetcher.fetch_query category date_str)
    (if PeriodFetcher.truthy_nat max_total then max_total else None).

(** [j] failed attempts, each followed by the wait of 15 seconds. *)
Fixpoint retries (j : nat) (q : PeriodFetcher.event) : list PeriodFetcher.event :=
  match j with
  | 0 => []
  | S j' => q :: PeriodFetcher.RetryWait 15 :: retries j' q
  end.

(** What one fetch writes when [j] attempts fail with [HTTPError] before the
    attempt that ends it: the same query each time, under the same
    [max_results], and 15 seconds before each new attempt. *)
Definition fetch_trace (j : nat) (category date_str : string)
    (max_total : option nat) : list PeriodFetcher.event :=
  retries j (query_event category date_str max_total) ++
  [query_event category date_str max_total].

(** The trace of a schedule for the day [date_str]: after each start of a
    fetch come the queries this fetch sends, for its category, under its
    cap; [js] gives, fetch after fetch, the number of attempts that failed
    with [HTTPError] before the last one. *)
Fixpoint with_queries (date_str : string) (js : list nat)
    (sched : list PeriodFetcher.event) : list PeriodFetcher.event :=
  match sched with
  | [] => []
  | PeriodFetcher.FetchCategory c cap :: rest =>
      PeriodFetcher.FetchCategory c cap ::
      fetch_trace (hd 0 js) c date_str cap ++ with_queries date_str (tl js) rest
  | e :: rest => e :: with_queries date_str js rest
  end.

(** The schedule as the tier table describes it: the groups of a tier in
    order, each category fetched under [cap], and [pause] seconds of sleep
    after each group. *)
Definition expected_tier (cap pause : nat) (groups : list (list string))
  : list PeriodFetcher.event :=
  flat_map (fun g => map (fun c => PeriodFetcher.FetchCategory c (Some cap)) g
                     ++ [PeriodFetcher.Pause pause]) groups.

Definition expected_daily_schedule : list PeriodFetcher.event :=
  expected_tier 500 5 [["cs.AI"]; ["cs.CV"]; ["cs.LG"]; ["cs.CL"]] ++
  expected_tier 300 3
    [["cs.CR"; "cs.NE"]; ["cs.RO"; "cs.IR"]; ["cs.SE"; "cs.SI"]; ["cs.HC"; "cs.DB"]] ++
  expected_tier 150 2
    [["cs.AR"; "cs.CC"; "cs.CE"; "cs.CG"; "cs.CY"];
     ["cs.DC"; "cs.DL"; "cs.DM"; "cs.DS"; "cs.ET"];
     ["cs.FL"; "cs.GL"; "cs.GR"; "cs.GT"; "cs.IT"];
     ["cs.LO"; "cs.MA"; "cs.MM"; "cs.MS"; "cs.NA"];
     ["cs.NI"; "cs.OH"; "cs.OS"; "cs.PF"; "cs.PL"];
     ["cs.SC"; "cs.SD"; "cs.SY"]].

(** The categories for which a fetch was started, in order. *)
Definition fetched_categories (trace : list PeriodFetcher.event) : list string :=
  flat_map (fun e => match e with
                     | PeriodFetcher.FetchCategory c _ => [c]
                     | _ => []
                     end) trace.

(** A catalog that answers every query with [HTTPError], and a world in
    which nothing has happened yet. *)
Definition failing_api : nat -> string -> option nat -> outcome (list PeriodFetcher.Result) :=
  fun _ _ _ => Raise HTTPError.

Definition fresh_world : PeriodFetcher.world :=
  {| PeriodFetcher.db := Db.connect Store.empty;
     PeriodFetcher.api_calls := 0;
     PeriodFetcher.trace := [] |}.

(** From a state in [I], [m] ends in a state and with an outcome related
    by [Q]. *)
Definition triple {S A} (I : S -> Prop) (m : M S A) (Q : outcome A -> S -> Prop) : Prop :=
  forall s r s', I s -> m s = (r, s') -> Q r s'.

(** A record to run the properties on: the first record of the end-to-end
    scenario, submitted on 2024-01-15. *)
Definition sample_datetime : Py.datetime :=
  {| Py.year := 2024; Py.month := 1; Py.day := 15;
     Py.hour := 12; Py.minute := 0; Py.second := 0; Py.microsecond := 0 |}.

Definition sample_result : PeriodFetcher.Result :=
  {| PeriodFetcher.entry_id := "http://arxiv.org/abs/2401.00001";
     PeriodFetcher.title := "A";
     PeriodFetcher.summary := "An abstract";
     PeriodFetcher.primary_category := Some "cs.AI";
     PeriodFetcher.authors := ["X"; "Y"];
     PeriodFetcher.categories := ["cs.AI"; "cs.LG"];
     PeriodFetcher.pdf_url := Some "http://arxiv.org/pdf/2401.00001";
     PeriodFetcher.published := sample_datetime;
     PeriodFetcher.updated := sample_datetime;
     PeriodFetcher.journal_ref := None;
     PeriodFetcher.doi := None |}.

(** A schedule in which only the [k]-th statement raises. *)
Definition only (k : nat) : nat -> bool := fun n => Nat.eqb n k.

(** [s] is [s0] with rows added to [papers] and [paper_authors] under keys
    that [s0] does not have: no row of [s0] in these tables is changed or
    removed. *)
Definition grows (s0 s : Store.t) : Prop :=
  (exists extra,
     Store.papers s = Store.papers s0 ++ extra /\
     forall r, In r extra -> Store.has_paper (Store.id r) s0 = false) /\
  (exists extra,
     Store.paper_authors s = Store.paper_authors s0 ++ extra /\
     forall r, In r extra -> Store.has_paper_author (Store.pa_key r) s0 = false).

(** A function on stores, as the statements are, keeps a property. *)
Definition keeps (P : Store.t -> Prop) (q : Store.t -> Store.t) : Prop :=
  forall s, P s -> P (q s).

(** [paper["title"]] after the check of the required fields. *)
Definition title_or_empty (paper : ImportArxiv.Paper) : string :=
  if Py.truthy_opt (ImportArxiv.p_title paper)
  then match ImportArxiv.p_title paper with Some s => s | None => "" end
  else "".

(** An element of the JSON file that gives an identifier, a title, authors
    and categories, and no other key. *)
Definition json_paper (paper_id title : option string)
    (authors categories : list string) : ImportArxiv.Paper :=
  {| ImportArxiv.p_id := paper_id;
     ImportArxiv.p_title := title;
     ImportArxiv.p_abstract := None;
     ImportArxiv.p_primary_category_code := None;
     ImportArxiv.p_pdf_url := None;
     ImportArxiv.p_arxiv_published_at := None;
     ImportArxiv.p_arxiv_updated_at := None;
     ImportArxiv.p_summary_ai := None;
     ImportArxiv.p_detailed_review_ai := None;
     ImportArxiv.p_journal_ref := None;
     ImportArxiv.p_doi := None;
     ImportArxiv.p_categories := Some categories;
     ImportArxiv.p_authors := Some authors |}.

(** An element with an identifier, a title and a publication date, whose
    lists are empty. *)
Definition dated_paper (paper_id title published : string) : ImportArxiv.Paper :=
  {| ImportArxiv.p_id := Some paper_id;
     ImportArxiv.p_title := Some title;
     ImportArxiv.p_abstract := None;
     ImportArxiv.p_primary_category_code := None;
     ImportArxiv.p_pdf_url := None;
     ImportArxiv.p_arxiv_published_at := Some published;
     ImportArxiv.p_arxiv_updated_at := None;
     ImportArxiv.p_summary_ai := None;
     ImportArxiv.p_detailed_review_ai := None;
     ImportArxiv.p_journal_ref := None;
     ImportArxiv.p_doi := None;
     ImportArxiv.p_categories := Some [];
     ImportArxiv.p_authors := Some [] |}.

(** Date parsers that accept nothing. *)
Definition no_iso : string -> option Py.datetime := fun _ => None.
Definition no_strptime : string -> string -> option Py.datetime := fun _ _ => None.

(** The store after the import of a file with the first record of the
    end-to-end scenario. *)
Definition store_with_paper_A : Store.t :=
  ImportArxiv.imported never no_iso no_strptime
    [json_paper (Some "2401.00001") (Some "A") ["X"; "Y"] ["cs.AI"; "cs.LG"]]
    Store.empty.

(** A file with the second record of the scenario. *)
Definition file_with_paper_A_revised : list ImportArxiv.Paper :=
  [json_paper (Some "2401.00001") (Some "A revised") ["Y"; "X"] ["cs.AI"]].

(** When [m] does not raise, it takes a transaction that sees a store in
    [Pre] to one that sees a store in [Post]. *)
Definition sees {A} (Pre : Store.t -> Prop) (m : M Db.conn A)
    (Post : A -> Store.t -> Prop) : Prop :=
  forall c a c', Pre (Db.working c) -> m c = (Ok a, c') -> Post a (Db.working c').

(** The nine bibliographic columns of [row] are those of [n]. *)
Definition same_bibliographic (n row : Store.PaperRow) : Prop :=
  Store.title row = Store.title n /\
  Store.abstract row = Store.abstract n /\
  Store.primary_category_code row = Store.primary_category_code n /\
  Store.pdf_url row = Store.pdf_url n /\
  Store.arxiv_published_at row = Store.arxiv_published_at n /\
  Store.arxiv_updated_at row = Store.arxiv_updated_at n /\
  Store.journal_ref row = Store.journal_ref n /\
  Store.doi row = Store.doi n.

(** What the statements of one apply do to the store the transaction sees
    when none of them raises: [linked] for one author of step 3, [applied]
    for the whole apply. *)
Definition linked (pid : string) (acc : list Store.PaperAuthorRow * Store.t)
    (ia : nat * string) : list Store.PaperAuthorRow * Store.t :=
  let (rows, s) := acc in
  let (i, author_name) := ia in
  let (returned, s') := Store.upsert_author author_name s in
  match returned with
  | Some aid => (rows ++ [(pid, aid, i + 1)], s')
  | None =>
      match Store.select_author_id author_name s' with
      | Some aid => (rows ++ [(pid, aid, i + 1)], s')
      | None => (rows, s')
      end
  end.

Definition applied_primary (r : PeriodFetcher.Result) (s : Store.t) : Store.t :=
  match PeriodFetcher.primary_category r with
  | Some p =>
      if Py.truthy p
      then Store.insert_category_do_nothing
             (p, Some (PeriodFetcher.category_description p)) s
      else s
  | None => s
  end.

Definition applied_authors (r : PeriodFetcher.Result) (s : Store.t)
  : list Store.PaperAuthorRow * Store.t :=
  fold_left (linked (PeriodFetcher.paper_id r))
            (Py.enumerate 0 (PeriodFetcher.authors r)) ([], s).

Definition applied_categories (r : PeriodFetcher.Result) (s : Store.t) : Store.t :=
  let codes := filter Py.truthy (PeriodFetcher.categories r) in
  Store.insert_rows Store.insert_paper_category_do_nothing
    (map (fun c => (PeriodFetcher.paper_id r, c)) codes)
    (Store.insert_rows Store.insert_category_do_nothing
       (map (fun c => (c, Some (PeriodFetcher.category_description c))) codes) s).

Definition applied (r : PeriodFetcher.Result) (s : Store.t) : Store.t :=
  let s2 := Store.upsert_paper (PeriodFetcher.paper_row r) (applied_primary r s) in
  let (rows, s3) := applied_authors r s2 in
  applied_categories r (Store.insert_rows Store.upsert_paper_author rows s3).

(** The second record of the end-to-end scenario: the first one revised,
    with its authors in the other order. *)
Definition sample_result_revised : PeriodFetcher.Result :=
  {| PeriodFetcher.entry_id := "http://arxiv.org/abs/2401.00001";
     PeriodFetcher.title := "A revised";
     PeriodFetcher.summary := "An abstract";
     PeriodFetcher.primary_category := Some "cs.AI";
     PeriodFetcher.authors := ["Y"; "X"];
     PeriodFetcher.categories := ["cs.AI"];
     PeriodFetcher.pdf_url := Some "http://arxiv.org/pdf/2401.00001";
     PeriodFetcher.published := sample_datetime;
     PeriodFetcher.updated := sample_datetime;
     PeriodFetcher.journal_ref := None;
     PeriodFetcher.doi := None |}.

(** The store after one apply of the first record to the empty store. *)
Definition store_after_sample : Store.t :=
  Db.committed
    (snd (PeriodFetcher.insert_paper_data never (Db.connect Store.empty) sample_result)).

(** [m] returns without raising from every state in [I], in a state in [I]. *)
Definition steady {S A} (I : S -> Prop) (m : M S A) : Prop :=
  forall s, I s -> exists a s', m s = (Ok a, s') /\ I s'.

(** [row] is the row the batched import proposes for an element of the file
    that carries a non-empty identifier, its title being the empty string
    when the element has none. *)
Definition from_file (fromisoformat : string -> option Py.datetime)
    (strptime : string -> string -> option Py.datetime)
    (papers : list ImportArxiv.Paper) (row : Store.PaperRow) : Prop :=
  exists paper pid,
    In paper papers /\ ImportArxiv.p_id paper = Some pid /\ Py.truthy pid = true /\
    row = ImportArxiv.paper_row fromisoformat strptime pid (title_or_empty paper) paper.

(** A file whose second element gives a date that no parser reads. *)
Definition file_with_dates : list ImportArxiv.Paper :=
  [json_paper (Some "2401.00001") (Some "A") ["X"] ["cs.AI"];
   dated_paper "2401.00002" "B" "yesterday"].

(** The warnings the check of the required fields prints for the element at
    index [i]. *)
Definition warnings (ip : nat * ImportArxiv.Paper) : list ImportArxiv.message :=
  let (i, paper) := ip in
  if negb (Py.truthy_opt (ImportArxiv.p_id paper)) then [ImportArxiv.WarnMissingId i]
  else if negb (Py.truthy_opt (ImportArxiv.p_title paper))
  then [ImportArxiv.WarnNoTitle
          (match ImportArxiv.p_id paper with Some s => s | None => "" end)]
  else [].

(** What [parse_datetime] prints for the two dates of an element. *)
Definition datetime_warnings (fromisoformat : string -> option Py.datetime)
    (strptime : string -> string -> option Py.datetime)
    (paper : ImportArxiv.Paper) : list ImportArxiv.message :=
  ImportArxiv.parse_datetime_prints fromisoformat strptime
    (ImportArxiv.p_arxiv_published_at paper) ++
  ImportArxiv.parse_datetime_prints fromisoformat strptime
    (ImportArxiv.p_arxiv_updated_at paper).

(** The lines printed for the element at index [i] when no statement
    raises: the warnings of the required fields and, for an element with an
    identifier, those of its dates. *)
Definition printed_for (fromisoformat : string -> option Py.datetime)
    (strptime : string -> string -> option Py.datetime)
    (ip : nat * ImportArxiv.Paper) : list ImportArxiv.message :=
  warnings ip ++
  (if Py.truthy_opt (ImportArxiv.p_id (snd ip))
   then datetime_warnings fromisoformat strptime (snd ip) else []).

(** The state in which the inner [try] of an element begins: the warning of
    a missing title is printed, the categories and the authors not seen
    before are remembered. *)
Definition at_try (pid : string) (paper : ImportArxiv.Paper)
    (categories authors : list string) (st : ImportArxiv.state) : ImportArxiv.state :=
  ImportArxiv.collect_authors authors
    (ImportArxiv.collect_categories categories
       (if negb (Py.truthy_opt (ImportArxiv.p_title paper))
        then ImportArxiv.print (ImportArxiv.WarnNoTitle pid) st else st)).

(** The (paper, author, ordinal) rows that the loop over the authors of
    [paper] appends, the cache being [cache]. *)
Definition relations_of (cache : list (string * option nat))
    (paper : ImportArxiv.Paper) : list Store.PaperAuthorRow :=
  match ImportArxiv.p_id paper, ImportArxiv.p_authors paper with
  | Some pid, Some authors =>
      if Py.truthy pid then ImportArxiv.paper_relations cache pid authors else []
  | _, _ => []
  end.

(** No element of the file that carries an identifier holds [null] for its
    categories or for its authors. *)
Definition no_null_list (papers : list ImportArxiv.Paper) : Prop :=
  forall paper,
    In paper papers -> Py.truthy_opt (ImportArxiv.p_id paper) = true ->
    ImportArxiv.p_categories paper <> None /\ ImportArxiv.p_authors paper <> None.

(** A property of stores kept by every statement the batched import sends. *)
Definition kept_by_import (P : Store.t -> Prop) : Prop :=
  (forall n, keeps P (fun s => snd (Store.insert_paper_do_nothing n s))) /\
  (forall r, keeps P (Store.insert_category_do_nothing r)) /\
  (forall name, keeps P (Store.insert_author_do_nothing name)) /\
  (forall r, keeps P (Store.insert_paper_author_do_nothing r)) /\
  (forall r, keeps P (Store.insert_paper_category_do_nothing r)).

(** [m] returns without raising from every state in [I], in a state in [Q]. *)
Definition reaches {S A} (I : S -> Prop) (m : M S A) (Q : S -> Prop) : Prop :=
  forall s, I s -> exists a s', m s = (Ok a, s') /\ Q s'.

(** A file of three elements: one without identifier, one without title,
    one complete. *)
Definition file_of_three : list ImportArxiv.Paper :=
  [json_paper None (Some "No identifier") ["X"] ["cs.AI"];
   json_paper (Some "2401.00002") None ["Y"] ["cs.LG"];
   json_paper (Some "2401.00003") (Some "C") ["X"; "Y"] ["cs.AI"]].

(** What re-ingestion leaves of a Paper row: its identifier and the two
    derived columns. *)
Definition derived (r : Store.PaperRow) : string * option string * option string :=
  (Store.id r, Store.summary_ai r, Store.detailed_review_ai r).

(** [l] is [l0] with elements added at its end. *)
Definition extends {A} (l0 l : list A) : Prop := exists extra, l = l0 ++ extra.

(** [s] retains [s0]: row for row, [s] has the papers of [s0] under the same
    identifiers and with the same derived columns, the authors and the
    categories of [s0] as they were, the (paper, author) pairs and the
    (paper, category) pairs of [s0]; what [s] has besides comes after. *)
Definition retains (s0 s : Store.t) : Prop :=
  extends (map derived (Store.papers s0)) (map derived (Store.papers s)) /\
  extends (Store.authors s0) (Store.authors s) /\
  extends (Store.categories_meta s0) (Store.categories_meta s) /\
  extends (map Store.pa_key (Store.paper_authors s0))
          (map Store.pa_key (Store.paper_authors s)) /\
  extends (Store.paper_categories s0) (Store.paper_categories s).

(** No write is left uncommitted on the connection of [w], and what is
    durable is in [P]. *)
Definition settled (P : Store.t -> Prop) (w : PeriodFetcher.world) : Prop :=
  Db.clean (PeriodFetcher.db w) /\ P (Db.committed (PeriodFetcher.db w)).

(** A run keeps [I] whenever it returns. *)
Definition run_keeps {A} (I : PeriodFetcher.world -> Prop) (m : PeriodFetcher.run A)
  : Prop :=
  forall w r w', I w -> m w = Some (r, w') -> I w'.


(** [s] is [s0] with rows added at the end of its tables. *)
Definition appended (s0 s : Store.t) : Prop :=
  extends (Store.papers s0) (Store.papers s) /\
  extends (Store.authors s0) (Store.authors s) /\
  extends (Store.categories_meta s0) (Store.categories_meta s) /\
  extends (Store.paper_authors s0) (Store.paper_authors s) /\
  extends (Store.paper_categories s0) (Store.paper_categories s).

(** A file whose second element lists a blank author name between two
    others, and a cache that knows the three names of the file. *)
Definition file_with_blank_author : list ImportArxiv.Paper :=
  [json_paper (Some "2401.00001") (Some "A") ["X"; "Y"] ["cs.AI"];
   json_paper (Some "2401.00004") (Some "D") ["Z"; ""; "W"] ["cs.AI"]].

Definition cache_of_four : list (string * option nat) :=
  [("X", Some 1); ("Y", Some 2); ("Z", Some 3); ("W", Some 4)].

(** A state of the batched import in which the next statement is the
    [k]-th of the connection. *)
Definition state_at (k : nat) : ImportArxiv.state :=
  ImportArxiv.set_conn
    {| Db.committed := Store.empty; Db.working := Store.empty; Db.clock := k |}
    (ImportArxiv.initial Store.empty).

(** The first paper of a list that carries a given identifier. *)
Definition first_with_id (pid : string) (l : list DailyFetcher.paper)
  : option DailyFetcher.paper :=
  find (fun p => String.eqb (DailyFetcher.paper_id p) pid) l.

(** Every key of the [dict] is the identifier of its value. *)
Definition keyed_by_id (d : list (string * DailyFetcher.paper)) : Prop :=
  forall kv, In kv d -> fst kv = DailyFetcher.paper_id (snd kv).

(** The results a search with cap [max_total] takes from what the catalog
    yields ([None] and [0] mean no cap). *)
Definition capped {A} (max_total : option nat) (l : list A) : list A :=
  match max_total with
  | Some (S n) => firstn (S n) l
  | _ => l
  end.

(** The cap is not reached by [len] results. *)
Definition below_cap (max_total : option nat) (len : nat) : Prop :=
  match max_total with
  | Some (S n) => len <= n
  | _ => True
  end.

(** A result with a given identifier, and a client that yields three
    results for every search and then raises or not. *)
Definition result_with_id (entry : string) : PeriodFetcher.Result :=
  {| PeriodFetcher.entry_id := entry;
     PeriodFetcher.title := "T";
     PeriodFetcher.summary := "S";
     PeriodFetcher.primary_category := Some "cs.AI";
     PeriodFetcher.authors := ["X"];
     PeriodFetcher.categories := ["cs.AI"];
     PeriodFetcher.pdf_url := None;
     PeriodFetcher.published := sample_datetime;
     PeriodFetcher.updated := sample_datetime;
     PeriodFetcher.journal_ref := None;
     PeriodFetcher.doi := None |}.

Definition three_results : list PeriodFetcher.Result :=
  [result_with_id "http://arxiv.org/abs/2401.00001v1";
   result_with_id "http://arxiv.org/abs/2401.00002v1";
   result_with_id "http://arxiv.org/abs/2401.00003v1"].

Definition client_of_three (raised : bool)
  : nat -> string -> option nat -> list PeriodFetcher.Result * bool :=
  fun _ _ _ => (three_results, raised).

(** A client whose first search raises after three results and whose
    later searches yield the three results and end normally. *)
Definition client_failing_once
  : nat -> string -> option nat -> list PeriodFetcher.Result * bool :=
  fun k _ _ => (three_results, Nat.eqb k 0).

(** The query of a search of the JSON variant. *)
Definition json_query (category date_str : string) : string :=
  "(" ++ ("submittedDate:[" ++ date_str ++ "000000 TO " ++ date_str ++ "235959]")
  ++ ") AND (cat:" ++ category ++ ")".

Definition idle : DailyFetcher.world := {| DailyFetcher.calls := 0; DailyFetcher.slept := [] |}.

(** The description stored for a category code, if the code is stored. *)
Definition stored_description (code : string) (s : Store.t) : option (option string) :=
  option_map snd (find (fun r => String.eqb (fst r) code) (Store.categories_meta s)).

(** A world whose connection is on the store [s]. *)
Definition world_on (s : Store.t) : PeriodFetcher.world :=
  {| PeriodFetcher.db := Db.connect s;
     PeriodFetcher.api_calls := 0;
     PeriodFetcher.trace := [] |}.

(** [s.isascii()]: every character of [s] is an ASCII character. *)
Definition isascii (s : string) : bool :=
  forallb (fun c => (nat_of_ascii c <? 128)%nat) (list_ascii_of_string s).

(** The eight digits [YYYYMMDD] that spell the day of [dt], zeros
    included. *)
Definition spelled (dt : Py.datetime) : string :=
  PeriodFetcher.pad4 (Py.year dt) ++ PeriodFetcher.pad2 (Py.month dt) ++
  PeriodFetcher.pad2 (Py.day dt).

(** A date at 00:00:00. *)
Definition midnight (dt : Py.datetime) : Prop :=
  Py.hour dt = 0%Z /\ Py.minute dt = 0%Z /\ Py.second dt = 0%Z /\
  Py.microsecond dt = 0%Z.

(** The day of [a] is the day of [b] or an earlier one. *)
Definition date_le (a b : Py.datetime) : Prop :=
  (Py.year a < Py.year b \/
   (Py.year a = Py.year b /\
    (Py.month a < Py.month b \/
     (Py.month a = Py.month b /\ Py.day a <= Py.day b))))%Z.

(** [n] consecutive days from [dt] on. *)
Fixpoint consecutive_days (n : nat) (dt : Py.datetime) : list Py.datetime :=
  match n with
  | 0 => []
  | S n' => dt :: consecutive_days n' (Catalog.next_day dt)
  end.

(** A number that grows with the calendar. *)
Definition calendar_rank (dt : Py.datetime) : Z :=
  (372 * Py.year dt + 31 * Py.month dt + Py.day dt)%Z.

(** The schedule of [n] days in a row: the daily schedule of each day and
    a pause of 10 seconds between two days. *)
Fixpoint days_schedule (n : nat) : list PeriodFetcher.event :=
  match n with
  | 0 => []
  | 1 => expected_daily_schedule
  | S n' => expected_daily_schedule ++ [PeriodFetcher.Pause 10] ++ days_schedule n'
  end.

(** The trace of the days [dates] in a row: the trace of the daily schedule
    for each day, in the order of the list, and a pause of 10 seconds
    between two days; [jss] gives the failed attempts of each day. *)
Fixpoint days_trace (dates : list Py.datetime) (jss : list (list nat))
  : list PeriodFetcher.event :=
  match dates with
  | [] => []
  | d :: rest =>
      with_queries (PeriodFetcher.strftime_Ymd d) (hd [] jss) expected_daily_schedule ++
      match rest with
      | [] => []
      | _ => PeriodFetcher.Pause 10 :: days_trace rest (tl jss)
      end
  end.

(** A result whose [entry_id] and [summary] are given. *)
Definition result_of (entry summary : string) : PeriodFetcher.Result :=
  {| PeriodFetcher.entry_id := entry;
     PeriodFetcher.title := "T";
     PeriodFetcher.summary := summary;
     PeriodFetcher.primary_category := Some "cs.AI";
     PeriodFetcher.authors := ["X"];
     PeriodFetcher.categories := ["cs.AI"];
     PeriodFetcher.pdf_url := None;
     PeriodFetcher.published := sample_datetime;
     PeriodFetcher.updated := sample_datetime;
     PeriodFetcher.journal_ref := None;
     PeriodFetcher.doi := None |}.

(** A result whose [entry_id] and single author are given. *)
Definition result_by (entry author : string) : PeriodFetcher.Result :=
  {| PeriodFetcher.entry_id := entry;
     PeriodFetcher.title := "T";
     PeriodFetcher.summary := "S";
     PeriodFetcher.primary_category := Some "cs.AI";
     PeriodFetcher.authors := [author];
     PeriodFetcher.categories := ["cs.AI"];
     PeriodFetcher.pdf_url := None;
     PeriodFetcher.published := sample_datetime;
     PeriodFetcher.updated := sample_datetime;
     PeriodFetcher.journal_ref := None;
     PeriodFetcher.doi := None |}.

(** Two records that come after [sample_result], by the new authors Z and
    W. *)
Definition result_by_Z : PeriodFetcher.Result :=
  result_by "http://arxiv.org/abs/2401.00002" "Z".
Definition result_by_W : PeriodFetcher.Result :=
  result_by "http://arxiv.org/abs/2401.00003" "W".

(** The connection after the apply of [sample_result] to the empty store:
    X and Y have the identifiers 1 and 2, and the next statement is the
    8th. *)
Definition conn_after_sample : Db.conn :=
  snd (PeriodFetcher.insert_paper_data never (Db.connect Store.empty) sample_result).

(** A file of two complete elements. *)
Definition file_of_two : list ImportArxiv.Paper :=
  [json_paper (Some "2401.00001") (Some "A") ["X"] ["cs.AI"];
   json_paper (Some "2401.00002") (Some "B") ["Y"] ["cs.LG"]].

(** The line feed. *)
Definition newline : ascii := "010"%char.

(** The store after the applies of the records of [l], in order. *)
Definition applied_all (l : list PeriodFetcher.Result) (s : Store.t) : Store.t :=
  fold_left (fun s r => applied r s) l s.

(** A catalog that answers every query with [l]. *)
Definition api_returning (l : list PeriodFetcher.Result)
  : nat -> string -> option nat -> outcome (list PeriodFetcher.Result) :=
  fun _ _ _ => Ok l.

(** The fields of the time of day of [dt] are in range. *)
Definition time_of_day (dt : Py.datetime) : Prop :=
  (0 <= Py.hour dt <= 23 /\ 0 <= Py.minute dt <= 59 /\
   0 <= Py.second dt <= 59 /\ 0 <= Py.microsecond dt <= 999999)%Z.

(** [a] and [b] are instants of the same calendar day. *)
Definition same_day (a b : Py.datetime) : Prop :=
  Py.year a = Py.year b /\ Py.month a = Py.month b /\ Py.day a = Py.day b.

(** Three category rows. *)
Definition three_categories : list Store.CategoryRow :=
  [("cs.AI", None); ("cs.LG", None); ("cs.AI", Some "again")].

(** * Properties *)

(** ** Python lists *)

Lemma groups_concat_aux A (n : nat) :
  forall (m : nat) (l : list A),
    List.length l <= m * n ->
    List.concat (map (fun i => Py.slice l i (i + n)) (map (fun k => 0 + k * n) (seq 0 m))) = l.
Proof.
  induction m as [|m IH]; intros l Hl.
  - simpl in *. destruct l; [reflexivity | simpl in Hl; lia].
  - rewrite <- cons_seq, <- seq_shift. rewrite !map_map. simpl map.
    simpl List.concat.
    assert (E0 : Py.slice l 0 n = firstn n l).
    { unfold Py.slice. simpl skipn. f_equal. lia. }
    rewrite E0, map_map.
    assert (E1 : map (fun k => Py.slice l (S k * n) (S k * n + n)) (seq 0 m)
                 = map (fun i => Py.slice (skipn n l) i (i + n))
                       (map (fun k => 0 + k * n) (seq 0 m))).
    { rewrite map_map. apply map_ext. intros k. unfold Py.slice.
      replace (S k * n + n - S k * n) with n by lia.
      replace (0 + k * n + n - (0 + k * n)) with n by lia.
      f_equal. rewrite skipn_skipn. f_equal. simpl. lia. }
    rewrite E1, IH.
    + apply firstn_skipn.
    + rewrite length_skipn. simpl in Hl. lia.
Qed.

(** The groups of a list, in order, make up the list. *)
Lemma groups_of_concat A (n : nat) (l : list A) :
  0 < n -> List.concat (Py.groups_of n l) = l.
Proof.
  intros Hn. unfold Py.groups_of, Py.range.
  apply groups_concat_aux.
  rewrite Nat.sub_0_r.
  pose proof (Nat.div_mod_eq (List.length l + n - 1) n) as E.
  pose proof (Nat.mod_upper_bound (List.length l + n - 1) n ltac:(lia)) as B.
  nia.
Qed.

(** ** Computations *)

Lemma bind_ok S A B (m : M S A) (k : A -> M S B) s b s' :
  bind m k s = (Ok b, s') ->
  exists a s1, m s = (Ok a, s1) /\ k a s1 = (Ok b, s').
Proof.
  unfold bind. destruct (m s) as [[a|e] s1]; intros H.
  - eauto.
  - discriminate.
Qed.


Lemma maintains_ret S A (I : S -> Prop) (a : A) : maintains I (ret a).
Proof. intros s r s' Hs H. inversion H. subst. exact Hs. Qed.

Lemma maintains_bind S A B (I : S -> Prop) (m : M S A) (k : A -> M S B) :
  maintains I m -> (forall a, maintains I (k a)) -> maintains I (bind m k).
Proof.
  intros Hm Hk s r s' Hs H. unfold bind in H.
  destruct (m s) as [[a|e] s1] eqn:E.
  - eapply Hk; [eapply Hm; eauto | exact H].
  - inversion H. subst. eapply Hm; eauto.
Qed.

Lemma maintains_for_each S A (I : S -> Prop) (l : list A) (body : A -> M S unit) :
  (forall x, maintains I (body x)) -> maintains I (for_each l body).
Proof.
  intros Hb. induction l as [|x l IH]; simpl.
  - apply maintains_ret.
  - apply maintains_bind; auto.
Qed.

Lemma maintains_fold_each S A B (I : S -> Prop) (l : list A) (body : B -> A -> M S B) :
  (forall acc x, maintains I (body acc x)) ->
  forall acc, maintains I (fold_each l body acc).
Proof.
  intros Hb. induction l as [|x l IH]; intros acc; simpl.
  - apply maintains_ret.
  - apply maintains_bind; auto.
Qed.

(** C2. The end-to-end scenario: applying the record (id 2401.00001, title
    A, authors X, Y, categories cs.AI, cs.LG) and then (same id, title
    A revised, authors Y, X, category cs.AI) to the empty store succeeds twice
    and leaves one Paper row, with title A revised; the Author rows X (id 1)
    and Y (id 2); the PaperAuthor rows (paper, X, 2) and (paper, Y, 1); and
    the PaperCategory rows (paper, cs.AI) and (paper, cs.LG), the second one
    kept from the first apply. *)
Theorem end_to_end_scenario (rest1 rest2 : PeriodFetcher.Result) :
  exists row s,
    scenario_store rest1 rest2 = (true, true, s) /\
    Store.papers s = [row] /\
    Store.id row = "2401.00001" /\ Store.title row = "A revised" /\
    Store.authors s = [(1, "X"); (2, "Y")] /\
    Store.paper_authors s = [("2401.00001", 1, 2); ("2401.00001", 2, 1)] /\
    Store.paper_categories s = [("2401.00001", "cs.AI"); ("2401.00001", "cs.LG")].
Proof.
  destruct rest1, rest2.
  eexists. eexists.
  split. { vm_compute. reflexivity. }
  repeat split.
Qed.

(** ** The JSON fetch variant *)

(** C10. The retry of [fetch_papers_by_category] is not bounded by the code:
    [failures] is a local variable set to 0 by every call, so the test
    [failures < max_failures] made in the handler always compares 1 with 3.
    Against a client whose searches all raise, no depth of recursion is
    enough for the call to return, whatever the result cap. *)
Theorem retry_recursion_unbounded (fuel : nat) :
  forall (category date_str : string) (batch_size : nat)
         (max_total : option nat) (w : DailyFetcher.world),
    DailyFetcher.fetch_papers_by_category always_raising fuel category date_str
      batch_size max_total w = None.
Proof.
  induction fuel as [|fuel IH]; intros category date_str batch_size max_total w.
  - reflexivity.
  - cbn [DailyFetcher.fetch_papers_by_category always_raising Py.enumerate
         DailyFetcher.consume orb negb].
    change (0 + 1 <? DailyFetcher.max_failures)%nat with true. cbv iota.
    rewrite IH. reflexivity.
Qed.

(** When a search does run to its end, the call returns: with a client that
    raises on its first [k] searches only, depth [k + 1] is enough. *)
Lemma retry_returns_once_client_succeeds (k : nat) :
  forall (category date_str : string) (batch_size : nat)
         (max_total : option nat) (w : DailyFetcher.world),
    DailyFetcher.calls w = 0 ->
    exists w',
      DailyFetcher.fetch_papers_by_category
        (fun n _ _ => ([], (n <? k)%nat)) (S k) category date_str
        batch_size max_total w = Some ([], w') /\ DailyFetcher.calls w' = S k.
Proof.
  intros category date_str batch_size max_total w Hw.
  assert (G : forall d j mt w0,
             DailyFetcher.calls w0 = j -> j + d = k ->
             exists w',
               DailyFetcher.fetch_papers_by_category
                 (fun n _ _ => ([], (n <? k)%nat)) (S d) category date_str
                 batch_size mt w0 = Some ([], w') /\ DailyFetcher.calls w' = S k).
  { induction d as [|d IH]; intros j mt w0 Hc Hj.
    - cbn [DailyFetcher.fetch_papers_by_category Py.enumerate DailyFetcher.consume].
      rewrite Hc. replace (j <? k)%nat with false
        by (symmetry; apply Nat.ltb_ge; lia).
      cbn. eexists. split; [reflexivity|]. simpl. lia.
    - remember (S d) as f eqn:Ef.
      cbn [DailyFetcher.fetch_papers_by_category Py.enumerate DailyFetcher.consume].
      rewrite Hc. replace (j <? k)%nat with true
        by (symmetry; apply Nat.ltb_lt; lia).
      cbn [orb negb].
      change (0 + 1 <? DailyFetcher.max_failures)%nat with true. cbv iota.
      match goal with
      | |- context [DailyFetcher.fetch_papers_by_category _ f _ _ _ ?mt' ?w1] =>
          subst f; destruct (IH (S j) mt' w1) as [w' [E C]]; [simpl; lia | lia |]
      end.
      rewrite E. eexists. split; [reflexivity | exact C]. }
  apply (G k 0 max_total w Hw). lia.
Qed.

(** ** The fetch of one category *)

Section Fetch.

Variable raises : nat -> bool.
Variable api : nat -> string -> option nat -> outcome (list PeriodFetcher.Result).

Lemma schedule_of_app l1 l2 :
  schedule_of (l1 ++ l2) = schedule_of l1 ++ schedule_of l2.
Proof. apply filter_app. Qed.

(** One attempt sends one query, and touches the store only when the
    catalog answered. *)
Lemma fetch_attempt_spec category date_str max_total inserted_count w :
  exists r w1,
    PeriodFetcher.fetch_attempt raises api category date_str max_total
      inserted_count w = (r, w1) /\
    PeriodFetcher.trace w1 =
      PeriodFetcher.trace w ++ [query_event category date_str max_total] /\
    PeriodFetcher.api_calls w1 = S (PeriodFetcher.api_calls w) /\
    match r with
    | Raise e =>
        api (PeriodFetcher.api_calls w)
            (PeriodFetcher.fetch_query category date_str)
            (if PeriodFetcher.truthy_nat max_total then max_total else None)
        = Raise e /\ PeriodFetcher.db w1 = PeriodFetcher.db w
    | Ok _ =>
        exists l,
          api (PeriodFetcher.api_calls w)
              (PeriodFetcher.fetch_query category date_str)
              (if PeriodFetcher.truthy_nat max_total then max_total else None)
          = Ok l
    end.
Proof.
  unfold PeriodFetcher.fetch_attempt, query_event.
  destruct (api _ _ _) as [[|x l]|e] eqn:E.
  - do 2 eexists. split; [reflexivity|]. simpl. eauto.
  - destruct (PeriodFetcher.insert_results _ _ _ _) as [n c].
    do 2 eexists. split; [reflexivity|]. simpl. eauto.
  - do 2 eexists. split; [reflexivity|]. simpl. eauto.
Qed.

(** The loop returns a count whenever its fuel covers the failures that are
    still allowed, and writes nothing of the schedule. *)
Lemma fetch_loop_returns category date_str max_total :
  forall fuel failures inserted_count w,
    PeriodFetcher.max_api_call_failures - failures < fuel ->
    exists n w',
      PeriodFetcher.fetch_loop raises api fuel category date_str max_total
        failures inserted_count w = Some (Ok n, w') /\
      schedule_of (PeriodFetcher.trace w') = schedule_of (PeriodFetcher.trace w).
Proof.
  induction fuel as [|fuel IH]; intros failures inserted_count w Hf; [lia|].
  cbn [PeriodFetcher.fetch_loop].
  destruct (failures <? PeriodFetcher.max_api_call_failures)%nat eqn:Hlt.
  - destruct (fetch_attempt_spec category date_str max_total inserted_count w)
      as [r [w1 [E [Ht _]]]].
    rewrite E.
    assert (Hs : schedule_of (PeriodFetcher.trace w1) = schedule_of (PeriodFetcher.trace w)).
    { rewrite Ht, schedule_of_app. simpl. apply app_nil_r. }
    destruct r as [n|[| |]]; try (do 2 eexists; split; [reflexivity | exact Hs]).
    destruct (failures + 1 <? PeriodFetcher.max_api_call_failures)%nat eqn:Hlt'.
    + destruct (IH (failures + 1) inserted_count
                   (PeriodFetcher.log (PeriodFetcher.RetryWait 15) w1))
        as [n [w' [E' Hs']]].
      { apply Nat.ltb_lt in Hlt. lia. }
      rewrite E'. do 2 eexists. split; [reflexivity|].
      rewrite Hs'. simpl. rewrite schedule_of_app. simpl. rewrite app_nil_r. exact Hs.
    + do 2 eexists; split; [reflexivity | exact Hs].
  - do 2 eexists; split; reflexivity.
Qed.

(** [fetch_papers_by_category_to_db] always returns a count. *)
Lemma fetch_returns category date_str max_total w :
  exists n w',
    PeriodFetcher.fetch_papers_by_category_to_db raises api category date_str
      max_total w = Some (Ok n, w') /\
    schedule_of (PeriodFetcher.trace w') = schedule_of (PeriodFetcher.trace w).
Proof.
  apply fetch_loop_returns. unfold PeriodFetcher.max_api_call_failures. lia.
Qed.

Lemma fetch_attempt_raise category date_str max_total inserted_count w e :
  api (PeriodFetcher.api_calls w) (PeriodFetcher.fetch_query category date_str)
      (if PeriodFetcher.truthy_nat max_total then max_total else None) = Raise e ->
  PeriodFetcher.fetch_attempt raises api category date_str max_total
    inserted_count w
  = (Raise e,
     PeriodFetcher.count_api_call
       (PeriodFetcher.log (query_event category date_str max_total) w)).
Proof.
  intros E. unfold PeriodFetcher.fetch_attempt. rewrite E. reflexivity.
Qed.

(** What the fetch does when its first [j] attempts fail with [HTTPError]
    and attempt [j + 1] either is the third one or fails with another
    exception: it returns the count inserted so far, which is 0, having sent
    [j + 1] queries with a wait of 15 seconds between them and having left
    the connection as it was. *)
Lemma fetch_gives_up category date_str max_total w j e :
  j < PeriodFetcher.max_api_call_failures ->
  (forall i, i < j ->
     api (PeriodFetcher.api_calls w + i) (PeriodFetcher.fetch_query category date_str)
         (if PeriodFetcher.truthy_nat max_total then max_total else None)
     = Raise HTTPError) ->
  api (PeriodFetcher.api_calls w + j) (PeriodFetcher.fetch_query category date_str)
      (if PeriodFetcher.truthy_nat max_total then max_total else None)
  = Raise e ->
  (e = HTTPError -> j = 2) ->
  exists w',
    PeriodFetcher.fetch_papers_by_category_to_db raises api category date_str
      max_total w = Some (Ok 0, w') /\
    PeriodFetcher.trace w' =
      PeriodFetcher.trace w ++
      retries j (query_event category date_str max_total) ++
      [query_event category date_str max_total] /\
    PeriodFetcher.db w' = PeriodFetcher.db w.
Proof.
  unfold PeriodFetcher.max_api_call_failures.
  intros Hj Hpre He Hlast.
  unfold PeriodFetcher.fetch_papers_by_category_to_db,
    PeriodFetcher.max_api_call_failures.
  assert (H0 : j = 0 \/ j = 1 \/ j = 2) by lia.
  destruct H0 as [-> | [-> | ->]].
  - rewrite Nat.add_0_r in He.
    cbn [PeriodFetcher.fetch_loop Nat.ltb Nat.leb PeriodFetcher.max_api_call_failures].
    rewrite (@fetch_attempt_raise _ _ _ _ _ _ He).
    destruct e; try (specialize (Hlast eq_refl); discriminate);
      (eexists; split; [reflexivity | split; [reflexivity | reflexivity]]).
  - pose proof (Hpre 0 ltac:(lia)) as E0. rewrite Nat.add_0_r in E0.
    cbn [PeriodFetcher.fetch_loop Nat.ltb Nat.leb PeriodFetcher.max_api_call_failures].
    rewrite (@fetch_attempt_raise _ _ _ _ _ _ E0).
    cbn [Nat.add Nat.ltb Nat.leb].
    rewrite fetch_attempt_raise with (e := e)
      by (cbn [PeriodFetcher.api_calls PeriodFetcher.log PeriodFetcher.count_api_call];
          rewrite <- Nat.add_1_r; exact He).
    destruct e; try (specialize (Hlast eq_refl); discriminate);
      (eexists; split; [reflexivity | split; [|reflexivity]];
       cbn; repeat rewrite <- app_assoc; reflexivity).
  - pose proof (Hpre 0 ltac:(lia)) as E0. rewrite Nat.add_0_r in E0.
    pose proof (Hpre 1 ltac:(lia)) as E1.
    cbn [PeriodFetcher.fetch_loop Nat.ltb Nat.leb PeriodFetcher.max_api_call_failures].
    rewrite (@fetch_attempt_raise _ _ _ _ _ _ E0).
    cbn [Nat.add Nat.ltb Nat.leb].
    rewrite fetch_attempt_raise with (e := HTTPError)
      by (cbn [PeriodFetcher.api_calls PeriodFetcher.log PeriodFetcher.count_api_call];
          rewrite <- Nat.add_1_r; exact E1).
    cbn [Nat.add Nat.ltb Nat.leb].
    rewrite fetch_attempt_raise with (e := e)
      by (cbn [PeriodFetcher.api_calls PeriodFetcher.log PeriodFetcher.count_api_call];
          replace (S (S (PeriodFetcher.api_calls w)))
            with (PeriodFetcher.api_calls w + 2) by lia; exact He).
    destruct e;
      (eexists; split; [reflexivity | split; [|reflexivity]];
       cbn; repeat rewrite <- app_assoc; reflexivity).
Qed.

End Fetch.

(** ** The daily schedule *)

Section Schedule.

Variable raises : nat -> bool.
Variable api : nat -> string -> option nat -> outcome (list PeriodFetcher.Result).

(** The categories of a group are fetched in order, whatever the fetches
    return, and the pause follows. *)
Lemma process_group_schedule date_str (t : PeriodFetcher.tier) (g : list string) :
  forall total w,
    exists total' w',
      PeriodFetcher.process_group raises api date_str t total g w
      = Some (Ok total', w') /\
      schedule_of (PeriodFetcher.trace w') =
        schedule_of (PeriodFetcher.trace w) ++ group_schedule t g.
Proof.
  unfold PeriodFetcher.process_group, group_schedule.
  generalize (0 <? List.length g)%nat as pause. intros pause.
  induction g as [|c g IH]; intros total w.
  - cbn. destruct pause; do 2 eexists; (split; [reflexivity|]); cbn.
    + rewrite schedule_of_app. reflexivity.
    + rewrite app_nil_r. reflexivity.
  - cbn [PeriodFetcher.run_fold map].
    unfold PeriodFetcher.run_bind at 1 2 3.
    destruct (fetch_returns raises api c date_str (Some (PeriodFetcher.max_t t))
                (PeriodFetcher.log
                   (PeriodFetcher.FetchCategory c (Some (PeriodFetcher.max_t t))) w))
      as [n [w1 [E Hs]]].
    rewrite E.
    destruct (IH (total + n) w1) as [total' [w' [E' Hs']]].
    unfold PeriodFetcher.run_bind in E'. 
    destruct (PeriodFetcher.run_fold g _ (total + n) w1) as [[[a|e] w2]|] eqn:F;
      try discriminate.
    do 2 eexists. split; [exact E'|].
    rewrite Hs', Hs. cbn. rewrite schedule_of_app. cbn.
    rewrite <- app_assoc. reflexivity.
Qed.

Lemma process_groups_schedule date_str (t : PeriodFetcher.tier) (gs : list (list string)) :
  forall total w,
    exists total' w',
      PeriodFetcher.run_fold gs (PeriodFetcher.process_group raises api date_str t)
        total w = Some (Ok total', w') /\
      schedule_of (PeriodFetcher.trace w') =
        schedule_of (PeriodFetcher.trace w) ++ flat_map (group_schedule t) gs.
Proof.
  induction gs as [|g gs IH]; intros total w.
  - cbn. do 2 eexists. split; [reflexivity|]. rewrite app_nil_r. reflexivity.
  - cbn [PeriodFetcher.run_fold flat_map]. unfold PeriodFetcher.run_bind.
    destruct (process_group_schedule date_str t g total w) as [t1 [w1 [E Hs]]].
    rewrite E.
    destruct (IH t1 w1) as [t2 [w2 [E2 Hs2]]].
    do 2 eexists. split; [exact E2|]. rewrite Hs2, Hs, <- app_assoc. reflexivity.
Qed.

Lemma tiers_fold_schedule date_str (ts : list PeriodFetcher.tier) :
  forall total w,
    exists total' w',
      PeriodFetcher.run_fold ts
        (fun total t =>
           PeriodFetcher.run_fold (PeriodFetcher.tier_groups t)
             (PeriodFetcher.process_group raises api date_str t) total)
        total w = Some (Ok total', w') /\
      schedule_of (PeriodFetcher.trace w') =
        schedule_of (PeriodFetcher.trace w) ++ tiers_schedule ts.
Proof.
  induction ts as [|t ts IH]; intros total w.
  - cbn. do 2 eexists. split; [reflexivity|]. rewrite app_nil_r. reflexivity.
  - cbn [PeriodFetcher.run_fold]. unfold PeriodFetcher.run_bind.
    destruct (process_groups_schedule date_str t (PeriodFetcher.tier_groups t) total w)
      as [t1 [w1 [E Hs]]].
    rewrite E.
    destruct (IH t1 w1) as [t2 [w2 [E2 Hs2]]].
    do 2 eexists. split; [exact E2|].
    rewrite Hs2, Hs, <- app_assoc. reflexivity.
Qed.

(** A daily run goes through the whole schedule, whatever the catalog and
    the store answer; only the statistics printed at the end can raise. *)
Lemma daily_run_schedule (target_date_dt : Py.datetime) (w : PeriodFetcher.world) :
  exists r w',
    PeriodFetcher.fetch_daily_papers_to_db raises api target_date_dt w = Some (r, w') /\
    schedule_of (PeriodFetcher.trace w') =
      schedule_of (PeriodFetcher.trace w) ++
      tiers_schedule PeriodFetcher.category_processing_order.
Proof.
  unfold PeriodFetcher.fetch_daily_papers_to_db, PeriodFetcher.process_tiers,
    PeriodFetcher.run_bind.
  destruct (tiers_fold_schedule (PeriodFetcher.strftime_Ymd target_date_dt)
              PeriodFetcher.category_processing_order 0
              (PeriodFetcher.set_db
                 (Db.connect (Db.committed (PeriodFetcher.db w))) w))
    as [total [w1 [E Hs]]].
  rewrite E.
  destruct (PeriodFetcher.generate_db_statistics raises (PeriodFetcher.db w1))
    as [[u|e] c]; do 2 eexists; (split; [reflexivity|]); exact Hs.
Qed.

End Schedule.

Lemma fetched_categories_schedule trace :
  fetched_categories (schedule_of trace) = fetched_categories trace.
Proof.
  induction trace as [|e l IH]; [reflexivity|].
  unfold schedule_of, fetched_categories in *.
  destruct e; cbn [filter is_schedule_event flat_map app]; rewrite ?IH; reflexivity.
Qed.

Lemma fetched_categories_app l1 l2 :
  fetched_categories (l1 ++ l2) = fetched_categories l1 ++ fetched_categories l2.
Proof. apply flat_map_app. Qed.

Lemma tiers_schedule_expected :
  tiers_schedule PeriodFetcher.category_processing_order = expected_daily_schedule.
Proof. reflexivity. Qed.

(** ** The trace of a daily run, queries included *)

Lemma with_queries_app date_str (s1 s2 : list PeriodFetcher.event) :
  forall js1 js2,
    List.length js1 = List.length (fetched_categories s1) ->
    with_queries date_str (js1 ++ js2) (s1 ++ s2)
    = with_queries date_str js1 s1 ++ with_queries date_str js2 s2.
Proof.
  induction s1 as [|e s1 IH]; intros js1 js2 Hlen.
  - destruct js1; [reflexivity | discriminate].
  - destruct e as [c cap|q m|n|n]; cbn [app with_queries];
      try (rewrite (IH js1 js2 Hlen); reflexivity).
    destruct js1 as [|j js1]; [discriminate|].
    cbn [app hd tl]. rewrite (IH js1 js2); [|simpl in Hlen; lia].
    rewrite <- app_assoc. reflexivity.
Qed.

Lemma fetched_group_schedule t g :
  List.length (fetched_categories (group_schedule t g)) = List.length g.
Proof.
  unfold group_schedule. rewrite fetched_categories_app.
  rewrite length_app.
  replace (List.length (fetched_categories
                          (if (0 <? List.length g)%nat
                           then [PeriodFetcher.Pause (PeriodFetcher.sleep_t t)] else [])))
    with 0 by (destruct (0 <? List.length g)%nat; reflexivity).
  rewrite Nat.add_0_r. induction g as [|c g IH]; [reflexivity|].
  simpl. rewrite IH. reflexivity.
Qed.

Section ExactTrace.

Variable raises : nat -> bool.
Variable api : nat -> string -> option nat -> outcome (list PeriodFetcher.Result).

(** The loop of a fetch sends the same query at each attempt, waits 15
    seconds between two attempts, and writes nothing else. *)
Lemma fetch_loop_trace category date_str max_total :
  forall fuel failures inserted_count w,
    3 - failures < fuel -> failures < 3 ->
    exists n w' j,
      PeriodFetcher.fetch_loop raises api fuel category date_str max_total
        failures inserted_count w = Some (Ok n, w') /\
      j + failures < 3 /\
      PeriodFetcher.trace w' =
        PeriodFetcher.trace w ++ fetch_trace j category date_str max_total.
Proof.
  induction fuel as [|fuel IH]; intros failures inserted_count w Hf Hlt; [lia|].
  cbn [PeriodFetcher.fetch_loop]. unfold PeriodFetcher.max_api_call_failures.
  rewrite (proj2 (Nat.ltb_lt _ _) Hlt).
  destruct (fetch_attempt_spec raises api category date_str max_total inserted_count w)
    as [r [w1 [E [Ht _]]]].
  rewrite E.
  destruct r as [n|[| |]];
    try (do 2 eexists; exists 0; split; [reflexivity|]; split; [lia | exact Ht]).
  destruct (failures + 1 <? 3)%nat eqn:Hlt'.
  - apply Nat.ltb_lt in Hlt'.
    destruct (IH (failures + 1) inserted_count
                 (PeriodFetcher.log (PeriodFetcher.RetryWait 15) w1))
      as [n [w' [j [E' [Hj Ht']]]]]; [lia | exact Hlt' |].
    rewrite E'. exists n, w', (S j). split; [reflexivity|]. split; [lia|].
    rewrite Ht'. cbn [PeriodFetcher.log PeriodFetcher.trace]. rewrite Ht.
    unfold fetch_trace. cbn [retries]. rewrite <- !app_assoc. reflexivity.
  - do 2 eexists; exists 0; split; [reflexivity|]; split; [lia | exact Ht].
Qed.

Lemma fetch_trace_spec category date_str max_total w :
  exists n w' j,
    PeriodFetcher.fetch_papers_by_category_to_db raises api category date_str
      max_total w = Some (Ok n, w') /\
    j <= 2 /\
    PeriodFetcher.trace w' =
      PeriodFetcher.trace w ++ fetch_trace j category date_str max_total.
Proof.
  destruct (@fetch_loop_trace category date_str max_total
              (S PeriodFetcher.max_api_call_failures) 0 0 w)
    as [n [w' [j [E [Hj Ht]]]]];
    [unfold PeriodFetcher.max_api_call_failures; lia | lia |].
  exists n, w', j. split; [exact E|]. split; [lia | exact Ht].
Qed.

Lemma process_group_trace date_str (t : PeriodFetcher.tier) (g : list string) :
  forall total w,
    exists total' w' js,
      PeriodFetcher.process_group raises api date_str t total g w
      = Some (Ok total', w') /\
      List.length js = List.length (fetched_categories (group_schedule t g)) /\
      Forall (fun j => j <= 2) js /\
      PeriodFetcher.trace w' =
        PeriodFetcher.trace w ++ with_queries date_str js (group_schedule t g).
Proof.
  intros total w. rewrite fetched_group_schedule. revert total w.
  unfold PeriodFetcher.process_group, group_schedule.
  generalize (0 <? List.length g)%nat as pause. intros pause.
  induction g as [|c g IH]; intros total w.
  - cbn. destruct pause; do 2 eexists; exists []; (split; [reflexivity|]);
      (split; [reflexivity|]); (split; [constructor|]); cbn.
    + reflexivity.
    + rewrite app_nil_r. reflexivity.
  - cbn [PeriodFetcher.run_fold map].
    unfold PeriodFetcher.run_bind at 1 2 3.
    destruct (fetch_trace_spec c date_str (Some (PeriodFetcher.max_t t))
                (PeriodFetcher.log
                   (PeriodFetcher.FetchCategory c (Some (PeriodFetcher.max_t t))) w))
      as [n [w1 [j [E [Hj Ht]]]]].
    rewrite E.
    destruct (IH (total + n) w1) as [total' [w' [js [E' [Hlen [Hjs Ht']]]]]].
    unfold PeriodFetcher.run_bind in E'.
    destruct (PeriodFetcher.run_fold g _ (total + n) w1) as [[[a|e] w2]|] eqn:F;
      try discriminate.
    exists total', w', (j :: js). split; [exact E'|].
    split; [simpl; rewrite Hlen; reflexivity|].
    split; [constructor; assumption|].
    rewrite Ht', Ht. cbn [PeriodFetcher.log PeriodFetcher.trace app with_queries hd tl].
    rewrite <- !app_assoc. reflexivity.
Qed.

Lemma process_groups_trace date_str (t : PeriodFetcher.tier) (gs : list (list string)) :
  forall total w,
    exists total' w' js,
      PeriodFetcher.run_fold gs (PeriodFetcher.process_group raises api date_str t)
        total w = Some (Ok total', w') /\
      List.length js
      = List.length (fetched_categories (flat_map (group_schedule t) gs)) /\
      Forall (fun j => j <= 2) js /\
      PeriodFetcher.trace w' =
        PeriodFetcher.trace w ++
        with_queries date_str js (flat_map (group_schedule t) gs).
Proof.
  induction gs as [|g gs IH]; intros total w.
  - cbn. do 2 eexists; exists []. split; [reflexivity|]. split; [reflexivity|].
    split; [constructor|]. rewrite app_nil_r. reflexivity.
  - cbn [PeriodFetcher.run_fold flat_map]. unfold PeriodFetcher.run_bind.
    destruct (process_group_trace date_str t g total w)
      as [t1 [w1 [js1 [E [L1 [B1 T1]]]]]].
    rewrite E.
    destruct (IH t1 w1) as [t2 [w2 [js2 [E2 [L2 [B2 T2]]]]]].
    exists t2, w2, (js1 ++ js2). split; [exact E2|].
    split; [rewrite fetched_categories_app, !length_app, L1, L2; reflexivity|].
    split; [apply Forall_app; split; assumption|].
    rewrite T2, T1, (@with_queries_app _ _ _ _ _ L1), <- app_assoc. reflexivity.
Qed.

Lemma tiers_fold_trace date_str (ts : list PeriodFetcher.tier) :
  forall total w,
    exists total' w' js,
      PeriodFetcher.run_fold ts
        (fun total t =>
           PeriodFetcher.run_fold (PeriodFetcher.tier_groups t)
             (PeriodFetcher.process_group raises api date_str t) total)
        total w = Some (Ok total', w') /\
      List.length js = List.length (fetched_categories (tiers_schedule ts)) /\
      Forall (fun j => j <= 2) js /\
      PeriodFetcher.trace w' =
        PeriodFetcher.trace w ++ with_queries date_str js (tiers_schedule ts).
Proof.
  induction ts as [|t ts IH]; intros total w.
  - cbn. do 2 eexists; exists []. split; [reflexivity|]. split; [reflexivity|].
    split; [constructor|]. rewrite app_nil_r. reflexivity.
  - cbn [PeriodFetcher.run_fold]. unfold PeriodFetcher.run_bind.
    destruct (process_groups_trace date_str t (PeriodFetcher.tier_groups t) total w)
      as [t1 [w1 [js1 [E [L1 [B1 T1]]]]]].
    rewrite E.
    destruct (IH t1 w1) as [t2 [w2 [js2 [E2 [L2 [B2 T2]]]]]].
    exists t2, w2, (js1 ++ js2). split; [exact E2|].
    unfold tiers_schedule in *. cbn [flat_map].
    split; [rewrite fetched_categories_app, !length_app, L1, L2; reflexivity|].
    split; [apply Forall_app; split; assumption|].
    rewrite T2, T1, (@with_queries_app _ _ _ _ _ L1), <- app_assoc. reflexivity.
Qed.

(** The loops of a daily run write the tier table, each fetch followed by
    its queries for the day; the statistics write nothing. *)
Lemma daily_run_trace (target_date_dt : Py.datetime) (w : PeriodFetcher.world) :
  exists r w' js,
    PeriodFetcher.fetch_daily_papers_to_db raises api target_date_dt w = Some (r, w') /\
    (raises = never -> exists total, r = Ok total) /\
    List.length js = 40 /\
    Forall (fun j => j <= 2) js /\
    PeriodFetcher.trace w' =
      PeriodFetcher.trace w ++
      with_queries (PeriodFetcher.strftime_Ymd target_date_dt) js
        expected_daily_schedule.
Proof.
  unfold PeriodFetcher.fetch_daily_papers_to_db, PeriodFetcher.process_tiers,
    PeriodFetcher.run_bind.
  destruct (tiers_fold_trace (PeriodFetcher.strftime_Ymd target_date_dt)
              PeriodFetcher.category_processing_order 0
              (PeriodFetcher.set_db
                 (Db.connect (Db.committed (PeriodFetcher.db w))) w))
    as [total [w1 [js [E [L [B T]]]]]].
  rewrite E. rewrite tiers_schedule_expected in L, T.
  change (List.length (fetched_categories expected_daily_schedule)) with 40 in L.
  destruct (PeriodFetcher.generate_db_statistics raises (PeriodFetcher.db w1))
    as [[u|e] c] eqn:G.
  - do 2 eexists; exists js. split; [reflexivity|].
    split; [intros _; exists total; reflexivity|].
    split; [exact L|]. split; [exact B | exact T].
  - do 2 eexists; exists js. split; [reflexivity|].
    split.
    { intros ->. exfalso. revert G.
      unfold PeriodFetcher.generate_db_statistics, bind, Db.query, never.
      discriminate. }
    split; [exact L|]. split; [exact B | exact T].
Qed.

End ExactTrace.

(** C7. A daily run, whatever the catalog and the store answer, writes the
    schedule of the tier table: HIGH, then MEDIUM, then LOW, each tier in
    declared order; the HIGH categories one at a time under cap 500 with 5
    seconds after each; the MEDIUM categories by pairs under cap 300 with 3
    seconds after each pair; the LOW categories by fives (the last group has
    the three that remain) under cap 150 with 2 seconds after each group.
    The cap of a fetch is the [max_results] of every query the fetch sends:
    the whole trace of the run is the tier table in which each of the 40
    starts of a fetch is followed by the queries of this fetch, for its
    category and the day of the run, under its cap, each fetch sending one
    query more than the attempts (at most 2) that failed with
    [HTTPError]. *)
Theorem daily_run_follows_tier_schedule
    (raises : nat -> bool)
    (api : nat -> string -> option nat -> outcome (list PeriodFetcher.Result))
    (target_date_dt : Py.datetime) (w : PeriodFetcher.world) :
  exists r w' js,
    PeriodFetcher.fetch_daily_papers_to_db raises api target_date_dt w = Some (r, w') /\
    schedule_of (PeriodFetcher.trace w') =
      schedule_of (PeriodFetcher.trace w) ++ expected_daily_schedule /\
    List.length js = 40 /\
    Forall (fun j => j <= 2) js /\
    PeriodFetcher.trace w' =
      PeriodFetcher.trace w ++
      with_queries (PeriodFetcher.strftime_Ymd target_date_dt) js
        expected_daily_schedule.
Proof.
  destruct (daily_run_schedule raises api target_date_dt w) as [r [w' [E H]]].
  destruct (daily_run_trace raises api target_date_dt w)
    as [r' [w'' [js [E' [_ [L [B T]]]]]]].
  rewrite E in E'. injection E' as <- <-.
  exists r, w', js. split; [exact E|].
  split; [rewrite H, tiers_schedule_expected; reflexivity|].
  split; [exact L|]. split; [exact B | exact T].
Qed.

(** C5. Within one category fetch, [HTTPError] is retried with 15 seconds
    between attempts and at most 3 attempts in all: when the first [j]
    attempts fail with [HTTPError] and the next one fails too, being either
    the third attempt or a failure with another exception, the fetch returns
    the count inserted so far (0: the results are read before any insert)
    without raising, after exactly [j + 1] queries, and leaves the
    connection untouched.  A fetch never raises, and a daily run starts the
    fetch of every category in order whatever the catalog answers. *)
Theorem fetch_gives_up_without_raising
    (raises : nat -> bool)
    (api : nat -> string -> option nat -> outcome (list PeriodFetcher.Result))
    (category date_str : string) (max_total : option nat)
    (w : PeriodFetcher.world) (j : nat) (e : exn) :
  j < 3 ->
  (forall i, i < j ->
     api (PeriodFetcher.api_calls w + i) (PeriodFetcher.fetch_query category date_str)
         (if PeriodFetcher.truthy_nat max_total then max_total else None)
     = Raise HTTPError) ->
  api (PeriodFetcher.api_calls w + j) (PeriodFetcher.fetch_query category date_str)
      (if PeriodFetcher.truthy_nat max_total then max_total else None)
  = Raise e ->
  (e = HTTPError -> j = 2) ->
  (exists w',
     PeriodFetcher.fetch_papers_by_category_to_db raises api category date_str
       max_total w = Some (Ok 0, w') /\
     PeriodFetcher.trace w' =
       PeriodFetcher.trace w ++
       retries j (query_event category date_str max_total) ++
       [query_event category date_str max_total] /\
     PeriodFetcher.db w' = PeriodFetcher.db w) /\
  (forall category' date_str' max_total' w0,
     exists n w',
       PeriodFetcher.fetch_papers_by_category_to_db raises api category' date_str'
         max_total' w0 = Some (Ok n, w')) /\
  (forall target_date_dt w0,
     exists r w',
       PeriodFetcher.fetch_daily_papers_to_db raises api target_date_dt w0
       = Some (r, w') /\
       fetched_categories (PeriodFetcher.trace w') =
         fetched_categories (PeriodFetcher.trace w0) ++
         PeriodFetcher.HIGH_VOLUME_CATEGORIES ++
         PeriodFetcher.MEDIUM_VOLUME_CATEGORIES ++
         PeriodFetcher.LOW_VOLUME_CATEGORIES).
Proof.
  intros Hj Hpre He Hlast. split; [|split].
  - apply fetch_gives_up with (e := e); assumption.
  - intros category' date_str' max_total' w0.
    destruct (fetch_returns raises api category' date_str' max_total' w0)
      as [n [w' [E _]]]. eauto.
  - intros target_date_dt w0.
    destruct (daily_run_schedule raises api target_date_dt w0) as [r [w' [E H]]].
    exists r, w'. split; [exact E|].
    rewrite <- (fetched_categories_schedule (PeriodFetcher.trace w')), H.
    rewrite fetched_categories_app, fetched_categories_schedule.
    reflexivity.
Qed.

(** Retry exhaustion at work: three [HTTPError] in a row on a fresh run. *)
Lemma fetch_gives_up_without_raising_witness :
  exists w',
    PeriodFetcher.fetch_papers_by_category_to_db never failing_api "cs.AI" "20240115"
      (Some 500) fresh_world = Some (Ok 0, w') /\
    PeriodFetcher.trace w' =
      [query_event "cs.AI" "20240115" (Some 500); PeriodFetcher.RetryWait 15;
       query_event "cs.AI" "20240115" (Some 500); PeriodFetcher.RetryWait 15;
       query_event "cs.AI" "20240115" (Some 500)] /\
    PeriodFetcher.db w' = Db.connect Store.empty.
Proof.
  refine (proj1 (@fetch_gives_up_without_raising never failing_api "cs.AI" "20240115"
                   (Some 500) fresh_world 2 HTTPError _ _ _ _)).
  - lia.
  - intros i _. reflexivity.
  - reflexivity.
  - intros _. reflexivity.
Defined.

(** ** Transactions *)

Lemma triple_bind S A B (I : S -> Prop) (m : M S A) (k : A -> M S B)
    (Q : outcome B -> S -> Prop) :
  maintains I m ->
  (forall e s, I s -> Q (Raise e) s) ->
  (forall a, triple I (k a) Q) ->
  triple I (bind m k) Q.
Proof.
  intros Hm Hr Hk s r s' Hs H. unfold bind in H.
  destruct (m s) as [[a|e] s1] eqn:E.
  - eapply Hk; [eapply Hm; eauto | exact H].
  - inversion H. subst. apply Hr. eapply Hm; eauto.
Qed.

Section Connection.

Variable raises : nat -> bool.

(** Statements do not touch what is durable. *)
Lemma query_keeps_committed A (q : Store.t -> A * Store.t) s0 :
  maintains (fun c => Db.committed c = s0) (Db.query raises q).
Proof.
  intros c r c' Hc H. unfold Db.query in H.
  destruct (raises (Db.clock c)).
  - injection H as <- <-. exact Hc.
  - destruct (q (Db.working c)) as [a s]. injection H as <- <-. exact Hc.
Qed.

Lemma execute_keeps_committed (q : Store.t -> Store.t) s0 :
  maintains (fun c => Db.committed c = s0) (Db.execute raises q).
Proof. apply query_keeps_committed. Qed.

Lemma execute_values_keeps_committed R (row : R -> Store.t -> Store.t) rows s0 :
  maintains (fun c => Db.committed c = s0) (Db.execute_values raises row rows).
Proof.
  unfold Db.execute_values. apply maintains_for_each.
  intros page. apply execute_keeps_committed.
Qed.

(** A commit that raises leaves what is durable; one that succeeds leaves no
    transaction open. *)
Lemma commit_spec s0 :
  triple (fun c => Db.committed c = s0) (Db.commit raises)
         (fun r c' => match r with
                      | Raise _ => Db.committed c' = s0
                      | Ok _ => Db.clean c'
                      end).
Proof.
  intros c r c' Hc H. unfold Db.commit in H.
  destruct (raises (Db.clock c)); injection H as <- <-.
  - exact Hc.
  - reflexivity.
Qed.

Lemma link_author_keeps_committed pid acc ia s0 :
  maintains (fun c => Db.committed c = s0)
            (PeriodFetcher.link_author raises pid acc ia).
Proof.
  unfold PeriodFetcher.link_author. destruct ia as [i name].
  apply maintains_bind; [apply query_keeps_committed|].
  intros [aid|]; [apply maintains_ret|].
  apply maintains_bind; [apply query_keeps_committed|].
  intros [aid|]; apply maintains_ret.
Qed.

(** The steps of one apply: if they raise, nothing durable has changed; if
    they do not, the transaction is closed. *)
Lemma insert_paper_steps_spec (r : PeriodFetcher.Result) s0 :
  triple (fun c => Db.committed c = s0) (PeriodFetcher.insert_paper_steps raises r)
         (fun o c' => match o with
                      | Raise _ => Db.committed c' = s0
                      | Ok _ => Db.clean c'
                      end).
Proof.
  unfold PeriodFetcher.insert_paper_steps.
  apply triple_bind; [| auto |].
  { destruct (PeriodFetcher.primary_category r) as [p|]; [|apply maintains_ret].
    destruct (Py.truthy p); [apply execute_keeps_committed | apply maintains_ret]. }
  intros _. apply triple_bind; [apply execute_keeps_committed | auto |].
  intros _. apply triple_bind; [| auto |].
  { apply maintains_fold_each. intros acc x. apply link_author_keeps_committed. }
  intros rows. apply triple_bind; [| auto |].
  { destruct rows; [apply maintains_ret | apply execute_values_keeps_committed]. }
  intros _. apply triple_bind; [| auto |].
  { destruct (PeriodFetcher.categories r) as [|c0 cs]; [apply maintains_ret|].
    apply maintains_bind.
    - destruct (map _ _); [apply maintains_ret | apply execute_values_keeps_committed].
    - intros _. destruct (map _ _); [apply maintains_ret | apply execute_values_keeps_committed]. }
  intros _. apply commit_spec.
Qed.

(** A rollback returns to the tables of the last commit and leaves no
    transaction open; the sequence keeps the values drawn. *)
Lemma rollback_spec (c : Db.conn) :
  Db.clean (Db.rollback c) /\
  same_tables (Db.committed c) (Db.committed (Db.rollback c)) /\
  Store.author_seq (Db.committed (Db.rollback c))
  = Nat.max (Store.author_seq (Db.committed c)) (Store.author_seq (Db.working c)).
Proof. repeat split. Qed.

(** [insert_paper_data] always leaves the connection without an open
    transaction, and a [False] means that the tables are those of the last
    commit, the sequence having advanced at most. *)
Lemma insert_paper_data_spec (c : Db.conn) (r : PeriodFetcher.Result) :
  Db.clean (snd (PeriodFetcher.insert_paper_data raises c r)) /\
  (fst (PeriodFetcher.insert_paper_data raises c r) = false ->
   exists n,
     Store.author_seq (Db.committed c) <= n /\
     Db.committed (snd (PeriodFetcher.insert_paper_data raises c r))
     = Store.set_author_seq n (Db.committed c)).
Proof.
  unfold PeriodFetcher.insert_paper_data.
  pose proof (@insert_paper_steps_spec r (Db.committed c) c) as H.
  destruct (PeriodFetcher.insert_paper_steps raises r c) as [[u|e] c'] eqn:E.
  - specialize (H _ _ eq_refl eq_refl). simpl in *. split; [exact H | discriminate].
  - specialize (H _ _ eq_refl eq_refl). cbv beta iota in H.
    cbn [fst snd]. split; [reflexivity|]. intros _.
    exists (Nat.max (Store.author_seq (Db.committed c'))
                    (Store.author_seq (Db.working c'))).
    rewrite <- H. split; [apply Nat.le_max_l | reflexivity].
Qed.

(** The connection is without an open transaction after any number of
    applies on a fresh connection. *)
Lemma insert_results_clean (results : list PeriodFetcher.Result) :
  forall n c, Db.clean c ->
    Db.clean (snd (PeriodFetcher.insert_results raises results n c)).
Proof.
  induction results as [|r l IH]; intros n c Hc; [exact Hc|].
  cbn [PeriodFetcher.insert_results].
  pose proof (insert_paper_data_spec c r) as [Hcl _].
  destruct (PeriodFetcher.insert_paper_data raises c r) as [ok c'].
  apply IH. exact Hcl.
Qed.

Lemma insert_results_app (l1 l2 : list PeriodFetcher.Result) :
  forall n c,
    PeriodFetcher.insert_results raises (l1 ++ l2) n c =
    PeriodFetcher.insert_results raises l2
      (fst (PeriodFetcher.insert_results raises l1 n c))
      (snd (PeriodFetcher.insert_results raises l1 n c)).
Proof.
  induction l1 as [|r l IH]; intros n c; [reflexivity|].
  cbn [app PeriodFetcher.insert_results].
  destruct (PeriodFetcher.insert_paper_data raises c r) as [ok c'].
  apply IH.
Qed.

End Connection.

(** ** Rows that are only ever added *)

Lemma grows_refl s0 : grows s0 s0.
Proof.
  split; exists []; rewrite app_nil_r; (split; [reflexivity | intros r []]).
Qed.

Lemma grows_papers_with_id s0 s pid :
  grows s0 s -> Store.has_paper pid s0 = true ->
  Store.papers_with_id pid s = Store.papers_with_id pid s0.
Proof.
  intros [[extra [E Hx]] _] Hp. unfold Store.papers_with_id.
  rewrite E, filter_app.
  assert (N : filter (fun r => String.eqb (Store.id r) pid) extra = []).
  { clear E. induction extra as [|r l IH]; [reflexivity|]. simpl.
    destruct (String.eqb (Store.id r) pid) eqn:Q.
    - apply String.eqb_eq in Q. rewrite <- Q, (Hx r (or_introl eq_refl)) in Hp.
      discriminate.
    - apply IH. intros r' Hr'. apply Hx. right. exact Hr'. }
  rewrite N. apply app_nil_r.
Qed.

Lemma pa_key_eqb_eq k1 k2 : Store.pa_key_eqb k1 k2 = true <-> k1 = k2.
Proof.
  destruct k1 as [a1 b1], k2 as [a2 b2]. unfold Store.pa_key_eqb. simpl.
  rewrite andb_true_iff, String.eqb_eq, Nat.eqb_eq. split.
  - intros [-> ->]. reflexivity.
  - intros E. inversion E. auto.
Qed.

Lemma find_app_some A (f : A -> bool) l1 l2 x :
  find f l1 = Some x -> find f (l1 ++ l2) = Some x.
Proof.
  induction l1 as [|a l IH]; simpl; [discriminate|].
  destruct (f a); auto.
Qed.

Lemma grows_author_order s0 s k o :
  grows s0 s -> Store.author_order k s0 = Some o ->
  Store.author_order k s = Some o.
Proof.
  intros [_ [extra [E _]]] H. unfold Store.author_order in *. rewrite E.
  destruct (find _ (Store.paper_authors s0)) as [x|] eqn:F; [|discriminate].
  rewrite (find_app_some _ _ extra F). exact H.
Qed.

Lemma existsb_app_false A (f : A -> bool) l1 l2 :
  existsb f (l1 ++ l2) = false -> existsb f l1 = false.
Proof. rewrite existsb_app, orb_false_iff. tauto. Qed.

(** The statements of the batched import only add rows. *)
Lemma insert_paper_do_nothing_grows s0 n :
  keeps (grows s0) (fun s => snd (Store.insert_paper_do_nothing n s)).
Proof.
  intros s [[extra [E Hx]] Hpa]. unfold Store.insert_paper_do_nothing.
  destruct (Store.has_paper (Store.id n) s) eqn:Hn; simpl.
  - split; [exists extra; auto | exact Hpa].
  - split; [|exact Hpa]. exists (extra ++ [n]). split.
    + rewrite E, app_assoc. reflexivity.
    + intros r Hr. apply in_app_or in Hr. destruct Hr as [Hr|[<-|[]]]; [auto|].
      unfold Store.has_paper in *. rewrite E in Hn.
      apply existsb_app_false in Hn. exact Hn.
Qed.

Lemma insert_paper_author_do_nothing_grows s0 r :
  keeps (grows s0) (Store.insert_paper_author_do_nothing r).
Proof.
  intros s [Hp [extra [E Hx]]]. unfold Store.insert_paper_author_do_nothing.
  destruct (Store.has_paper_author (Store.pa_key r) s) eqn:Hn; simpl.
  - split; [exact Hp | exists extra; auto].
  - split; [exact Hp|]. exists (extra ++ [r]). split.
    + rewrite E, app_assoc. reflexivity.
    + intros r' Hr. apply in_app_or in Hr. destruct Hr as [Hr|[<-|[]]]; [auto|].
      unfold Store.has_paper_author in *. rewrite E in Hn.
      apply existsb_app_false in Hn. exact Hn.
Qed.

Lemma insert_category_do_nothing_grows s0 r :
  keeps (grows s0) (Store.insert_category_do_nothing r).
Proof.
  intros s H. unfold Store.insert_category_do_nothing.
  destruct (Store.has_category (fst r) s); exact H.
Qed.

Lemma insert_author_do_nothing_grows s0 name :
  keeps (grows s0) (Store.insert_author_do_nothing name).
Proof.
  intros s H. unfold Store.insert_author_do_nothing.
  destruct (Store.find_author name s); exact H.
Qed.

Lemma insert_paper_category_do_nothing_grows s0 r :
  keeps (grows s0) (Store.insert_paper_category_do_nothing r).
Proof.
  intros s H. unfold Store.insert_paper_category_do_nothing.
  destruct (Store.has_paper_category r s); exact H.
Qed.

Lemma insert_rows_keeps R (P : Store.t -> Prop) (row : R -> Store.t -> Store.t) rows :
  (forall r, keeps P (row r)) -> keeps P (Store.insert_rows row rows).
Proof.
  intros Hrow. unfold Store.insert_rows.
  induction rows as [|r l IH]; intros s Hs; simpl; [exact Hs|].
  apply IH. apply Hrow. exact Hs.
Qed.

(** The unique constraints do not depend on how far the sequence is ahead
    of the identifiers in use. *)
Lemma unique_past_draws : past_draws Store.unique.
Proof.
  intros s n [U1 U2 U3 U4 U5 U6 U7] Hn.
  constructor; try assumption.
  intros r Hr. simpl. specialize (U4 r Hr). lia.
Qed.

(** A property of the tables alone does not depend on the sequence. *)
Lemma tables_past_draws (P : Store.t -> Prop) :
  (forall s n, P s -> P (Store.set_author_seq n s)) -> past_draws P.
Proof. intros H s n Hs _. apply H. exact Hs. Qed.

Section ConnectionInvariant.

Variable raises : nat -> bool.
Variable P : Store.t -> Prop.

Lemma query_on_both A (q : Store.t -> A * Store.t) :
  keeps P (fun s => snd (q s)) -> maintains (on_both P) (Db.query raises q).
Proof.
  intros Hq c r c' [Hc Hw] H. unfold Db.query in H.
  destruct (raises (Db.clock c)).
  - injection H as <- <-. split; assumption.
  - specialize (Hq _ Hw). cbv beta in Hq. destruct (q (Db.working c)) as [a s].
    injection H as <- <-. split; assumption.
Qed.

Lemma execute_on_both (q : Store.t -> Store.t) :
  keeps P q -> maintains (on_both P) (Db.execute raises q).
Proof. intros Hq. apply query_on_both. exact Hq. Qed.

Lemma execute_values_on_both R (row : R -> Store.t -> Store.t) rows :
  (forall r, keeps P (row r)) ->
  maintains (on_both P) (Db.execute_values raises row rows).
Proof.
  intros Hrow. unfold Db.execute_values. apply maintains_for_each.
  intros page. apply execute_on_both. apply insert_rows_keeps. exact Hrow.
Qed.

Lemma commit_on_both : maintains (on_both P) (Db.commit raises).
Proof.
  intros c r c' [Hc Hw] H. unfold Db.commit in H.
  destruct (raises (Db.clock c)); injection H as <- <-; split; assumption.
Qed.

Lemma rollback_on_both c : past_draws P -> on_both P c -> on_both P (Db.rollback c).
Proof.
  intros Hp [Hc _].
  assert (H : P (Db.committed (Db.rollback c))).
  { apply Hp; [exact Hc | apply Nat.le_max_l]. }
  split; exact H.
Qed.

Lemma link_author_on_both pid acc ia :
  (forall name, keeps P (fun s => snd (Store.upsert_author name s))) ->
  maintains (on_both P) (PeriodFetcher.link_author raises pid acc ia).
Proof.
  intros Ha. unfold PeriodFetcher.link_author. destruct ia as [i name].
  apply maintains_bind; [apply query_on_both; apply Ha|].
  intros [aid|]; [apply maintains_ret|].
  apply maintains_bind; [apply query_on_both; intros s Hs; exact Hs|].
  intros [aid|]; apply maintains_ret.
Qed.

(** What every statement of an apply keeps, the steps of the apply keep on
    both sides of the transaction. *)
Lemma insert_paper_steps_on_both (r : PeriodFetcher.Result) :
  (forall row, keeps P (Store.insert_category_do_nothing row)) ->
  (forall row, keeps P (Store.upsert_paper row)) ->
  (forall name, keeps P (fun s => snd (Store.upsert_author name s))) ->
  (forall row, keeps P (Store.upsert_paper_author row)) ->
  (forall row, keeps P (Store.insert_paper_category_do_nothing row)) ->
  maintains (on_both P) (PeriodFetcher.insert_paper_steps raises r).
Proof.
  intros Hc Hp Ha Hpa Hpc. unfold PeriodFetcher.insert_paper_steps.
  apply maintains_bind.
  { destruct (PeriodFetcher.primary_category r) as [p|]; [|apply maintains_ret].
    destruct (Py.truthy p); [apply execute_on_both; apply Hc | apply maintains_ret]. }
  intros _. apply maintains_bind; [apply execute_on_both; apply Hp|].
  intros _. apply maintains_bind.
  { apply maintains_fold_each. intros acc x. apply link_author_on_both. exact Ha. }
  intros rows. apply maintains_bind.
  { destruct rows; [apply maintains_ret | apply execute_values_on_both; exact Hpa]. }
  intros _. apply maintains_bind; [|intros _; apply commit_on_both].
  destruct (PeriodFetcher.categories r) as [|c0 cs]; [apply maintains_ret|].
  apply maintains_bind.
  - destruct (map _ _); [apply maintains_ret | apply execute_values_on_both; exact Hc].
  - intros _. destruct (map _ _);
      [apply maintains_ret | apply execute_values_on_both; exact Hpc].
Qed.

End ConnectionInvariant.

(** The statements of an apply only advance the sequence. *)
Lemma insert_paper_steps_draws (raises : nat -> bool) (r : PeriodFetcher.Result)
    (n0 : nat) :
  maintains (on_both (fun s => n0 <= Store.author_seq s))
            (PeriodFetcher.insert_paper_steps raises r).
Proof.
  apply insert_paper_steps_on_both.
  - intros row s Hs. unfold Store.insert_category_do_nothing.
    destruct (Store.has_category _ _); exact Hs.
  - intros row s Hs. unfold Store.upsert_paper.
    destruct (Store.has_paper _ _); exact Hs.
  - intros name s Hs. unfold Store.upsert_author.
    destruct (Store.find_author name s); simpl; lia.
  - intros row s Hs. unfold Store.upsert_paper_author.
    destruct (Store.has_paper_author _ _); exact Hs.
  - intros row s Hs. unfold Store.insert_paper_category_do_nothing.
    destruct (Store.has_paper_category _ _); exact Hs.
Qed.

Lemma maintains_for_each_in S A (I : S -> Prop) (l : list A) (body : A -> M S unit) :
  (forall x, In x l -> maintains I (body x)) -> maintains I (for_each l body).
Proof.
  induction l as [|x l IH]; intros Hb; simpl.
  - apply maintains_ret.
  - apply maintains_bind.
    + apply Hb. left. reflexivity.
    + intros _. apply IH. intros y Hy. apply Hb. right. exact Hy.
Qed.

Lemma in_enumerate A (l : list A) :
  forall start i x, In (i, x) (Py.enumerate start l) ->
    nth_error l (i - start) = Some x /\ start <= i.
Proof.
  induction l as [|a l IH]; intros start i x H; simpl in H; [contradiction|].
  destruct H as [H|H].
  - injection H as <- <-. rewrite Nat.sub_diag. split; [reflexivity | lia].
  - apply IH in H. destruct H as [H Hle].
    replace (i - start) with (S (i - S start)) by lia. split; [exact H | lia].
Qed.

(** ** The batched import keeps what its statements keep *)

Section ImportInvariant.

Variable raises : nat -> bool.
Variable fromisoformat : string -> option Py.datetime.
Variable strptime : string -> string -> option Py.datetime.
Variable papers : list ImportArxiv.Paper.

(** A property of stores kept by each statement [main] can send for the
    file [papers]. *)
Variable P : Store.t -> Prop.

Hypothesis keeps_paper :
  forall paper pid,
    In paper papers -> ImportArxiv.p_id paper = Some pid -> Py.truthy pid = true ->
    keeps P (fun s =>
               snd (Store.insert_paper_do_nothing
                      (ImportArxiv.paper_row fromisoformat strptime pid
                         (title_or_empty paper) paper) s)).
Hypothesis keeps_category : forall r, keeps P (Store.insert_category_do_nothing r).
Hypothesis keeps_author : forall name, keeps P (Store.insert_author_do_nothing name).
Hypothesis keeps_paper_author :
  forall r, keeps P (Store.insert_paper_author_do_nothing r).
Hypothesis keeps_paper_category :
  forall r, keeps P (Store.insert_paper_category_do_nothing r).
Hypothesis P_past_draws : past_draws P.

Let J (st : ImportArxiv.state) : Prop := on_both P (ImportArxiv.conn st).

Lemma db_maintains A (m : M Db.conn A) :
  maintains (on_both P) m -> maintains J (ImportArxiv.db m).
Proof.
  intros Hm st r st' Hst H. unfold ImportArxiv.db in H.
  destruct (m (ImportArxiv.conn st)) as [r0 c] eqn:E.
  injection H as <- <-. exact (Hm _ _ _ Hst E).
Qed.

Lemma modify_maintains (f : ImportArxiv.state -> ImportArxiv.state) :
  (forall st, ImportArxiv.conn (f st) = ImportArxiv.conn st) ->
  maintains J (ImportArxiv.modify f).
Proof.
  intros Hf st r st' Hst H. unfold ImportArxiv.modify in H.
  injection H as <- <-. unfold J. rewrite Hf. exact Hst.
Qed.

Lemma when_maintains (b : ImportArxiv.state -> bool) (m : M ImportArxiv.state unit) :
  maintains J m ->
  maintains J (fun st => if b st then m st else (Ok tt, st)).
Proof.
  intros Hm st r st' Hst H. destruct (b st).
  - exact (Hm _ _ _ Hst H).
  - injection H as <- <-. exact Hst.
Qed.

Lemma read_only_keeps A (f : Store.t -> A) : keeps P (fun s => snd (f s, s)).
Proof. intros s Hs. exact Hs. Qed.

Lemma refresh_author_ids_maintains :
  maintains J (ImportArxiv.refresh_author_ids raises).
Proof.
  intros st0 r st' Hst H. unfold ImportArxiv.refresh_author_ids in H.
  eapply maintains_for_each; [| exact Hst | exact H].
  intros author st r1 st1 Hst1 H1. cbv beta in H1.
  destruct (ImportArxiv.dict_get (ImportArxiv.author_name_to_id st) author)
    as [[aid|]|].
  - injection H1 as <- <-. exact Hst1.
  - revert H1. apply maintains_bind; [| | exact Hst1].
    + apply db_maintains. apply query_on_both. apply read_only_keeps.
    + intros [aid|]; [apply modify_maintains; reflexivity | apply maintains_ret].
  - injection H1 as <- <-. exact Hst1.
Qed.

Lemma flush_list_maintains R (rows : ImportArxiv.state -> list R)
    (row : R -> Store.t -> Store.t) :
  (forall r, keeps P (row r)) ->
  maintains J (ImportArxiv.flush_list raises rows row).
Proof.
  intros Hrow st r st' Hst H. unfold ImportArxiv.flush_list in H.
  destruct (rows st) as [|x l].
  - injection H as <- <-. exact Hst.
  - revert H. apply db_maintains; [| exact Hst].
    apply execute_values_on_both. exact Hrow.
Qed.

Lemma not_iterable_maintains A : maintains J (@ImportArxiv.not_iterable A).
Proof. intros st r st' Hst H. injection H as <- <-. exact Hst. Qed.

Lemma append_relations_maintains ps :
  maintains J (ImportArxiv.append_relations ps).
Proof.
  unfold ImportArxiv.append_relations. apply maintains_for_each. intros paper.
  destruct (ImportArxiv.p_id paper) as [pid|]; [|apply maintains_ret].
  destruct (negb (Py.truthy pid)); [apply maintains_ret|].
  destruct (ImportArxiv.p_authors paper) as [authors|].
  - apply modify_maintains. reflexivity.
  - apply not_iterable_maintains.
Qed.

Lemma prints_conn (l : list ImportArxiv.message) :
  forall st,
    ImportArxiv.conn (fold_left (fun st m => ImportArxiv.print m st) l st)
    = ImportArxiv.conn st.
Proof.
  induction l as [|m l IH]; intros st; [reflexivity|]. simpl. rewrite IH. reflexivity.
Qed.

Lemma flush_window_maintains i :
  maintains J (ImportArxiv.flush_window raises papers i).
Proof.
  unfold ImportArxiv.flush_window.
  apply maintains_bind.
  { apply when_maintains with (b := fun st => ImportArxiv.nonempty (ImportArxiv.new_categories st)).
    apply maintains_bind.
    - apply flush_list_maintains. exact keeps_category.
    - intros _. apply modify_maintains. reflexivity. }
  intros _. apply maintains_bind.
  { apply when_maintains with (b := fun st => ImportArxiv.nonempty (ImportArxiv.new_authors st)).
    apply maintains_bind.
    - apply flush_list_maintains. exact keeps_author.
    - intros _. apply maintains_bind.
      + apply modify_maintains. reflexivity.
      + intros _. apply refresh_author_ids_maintains. }
  intros _. apply maintains_bind.
  { apply append_relations_maintains. }
  intros _. apply maintains_bind.
  { apply when_maintains with (b := fun st => ImportArxiv.nonempty (ImportArxiv.new_paper_authors st)).
    apply maintains_bind.
    - apply flush_list_maintains. exact keeps_paper_author.
    - intros _. apply modify_maintains. reflexivity. }
  intros _. apply maintains_bind.
  { apply when_maintains with (b := fun st => ImportArxiv.nonempty (ImportArxiv.new_paper_categories st)).
    apply maintains_bind.
    - apply flush_list_maintains. exact keeps_paper_category.
    - intros _. apply modify_maintains. reflexivity. }
  intros _. apply db_maintains. apply commit_on_both.
Qed.

Lemma collect_categories_conn categories st :
  ImportArxiv.conn (ImportArxiv.collect_categories categories st) = ImportArxiv.conn st.
Proof.
  unfold ImportArxiv.collect_categories.
  revert st. induction categories as [|c l IH]; intros st; [reflexivity|].
  simpl. rewrite IH. destruct (_ && _); reflexivity.
Qed.

Lemma collect_authors_conn authors st :
  ImportArxiv.conn (ImportArxiv.collect_authors authors st) = ImportArxiv.conn st.
Proof.
  unfold ImportArxiv.collect_authors.
  revert st. induction authors as [|c l IH]; intros st; [reflexivity|].
  simpl. rewrite IH. destruct (negb (Py.truthy c)); [reflexivity|].
  destruct (negb _); reflexivity.
Qed.

Lemma try_paper_maintains i pid paper :
  In paper papers -> ImportArxiv.p_id paper = Some pid -> Py.truthy pid = true ->
  maintains J (ImportArxiv.try_paper raises fromisoformat strptime papers i pid
                 (title_or_empty paper) paper).
Proof.
  intros Hin Hid Hpid. unfold ImportArxiv.try_paper.
  apply maintains_bind.
  { apply modify_maintains. intros st. apply prints_conn. }
  intros _. apply maintains_bind.
  { apply db_maintains. apply query_on_both. apply keeps_paper; assumption. }
  intros _. apply maintains_bind.
  { destruct (ImportArxiv.p_categories paper);
      [apply modify_maintains; reflexivity | apply not_iterable_maintains]. }
  intros _. destruct (Nat.eqb _ 0); [apply flush_window_maintains | apply maintains_ret].
Qed.

Lemma import_paper_maintains ip :
  In ip (Py.enumerate 0 papers) ->
  maintains J (ImportArxiv.import_paper raises fromisoformat strptime papers ip).
Proof.
  intros Hin st r st' Hst H. destruct ip as [i paper].
  apply in_enumerate in Hin. destruct Hin as [Hnth _].
  apply nth_error_In in Hnth.
  unfold ImportArxiv.import_paper in H.
  destruct (ImportArxiv.p_id paper) as [pid|] eqn:Hid; simpl in H.
  2:{ injection H as <- <-. exact Hst. }
  destruct (Py.truthy pid) eqn:Hpid; simpl in H.
  2:{ injection H as <- <-. exact Hst. }
  assert (T : forall st1 title,
             (if negb (Py.truthy_opt (ImportArxiv.p_title paper))
              then ("", ImportArxiv.print (ImportArxiv.WarnNoTitle pid) st)
              else (match ImportArxiv.p_title paper with Some s => s | None => "" end, st))
             = (title, st1) ->
             title = title_or_empty paper /\ J st1).
  { intros st1 title E. unfold title_or_empty.
    destruct (Py.truthy_opt (ImportArxiv.p_title paper)); simpl in E;
      injection E as <- <-; split; auto. }
  destruct (if negb (Py.truthy_opt (ImportArxiv.p_title paper)) then _ else _)
    as [title st1] eqn:E.
  destruct (T _ _ eq_refl) as [-> Hst1]. clear T.
  destruct (ImportArxiv.p_categories paper) as [categories|] eqn:Hc.
  2:{ injection H as <- <-. exact Hst1. }
  assert (Hst1' : J (ImportArxiv.collect_categories categories st1)).
  { unfold J. rewrite collect_categories_conn. exact Hst1. }
  destruct (ImportArxiv.p_authors paper) as [authors|] eqn:Ha.
  2:{ injection H as <- <-. exact Hst1'. }
  assert (Hst2 : J (ImportArxiv.collect_authors authors
                      (ImportArxiv.collect_categories categories st1))).
  { unfold J. rewrite collect_authors_conn. exact Hst1'. }
  destruct (ImportArxiv.try_paper _ _ _ _ _ _ _ _ _) as [[u|e] st3] eqn:F.
  - injection H as <- <-.
    exact (@try_paper_maintains i pid paper Hnth Hid Hpid _ _ _ Hst2 F).
  - pose proof (@try_paper_maintains i pid paper Hnth Hid Hpid _ _ _ Hst2 F) as Hst3.
    destruct e; injection H as <- <-; try exact Hst3.
    apply rollback_on_both; [exact P_past_draws | exact Hst3].
Qed.

Lemma finish_maintains :
  maintains J (ImportArxiv.finish raises papers).
Proof.
  unfold ImportArxiv.finish.
  apply maintains_bind; [apply flush_list_maintains; exact keeps_category|].
  intros _. apply maintains_bind.
  { apply when_maintains with (b := fun st => ImportArxiv.nonempty (ImportArxiv.new_authors st)).
    apply maintains_bind.
    - apply flush_list_maintains. exact keeps_author.
    - intros _. apply refresh_author_ids_maintains. }
  intros _. apply maintains_bind; [apply append_relations_maintains|].
  intros _. apply maintains_bind; [apply flush_list_maintains; exact keeps_paper_author|].
  intros _. apply maintains_bind; [apply flush_list_maintains; exact keeps_paper_category|].
  intros _. apply maintains_bind; [apply db_maintains; apply commit_on_both|].
  intros _. apply modify_maintains. reflexivity.
Qed.

Lemma preload_maintains : maintains J (ImportArxiv.preload raises).
Proof.
  unfold ImportArxiv.preload.
  apply maintains_bind.
  { apply db_maintains. apply query_on_both. apply read_only_keeps. }
  intros rows. apply maintains_bind; [apply modify_maintains; reflexivity|].
  intros _. apply maintains_bind.
  { apply db_maintains. apply query_on_both. apply read_only_keeps. }
  intros codes. apply modify_maintains. reflexivity.
Qed.

(** Whatever raises, what [main] leaves durable enjoys every property that
    the store had at the start and that the statements keep. *)
Lemma imported_keeps (s : Store.t) :
  P s -> P (ImportArxiv.imported raises fromisoformat strptime papers s).
Proof.
  intros Hs. unfold ImportArxiv.imported, ImportArxiv.main.
  cbn [ImportArxiv.conn ImportArxiv.print].
  assert (H0 : J (ImportArxiv.initial s)) by (split; exact Hs).
  assert (Hm : maintains J
                 (bind (ImportArxiv.modify (ImportArxiv.print ImportArxiv.LoadingExisting))
                    (fun _ =>
                       bind (ImportArxiv.preload raises)
                         (fun _ =>
                            bind (ImportArxiv.modify
                                    (ImportArxiv.print ImportArxiv.StartingImport))
                              (fun _ =>
                                 bind (for_each (Py.enumerate 0 papers)
                                         (ImportArxiv.import_paper raises fromisoformat
                                            strptime papers))
                                      (fun _ => ImportArxiv.finish raises papers)))))).
  { apply maintains_bind; [apply modify_maintains; reflexivity|].
    intros _. apply maintains_bind; [apply preload_maintains|].
    intros _. apply maintains_bind; [apply modify_maintains; reflexivity|].
    intros _. apply maintains_bind.
    - apply maintains_for_each_in. intros ip Hip.
      apply import_paper_maintains. exact Hip.
    - intros _. apply finish_maintains. }
  destruct (bind _ _ (ImportArxiv.initial s)) as [[u|e] st] eqn:E.
  - exact (proj1 (Hm _ _ _ H0 E)).
  - exact (proj1 (rollback_on_both P_past_draws (Hm _ _ _ H0 E))).
Qed.

End ImportInvariant.

(** The batched import only adds rows to [papers] and [paper_authors],
    whatever raises. *)
Lemma imported_grows raises fromisoformat strptime papers s :
  grows s (ImportArxiv.imported raises fromisoformat strptime papers s).
Proof.
  apply imported_keeps.
  - intros paper pid _ _ _. apply insert_paper_do_nothing_grows.
  - apply insert_category_do_nothing_grows.
  - apply insert_author_do_nothing_grows.
  - apply insert_paper_author_do_nothing_grows.
  - apply insert_paper_category_do_nothing_grows.
  - apply tables_past_draws. intros s0 n H. exact H.
  - apply grows_refl.
Qed.

(** C9. In the batched import, a paper whose identifier is already in
    [papers] leaves the stored row as it is: for every file, every schedule
    of errors and every identifier present before, the rows under that
    identifier after the import are the rows that were there before. *)
Theorem batched_import_never_overwrites
    (raises : nat -> bool)
    (fromisoformat : string -> option Py.datetime)
    (strptime : string -> string -> option Py.datetime)
    (papers : list ImportArxiv.Paper) (s : Store.t) (pid : string) :
  Store.has_paper pid s = true ->
  Store.papers_with_id pid (ImportArxiv.imported raises fromisoformat strptime papers s)
  = Store.papers_with_id pid s.
Proof.
  intros H. apply grows_papers_with_id; [apply imported_grows | exact H].
Qed.

(** Importing the revised record over the stored one keeps title A. *)
Lemma batched_import_never_overwrites_witness :
  Store.papers_with_id "2401.00001"
    (ImportArxiv.imported never no_iso no_strptime file_with_paper_A_revised
       store_with_paper_A)
  = Store.papers_with_id "2401.00001" store_with_paper_A /\
  map Store.title (Store.papers_with_id "2401.00001" store_with_paper_A) = ["A"].
Proof.
  split.
  - apply (@batched_import_never_overwrites never no_iso no_strptime
             file_with_paper_A_revised store_with_paper_A "2401.00001").
    vm_compute. reflexivity.
  - vm_compute. reflexivity.
Defined.

(** ** The unique constraints *)

Lemma NoDup_snoc A (l : list A) (x : A) :
  NoDup l -> ~ In x l -> NoDup (l ++ [x]).
Proof.
  induction l as [|a l IH]; intros Hl Hx; simpl.
  - constructor; [intros [] | constructor].
  - inversion Hl as [|? ? Ha Hl']. subst. constructor.
    + intros Hin. apply in_app_or in Hin. destruct Hin as [Hin|[->|[]]].
      * exact (Ha Hin).
      * apply Hx. left. reflexivity.
    + apply IH; [exact Hl'|]. intros Hin. apply Hx. right. exact Hin.
Qed.

Lemma existsb_key_false A K (key : A -> K) (eqb : K -> K -> bool) (l : list A) (k : K) :
  (forall a b, eqb a b = true <-> a = b) ->
  existsb (fun r => eqb (key r) k) l = false -> ~ In k (map key l).
Proof.
  intros Heq H Hin. apply in_map_iff in Hin. destruct Hin as [r [Hk Hr]].
  assert (E : existsb (fun r => eqb (key r) k) l = true).
  { apply existsb_exists. exists r. split; [exact Hr|]. apply Heq. exact Hk. }
  rewrite E in H. discriminate.
Qed.

Lemma map_key_update A K (key : A -> K) (f : A -> A) (l : list A) :
  (forall a, key (f a) = key a) -> map key (map f l) = map key l.
Proof.
  intros Hf. rewrite map_map. apply map_ext. exact Hf.
Qed.

Lemma insert_category_do_nothing_unique r :
  keeps Store.unique (Store.insert_category_do_nothing r).
Proof.
  intros s U. unfold Store.insert_category_do_nothing.
  destruct (Store.has_category (fst r) s) eqn:H; [exact U|].
  destruct U. constructor; simpl; try assumption.
  rewrite map_app. simpl. apply NoDup_snoc; [assumption|].
  apply (existsb_key_false fst String.eqb _ _ String.eqb_eq H).
Qed.

Lemma upsert_paper_unique n :
  keeps Store.unique (Store.upsert_paper n).
Proof.
  intros s U. unfold Store.upsert_paper.
  destruct (Store.has_paper (Store.id n) s) eqn:H; destruct U;
    constructor; simpl; try assumption.
  - rewrite map_key_update; [assumption|].
    intros a. destruct (String.eqb (Store.id a) (Store.id n)); reflexivity.
  - rewrite map_app. simpl. apply NoDup_snoc; [assumption|].
    apply (existsb_key_false Store.id String.eqb _ _ String.eqb_eq H).
Qed.

Lemma insert_paper_do_nothing_unique n :
  keeps Store.unique (fun s => snd (Store.insert_paper_do_nothing n s)).
Proof.
  intros s U. unfold Store.insert_paper_do_nothing.
  destruct (Store.has_paper (Store.id n) s) eqn:H; [exact U|].
  destruct U. constructor; simpl; try assumption.
  rewrite map_app. simpl. apply NoDup_snoc; [assumption|].
  apply (existsb_key_false Store.id String.eqb _ _ String.eqb_eq H).
Qed.

Lemma find_author_none name s :
  Store.find_author name s = None -> ~ In name (map snd (Store.authors s)).
Proof.
  unfold Store.find_author. intros H Hin.
  match type of H with
  | context [find ?f ?l] => destruct (find f l) as [x|] eqn:F; [discriminate|]
  end.
  apply in_map_iff in Hin. destruct Hin as [r [Hr Hin]].
  eapply find_none in F; [|exact Hin]. simpl in F. rename F into N.
  rewrite Hr, String.eqb_refl in N. discriminate.
Qed.

Lemma authors_with_unique name (s : Store.t) :
  Store.unique s ->
  Store.unique (Store.set_authors
                  (match Store.find_author name s with
                   | Some _ => Store.authors s
                   | None => Store.authors s ++ [(S (Store.author_seq s), name)]
                   end)
                  (S (Store.author_seq s)) s).
Proof.
  intros U. destruct U.
  destruct (Store.find_author name s) eqn:F; constructor; simpl; try assumption.
  - intros r Hr. apply author_id_drawn in Hr. lia.
  - rewrite map_app. simpl. apply NoDup_snoc; [assumption|].
    apply find_author_none. exact F.
  - rewrite map_app. simpl. apply NoDup_snoc; [assumption|].
    intros Hin. apply in_map_iff in Hin. destruct Hin as [r [Hr Hin]].
    apply author_id_drawn in Hin. lia.
  - intros r Hr. apply in_app_or in Hr. destruct Hr as [Hr|[<-|[]]].
    + apply author_id_drawn in Hr. lia.
    + simpl. lia.
Qed.

Lemma upsert_author_unique name :
  keeps Store.unique (fun s => snd (Store.upsert_author name s)).
Proof.
  intros s U. pose proof (authors_with_unique name U) as H.
  unfold Store.upsert_author. destruct (Store.find_author name s); exact H.
Qed.

Lemma insert_author_do_nothing_unique name :
  keeps Store.unique (Store.insert_author_do_nothing name).
Proof.
  intros s U. pose proof (authors_with_unique name U) as H.
  unfold Store.insert_author_do_nothing. destruct (Store.find_author name s); exact H.
Qed.

Lemma upsert_paper_author_unique r :
  keeps Store.unique (Store.upsert_paper_author r).
Proof.
  intros s U. unfold Store.upsert_paper_author.
  destruct (Store.has_paper_author (Store.pa_key r) s) eqn:H; destruct U;
    constructor; simpl; try assumption.
  - rewrite map_key_update; [assumption|].
    intros a. destruct (Store.pa_key_eqb (Store.pa_key a) (Store.pa_key r));
      reflexivity.
  - rewrite map_app. simpl. apply NoDup_snoc; [assumption|].
    apply (existsb_key_false Store.pa_key Store.pa_key_eqb _ _ pa_key_eqb_eq H).
Qed.

Lemma insert_paper_author_do_nothing_unique r :
  keeps Store.unique (Store.insert_paper_author_do_nothing r).
Proof.
  intros s U. unfold Store.insert_paper_author_do_nothing.
  destruct (Store.has_paper_author (Store.pa_key r) s) eqn:H; [exact U|].
  destruct U. constructor; simpl; try assumption.
  rewrite map_app. simpl. apply NoDup_snoc; [assumption|].
  apply (existsb_key_false Store.pa_key Store.pa_key_eqb _ _ pa_key_eqb_eq H).
Qed.

Lemma pc_eqb_eq r1 r2 : Store.pc_eqb r1 r2 = true <-> r1 = r2.
Proof.
  destruct r1 as [a1 b1], r2 as [a2 b2]. unfold Store.pc_eqb. simpl.
  rewrite andb_true_iff, !String.eqb_eq. split.
  - intros [-> ->]. reflexivity.
  - intros E. inversion E. auto.
Qed.

Lemma insert_paper_category_do_nothing_unique r :
  keeps Store.unique (Store.insert_paper_category_do_nothing r).
Proof.
  intros s U. unfold Store.insert_paper_category_do_nothing.
  destruct (Store.has_paper_category r s) eqn:H; [exact U|].
  destruct U. constructor; simpl; try assumption.
  apply NoDup_snoc; [assumption|].
  intros Hin. unfold Store.has_paper_category in H.
  assert (E : existsb (Store.pc_eqb r) (Store.paper_categories s) = true).
  { apply existsb_exists. exists r. split; [exact Hin | apply pc_eqb_eq; reflexivity]. }
  rewrite E in H. discriminate.
Qed.

Lemma empty_unique : Store.unique Store.empty.
Proof.
  constructor; simpl; try constructor. intros r [].
Qed.

(** ** Transactions that do not raise *)

Lemma sees_ret A (P : A -> Store.t -> Prop) (a : A) :
  sees (P a) (ret a) P.
Proof. intros c a' c' H E. injection E as <- <-. exact H. Qed.

Lemma sees_bind A B (Pre : Store.t -> Prop) (Mid : A -> Store.t -> Prop)
    (Post : B -> Store.t -> Prop) (m : M Db.conn A) (k : A -> M Db.conn B) :
  sees Pre m Mid -> (forall a, sees (Mid a) (k a) Post) -> sees Pre (bind m k) Post.
Proof.
  intros Hm Hk c b c' Hc E. apply bind_ok in E.
  destruct E as [a [c1 [E1 E2]]].
  eapply Hk; [|exact E2]. eapply Hm; eauto.
Qed.

Lemma sees_weaken A (Pre Pre' : Store.t -> Prop) (Post Post' : A -> Store.t -> Prop)
    (m : M Db.conn A) :
  sees Pre' m Post' -> (forall s, Pre s -> Pre' s) ->
  (forall a s, Post' a s -> Post a s) -> sees Pre m Post.
Proof.
  intros Hm H1 H2 c a c' Hc E. apply H2. eapply Hm; eauto.
Qed.

Section Sees.

Variable raises : nat -> bool.

Lemma sees_query A (q : Store.t -> A * Store.t) (Pre : Store.t -> Prop)
    (Post : A -> Store.t -> Prop) :
  (forall s, Pre s -> Post (fst (q s)) (snd (q s))) ->
  sees Pre (Db.query raises q) Post.
Proof.
  intros Hq c a c' Hc E. unfold Db.query in E.
  destruct (raises (Db.clock c)); [discriminate|].
  specialize (Hq _ Hc). destruct (q (Db.working c)) as [a0 s].
  injection E as <- <-. exact Hq.
Qed.

Lemma sees_execute (q : Store.t -> Store.t) (Pre : Store.t -> Prop)
    (Post : Store.t -> Prop) :
  (forall s, Pre s -> Post (q s)) ->
  sees Pre (Db.execute raises q) (fun _ => Post).
Proof. intros Hq. apply sees_query. exact Hq. Qed.

Lemma sees_for_each A (l : list A) (body : A -> M Db.conn unit)
    (f : A -> Store.t -> Store.t) :
  (forall x s0, sees (eq s0) (body x) (fun _ s => s = f x s0)) ->
  forall s0, sees (eq s0) (for_each l body)
                  (fun _ s => s = fold_left (fun acc x => f x acc) l s0).
Proof.
  intros Hb. induction l as [|x l IH]; intros s0; simpl.
  - intros c a c' Hc E. inversion E. subst. reflexivity.
  - eapply sees_bind; [apply Hb|].
    intros u. eapply sees_weaken; [apply (IH (f x s0)) | | ].
    + intros s Hs. symmetry. exact Hs.
    + intros u' s Hs. exact Hs.
Qed.

Lemma fold_left_concat A B (f : B -> A -> B) (ls : list (list A)) :
  forall b, fold_left (fun acc l => fold_left f l acc) ls b
            = fold_left f (List.concat ls) b.
Proof.
  induction ls as [|l ls IH]; intros b; simpl; [reflexivity|].
  rewrite fold_left_app. apply IH.
Qed.

(** [execute_values], when no page raises, proposes all the rows in order. *)
Lemma sees_execute_values R (row : R -> Store.t -> Store.t) (rows : list R) s0 :
  sees (eq s0) (Db.execute_values raises row rows)
       (fun _ s => s = Store.insert_rows row rows s0).
Proof.
  unfold Db.execute_values.
  eapply sees_weaken;
    [apply (sees_for_each (Py.groups_of 100 rows)
              (fun page => Db.execute raises (Store.insert_rows row page))
              (fun page s => Store.insert_rows row page s)) | | ].
  - intros page s1. apply sees_execute. intros s <-. reflexivity.
  - intros s Hs. exact Hs.
  - intros u s ->. unfold Store.insert_rows.
    rewrite (fold_left_concat (fun acc r => row r acc)).
    rewrite groups_of_concat by lia. reflexivity.
Qed.

(** A successful commit makes durable what the transaction saw. *)
Lemma commit_ok c c' :
  Db.commit raises c = (Ok tt, c') ->
  Db.committed c' = Db.working c /\ Db.working c' = Db.working c.
Proof.
  unfold Db.commit. destruct (raises (Db.clock c)); [discriminate|].
  intros E. injection E as <-. split; reflexivity.
Qed.

End Sees.

(** ** One apply that does not raise *)

Section Applied.

Variable raises : nat -> bool.

Lemma sees_fold_each A B (l : list A) (body : B -> A -> M Db.conn B)
    (f : B * Store.t -> A -> B * Store.t) :
  (forall acc x s0,
      sees (eq s0) (body acc x) (fun acc' s => (acc', s) = f (acc, s0) x)) ->
  forall acc s0,
    sees (eq s0) (fold_each l body acc)
         (fun acc' s => (acc', s) = fold_left f l (acc, s0)).
Proof.
  intros Hb. induction l as [|x l IH]; intros acc s0; simpl.
  - intros c a c' Hc E. inversion E. subst. reflexivity.
  - intros c b c' Hc E. apply bind_ok in E. destruct E as [acc1 [c1 [E1 E2]]].
    pose proof (Hb acc x s0 c acc1 c1 Hc E1) as H1. cbv beta in H1.
    rewrite <- H1. exact (IH acc1 (Db.working c1) c1 b c' eq_refl E2).
Qed.

Lemma link_author_linked pid acc ia s0 :
  sees (eq s0) (PeriodFetcher.link_author raises pid acc ia)
       (fun acc' s => (acc', s) = linked pid (acc, s0) ia).
Proof.
  destruct ia as [i name]. unfold PeriodFetcher.link_author, linked.
  intros c acc' c' Hc E. apply bind_ok in E. destruct E as [ret1 [c1 [E1 E2]]].
  pose proof (@sees_query raises _ (Store.upsert_author name) (eq s0)
                (fun a s => (a, s) = Store.upsert_author name s0)) as Q.
  specialize (Q ltac:(intros s <-; destruct (Store.upsert_author name s0); reflexivity)).
  specialize (Q c ret1 c1 Hc E1). cbv beta in Q. rewrite <- Q.
  destruct ret1 as [aid|].
  - inversion E2. subst. reflexivity.
  - apply bind_ok in E2. destruct E2 as [ret2 [c2 [E2 E3]]].
    unfold Db.query in E2. destruct (raises (Db.clock c1)); [discriminate|].
    inversion E2. subst. clear E2. simpl in *.
    destruct (Store.select_author_id name (Db.working c1)); inversion E3; subst;
      reflexivity.
Qed.
Lemma sees_optional_values R (row : R -> Store.t -> Store.t) (rows : list R) s0 :
  sees (eq s0)
       (match rows with
        | [] => ret tt
        | _ => Db.execute_values raises row rows
        end)
       (fun _ s => s = Store.insert_rows row rows s0).
Proof.
  destruct rows as [|x l].
  - intros c a c' Hc E. inversion E. subst. reflexivity.
  - apply sees_execute_values.
Qed.

Lemma categories_applied (r : PeriodFetcher.Result) s0 :
  sees (eq s0)
       (match PeriodFetcher.categories r with
        | [] => ret tt
        | all_category_codes =>
            let cat_meta_data :=
              map (fun c => (c, Some (PeriodFetcher.category_description c)))
                  (filter Py.truthy all_category_codes) in
            (match cat_meta_data with
             | [] => ret tt
             | _ => Db.execute_values raises Store.insert_category_do_nothing
                      cat_meta_data
             end) ;;;
            let paper_cat_data :=
              map (fun c => (PeriodFetcher.paper_id r, c))
                  (filter Py.truthy all_category_codes) in
            (match paper_cat_data with
             | [] => ret tt
             | _ => Db.execute_values raises
                      Store.insert_paper_category_do_nothing paper_cat_data
             end)
        end)
       (fun _ s => s = applied_categories r s0).
Proof.
  unfold applied_categories.
  destruct (PeriodFetcher.categories r) as [|c0 cs] eqn:C.
  - intros c a c' Hc E. inversion E. subst. reflexivity.
  - cbv zeta. eapply sees_bind.
    + apply (sees_optional_values Store.insert_category_do_nothing).
    + intros u. eapply sees_weaken.
      * apply (sees_optional_values Store.insert_paper_category_do_nothing).
      * intros s Hs. symmetry. exact Hs.
      * intros u' s Hs. exact Hs.
Qed.

(** The steps of an apply that does not raise make the transaction see
    [applied r] of what it saw. *)
Lemma insert_paper_steps_applied (r : PeriodFetcher.Result) s0 :
  sees (eq s0) (PeriodFetcher.insert_paper_steps raises r)
       (fun _ s => s = applied r s0).
Proof.
  unfold PeriodFetcher.insert_paper_steps, applied.
  intros c a c' Hc E.
  apply bind_ok in E. destruct E as [u1 [c1 [E1 E]]].
  assert (H1 : Db.working c1 = applied_primary r s0).
  { unfold applied_primary. revert E1.
    destruct (PeriodFetcher.primary_category r) as [p|].
    - destruct (Py.truthy p).
      + intros E1. eapply (@sees_execute raises _ (eq s0)); [|exact Hc|exact E1].
        intros s <-. reflexivity.
      + intros E1. inversion E1. subst. reflexivity.
    - intros E1. inversion E1. subst. reflexivity. }
  apply bind_ok in E. destruct E as [u2 [c2 [E2 E]]].
  assert (H2 : Db.working c2
               = Store.upsert_paper (PeriodFetcher.paper_row r) (applied_primary r s0)).
  { eapply (@sees_execute raises _ (eq (Db.working c1))); [|reflexivity|exact E2].
    intros s <-. rewrite H1. reflexivity. }
  apply bind_ok in E. destruct E as [rows [c3 [E3 E]]].
  pose proof (@sees_fold_each _ _ (Py.enumerate 0 (PeriodFetcher.authors r))
                (PeriodFetcher.link_author raises (PeriodFetcher.paper_id r))
                (linked (PeriodFetcher.paper_id r))
                (fun acc x s1 => @link_author_linked (PeriodFetcher.paper_id r) acc x s1)
                [] (Db.working c2) c2 rows c3 eq_refl E3) as H3.
  cbv beta in H3. rewrite H2 in H3. fold (applied_authors r
    (Store.upsert_paper (PeriodFetcher.paper_row r) (applied_primary r s0))) in H3.
  rewrite <- H3.
  apply bind_ok in E. destruct E as [u4 [c4 [E4 E]]].
  pose proof (@sees_optional_values _ Store.upsert_paper_author rows
                (Db.working c3) c3 u4 c4 eq_refl) as H4.
  assert (H4' : Db.working c4
                = Store.insert_rows Store.upsert_paper_author rows (Db.working c3)).
  { apply H4. destruct rows; exact E4. }
  apply bind_ok in E. destruct E as [u5 [c5 [E5 E]]].
  pose proof (@categories_applied r (Db.working c4) c4 u5 c5 eq_refl E5) as H5.
  cbv beta in H5.
  destruct a. apply commit_ok in E. destruct E as [_ E]. rewrite E, H5, H4'. reflexivity.
Qed.

(** After an apply that returned [True], what is durable and what the
    connection sees are both [applied r] of what the connection saw. *)
Lemma insert_paper_data_true (c c' : Db.conn) (r : PeriodFetcher.Result) :
  PeriodFetcher.insert_paper_data raises c r = (true, c') ->
  Db.working c' = applied r (Db.working c) /\
  Db.committed c' = applied r (Db.working c).
Proof.
  unfold PeriodFetcher.insert_paper_data.
  destruct (PeriodFetcher.insert_paper_steps raises r c) as [[u|e] c1] eqn:E;
    [|discriminate].
  intros H. injection H as <-.
  pose proof (@insert_paper_steps_applied r (Db.working c) c u c1 eq_refl E) as H1.
  pose proof (@insert_paper_steps_spec raises r (Db.committed c) c (Ok u) c1
                eq_refl E) as H2.
  cbv beta in H1. simpl in H2. unfold Db.clean in H2.
  split; [exact H1 | rewrite <- H2; exact H1].
Qed.

End Applied.

(** ** The effect of one apply on the tables *)

Lemma linked_keeps (P : Store.t -> Prop) pid :
  (forall name, keeps P (fun s => snd (Store.upsert_author name s))) ->
  forall acc ia, P (snd acc) -> P (snd (linked pid acc ia)).
Proof.
  intros HP [rows s] [i name] H. simpl in H. unfold linked.
  specialize (HP name s H). cbv beta in HP.
  destruct (Store.upsert_author name s) as [[aid|] s']; simpl in *.
  - exact HP.
  - destruct (Store.select_author_id name s'); exact HP.
Qed.

Lemma fold_linked_keeps (P : Store.t -> Prop) pid :
  (forall name, keeps P (fun s => snd (Store.upsert_author name s))) ->
  forall l acc, P (snd acc) -> P (snd (fold_left (linked pid) l acc)).
Proof.
  intros HP. induction l as [|ia l IH]; intros acc H; simpl; [exact H|].
  apply IH. apply linked_keeps; assumption.
Qed.

(** Steps 3 and 4 keep every property of stores that their statements
    keep, and so does the whole apply with the upsert of step 2. *)
Lemma applied_tail_keeps (P : Store.t -> Prop) (r : PeriodFetcher.Result) (s2 : Store.t) :
  (forall x, keeps P (Store.insert_category_do_nothing x)) ->
  (forall name, keeps P (fun s => snd (Store.upsert_author name s))) ->
  (forall x, keeps P (Store.upsert_paper_author x)) ->
  (forall x, keeps P (Store.insert_paper_category_do_nothing x)) ->
  P s2 ->
  P (let (rows, s3) := applied_authors r s2 in
     applied_categories r (Store.insert_rows Store.upsert_paper_author rows s3)).
Proof.
  intros H1 H3 H4 H5 Hs.
  pose proof (@fold_linked_keeps P (PeriodFetcher.paper_id r) H3
                (Py.enumerate 0 (PeriodFetcher.authors r)) ([], s2) Hs) as Ha.
  fold (applied_authors r s2) in Ha.
  destruct (applied_authors r s2) as [rows s3]. simpl in Ha.
  unfold applied_categories.
  apply insert_rows_keeps; [exact H5|].
  apply insert_rows_keeps; [exact H1|].
  apply insert_rows_keeps; [exact H4|]. exact Ha.
Qed.

Lemma applied_primary_keeps (P : Store.t -> Prop) (r : PeriodFetcher.Result) :
  (forall x, keeps P (Store.insert_category_do_nothing x)) ->
  keeps P (applied_primary r).
Proof.
  intros H1 s Hs. unfold applied_primary.
  destruct (PeriodFetcher.primary_category r) as [p|]; [|exact Hs].
  destruct (Py.truthy p); [apply H1|]; exact Hs.
Qed.

Lemma applied_keeps (P : Store.t -> Prop) (r : PeriodFetcher.Result) :
  (forall x, keeps P (Store.insert_category_do_nothing x)) ->
  keeps P (Store.upsert_paper (PeriodFetcher.paper_row r)) ->
  (forall name, keeps P (fun s => snd (Store.upsert_author name s))) ->
  (forall x, keeps P (Store.upsert_paper_author x)) ->
  (forall x, keeps P (Store.insert_paper_category_do_nothing x)) ->
  keeps P (applied r).
Proof.
  intros H1 H2 H3 H4 H5 s Hs. unfold applied.
  apply applied_tail_keeps; try assumption.
  apply H2. apply applied_primary_keeps; assumption.
Qed.

Lemma applied_unique (r : PeriodFetcher.Result) : keeps Store.unique (applied r).
Proof.
  apply applied_keeps.
  - apply insert_category_do_nothing_unique.
  - apply upsert_paper_unique.
  - apply upsert_author_unique.
  - apply upsert_paper_author_unique.
  - apply insert_paper_category_do_nothing_unique.
Qed.

Lemma insert_category_do_nothing_papers x s :
  Store.papers (Store.insert_category_do_nothing x s) = Store.papers s.
Proof.
  unfold Store.insert_category_do_nothing. destruct (Store.has_category _ _);
    reflexivity.
Qed.

(** Only the upsert of step 2 writes to [papers]. *)
Lemma applied_papers (r : PeriodFetcher.Result) (s : Store.t) :
  Store.papers (applied r s)
  = Store.papers (Store.upsert_paper (PeriodFetcher.paper_row r) s).
Proof.
  assert (Hp : Store.papers (applied_primary r s) = Store.papers s).
  { apply (@applied_primary_keeps (fun s' => Store.papers s' = Store.papers s) r);
      [|reflexivity].
    intros x s' H. rewrite insert_category_do_nothing_papers. exact H. }
  assert (Hu : Store.papers (Store.upsert_paper (PeriodFetcher.paper_row r)
                               (applied_primary r s))
               = Store.papers (Store.upsert_paper (PeriodFetcher.paper_row r) s)).
  { unfold Store.upsert_paper, Store.has_paper. rewrite Hp.
    destruct (existsb _ (Store.papers s)); reflexivity. }
  rewrite <- Hu. unfold applied.
  apply (@applied_tail_keeps
           (fun s' => Store.papers s'
                      = Store.papers (Store.upsert_paper (PeriodFetcher.paper_row r)
                                        (applied_primary r s))) r).
  - intros x s' H. rewrite insert_category_do_nothing_papers. exact H.
  - intros name s' H. unfold Store.upsert_author.
    destruct (Store.find_author name s'); exact H.
  - intros x s' H. unfold Store.upsert_paper_author.
    destruct (Store.has_paper_author _ _); exact H.
  - intros x s' H. unfold Store.insert_paper_category_do_nothing.
    destruct (Store.has_paper_category _ _); exact H.
  - reflexivity.
Qed.

(** Under a unique key, at most one row has a given key. *)
Lemma filter_key_unique A (key : A -> string) (l : list A) (k : string) :
  NoDup (map key l) ->
  existsb (fun r => String.eqb (key r) k) l = true ->
  exists row, filter (fun r => String.eqb (key r) k) l = [row] /\ key row = k.
Proof.
  induction l as [|a l IH]; intros Hn He; simpl in *; [discriminate|].
  inversion Hn as [|? ? Ha Hl]. subst.
  destruct (String.eqb (key a) k) eqn:E.
  - apply String.eqb_eq in E. exists a. split; [|exact E]. f_equal.
    assert (N : forall x, In x l -> String.eqb (key x) k = false).
    { intros x Hx. apply String.eqb_neq. intros Hk. apply Ha.
      rewrite E, <- Hk. apply in_map. exact Hx. }
    clear -N. induction l as [|b l IH]; [reflexivity|]. simpl.
    rewrite (N b (or_introl eq_refl)). apply IH. intros x Hx. apply N. right. exact Hx.
  - simpl in He. apply IH; assumption.
Qed.

Lemma filter_key_absent A (key : A -> string) (l : list A) (k : string) :
  existsb (fun r => String.eqb (key r) k) l = false ->
  filter (fun r => String.eqb (key r) k) l = [].
Proof.
  induction l as [|a l IH]; intros He; simpl in *; [reflexivity|].
  apply orb_false_iff in He. destruct He as [E He]. rewrite E. apply IH. exact He.
Qed.

Lemma filter_map_update A (f : A -> bool) (g : A -> A) (l : list A) :
  (forall a, f (g a) = f a) -> filter f (map g l) = map g (filter f l).
Proof.
  intros H. induction l as [|a l IH]; simpl; [reflexivity|].
  rewrite H. destruct (f a); simpl; rewrite IH; reflexivity.
Qed.

(** After the upsert of a paper row there is exactly one row under its
    identifier, and it carries the proposed bibliographic columns. *)
Lemma upsert_paper_one_row (n : Store.PaperRow) (s : Store.t) :
  Store.unique s ->
  exists row,
    Store.papers_with_id (Store.id n) (Store.upsert_paper n s) = [row] /\
    Store.id row = Store.id n /\ same_bibliographic n row.
Proof.
  intros U. unfold Store.papers_with_id, Store.upsert_paper.
  destruct (Store.has_paper (Store.id n) s) eqn:H; simpl.
  - destruct (@filter_key_unique _ Store.id (Store.papers s) (Store.id n)
                (Store.unique_paper_id U) H) as [old [F K]].
    rewrite filter_map_update.
    + rewrite F. simpl. rewrite K, String.eqb_refl.
      exists (Store.overwrite_bibliographic n old). split; [reflexivity|].
      split; [exact K|]. repeat split.
    + intros a. destruct (String.eqb (Store.id a) (Store.id n)) eqn:E;
        [simpl; exact E | exact E].
  - rewrite filter_app. unfold Store.has_paper in H.
    rewrite (filter_key_absent Store.id _ _ H). simpl.
    rewrite String.eqb_refl. exists n. split; [reflexivity|].
    split; [reflexivity|]. repeat split.
Qed.

(** ** Authors and their relation to a paper *)

Lemma find_author_stable name a s s' l n :
  Store.authors s' = Store.authors s ++ l ->
  Store.author_seq s' = n ->
  Store.find_author name s = Some a -> Store.find_author name s' = Some a.
Proof.
  intros E _ H. unfold Store.find_author in *. rewrite E.
  match type of H with
  | context [find ?f ?l0] => destruct (find f l0) as [x|] eqn:F; [|discriminate]
  end.
  pose proof (find_app_some _ _ l F) as G.
  etransitivity; [apply (f_equal (option_map fst) G) | exact H].
Qed.

Lemma find_app_none A (f : A -> bool) l1 l2 :
  find f l1 = None -> find f (l1 ++ l2) = find f l2.
Proof.
  induction l1 as [|a l IH]; simpl; [reflexivity|].
  destruct (f a); [discriminate | exact IH].
Qed.

(** What one author of step 3 does: the name gets (or keeps) an identifier,
    names already there keep theirs, and the relation row is appended. *)
Lemma linked_step pid rows s i name :
  Store.unique s ->
  exists aid s',
    linked pid (rows, s) (i, name) = (rows ++ [(pid, aid, i + 1)], s') /\
    Store.unique s' /\
    Store.find_author name s' = Some aid /\
    (forall name' a, Store.find_author name' s = Some a ->
                     Store.find_author name' s' = Some a) /\
    Store.paper_authors s' = Store.paper_authors s /\
    Store.papers s' = Store.papers s /\
    Store.paper_categories s' = Store.paper_categories s.
Proof.
  intros U. pose proof (upsert_author_unique name U) as U'. cbv beta in U'.
  unfold linked, Store.upsert_author in *.
  destruct (Store.find_author name s) as [aid|] eqn:F.
  - exists aid. eexists. split; [reflexivity|]. simpl in U'.
    split; [exact U'|]. split; [exact F|]. split; [|auto].
    intros name' a H. exact H.
  - exists (S (Store.author_seq s)). eexists. split; [reflexivity|]. simpl in U'.
    split; [exact U'|]. split; [|split; [|auto]].
    + unfold Store.find_author in *. simpl.
      match type of F with
      | context [find ?f ?l0] => destruct (find f l0) as [x|] eqn:F0; [discriminate|]
      end.
      pose proof (find_app_none _ _ [(S (Store.author_seq s), name)] F0) as G.
      etransitivity; [apply (f_equal (option_map fst) G)|].
      simpl. rewrite String.eqb_refl. reflexivity.
    + intros name' a H.
      eapply find_author_stable; [| |exact H]; simpl; reflexivity.
Qed.

(** Step 3 as a whole: the rows collected pair every author of the list, in
    order and with its 1-based position, with the identifier its name has
    afterwards. *)
Lemma fold_linked_spec pid (l : list string) :
  forall start rows s,
    Store.unique s ->
    exists ids s',
      fold_left (linked pid) (Py.enumerate start l) (rows, s)
      = (rows ++ map (fun ia => (pid, snd ia, fst ia + 1))
                     (combine (seq start (List.length l)) ids), s') /\
      List.length ids = List.length l /\
      Store.unique s' /\
      Forall2 (fun name aid => Store.find_author name s' = Some aid) l ids /\
      (forall name' a, Store.find_author name' s = Some a ->
                       Store.find_author name' s' = Some a) /\
      Store.paper_authors s' = Store.paper_authors s /\
      Store.papers s' = Store.papers s /\
      Store.paper_categories s' = Store.paper_categories s.
Proof.
  induction l as [|name l IH]; intros start rows s U.
  - exists [], s. simpl. rewrite app_nil_r.
    split; [reflexivity|]. split; [reflexivity|]. split; [exact U|].
    split; [constructor|]. split; [auto|]. auto.
  - cbn [Py.enumerate fold_left List.length seq].
    destruct (@linked_step pid rows s start name U)
      as [aid [s1 [E [U1 [F1 [St1 [Pa1 [Pp1 Pc1]]]]]]]].
    rewrite E.
    destruct (IH (S start) (rows ++ [(pid, aid, start + 1)]) s1 U1)
      as [ids [s' [E' [Hlen [U' [F' [St' [Pa' [Pp' Pc']]]]]]]]].
    exists (aid :: ids), s'. rewrite E'. split.
    { cbn [combine map fst snd]. rewrite <- app_assoc. reflexivity. }
    split; [simpl; lia|]. split; [exact U'|]. split.
    { constructor; [apply St'; exact F1 | exact F']. }
    split; [intros name' a H; apply St', St1; exact H|].
    split; [congruence|]. split; congruence.
Qed.

Lemma find_map_update A (f : A -> bool) (g : A -> A) (l : list A) :
  (forall a, f (g a) = f a) -> find f (map g l) = option_map g (find f l).
Proof.
  intros H. induction l as [|a l IH]; simpl; [reflexivity|].
  rewrite H. destruct (f a); [reflexivity | exact IH].
Qed.

Lemma pa_key_eqb_refl k : Store.pa_key_eqb k k = true.
Proof. apply pa_key_eqb_eq. reflexivity. Qed.

Lemma pa_key_eqb_neq k1 k2 : k1 <> k2 -> Store.pa_key_eqb k1 k2 = false.
Proof.
  intros N. destruct (Store.pa_key_eqb k1 k2) eqn:E; [|reflexivity].
  apply pa_key_eqb_eq in E. contradiction.
Qed.

(** The upsert of a relation row sets the ordinal of its pair and of no
    other pair. *)
Lemma author_order_upsert_same (r : Store.PaperAuthorRow) (s : Store.t) :
  Store.author_order (Store.pa_key r) (Store.upsert_paper_author r s) = Some (snd r).
Proof.
  unfold Store.author_order, Store.upsert_paper_author.
  destruct (Store.has_paper_author (Store.pa_key r) s) eqn:H;
    cbn [Store.paper_authors Store.set_paper_authors].
  - rewrite find_map_update.
    + unfold Store.has_paper_author in H.
      match goal with
      | |- context [@find ?A ?f ?l] => destruct (@find A f l) as [x|] eqn:F
      end.
      * apply find_some in F. destruct F as [_ F]. cbv beta in F.
        cbn [option_map]. rewrite F. reflexivity.
      * apply existsb_exists in H. destruct H as [x [Hx Hk]].
        eapply find_none in F; [|exact Hx]. cbv beta in F. rewrite F in Hk.
        discriminate.
    + intros a. destruct (Store.pa_key_eqb (Store.pa_key a) (Store.pa_key r)) eqn:E;
        exact E.
  - unfold Store.has_paper_author in H.
    assert (F : find (fun r0 : Store.PaperAuthorRow =>
                        Store.pa_key_eqb (Store.pa_key r0) (Store.pa_key r))
                     (Store.paper_authors s) = None).
    { match goal with
      | |- @find ?A ?f ?l = None => destruct (@find A f l) as [x|] eqn:F; [|reflexivity]
      end.
      apply find_some in F. destruct F as [Hx Hk].
      exfalso. refine (eq_true_false_abs _ _ H).
      apply existsb_exists. exists x. split; assumption. }
    pose proof (find_app_none _ _ [r] F) as G.
    etransitivity; [apply (f_equal (option_map snd) G)|].
    cbn [find]. rewrite pa_key_eqb_refl. reflexivity.
Qed.

Lemma author_order_upsert_other (r : Store.PaperAuthorRow) (s : Store.t) k :
  Store.pa_key r <> k ->
  Store.author_order k (Store.upsert_paper_author r s) = Store.author_order k s.
Proof.
  intros N. unfold Store.author_order, Store.upsert_paper_author.
  destruct (Store.has_paper_author (Store.pa_key r) s) eqn:H;
    cbn [Store.paper_authors Store.set_paper_authors].
  - f_equal. induction (Store.paper_authors s) as [|a l IH]; [reflexivity|].
    cbn [map find].
    destruct (Store.pa_key_eqb (Store.pa_key a) (Store.pa_key r)) eqn:E.
    + apply pa_key_eqb_eq in E.
      assert (Ea : Store.pa_key (fst a, snd r) = Store.pa_key a) by reflexivity.
      rewrite Ea, E, (pa_key_eqb_neq N). exact IH.
    + destruct (Store.pa_key_eqb (Store.pa_key a) k); [reflexivity | exact IH].
  - f_equal.
    match goal with
    | |- _ = @find ?A ?f ?l => destruct (@find A f l) as [x|] eqn:F
    end.
    + apply (find_app_some _ _ [r] F).
    + etransitivity; [apply (find_app_none _ _ [r] F)|]. cbn [find].
      rewrite (pa_key_eqb_neq N). reflexivity.
Qed.

Lemma author_order_upserts_other rows k :
  ~ In k (map Store.pa_key rows) ->
  forall s, Store.author_order k (Store.insert_rows Store.upsert_paper_author rows s)
            = Store.author_order k s.
Proof.
  unfold Store.insert_rows.
  induction rows as [|r rows IH]; intros N s; simpl; [reflexivity|].
  rewrite IH.
  - apply author_order_upsert_other. intros E. apply N. left. exact E.
  - intros Hin. apply N. right. exact Hin.
Qed.

(** Rows with distinct pairs, proposed together, all end up stored with
    their ordinal. *)
Lemma author_order_upserts rows :
  NoDup (map Store.pa_key rows) ->
  forall s row, In row rows ->
    Store.author_order (Store.pa_key row)
      (Store.insert_rows Store.upsert_paper_author rows s) = Some (snd row).
Proof.
  induction rows as [|r rows IH]; intros Hn s row Hin; [contradiction|].
  simpl in Hn. inversion Hn as [|? ? Hr Hn']. subst.
  unfold Store.insert_rows. simpl. fold (Store.insert_rows Store.upsert_paper_author rows
                                          (Store.upsert_paper_author r s)).
  destruct Hin as [<-|Hin].
  - rewrite author_order_upserts_other by exact Hr. apply author_order_upsert_same.
  - apply IH; assumption.
Qed.

(** Under the unique constraints an identifier names one author. *)
Lemma find_author_injective s n1 n2 a :
  Store.unique s ->
  Store.find_author n1 s = Some a -> Store.find_author n2 s = Some a -> n1 = n2.
Proof.
  intros U H1 H2. unfold Store.find_author in *.
  destruct (find (fun r => String.eqb (snd r) n1) (Store.authors s)) as [x1|] eqn:F1;
    [|discriminate].
  destruct (find (fun r => String.eqb (snd r) n2) (Store.authors s)) as [x2|] eqn:F2;
    [|discriminate].
  simpl in H1, H2. injection H1 as H1. injection H2 as H2.
  apply find_some in F1, F2. destruct F1 as [I1 E1], F2 as [I2 E2].
  apply String.eqb_eq in E1, E2. subst n1 n2.
  assert (Hf : fst x1 = fst x2) by congruence.
  assert (x1 = x2); [|congruence].
  pose proof (Store.unique_author_id U) as Hn.
  clear -I1 I2 Hf Hn.
  induction (Store.authors s) as [|y l IH]; [contradiction|].
  simpl in Hn. inversion Hn as [|? ? Hy Hl]. subst.
  destruct I1 as [E1|I1], I2 as [E2|I2].
  - congruence.
  - exfalso. apply Hy. rewrite E1, Hf. apply in_map. exact I2.
  - exfalso. apply Hy. rewrite E2, <- Hf. apply in_map. exact I1.
  - apply IH; assumption.
Qed.

Lemma Forall2_nth_error A B (R : A -> B -> Prop) (l : list A) (l' : list B) :
  Forall2 R l l' ->
  forall i x, nth_error l i = Some x -> exists y, nth_error l' i = Some y /\ R x y.
Proof.
  induction 1 as [|a b l l' Hab H IH]; intros i x Hx.
  - destruct i; discriminate.
  - destruct i as [|i]; simpl in *.
    + injection Hx as <-. eauto.
    + apply IH. exact Hx.
Qed.

Lemma Forall2_in_right A B (R : A -> B -> Prop) (l : list A) (l' : list B) :
  Forall2 R l l' -> forall y, In y l' -> exists x, In x l /\ R x y.
Proof.
  induction 1 as [|a b l l' Hab H IH]; intros y Hy; [contradiction|].
  destruct Hy as [<-|Hy].
  - exists a. split; [left; reflexivity | exact Hab].
  - destruct (IH y Hy) as [x [Hx Hr]]. exists x. split; [right; exact Hx | exact Hr].
Qed.

Lemma Forall2_NoDup A B (R : A -> B -> Prop) (l : list A) (l' : list B) :
  (forall x1 x2 y, R x1 y -> R x2 y -> x1 = x2) ->
  Forall2 R l l' -> NoDup l -> NoDup l'.
Proof.
  intros Hinj. induction 1 as [|a b l l' Hab H IH]; intros Hn; [constructor|].
  inversion Hn as [|? ? Ha Hl]. subst. constructor; [|apply IH; exact Hl].
  intros Hb. destruct (Forall2_in_right H b Hb) as [x [Hx Hr]].
  apply Ha. rewrite (Hinj a x b Hab Hr). exact Hx.
Qed.

Lemma relation_rows_keys (pid : string) (ids : list nat) :
  forall start,
    map Store.pa_key
        (map (fun ia : nat * nat => (pid, snd ia, fst ia + 1))
             (combine (seq start (List.length ids)) ids))
    = map (fun aid => (pid, aid)) ids.
Proof.
  induction ids as [|aid ids IH]; intros start; [reflexivity|].
  simpl. f_equal. apply IH.
Qed.

Lemma relation_rows_nth (pid : string) (ids : list nat) :
  forall start i aid,
    nth_error ids i = Some aid ->
    In (pid, aid, start + i + 1)
       (map (fun ia : nat * nat => (pid, snd ia, fst ia + 1))
            (combine (seq start (List.length ids)) ids)).
Proof.
  induction ids as [|a ids IH]; intros start i aid H.
  - destruct i; discriminate.
  - destruct i as [|i]; simpl in *.
    + injection H as <-. left. rewrite Nat.add_0_r. reflexivity.
    + right. replace (start + S i + 1) with (S start + i + 1) by lia.
      apply IH. exact H.
Qed.

Lemma NoDup_map_pair (pid : string) (ids : list nat) :
  NoDup ids -> NoDup (map (fun aid => (pid, aid)) ids).
Proof.
  induction 1 as [|a l Ha Hl IH]; simpl; constructor; [|exact IH].
  intros Hin. apply in_map_iff in Hin. destruct Hin as [x [E Hx]].
  injection E as <-. exact (Ha Hx).
Qed.

(** The tables an apply leaves alone, statement by statement. *)
Lemma insert_category_do_nothing_frame x s :
  Store.authors (Store.insert_category_do_nothing x s) = Store.authors s /\
  Store.paper_authors (Store.insert_category_do_nothing x s) = Store.paper_authors s /\
  Store.paper_categories (Store.insert_category_do_nothing x s)
  = Store.paper_categories s.
Proof.
  unfold Store.insert_category_do_nothing. destruct (Store.has_category _ _); auto.
Qed.

Lemma upsert_paper_frame x s :
  Store.authors (Store.upsert_paper x s) = Store.authors s /\
  Store.paper_authors (Store.upsert_paper x s) = Store.paper_authors s /\
  Store.paper_categories (Store.upsert_paper x s) = Store.paper_categories s.
Proof.
  unfold Store.upsert_paper. destruct (Store.has_paper _ _); auto.
Qed.

Lemma upsert_paper_author_frame x s :
  Store.authors (Store.upsert_paper_author x s) = Store.authors s /\
  Store.paper_categories (Store.upsert_paper_author x s) = Store.paper_categories s.
Proof.
  unfold Store.upsert_paper_author. destruct (Store.has_paper_author _ _); auto.
Qed.

Lemma insert_paper_category_do_nothing_frame x s :
  Store.authors (Store.insert_paper_category_do_nothing x s) = Store.authors s /\
  Store.paper_authors (Store.insert_paper_category_do_nothing x s)
  = Store.paper_authors s.
Proof.
  unfold Store.insert_paper_category_do_nothing.
  destruct (Store.has_paper_category _ _); auto.
Qed.

Lemma applied_primary_frame r s :
  Store.authors (applied_primary r s) = Store.authors s /\
  Store.paper_authors (applied_primary r s) = Store.paper_authors s /\
  Store.paper_categories (applied_primary r s) = Store.paper_categories s.
Proof.
  unfold applied_primary. destruct (PeriodFetcher.primary_category r) as [p|]; auto.
  destruct (Py.truthy p); auto. apply insert_category_do_nothing_frame.
Qed.

Lemma applied_categories_frame r s :
  Store.authors (applied_categories r s) = Store.authors s /\
  Store.paper_authors (applied_categories r s) = Store.paper_authors s.
Proof.
  unfold applied_categories.
  apply (@insert_rows_keeps _
           (fun s' => Store.authors s' = Store.authors s /\
                      Store.paper_authors s' = Store.paper_authors s)).
  { intros x s' [H1 H2].
    destruct (insert_paper_category_do_nothing_frame x s') as [E1 E2].
    split; congruence. }
  apply (@insert_rows_keeps _
           (fun s' => Store.authors s' = Store.authors s /\
                      Store.paper_authors s' = Store.paper_authors s)).
  { intros x s' [H1 H2].
    destruct (insert_category_do_nothing_frame x s') as [E1 [E2 _]].
    split; congruence. }
  split; reflexivity.
Qed.

Lemma upserts_authors rows s :
  Store.authors (Store.insert_rows Store.upsert_paper_author rows s) = Store.authors s.
Proof.
  apply (@insert_rows_keeps _ (fun s' => Store.authors s' = Store.authors s));
    [|reflexivity].
  intros x s' H. destruct (upsert_paper_author_frame x s') as [E _]. congruence.
Qed.

Lemma find_author_authors name s s' :
  Store.authors s' = Store.authors s ->
  Store.find_author name s' = Store.find_author name s.
Proof. intros E. unfold Store.find_author. rewrite E. reflexivity. Qed.

Lemma author_order_paper_authors k s s' :
  Store.paper_authors s' = Store.paper_authors s ->
  Store.author_order k s' = Store.author_order k s.
Proof. intros E. unfold Store.author_order. rewrite E. reflexivity. Qed.

(** After an apply of a record whose author names are distinct, every
    author of the list has an identifier (the one it had, if any), and the
    relation of the paper to it carries its 1-based position in the list. *)
Lemma applied_author_orders (r : PeriodFetcher.Result) (s : Store.t) :
  Store.unique s -> NoDup (PeriodFetcher.authors r) ->
  forall i name,
    nth_error (PeriodFetcher.authors r) i = Some name ->
    exists aid,
      Store.find_author name (applied r s) = Some aid /\
      Store.author_order (PeriodFetcher.paper_id r, aid) (applied r s) = Some (i + 1) /\
      (forall a, Store.find_author name s = Some a -> a = aid).
Proof.
  intros U Hn i name Hi. unfold applied.
  set (s2 := Store.upsert_paper (PeriodFetcher.paper_row r) (applied_primary r s)).
  assert (U2 : Store.unique s2).
  { apply upsert_paper_unique. apply applied_primary_keeps; [|exact U].
    apply insert_category_do_nothing_unique. }
  assert (A2 : Store.authors s2 = Store.authors s).
  { unfold s2. destruct (upsert_paper_frame (PeriodFetcher.paper_row r)
                           (applied_primary r s)) as [E _].
    destruct (applied_primary_frame r s) as [E' _]. congruence. }
  destruct (@fold_linked_spec (PeriodFetcher.paper_id r) (PeriodFetcher.authors r)
              0 [] s2 U2)
    as [ids [s3 [E [Hlen [U3 [F [St _]]]]]]].
  unfold applied_authors. rewrite E. cbn [app].
  rewrite <- Hlen.
  set (rows := map (fun ia : nat * nat => (PeriodFetcher.paper_id r, snd ia, fst ia + 1))
                   (combine (seq 0 (List.length ids)) ids)).
  destruct (@Forall2_nth_error _ _ _ _ _ F i name Hi) as [aid [Hid Hf]].
  exists aid.
  destruct (applied_categories_frame r
              (Store.insert_rows Store.upsert_paper_author rows s3)) as [EA EP].
  assert (Hfind : forall n, Store.find_author n
                    (applied_categories r
                       (Store.insert_rows Store.upsert_paper_author rows s3))
                  = Store.find_author n s3).
  { intros n. apply find_author_authors. rewrite EA. apply upserts_authors. }
  split; [rewrite Hfind; exact Hf|]. split.
  - rewrite (@author_order_paper_authors _ _ _ EP).
    change (PeriodFetcher.paper_id r, aid)
      with (Store.pa_key (PeriodFetcher.paper_id r, aid, 0 + i + 1)).
    rewrite (@author_order_upserts rows).
    + reflexivity.
    + unfold rows. rewrite relation_rows_keys. apply NoDup_map_pair.
      apply (@Forall2_NoDup _ _ _ _ _ (fun n1 n2 a => @find_author_injective s3 n1 n2 a U3) F Hn).
    + unfold rows. apply relation_rows_nth. exact Hid.
  - intros a Ha.
    assert (H2 : Store.find_author name s2 = Some a).
    { rewrite (@find_author_authors name _ _ A2). exact Ha. }
    apply St in H2. congruence.
Qed.

(** ** Idempotence and ordinals *)

(** C1. Idempotence of the per-record upsert: from a store that satisfies
    its unique constraints, two applies of the same record that both return
    [True] leave exactly one Paper row under the record's identifier, with
    the bibliographic columns of the record, and no two PaperAuthor rows
    for one (paper, author) pair nor two equal PaperCategory rows. *)
Theorem apply_twice_is_idempotent
    (raises : nat -> bool) (s : Store.t) (r : PeriodFetcher.Result)
    (c1 c2 : Db.conn) :
  Store.unique s ->
  PeriodFetcher.insert_paper_data raises (Db.connect s) r = (true, c1) ->
  PeriodFetcher.insert_paper_data raises c1 r = (true, c2) ->
  (exists row,
     Store.papers_with_id (PeriodFetcher.paper_id r) (Db.committed c2) = [row] /\
     Store.id row = PeriodFetcher.paper_id r /\
     same_bibliographic (PeriodFetcher.paper_row r) row) /\
  NoDup (map Store.pa_key (Store.paper_authors (Db.committed c2))) /\
  NoDup (Store.paper_categories (Db.committed c2)).
Proof.
  intros U H1 H2.
  apply insert_paper_data_true in H1. destruct H1 as [W1 _].
  apply insert_paper_data_true in H2. destruct H2 as [_ C2].
  rewrite W1 in C2. simpl in C2. rewrite C2.
  pose proof (applied_unique r U) as U1.
  pose proof (applied_unique r U1) as U2.
  split; [|split].
  - unfold Store.papers_with_id. rewrite applied_papers.
    apply (@upsert_paper_one_row (PeriodFetcher.paper_row r) (applied r s) U1).
  - exact (Store.unique_paper_author U2).
  - exact (Store.unique_paper_category U2).
Qed.

(** The first record of the scenario applied twice to the empty store. *)
Lemma apply_twice_is_idempotent_witness :
  (exists row,
     Store.papers_with_id "2401.00001"
       (Db.committed
          (snd (PeriodFetcher.insert_paper_data never
                  (snd (PeriodFetcher.insert_paper_data never
                          (Db.connect Store.empty) sample_result))
                  sample_result))) = [row] /\
     Store.id row = "2401.00001" /\
     same_bibliographic (PeriodFetcher.paper_row sample_result) row) /\
  NoDup (map Store.pa_key
           (Store.paper_authors
              (Db.committed
                 (snd (PeriodFetcher.insert_paper_data never
                         (snd (PeriodFetcher.insert_paper_data never
                                 (Db.connect Store.empty) sample_result))
                         sample_result))))) /\
  NoDup (Store.paper_categories
           (Db.committed
              (snd (PeriodFetcher.insert_paper_data never
                      (snd (PeriodFetcher.insert_paper_data never
                              (Db.connect Store.empty) sample_result))
                      sample_result)))).
Proof.
  apply (@apply_twice_is_idempotent never Store.empty sample_result
           (snd (PeriodFetcher.insert_paper_data never
                   (Db.connect Store.empty) sample_result))
           (snd (PeriodFetcher.insert_paper_data never
                   (snd (PeriodFetcher.insert_paper_data never
                           (Db.connect Store.empty) sample_result))
                   sample_result))).
  - apply empty_unique.
  - vm_compute. reflexivity.
  - vm_compute. reflexivity.
Defined.

(** The batched import keeps the unique constraints, whatever raises. *)
Lemma imported_unique raises fromisoformat strptime papers s :
  Store.unique s ->
  Store.unique (ImportArxiv.imported raises fromisoformat strptime papers s).
Proof.
  apply imported_keeps.
  - intros paper pid _ _ _. apply insert_paper_do_nothing_unique.
  - apply insert_category_do_nothing_unique.
  - apply insert_author_do_nothing_unique.
  - apply insert_paper_author_do_nothing_unique.
  - apply insert_paper_category_do_nothing_unique.
  - apply unique_past_draws.
Qed.

(** C4, as the code has it.  Per-record path: after an apply that returns
    [True] of a record whose author names are distinct, each author has one
    PaperAuthor row for the paper, under the identifier the author already
    had if any, with the author's 1-based position in the record as ordinal.
    Batched path: a (paper, author) pair stored before the import keeps the
    ordinal it had, whatever the file says.  Neither path leaves two rows
    for one pair. *)
Theorem reingest_sets_ordinals_per_record_only
    (raises : nat -> bool)
    (fromisoformat : string -> option Py.datetime)
    (strptime : string -> string -> option Py.datetime)
    (s : Store.t) (r : PeriodFetcher.Result) (c' : Db.conn)
    (papers : list ImportArxiv.Paper) :
  Store.unique s ->
  NoDup (PeriodFetcher.authors r) ->
  PeriodFetcher.insert_paper_data raises (Db.connect s) r = (true, c') ->
  (NoDup (map Store.pa_key (Store.paper_authors (Db.committed c'))) /\
   forall i name,
     nth_error (PeriodFetcher.authors r) i = Some name ->
     exists aid,
       Store.find_author name (Db.committed c') = Some aid /\
       Store.author_order (PeriodFetcher.paper_id r, aid) (Db.committed c')
       = Some (i + 1) /\
       (forall a, Store.find_author name s = Some a -> a = aid)) /\
  (NoDup (map Store.pa_key
            (Store.paper_authors
               (ImportArxiv.imported raises fromisoformat strptime papers s))) /\
   forall k o,
     Store.author_order k s = Some o ->
     Store.author_order k (ImportArxiv.imported raises fromisoformat strptime papers s)
     = Some o).
Proof.
  intros U Hn H. apply insert_paper_data_true in H. destruct H as [_ C].
  simpl in C. rewrite C. split; split.
  - exact (Store.unique_paper_author (applied_unique r U)).
  - intros i name Hi. apply applied_author_orders; assumption.
  - exact (Store.unique_paper_author
             (imported_unique raises fromisoformat strptime papers U)).
  - intros k o Ho. eapply grows_author_order; [apply imported_grows | exact Ho].
Qed.

(** The revised record applied over the first one: Y (identifier 2) is now
    first and X (identifier 1) second. *)
Lemma reingest_sets_ordinals_per_record_only_witness :
  exists c',
    PeriodFetcher.insert_paper_data never (Db.connect store_after_sample)
      sample_result_revised = (true, c') /\
    Store.author_order ("2401.00001", 2) store_after_sample = Some 2 /\
    (exists aid,
       Store.find_author "Y" (Db.committed c') = Some aid /\
       Store.author_order ("2401.00001", aid) (Db.committed c') = Some 1 /\
       (forall a, Store.find_author "Y" store_after_sample = Some a -> a = aid)).
Proof.
  exists (snd (PeriodFetcher.insert_paper_data never (Db.connect store_after_sample)
                 sample_result_revised)).
  split; [vm_compute; reflexivity|]. split; [vm_compute; reflexivity|].
  refine (proj2 (proj1 (@reingest_sets_ordinals_per_record_only never no_iso
                          no_strptime store_after_sample sample_result_revised _
                          file_with_paper_A_revised _ _ _)) 0 "Y" eq_refl).
  - unfold store_after_sample.
    pose proof (@insert_paper_data_true never (Db.connect Store.empty)
                  (snd (PeriodFetcher.insert_paper_data never
                          (Db.connect Store.empty) sample_result))
                  sample_result ltac:(vm_compute; reflexivity)) as [_ C].
    rewrite C. apply applied_unique. apply empty_unique.
  - repeat constructor; simpl; intuition discriminate.
  - vm_compute. reflexivity.
Defined.

(** The claim fails on the batched path: importing the revised record,
    whose first author is Y, over the stored one leaves Y (identifier 2)
    with ordinal 2. *)
Lemma batched_reingest_keeps_old_ordinal :
  Store.find_author "Y"
    (ImportArxiv.imported never no_iso no_strptime file_with_paper_A_revised
       store_with_paper_A) = Some 2 /\
  Store.author_order ("2401.00001", 2)
    (ImportArxiv.imported never no_iso no_strptime file_with_paper_A_revised
       store_with_paper_A) = Some 2 /\
  Store.author_order ("2401.00001", 2)
    (ImportArxiv.imported never no_iso no_strptime file_with_paper_A_revised
       store_with_paper_A) <> Some 1.
Proof.
  split; [vm_compute; reflexivity|]. split; [vm_compute; reflexivity|].
  vm_compute. discriminate.
Qed.

(** ** The batched import when no statement raises *)

Lemma steady_ret S A (I : S -> Prop) (a : A) : steady I (ret a).
Proof. intros s Hs. exists a, s. split; [reflexivity | exact Hs]. Qed.

Lemma steady_bind S A B (I : S -> Prop) (m : M S A) (k : A -> M S B) :
  steady I m -> (forall a, steady I (k a)) -> steady I (bind m k).
Proof.
  intros Hm Hk s Hs. destruct (Hm s Hs) as [a [s1 [E1 H1]]].
  destruct (Hk a s1 H1) as [b [s2 [E2 H2]]].
  exists b, s2. unfold bind. rewrite E1. split; [exact E2 | exact H2].
Qed.

Lemma steady_for_each S A (I : S -> Prop) (l : list A) (body : A -> M S unit) :
  (forall x, steady I (body x)) -> steady I (for_each l body).
Proof.
  intros Hb. induction l as [|x l IH]; simpl.
  - apply steady_ret.
  - apply steady_bind; [apply Hb | intros _; exact IH].
Qed.

Lemma for_each_app S A (l1 l2 : list A) (body : A -> M S unit) s :
  for_each (l1 ++ l2) body s = bind (for_each l1 body) (fun _ => for_each l2 body) s.
Proof.
  revert s. induction l1 as [|x l IH]; intros s; simpl.
  - reflexivity.
  - unfold bind. destruct (body x s) as [[u|e] s1]; [|reflexivity].
    rewrite IH. reflexivity.
Qed.

Lemma enumerate_app A (l1 l2 : list A) :
  forall start,
    Py.enumerate start (l1 ++ l2)
    = Py.enumerate start l1 ++ Py.enumerate (start + List.length l1) l2.
Proof.
  induction l1 as [|x l IH]; intros start; simpl.
  - rewrite Nat.add_0_r. reflexivity.
  - rewrite IH. do 3 f_equal. lia.
Qed.

Lemma steady_for_each_in S A (I : S -> Prop) (l : list A) (body : A -> M S unit) :
  (forall x, In x l -> steady I (body x)) -> steady I (for_each l body).
Proof.
  induction l as [|x l IH]; intros Hb; simpl.
  - apply steady_ret.
  - apply steady_bind.
    + apply Hb. left. reflexivity.
    + intros _. apply IH. intros y Hy. apply Hb. right. exact Hy.
Qed.

Lemma In_firstn A (n : nat) : forall (l : list A) x, In x (firstn n l) -> In x l.
Proof.
  induction n as [|n IH]; intros [|y l] x H; simpl in *; try contradiction.
  destruct H as [H|H]; [left; exact H | right; apply IH; exact H].
Qed.

Lemma In_skipn A (n : nat) : forall (l : list A) x, In x (skipn n l) -> In x l.
Proof.
  induction n as [|n IH]; intros [|y l] x H; simpl in *; try contradiction.
  - exact H.
  - right. apply IH. exact H.
Qed.

Lemma slice_incl A (l : list A) (i j : nat) : incl (Py.slice l i j) l.
Proof.
  unfold Py.slice. intros x Hx.
  apply (@In_skipn A i). apply (@In_firstn A (j - i)). exact Hx.
Qed.

Lemma prints_messages (l : list ImportArxiv.message) :
  forall st,
    ImportArxiv.messages (fold_left (fun st m => ImportArxiv.print m st) l st)
    = ImportArxiv.messages st ++ l.
Proof.
  induction l as [|m l IH]; intros st; simpl.
  - symmetry. apply app_nil_r.
  - rewrite IH. simpl. rewrite <- app_assoc. reflexivity.
Qed.

Lemma prints_new_paper_categories (l : list ImportArxiv.message) :
  forall st,
    ImportArxiv.new_paper_categories
      (fold_left (fun st m => ImportArxiv.print m st) l st)
    = ImportArxiv.new_paper_categories st.
Proof.
  induction l as [|m l IH]; intros st; [reflexivity|]. simpl. rewrite IH. reflexivity.
Qed.

Lemma collect_messages categories authors st :
  ImportArxiv.messages
    (ImportArxiv.collect_authors authors (ImportArxiv.collect_categories categories st))
  = ImportArxiv.messages st.
Proof.
  assert (C : forall st0, ImportArxiv.messages (ImportArxiv.collect_categories categories st0)
                          = ImportArxiv.messages st0).
  { unfold ImportArxiv.collect_categories.
    induction categories as [|c l IH]; intros st0; [reflexivity|].
    simpl. rewrite IH. destruct (_ && _); reflexivity. }
  assert (A : forall st0, ImportArxiv.messages (ImportArxiv.collect_authors authors st0)
                          = ImportArxiv.messages st0).
  { unfold ImportArxiv.collect_authors.
    induction authors as [|c l IH]; intros st0; [reflexivity|].
    simpl. rewrite IH. destruct (negb (Py.truthy c)); [reflexivity|].
    destruct (negb _); reflexivity. }
  rewrite A, C. reflexivity.
Qed.

Section Steady.

Variable fromisoformat : string -> option Py.datetime.
Variable strptime : string -> string -> option Py.datetime.
Variable papers : list ImportArxiv.Paper.

(** A property of the store the transaction sees, kept by every statement
    of the import, and a property of the lines printed, kept by printing. *)
Variable Pw : Store.t -> Prop.
Variable Pm : list ImportArxiv.message -> Prop.

Hypothesis kept_paper :
  forall n, keeps Pw (fun s => snd (Store.insert_paper_do_nothing n s)).
Hypothesis kept_category : forall r, keeps Pw (Store.insert_category_do_nothing r).
Hypothesis kept_author : forall name, keeps Pw (Store.insert_author_do_nothing name).
Hypothesis kept_paper_author :
  forall r, keeps Pw (Store.insert_paper_author_do_nothing r).
Hypothesis kept_paper_category :
  forall r, keeps Pw (Store.insert_paper_category_do_nothing r).
Hypothesis kept_print : forall l m, Pm l -> Pm (l ++ [m]).
Hypothesis lists : no_null_list papers.

Let I (st : ImportArxiv.state) : Prop :=
  Pw (Db.working (ImportArxiv.conn st)) /\ Pm (ImportArxiv.messages st).

Lemma query_never A (q : Store.t -> A * Store.t) (c : Db.conn) :
  Db.query never q c
  = (Ok (fst (q (Db.working c))),
     {| Db.committed := Db.committed c;
        Db.working := snd (q (Db.working c));
        Db.clock := S (Db.clock c) |}).
Proof.
  unfold Db.query, never. destruct (q (Db.working c)). reflexivity.
Qed.

Lemma db_query_steady A (q : Store.t -> A * Store.t) :
  keeps Pw (fun s => snd (q s)) -> steady I (ImportArxiv.db (Db.query never q)).
Proof.
  intros Hq st [Hw Hm]. unfold ImportArxiv.db. rewrite query_never.
  do 2 eexists. split; [reflexivity|]. split; [apply Hq; exact Hw | exact Hm].
Qed.

Lemma pages_never R (row : R -> Store.t -> Store.t) (pages : list (list R)) :
  (forall r, keeps Pw (row r)) ->
  forall c, Pw (Db.working c) ->
    exists c',
      for_each pages (fun page => Db.execute never (Store.insert_rows row page)) c
      = (Ok tt, c') /\
      Pw (Db.working c') /\ Db.committed c' = Db.committed c.
Proof.
  intros Hrow. induction pages as [|p ps IH]; intros c Hc; simpl.
  - exists c. auto.
  - unfold bind, Db.execute. rewrite query_never.
    match goal with
    | |- context [for_each ps _ ?c1] => destruct (IH c1) as [c' [E [H1 H2]]]
    end.
    { simpl. apply insert_rows_keeps; assumption. }
    exists c'. split; [exact E|]. split; [exact H1 | exact H2].
Qed.

Lemma flush_list_steady R (rows : ImportArxiv.state -> list R)
    (row : R -> Store.t -> Store.t) :
  (forall r, keeps Pw (row r)) ->
  steady I (ImportArxiv.flush_list never rows row).
Proof.
  intros Hrow st [Hw Hm]. unfold ImportArxiv.flush_list.
  destruct (rows st) as [|x l].
  - exists tt, st. split; [reflexivity | split; assumption].
  - unfold ImportArxiv.db, Db.execute_values.
    destruct (@pages_never _ row (Py.groups_of 100 (x :: l)) Hrow
                (ImportArxiv.conn st) Hw) as [c' [E [H1 _]]].
    rewrite E. do 2 eexists. split; [reflexivity|]. split; assumption.
Qed.

Lemma modify_steady (f : ImportArxiv.state -> ImportArxiv.state) :
  (forall st, ImportArxiv.conn (f st) = ImportArxiv.conn st /\
              ImportArxiv.messages (f st) = ImportArxiv.messages st) ->
  steady I (ImportArxiv.modify f).
Proof.
  intros Hf st [Hw Hm]. exists tt, (f st). split; [reflexivity|].
  destruct (Hf st) as [E1 E2]. unfold I. rewrite E1, E2. split; assumption.
Qed.

Lemma when_steady (b : ImportArxiv.state -> bool) (m : M ImportArxiv.state unit) :
  steady I m -> steady I (fun st => if b st then m st else (Ok tt, st)).
Proof.
  intros Hm st Hst. destruct (b st).
  - destruct (Hm st Hst) as [[] [st' [E H]]]. exists tt, st'. auto.
  - exists tt, st. auto.
Qed.

Lemma refresh_author_ids_steady : steady I (ImportArxiv.refresh_author_ids never).
Proof.
  intros st0 Hst. unfold ImportArxiv.refresh_author_ids.
  eapply steady_for_each; [|exact Hst].
  intros author st Hst1. cbv beta.
  destruct (ImportArxiv.dict_get (ImportArxiv.author_name_to_id st) author)
    as [[aid|]|].
  - exists tt, st. auto.
  - revert st Hst1. apply steady_bind.
    + apply db_query_steady. intros s Hs. exact Hs.
    + intros [aid|]; [apply modify_steady; intros st; split; reflexivity
                     | apply steady_ret].
  - exists tt, st. auto.
Qed.

Lemma commit_steady : steady I (ImportArxiv.db (Db.commit never)).
Proof.
  intros st [Hw Hm]. unfold ImportArxiv.db, Db.commit, never.
  do 2 eexists. split; [reflexivity|]. split; assumption.
Qed.

Lemma prints_steady (l : list ImportArxiv.message) :
  steady I (ImportArxiv.modify
              (fun st => fold_left (fun st m => ImportArxiv.print m st) l st)).
Proof.
  intros st [Hw Hm]. exists tt. eexists. split; [reflexivity|]. split.
  - rewrite prints_conn. exact Hw.
  - rewrite prints_messages. revert Hm. generalize (ImportArxiv.messages st).
    induction l as [|m l IH]; intros l0 H0.
    + rewrite app_nil_r. exact H0.
    + replace (l0 ++ m :: l) with ((l0 ++ [m]) ++ l)
        by (rewrite <- app_assoc; reflexivity).
      apply IH. apply kept_print. exact H0.
Qed.

Lemma append_relations_steady ps :
  incl ps papers -> steady I (ImportArxiv.append_relations ps).
Proof.
  intros Hsub. unfold ImportArxiv.append_relations.
  apply steady_for_each_in. intros paper Hin.
  destruct (ImportArxiv.p_id paper) as [pid|] eqn:Hid; [|apply steady_ret].
  destruct (Py.truthy pid) eqn:Ht; [|apply steady_ret]. cbn [negb].
  destruct (ImportArxiv.p_authors paper) as [authors|] eqn:Ha.
  - apply modify_steady. intros st; split; reflexivity.
  - exfalso. apply (proj2 (lists paper (Hsub _ Hin)
                             ltac:(rewrite Hid; exact Ht))). exact Ha.
Qed.

Lemma flush_window_steady i : steady I (ImportArxiv.flush_window never papers i).
Proof.
  unfold ImportArxiv.flush_window.
  apply steady_bind.
  { apply when_steady with (b := fun st => ImportArxiv.nonempty (ImportArxiv.new_categories st)).
    apply steady_bind.
    - apply flush_list_steady. exact kept_category.
    - intros _. apply modify_steady. intros st; split; reflexivity. }
  intros _. apply steady_bind.
  { apply when_steady with (b := fun st => ImportArxiv.nonempty (ImportArxiv.new_authors st)).
    apply steady_bind.
    - apply flush_list_steady. exact kept_author.
    - intros _. apply steady_bind.
      + apply modify_steady. intros st; split; reflexivity.
      + intros _. apply refresh_author_ids_steady. }
  intros _. apply steady_bind.
  { apply append_relations_steady. apply slice_incl. }
  intros _. apply steady_bind.
  { apply when_steady with (b := fun st => ImportArxiv.nonempty (ImportArxiv.new_paper_authors st)).
    apply steady_bind.
    - apply flush_list_steady. exact kept_paper_author.
    - intros _. apply modify_steady. intros st; split; reflexivity. }
  intros _. apply steady_bind.
  { apply when_steady with (b := fun st => ImportArxiv.nonempty (ImportArxiv.new_paper_categories st)).
    apply steady_bind.
    - apply flush_list_steady. exact kept_paper_category.
    - intros _. apply modify_steady. intros st; split; reflexivity. }
  intros _. apply commit_steady.
Qed.

(** What follows the [INSERT INTO papers] in the body of the inner [try]. *)
Lemma try_paper_rest_steady i pid (categories : list string) :
  steady I
    (bind (ImportArxiv.modify
             (fun st =>
                ImportArxiv.set_new_paper_categories
                  (ImportArxiv.new_paper_categories st ++
                   map (fun cat => (pid, cat)) (filter Py.truthy categories)) st))
          (fun _ => if Nat.eqb ((i + 1) mod 100) 0
                    then ImportArxiv.flush_window never papers i else ret tt)).
Proof.
  apply steady_bind.
  - apply modify_steady. intros st; split; reflexivity.
  - intros _. destruct (Nat.eqb _ 0); [apply flush_window_steady | apply steady_ret].
Qed.

Lemma try_paper_steady i pid title paper categories :
  ImportArxiv.p_categories paper = Some categories ->
  steady I (ImportArxiv.try_paper never fromisoformat strptime papers i pid title paper).
Proof.
  intros Hc. unfold ImportArxiv.try_paper. rewrite Hc.
  apply steady_bind; [apply prints_steady|].
  intros _. apply steady_bind.
  - apply db_query_steady. apply kept_paper.
  - intros _. apply try_paper_rest_steady.
Qed.

Lemma import_paper_steady ip :
  In (snd ip) papers ->
  steady I (ImportArxiv.import_paper never fromisoformat strptime papers ip).
Proof.
  intros Hin st [Hw Hm]. destruct ip as [i paper]. unfold ImportArxiv.import_paper.
  destruct (negb (Py.truthy_opt (ImportArxiv.p_id paper))) eqn:Hid.
  - do 2 eexists. split; [reflexivity|]. split; [exact Hw | apply kept_print; exact Hm].
  - set (pid := match ImportArxiv.p_id paper with Some s => s | None => "" end).
    assert (T : exists title st1,
               (if negb (Py.truthy_opt (ImportArxiv.p_title paper))
                then ("", ImportArxiv.print (ImportArxiv.WarnNoTitle pid) st)
                else (match ImportArxiv.p_title paper with Some s => s | None => "" end,
                      st)) = (title, st1) /\ I st1).
    { destruct (negb (Py.truthy_opt (ImportArxiv.p_title paper)));
        do 2 eexists; (split; [reflexivity|]); split; auto.
      apply kept_print. exact Hm. }
    destruct T as [title [st1 [E [Hw1 Hm1]]]]. rewrite E.
    apply negb_false_iff in Hid. destruct (lists paper Hin Hid) as [Hc Ha].
    destruct (ImportArxiv.p_categories paper) as [categories|] eqn:Ec;
      [|contradiction].
    destruct (ImportArxiv.p_authors paper) as [authors|] eqn:Ea; [|contradiction].
    assert (H2 : I (ImportArxiv.collect_authors authors
                      (ImportArxiv.collect_categories categories st1))).
    { split.
      - rewrite collect_authors_conn, collect_categories_conn. exact Hw1.
      - rewrite collect_messages. exact Hm1. }
    destruct (@try_paper_steady i pid title paper categories Ec _ H2)
      as [[] [st3 [E3 H3]]].
    rewrite E3. exists tt, st3. split; [reflexivity | exact H3].
Qed.

Lemma preload_steady : steady I (ImportArxiv.preload never).
Proof.
  unfold ImportArxiv.preload.
  apply steady_bind.
  { apply db_query_steady. intros s Hs. exact Hs. }
  intros rows. apply steady_bind; [apply modify_steady; intros st; split; reflexivity|].
  intros _. apply steady_bind.
  { apply db_query_steady. intros s Hs. exact Hs. }
  intros codes. apply modify_steady. intros st; split; reflexivity.
Qed.

(** What precedes the last commit in [finish]. *)
Lemma finish_flushes_steady :
  steady I
    (bind (ImportArxiv.flush_categories never)
       (fun _ =>
          bind (fun st =>
                  if ImportArxiv.nonempty (ImportArxiv.new_authors st)
                  then (bind (ImportArxiv.flush_authors never)
                             (fun _ => ImportArxiv.refresh_author_ids never)) st
                  else (Ok tt, st))
            (fun _ =>
               bind (ImportArxiv.append_relations papers)
                 (fun _ =>
                    bind (ImportArxiv.flush_paper_authors never)
                         (fun _ => ImportArxiv.flush_paper_categories never))))).
Proof.
  apply steady_bind; [apply flush_list_steady; exact kept_category|].
  intros _. apply steady_bind.
  { apply when_steady with (b := fun st => ImportArxiv.nonempty (ImportArxiv.new_authors st)).
    apply steady_bind; [apply flush_list_steady; exact kept_author|].
    intros _. apply refresh_author_ids_steady. }
  intros _. apply steady_bind; [apply append_relations_steady; apply incl_refl|].
  intros _. apply steady_bind; [apply flush_list_steady; exact kept_paper_author|].
  intros _. apply flush_list_steady. exact kept_paper_category.
Qed.

End Steady.

(** ** The batched import: which records are stored *)

Lemma insert_author_do_nothing_papers name s :
  Store.papers (Store.insert_author_do_nothing name s) = Store.papers s.
Proof.
  unfold Store.insert_author_do_nothing. destruct (Store.find_author name s);
    reflexivity.
Qed.

Lemma insert_paper_author_do_nothing_papers x s :
  Store.papers (Store.insert_paper_author_do_nothing x s) = Store.papers s.
Proof.
  unfold Store.insert_paper_author_do_nothing.
  destruct (Store.has_paper_author _ _); reflexivity.
Qed.

Lemma insert_paper_category_do_nothing_papers x s :
  Store.papers (Store.insert_paper_category_do_nothing x s) = Store.papers s.
Proof.
  unfold Store.insert_paper_category_do_nothing.
  destruct (Store.has_paper_category _ _); reflexivity.
Qed.

(** A property of the [papers] table alone is kept by the statements that
    write to the other tables. *)
Lemma kept_by_import_papers (P : list Store.PaperRow -> Prop) :
  (forall n s, P (Store.papers s) ->
               P (Store.papers (snd (Store.insert_paper_do_nothing n s)))) ->
  kept_by_import (fun s => P (Store.papers s)).
Proof.
  intros Hp. split; [exact Hp|]. split; [|split; [|split]]; intros x s H.
  - rewrite insert_category_do_nothing_papers. exact H.
  - rewrite insert_author_do_nothing_papers. exact H.
  - rewrite insert_paper_author_do_nothing_papers. exact H.
  - rewrite insert_paper_category_do_nothing_papers. exact H.
Qed.

(** X1. Whatever raises, every row of [papers] left durable by the batched
    import was in the store before or is the row of an element of the file
    that carries a non-empty identifier, with the empty string as title when
    the element has none: an element without identifier is never stored. *)
Theorem imported_rows_come_from_identified_records
    (raises : nat -> bool)
    (fromisoformat : string -> option Py.datetime)
    (strptime : string -> string -> option Py.datetime)
    (papers : list ImportArxiv.Paper) (s : Store.t) (row : Store.PaperRow) :
  In row (Store.papers (ImportArxiv.imported raises fromisoformat strptime papers s)) ->
  In row (Store.papers s) \/ from_file fromisoformat strptime papers row.
Proof.
  revert row.
  apply (@imported_keeps raises fromisoformat strptime papers
           (fun s' => forall row, In row (Store.papers s') ->
                        In row (Store.papers s) \/
                        from_file fromisoformat strptime papers row)).
  - intros paper pid Hin Hid Hpid s' H row.
    unfold Store.insert_paper_do_nothing.
    destruct (Store.has_paper _ s'); simpl; [apply H|].
    intros Hrow. apply in_app_or in Hrow. destruct Hrow as [Hrow|[<-|[]]].
    + apply H. exact Hrow.
    + right. exists paper, pid. auto.
  - intros x s' H row. rewrite insert_category_do_nothing_papers. apply H.
  - intros x s' H row. rewrite insert_author_do_nothing_papers. apply H.
  - intros x s' H row. rewrite insert_paper_author_do_nothing_papers. apply H.
  - intros x s' H row. rewrite insert_paper_category_do_nothing_papers. apply H.
  - apply tables_past_draws. intros s0 n H. exact H.
  - intros row H. left. exact H.
Qed.

(** The only row stored for [file_of_three] under 2401.00002 has the empty
    title. *)
Lemma imported_rows_come_from_identified_records_witness :
  In (ImportArxiv.paper_row no_iso no_strptime "2401.00002" ""
        (json_paper (Some "2401.00002") None ["Y"] ["cs.LG"]))
     (Store.papers Store.empty) \/
  from_file no_iso no_strptime file_of_three
    (ImportArxiv.paper_row no_iso no_strptime "2401.00002" ""
       (json_paper (Some "2401.00002") None ["Y"] ["cs.LG"])).
Proof.
  apply (@imported_rows_come_from_identified_records never no_iso no_strptime
           file_of_three Store.empty).
  vm_compute. left. reflexivity.
Defined.

(** ** The batched import when no statement raises: every record is stored *)

Lemma bind_step S A B (m : M S A) (k : A -> M S B) s a s1 :
  m s = (Ok a, s1) -> bind m k s = k a s1.
Proof. intros H. unfold bind. rewrite H. reflexivity. Qed.

Lemma reaches_bind S A B (I Q : S -> Prop) (m : M S A) (k : A -> M S B) :
  steady I m -> (forall a, reaches I (k a) Q) -> reaches I (bind m k) Q.
Proof.
  intros Hm Hk s Hs. destruct (Hm s Hs) as [a [s1 [E1 H1]]].
  destruct (Hk a s1 H1) as [b [s2 [E2 H2]]].
  exists b, s2. rewrite (bind_step _ _ _ E1). split; [exact E2 | exact H2].
Qed.

Lemma has_paper_insert_paper pid n s :
  Store.has_paper pid s = true ->
  Store.has_paper pid (snd (Store.insert_paper_do_nothing n s)) = true.
Proof.
  intros H. unfold Store.insert_paper_do_nothing.
  destruct (Store.has_paper (Store.id n) s); simpl; [exact H|].
  unfold Store.has_paper in *. simpl. rewrite existsb_app, H. reflexivity.
Qed.

Lemma has_paper_inserted n s :
  Store.has_paper (Store.id n) (snd (Store.insert_paper_do_nothing n s)) = true.
Proof.
  unfold Store.insert_paper_do_nothing.
  destruct (Store.has_paper (Store.id n) s) eqn:E; simpl; [exact E|].
  unfold Store.has_paper. simpl. rewrite existsb_app. simpl.
  rewrite String.eqb_refl. apply orb_true_iff. right. reflexivity.
Qed.

(** Once stored, a set of identifiers stays stored. *)
Lemma kept_has_papers (C : string -> Prop) :
  kept_by_import (fun s => forall pid, C pid -> Store.has_paper pid s = true).
Proof.
  apply (@kept_by_import_papers
           (fun l => forall pid, C pid ->
                       existsb (fun r => String.eqb (Store.id r) pid) l = true)).
  intros n s H pid Hc. apply has_paper_insert_paper. apply H. exact Hc.
Qed.

Lemma kept_and (P Q : Store.t -> Prop) :
  kept_by_import P -> kept_by_import Q -> kept_by_import (fun s => P s /\ Q s).
Proof.
  intros [P1 [P2 [P3 [P4 P5]]]] [Q1 [Q2 [Q3 [Q4 Q5]]]].
  split; [|split; [|split; [|split]]]; intros x s [Hp Hq]; split.
  - apply (P1 x s Hp).
  - apply (Q1 x s Hq).
  - apply (P2 x s Hp).
  - apply (Q2 x s Hq).
  - apply (P3 x s Hp).
  - apply (Q3 x s Hq).
  - apply (P4 x s Hp).
  - apply (Q4 x s Hq).
  - apply (P5 x s Hp).
  - apply (Q5 x s Hq).
Qed.

Lemma kept_true : kept_by_import (fun _ => True).
Proof. split; [|split; [|split; [|split]]]; intros x s H; exact I. Qed.

(** One element of the file, no statement raising: its warnings are
    printed and, when it has an identifier, a row is there under it. *)
Lemma import_paper_never
    (fromisoformat : string -> option Py.datetime)
    (strptime : string -> string -> option Py.datetime)
    (papers : list ImportArxiv.Paper) (Pw : Store.t -> Prop) :
  kept_by_import Pw -> no_null_list papers ->
  forall i paper st,
    In paper papers ->
    Pw (Db.working (ImportArxiv.conn st)) ->
    exists st',
      ImportArxiv.import_paper never fromisoformat strptime papers (i, paper) st
      = (Ok tt, st') /\
      Pw (Db.working (ImportArxiv.conn st')) /\
      ImportArxiv.messages st'
      = ImportArxiv.messages st ++ printed_for fromisoformat strptime (i, paper) /\
      (forall pid, ImportArxiv.p_id paper = Some pid -> Py.truthy pid = true ->
                   Store.has_paper pid (Db.working (ImportArxiv.conn st')) = true).
Proof.
  intros K L i paper st Hin Hw.
  unfold ImportArxiv.import_paper, printed_for, warnings. cbn [snd].
  destruct (Py.truthy_opt (ImportArxiv.p_id paper)) eqn:Hid; cbn [negb].
  2:{ eexists. split; [reflexivity|]. split; [exact Hw|].
      split; [rewrite app_nil_r; reflexivity|].
      intros pid E T. rewrite E in Hid. simpl in Hid. rewrite T in Hid. discriminate. }
  set (pid := match ImportArxiv.p_id paper with Some s => s | None => "" end).
  assert (T : exists title st1,
             (if negb (Py.truthy_opt (ImportArxiv.p_title paper))
              then ("", ImportArxiv.print (ImportArxiv.WarnNoTitle pid) st)
              else (match ImportArxiv.p_title paper with Some s => s | None => "" end,
                    st)) = (title, st1) /\
             ImportArxiv.conn st1 = ImportArxiv.conn st /\
             ImportArxiv.messages st1
             = ImportArxiv.messages st ++
               (if negb (Py.truthy_opt (ImportArxiv.p_title paper))
                then [ImportArxiv.WarnNoTitle pid] else [])).
  { destruct (negb (Py.truthy_opt (ImportArxiv.p_title paper)));
      do 2 eexists; (split; [reflexivity|]); split; try reflexivity.
    rewrite app_nil_r. reflexivity. }
  destruct T as [title [st1 [E [C1 M1]]]]. rewrite E.
  destruct (L paper Hin Hid) as [Hc Ha].
  destruct (ImportArxiv.p_categories paper) as [categories|] eqn:Ec; [|contradiction].
  destruct (ImportArxiv.p_authors paper) as [authors|] eqn:Ea; [|contradiction].
  set (st2 := ImportArxiv.collect_authors authors
                (ImportArxiv.collect_categories categories st1)).
  assert (C2 : ImportArxiv.conn st2 = ImportArxiv.conn st).
  { unfold st2. rewrite collect_authors_conn, collect_categories_conn. exact C1. }
  assert (M2 : ImportArxiv.messages st2 = ImportArxiv.messages st1).
  { apply collect_messages. }
  unfold ImportArxiv.try_paper. rewrite Ec.
  set (dts := ImportArxiv.parse_datetime_prints fromisoformat strptime
                (ImportArxiv.p_arxiv_published_at paper) ++
              ImportArxiv.parse_datetime_prints fromisoformat strptime
                (ImportArxiv.p_arxiv_updated_at paper)).
  set (st2p := fold_left (fun st m => ImportArxiv.print m st) dts st2).
  assert (Q0 : ImportArxiv.modify
                 (fun st => fold_left (fun st m => ImportArxiv.print m st) dts st) st2
               = (Ok tt, st2p)) by reflexivity.
  rewrite (bind_step _ _ _ Q0).
  assert (C2p : ImportArxiv.conn st2p = ImportArxiv.conn st).
  { unfold st2p. rewrite prints_conn. exact C2. }
  assert (M2p : ImportArxiv.messages st2p = ImportArxiv.messages st2 ++ dts).
  { apply prints_messages. }
  set (row := ImportArxiv.paper_row fromisoformat strptime pid title paper).
  assert (Q : ImportArxiv.db (Db.query never (Store.insert_paper_do_nothing row)) st2p
              = (Ok (fst (Store.insert_paper_do_nothing row (Db.working (ImportArxiv.conn st2p)))),
                 ImportArxiv.set_conn
                   {| Db.committed := Db.committed (ImportArxiv.conn st2p);
                      Db.working := snd (Store.insert_paper_do_nothing row
                                           (Db.working (ImportArxiv.conn st2p)));
                      Db.clock := S (Db.clock (ImportArxiv.conn st2p)) |} st2p)).
  { unfold ImportArxiv.db. rewrite query_never. reflexivity. }
  rewrite (bind_step _ _ _ Q).
  destruct K as [K1 [K2 [K3 [K4 K5]]]].
  pose proof (@kept_has_papers (fun p => p = pid)) as [_ [H2 [H3 [H4 H5]]]].
  destruct (@try_paper_rest_steady papers
              (fun s => Pw s /\ forall p, p = pid -> Store.has_paper p s = true)
              (fun l => l = ImportArxiv.messages st2p)
              (fun x s H => conj (K2 x s (proj1 H)) (H2 x s (proj2 H)))
              (fun x s H => conj (K3 x s (proj1 H)) (H3 x s (proj2 H)))
              (fun x s H => conj (K4 x s (proj1 H)) (H4 x s (proj2 H)))
              (fun x s H => conj (K5 x s (proj1 H)) (H5 x s (proj2 H)))
              L i pid categories
              (ImportArxiv.set_conn
                 {| Db.committed := Db.committed (ImportArxiv.conn st2p);
                    Db.working := snd (Store.insert_paper_do_nothing row
                                         (Db.working (ImportArxiv.conn st2p)));
                    Db.clock := S (Db.clock (ImportArxiv.conn st2p)) |} st2p))
    as [[] [st3 [E3 [[Hw3 Hp3] Hm3]]]].
  { simpl. split; [split|reflexivity].
    - apply K1. rewrite C2p. exact Hw.
    - intros p ->. apply (has_paper_inserted row). }
  rewrite E3. exists st3. split; [reflexivity|]. split; [exact Hw3|]. split.
  - rewrite Hm3, M2p, M2, M1. unfold datetime_warnings. fold dts.
    rewrite <- app_assoc. reflexivity.
  - intros p Ep _. apply Hp3. unfold pid. rewrite Ep. reflexivity.
Qed.

(** The loop over the file, no statement raising. *)
Lemma import_loop_never
    (fromisoformat : string -> option Py.datetime)
    (strptime : string -> string -> option Py.datetime)
    (papers : list ImportArxiv.Paper) :
  no_null_list papers ->
  forall (l : list ImportArxiv.Paper) (Pw : Store.t -> Prop),
    incl l papers ->
    kept_by_import Pw ->
    forall start st,
      Pw (Db.working (ImportArxiv.conn st)) ->
      exists st',
        for_each (Py.enumerate start l)
          (ImportArxiv.import_paper never fromisoformat strptime papers) st
        = (Ok tt, st') /\
        Pw (Db.working (ImportArxiv.conn st')) /\
        ImportArxiv.messages st'
        = ImportArxiv.messages st ++
          flat_map (printed_for fromisoformat strptime) (Py.enumerate start l) /\
        (forall paper pid,
           In paper l -> ImportArxiv.p_id paper = Some pid -> Py.truthy pid = true ->
           Store.has_paper pid (Db.working (ImportArxiv.conn st')) = true).
Proof.
  intros L. induction l as [|paper l IH]; intros Pw Hsub K start st Hw.
  - exists st. split; [reflexivity|]. split; [exact Hw|].
    split; [simpl; rewrite app_nil_r; reflexivity | intros ? ? []].
  - destruct (@import_paper_never fromisoformat strptime papers Pw K L start paper st
                (Hsub _ (or_introl eq_refl)) Hw)
      as [st1 [E1 [Hw1 [M1 H1]]]].
    destruct (IH (fun s => Pw s /\
                           forall pid, (ImportArxiv.p_id paper = Some pid /\
                                        Py.truthy pid = true) ->
                                       Store.has_paper pid s = true)
                 (fun x Hx => Hsub x (or_intror Hx))
                 (kept_and K (kept_has_papers _)) (S start) st1)
      as [st' [E' [[Hw' Hp'] [M' H']]]].
    { split; [exact Hw1|]. intros pid [Hid Ht]. apply H1; assumption. }
    exists st'. cbn [Py.enumerate for_each flat_map].
    rewrite (bind_step _ _ _ E1). split; [exact E'|]. split; [exact Hw'|]. split.
    + rewrite M', M1, <- app_assoc. reflexivity.
    + intros p pid [<-|Hin] Hid Ht.
      * apply Hp'. split; assumption.
      * apply (H' p pid Hin Hid Ht).
Qed.

(** What follows the loop, no statement raising: everything the transaction
    saw becomes durable and the last line is printed. *)
Lemma finish_never (papers : list ImportArxiv.Paper) (Pw : Store.t -> Prop)
    (msgs : list ImportArxiv.message) :
  kept_by_import Pw -> no_null_list papers ->
  reaches (fun st => Pw (Db.working (ImportArxiv.conn st)) /\
                     ImportArxiv.messages st = msgs)
          (ImportArxiv.finish never papers)
          (fun st => Pw (Db.committed (ImportArxiv.conn st)) /\
                     ImportArxiv.messages st = msgs ++ [ImportArxiv.ImportComplete]).
Proof.
  intros [K1 [K2 [K3 [K4 K5]]]] L. unfold ImportArxiv.finish.
  pose (Pm := fun l : list ImportArxiv.message => l = msgs).
  apply reaches_bind; [apply (@flush_list_steady Pw Pm); exact K2|].
  intros _. apply reaches_bind.
  { apply (@when_steady Pw Pm
             (fun st => ImportArxiv.nonempty (ImportArxiv.new_authors st))).
    apply steady_bind; [apply (@flush_list_steady Pw Pm); exact K3|].
    intros _. apply (@refresh_author_ids_steady Pw Pm). }
  intros _. apply reaches_bind;
    [apply (@append_relations_steady papers Pw Pm L papers); apply incl_refl|].
  intros _. apply reaches_bind; [apply (@flush_list_steady Pw Pm); exact K4|].
  intros _. apply reaches_bind; [apply (@flush_list_steady Pw Pm); exact K5|].
  intros _ st [Hw Hm]. do 2 eexists. split; [reflexivity|]. simpl.
  split; [exact Hw | rewrite Hm; reflexivity].
Qed.

(** A run of the batched import in which no statement raises, on a file
    without null list. *)
Lemma main_never
    (fromisoformat : string -> option Py.datetime)
    (strptime : string -> string -> option Py.datetime)
    (papers : list ImportArxiv.Paper) (s : Store.t) (Pw : Store.t -> Prop) :
  kept_by_import Pw -> no_null_list papers -> Pw s ->
  Pw (ImportArxiv.imported never fromisoformat strptime papers s) /\
  ImportArxiv.messages (ImportArxiv.main never fromisoformat strptime papers s)
  = [ImportArxiv.LoadingExisting; ImportArxiv.StartingImport] ++
    flat_map (printed_for fromisoformat strptime) (Py.enumerate 0 papers) ++
    [ImportArxiv.ImportComplete; ImportArxiv.ConnectionClosed] /\
  (forall paper pid,
     In paper papers -> ImportArxiv.p_id paper = Some pid -> Py.truthy pid = true ->
     Store.has_paper pid (ImportArxiv.imported never fromisoformat strptime papers s)
     = true).
Proof.
  intros K L Hs. unfold ImportArxiv.imported, ImportArxiv.main.
  cbn [ImportArxiv.conn ImportArxiv.print ImportArxiv.messages].
  destruct K as [K1 [K2 [K3 [K4 K5]]]].
  assert (Q0 : ImportArxiv.modify (ImportArxiv.print ImportArxiv.LoadingExisting)
                 (ImportArxiv.initial s)
               = (Ok tt, ImportArxiv.print ImportArxiv.LoadingExisting
                           (ImportArxiv.initial s))) by reflexivity.
  rewrite (bind_step _ _ _ Q0).
  destruct (@preload_steady Pw (fun l => l = [ImportArxiv.LoadingExisting])
              (ImportArxiv.print ImportArxiv.LoadingExisting (ImportArxiv.initial s)))
    as [[] [st1 [E1 [Hw1 Hm1]]]].
  { split; [exact Hs | reflexivity]. }
  rewrite (bind_step _ _ _ E1).
  assert (Q1 : ImportArxiv.modify (ImportArxiv.print ImportArxiv.StartingImport) st1
               = (Ok tt, ImportArxiv.print ImportArxiv.StartingImport st1))
    by reflexivity.
  rewrite (bind_step _ _ _ Q1).
  destruct (@import_loop_never fromisoformat strptime papers L papers Pw
              (@incl_refl _ papers)
              (conj K1 (conj K2 (conj K3 (conj K4 K5)))) 0
              (ImportArxiv.print ImportArxiv.StartingImport st1) Hw1)
    as [st2 [E2 [Hw2 [M2 H2]]]].
  rewrite (bind_step _ _ _ E2).
  destruct (@finish_never papers
              (fun s' => Pw s' /\
                         forall pid,
                           (exists paper, In paper papers /\
                                          ImportArxiv.p_id paper = Some pid /\
                                          Py.truthy pid = true) ->
                           Store.has_paper pid s' = true)
              (ImportArxiv.messages st2)
              (kept_and (conj K1 (conj K2 (conj K3 (conj K4 K5)))) (kept_has_papers _))
              L st2)
    as [[] [st3 [E3 [[Hw3 Hp3] Hm3]]]].
  { split; [split; [exact Hw2|] | reflexivity].
    intros pid [paper [Hin [Hid Ht]]]. apply (H2 paper pid Hin Hid Ht). }
  rewrite E3. split; [exact Hw3|]. split.
  - rewrite Hm3, M2. cbn [ImportArxiv.messages ImportArxiv.print]. rewrite Hm1.
    rewrite <- !app_assoc. reflexivity.
  - intros paper pid Hin Hid Ht. apply Hp3. exists paper. auto.
Qed.

(** X2. When no statement raises and no element with an identifier holds
    [null] for its categories or its authors, every element of the file
    that carries a non-empty identifier has a row in [papers] once the
    batched import is over, whether or not it has a title. *)
Theorem import_stores_every_identified_record
    (fromisoformat : string -> option Py.datetime)
    (strptime : string -> string -> option Py.datetime)
    (papers : list ImportArxiv.Paper) (s : Store.t)
    (paper : ImportArxiv.Paper) (pid : string) :
  no_null_list papers ->
  In paper papers -> ImportArxiv.p_id paper = Some pid -> Py.truthy pid = true ->
  Store.has_paper pid (ImportArxiv.imported never fromisoformat strptime papers s)
  = true.
Proof.
  intros L Hin Hid Ht.
  destruct (@main_never fromisoformat strptime papers s (fun _ => True) kept_true L I)
    as [_ [_ H]].
  apply (H paper pid Hin Hid Ht).
Qed.

(** The element of [file_of_three] that has no title is stored. *)
Lemma import_stores_every_identified_record_witness :
  Store.has_paper "2401.00002"
    (ImportArxiv.imported never no_iso no_strptime file_of_three Store.empty)
  = true.
Proof.
  apply (@import_stores_every_identified_record no_iso no_strptime file_of_three
           Store.empty (json_paper (Some "2401.00002") None ["Y"] ["cs.LG"])
           "2401.00002").
  - intros p Hin _. simpl in Hin.
    repeat (destruct Hin as [<-|Hin]; [split; discriminate|]). contradiction.
  - simpl. right. left. reflexivity.
  - reflexivity.
  - reflexivity.
Defined.

(** X3. When no statement raises and no element with an identifier holds
    [null] for its categories or its authors, the lines the batched import
    prints from the connection on are: the two lines that announce the
    loading and the import; then, in the order of the file, for each
    element without identifier one warning with its index and, for each
    element with an identifier, the warning of a missing title if it has
    none, then one warning for each of its two dates that is not empty and
    that no parser reads; then the line that reports completion and the
    line that reports the closing of the connection.  No error is
    reported. *)
Theorem import_prints_warnings_then_completion
    (fromisoformat : string -> option Py.datetime)
    (strptime : string -> string -> option Py.datetime)
    (papers : list ImportArxiv.Paper) (s : Store.t) :
  no_null_list papers ->
  ImportArxiv.messages (ImportArxiv.main never fromisoformat strptime papers s)
  = [ImportArxiv.LoadingExisting; ImportArxiv.StartingImport] ++
    flat_map (printed_for fromisoformat strptime) (Py.enumerate 0 papers) ++
    [ImportArxiv.ImportComplete; ImportArxiv.ConnectionClosed].
Proof.
  intros L.
  destruct (@main_never fromisoformat strptime papers s (fun _ => True) kept_true L I)
    as [_ [H _]].
  exact H.
Qed.

(** On [file_with_dates], whose second element has a date no parser reads,
    the lines are the warning of that date and the completion. *)
Lemma import_prints_warnings_then_completion_witness :
  ImportArxiv.messages (ImportArxiv.main never no_iso no_strptime file_with_dates
                          Store.empty)
  = [ImportArxiv.LoadingExisting; ImportArxiv.StartingImport] ++
    flat_map (printed_for no_iso no_strptime) (Py.enumerate 0 file_with_dates) ++
    [ImportArxiv.ImportComplete; ImportArxiv.ConnectionClosed].
Proof.
  apply (@import_prints_warnings_then_completion no_iso no_strptime file_with_dates
           Store.empty).
  intros p Hin _. simpl in Hin.
  repeat (destruct Hin as [<-|Hin]; [split; discriminate|]). contradiction.
Defined.

(** ** What a daily run keeps of the store *)

Lemma extends_refl A (l : list A) : extends l l.
Proof. exists []. symmetry. apply app_nil_r. Qed.

Lemma extends_snoc A (l0 l x : list A) : extends l0 l -> extends l0 (l ++ x).
Proof. intros [e ->]. exists (e ++ x). rewrite app_assoc. reflexivity. Qed.

Lemma retains_refl s : retains s s.
Proof. repeat split; apply extends_refl. Qed.

Lemma insert_category_do_nothing_retains s0 x :
  keeps (retains s0) (Store.insert_category_do_nothing x).
Proof.
  intros s [Hp [Ha [Hc [Hpa Hpc]]]]. unfold Store.insert_category_do_nothing.
  destruct (Store.has_category (fst x) s); [repeat split; assumption|].
  repeat split; simpl; try assumption. apply extends_snoc. exact Hc.
Qed.

Lemma upsert_paper_retains s0 n : keeps (retains s0) (Store.upsert_paper n).
Proof.
  intros s [Hp [Ha [Hc [Hpa Hpc]]]]. unfold Store.upsert_paper.
  destruct (Store.has_paper (Store.id n) s); repeat split; simpl; try assumption.
  - rewrite map_key_update; [exact Hp|].
    intros a. destruct (String.eqb (Store.id a) (Store.id n)); reflexivity.
  - rewrite map_app. apply extends_snoc. exact Hp.
Qed.

Lemma upsert_author_retains s0 name :
  keeps (retains s0) (fun s => snd (Store.upsert_author name s)).
Proof.
  intros s [Hp [Ha [Hc [Hpa Hpc]]]]. unfold Store.upsert_author.
  destruct (Store.find_author name s); repeat split; simpl; try assumption.
  apply extends_snoc. exact Ha.
Qed.

Lemma upsert_paper_author_retains s0 x :
  keeps (retains s0) (Store.upsert_paper_author x).
Proof.
  intros s [Hp [Ha [Hc [Hpa Hpc]]]]. unfold Store.upsert_paper_author.
  destruct (Store.has_paper_author (Store.pa_key x) s);
    repeat split; simpl; try assumption.
  - rewrite map_key_update; [exact Hpa|].
    intros a. destruct (Store.pa_key_eqb (Store.pa_key a) (Store.pa_key x));
      reflexivity.
  - rewrite map_app. apply extends_snoc. exact Hpa.
Qed.

Lemma insert_paper_category_do_nothing_retains s0 x :
  keeps (retains s0) (Store.insert_paper_category_do_nothing x).
Proof.
  intros s [Hp [Ha [Hc [Hpa Hpc]]]]. unfold Store.insert_paper_category_do_nothing.
  destruct (Store.has_paper_category x s); [repeat split; assumption|].
  repeat split; simpl; try assumption. apply extends_snoc. exact Hpc.
Qed.

Lemma applied_retains s0 (r : PeriodFetcher.Result) : keeps (retains s0) (applied r).
Proof.
  apply applied_keeps.
  - apply insert_category_do_nothing_retains.
  - apply upsert_paper_retains.
  - apply upsert_author_retains.
  - apply upsert_paper_author_retains.
  - apply insert_paper_category_do_nothing_retains.
Qed.

Lemma retains_past_draws s0 : past_draws (retains s0).
Proof. apply tables_past_draws. intros s n H. exact H. Qed.

Lemma run_keeps_bind A B (I : PeriodFetcher.world -> Prop)
    (m : PeriodFetcher.run A) (k : A -> PeriodFetcher.run B) :
  run_keeps I m -> (forall a, run_keeps I (k a)) ->
  run_keeps I (PeriodFetcher.run_bind m k).
Proof.
  intros Hm Hk w r w' Hw H. unfold PeriodFetcher.run_bind in H.
  destruct (m w) as [[[a|e] w1]|] eqn:E; [| |discriminate].
  - exact (Hk a w1 r w' (Hm _ _ _ Hw E) H).
  - injection H as <- <-. exact (Hm _ _ _ Hw E).
Qed.

Lemma run_keeps_fold A S (I : PeriodFetcher.world -> Prop) (l : list A)
    (body : S -> A -> PeriodFetcher.run S) :
  (forall acc x, run_keeps I (body acc x)) ->
  forall acc, run_keeps I (PeriodFetcher.run_fold l body acc).
Proof.
  intros Hb. induction l as [|x l IH]; intros acc; simpl.
  - intros w r w' Hw H. injection H as <- <-. exact Hw.
  - apply run_keeps_bind; [apply Hb | intros a; apply IH].
Qed.

Section Settled.

Variable raises : nat -> bool.
Variable api : nat -> string -> option nat -> outcome (list PeriodFetcher.Result).

(** A property of stores kept by the effect of every apply. *)
Variable P : Store.t -> Prop.
Hypothesis kept_applied : forall r, keeps P (applied r).
Hypothesis P_past_draws : past_draws P.

Lemma insert_paper_data_settled (c : Db.conn) (r : PeriodFetcher.Result) :
  Db.clean c -> P (Db.committed c) ->
  Db.clean (snd (PeriodFetcher.insert_paper_data raises c r)) /\
  P (Db.committed (snd (PeriodFetcher.insert_paper_data raises c r))).
Proof.
  intros Hc Hp.
  pose proof (insert_paper_data_spec raises c r) as [Hcl Hf].
  split; [exact Hcl|].
  destruct (PeriodFetcher.insert_paper_data raises c r) as [[|] c'] eqn:E.
  - apply insert_paper_data_true in E. destruct E as [_ E]. simpl.
    rewrite E, Hc. apply kept_applied. exact Hp.
  - simpl in *. destruct (Hf eq_refl) as [n [Hn ->]].
    apply P_past_draws; assumption.
Qed.

Lemma insert_results_settled (results : list PeriodFetcher.Result) :
  forall n c, Db.clean c -> P (Db.committed c) ->
    Db.clean (snd (PeriodFetcher.insert_results raises results n c)) /\
    P (Db.committed (snd (PeriodFetcher.insert_results raises results n c))).
Proof.
  induction results as [|r l IH]; intros n c Hc Hp; [split; assumption|].
  cbn [PeriodFetcher.insert_results].
  pose proof (insert_paper_data_settled r Hc Hp) as [Hc1 Hp1].
  destruct (PeriodFetcher.insert_paper_data raises c r) as [ok c'].
  apply IH; assumption.
Qed.

Lemma fetch_attempt_settled category date_str max_total inserted_count w r w1 :
  settled P w ->
  PeriodFetcher.fetch_attempt raises api category date_str max_total inserted_count w
  = (r, w1) ->
  settled P w1.
Proof.
  intros [Hc Hp] H. unfold PeriodFetcher.fetch_attempt in H.
  destruct (api _ _ _) as [[|x l]|e].
  - injection H as <- <-. split; assumption.
  - pose proof (@insert_results_settled (x :: l) inserted_count
                  (PeriodFetcher.db w) Hc Hp) as [Hc1 Hp1].
    cbn [PeriodFetcher.db PeriodFetcher.count_api_call PeriodFetcher.log] in H.
    destruct (PeriodFetcher.insert_results raises (x :: l) inserted_count
                (PeriodFetcher.db w)) as [n c].
    injection H as <- <-. split; assumption.
  - injection H as <- <-. split; assumption.
Qed.

Lemma fetch_loop_settled category date_str max_total :
  forall fuel failures inserted_count,
    run_keeps (settled P)
      (PeriodFetcher.fetch_loop raises api fuel category date_str max_total
         failures inserted_count).
Proof.
  induction fuel as [|fuel IH]; intros failures inserted_count w r w' Hw H;
    [discriminate|].
  cbn [PeriodFetcher.fetch_loop] in H.
  destruct (failures <? PeriodFetcher.max_api_call_failures)%nat.
  2:{ injection H as <- <-. exact Hw. }
  destruct (PeriodFetcher.fetch_attempt raises api category date_str max_total
              inserted_count w) as [[n|e] w1] eqn:E.
  - injection H as <- <-. exact (fetch_attempt_settled _ _ _ _ Hw E).
  - pose proof (fetch_attempt_settled _ _ _ _ Hw E) as Hw1.
    destruct e; try (injection H as <- <-; exact Hw1).
    destruct (failures + 1 <? PeriodFetcher.max_api_call_failures)%nat.
    + refine (IH _ _ _ _ _ _ H). exact Hw1.
    + injection H as <- <-. exact Hw1.
Qed.

Lemma process_group_settled date_str (t : PeriodFetcher.tier) total g :
  run_keeps (settled P) (PeriodFetcher.process_group raises api date_str t total g).
Proof.
  unfold PeriodFetcher.process_group. apply run_keeps_bind.
  - apply run_keeps_fold. intros acc category w r w' Hw H.
    revert H. apply run_keeps_bind.
    + apply fetch_loop_settled.
    + intros a w0 r0 w0' Hw0 H0. injection H0 as <- <-. exact Hw0.
    + exact Hw.
  - intros a w r w' Hw H.
    destruct (0 <? List.length g)%nat; injection H as <- <-; exact Hw.
Qed.

(** A daily run, from its new connection to the statistics. *)
Lemma daily_run_settled (target_date_dt : Py.datetime) w r w' :
  P (Db.committed (PeriodFetcher.db w)) ->
  PeriodFetcher.fetch_daily_papers_to_db raises api target_date_dt w = Some (r, w') ->
  settled P w'.
Proof.
  intros Hp H. unfold PeriodFetcher.fetch_daily_papers_to_db in H.
  revert H. apply run_keeps_bind.
  - unfold PeriodFetcher.process_tiers. apply run_keeps_fold.
    intros acc t. apply run_keeps_fold. intros acc' g. apply process_group_settled.
  - intros total w1 r1 w1' [Hc1 Hp1] H1.
    unfold PeriodFetcher.generate_db_statistics, bind, Db.query in H1.
    destruct (raises (Db.clock (PeriodFetcher.db w1))).
    { injection H1 as <- <-. split; assumption. }
    cbn [Db.clock] in H1.
    destruct (raises (S (Db.clock (PeriodFetcher.db w1))));
      injection H1 as <- <-; split; assumption.
  - split; [reflexivity | exact Hp].
Qed.

End Settled.

(** X4. A daily run keeps the unique constraints of the store, whatever the
    catalog answers and whichever statements raise: if they hold of what is
    durable when the run starts, then the run ends, by returning its total
    or by an exception that leaves it, and at that point the unique
    constraints hold of what is durable and no write of the run is left
    uncommitted.  (Whether the connection is closed is not part of the
    statement.) *)
Theorem daily_run_keeps_unique_constraints
    (raises : nat -> bool)
    (api : nat -> string -> option nat -> outcome (list PeriodFetcher.Result))
    (target_date_dt : Py.datetime) (w : PeriodFetcher.world) :
  Store.unique (Db.committed (PeriodFetcher.db w)) ->
  exists r w',
    PeriodFetcher.fetch_daily_papers_to_db raises api target_date_dt w = Some (r, w') /\
    Store.unique (Db.committed (PeriodFetcher.db w')) /\
    Db.clean (PeriodFetcher.db w').
Proof.
  intros U.
  destruct (daily_run_schedule raises api target_date_dt w) as [r [w' [E _]]].
  exists r, w'. split; [exact E|].
  destruct (@daily_run_settled raises api Store.unique applied_unique
              unique_past_draws target_date_dt w r w' U E) as [Hc Hu].
  split; assumption.
Qed.

(** A run on the empty store against a catalog that always fails. *)
Lemma daily_run_keeps_unique_constraints_witness :
  exists r w',
    PeriodFetcher.fetch_daily_papers_to_db never failing_api sample_datetime fresh_world
    = Some (r, w') /\
    Store.unique (Db.committed (PeriodFetcher.db w')) /\
    Db.clean (PeriodFetcher.db w').
Proof.
  apply (@daily_run_keeps_unique_constraints never failing_api sample_datetime
           fresh_world).
  simpl. apply empty_unique.
Defined.

(** X5. A daily run never removes anything, whatever the catalog answers and
    whichever statements raise: the store that is durable at its end retains
    the one it started from, that is, every paper is still there under its
    identifier with its two derived columns ([summary_ai],
    [detailed_review_ai]) untouched, every author keeps its identifier and
    name, every category its description, and every (paper, author) and
    (paper, category) pair is still related. *)
Theorem daily_run_retains_the_store
    (raises : nat -> bool)
    (api : nat -> string -> option nat -> outcome (list PeriodFetcher.Result))
    (target_date_dt : Py.datetime) (w : PeriodFetcher.world) :
  exists r w',
    PeriodFetcher.fetch_daily_papers_to_db raises api target_date_dt w = Some (r, w') /\
    retains (Db.committed (PeriodFetcher.db w)) (Db.committed (PeriodFetcher.db w')).
Proof.
  destruct (daily_run_schedule raises api target_date_dt w) as [r [w' [E _]]].
  exists r, w'. split; [exact E|].
  destruct (@daily_run_settled raises api
              (retains (Db.committed (PeriodFetcher.db w)))
              (@applied_retains (Db.committed (PeriodFetcher.db w)))
              (@retains_past_draws (Db.committed (PeriodFetcher.db w)))
              target_date_dt w r w' (retains_refl _) E) as [_ H].
  exact H.
Qed.

(** ** The batched import only appends *)

Lemma appended_refl s : appended s s.
Proof. repeat split; apply extends_refl. Qed.

Lemma insert_paper_do_nothing_appended s0 n :
  keeps (appended s0) (fun s => snd (Store.insert_paper_do_nothing n s)).
Proof.
  intros s [Hp [Ha [Hc [Hpa Hpc]]]]. unfold Store.insert_paper_do_nothing.
  destruct (Store.has_paper (Store.id n) s); [repeat split; assumption|].
  repeat split; simpl; try assumption. apply extends_snoc. exact Hp.
Qed.

Lemma insert_category_do_nothing_appended s0 x :
  keeps (appended s0) (Store.insert_category_do_nothing x).
Proof.
  intros s [Hp [Ha [Hc [Hpa Hpc]]]]. unfold Store.insert_category_do_nothing.
  destruct (Store.has_category (fst x) s); [repeat split; assumption|].
  repeat split; simpl; try assumption. apply extends_snoc. exact Hc.
Qed.

Lemma insert_author_do_nothing_appended s0 name :
  keeps (appended s0) (Store.insert_author_do_nothing name).
Proof.
  intros s [Hp [Ha [Hc [Hpa Hpc]]]]. unfold Store.insert_author_do_nothing.
  destruct (Store.find_author name s); repeat split; simpl; try assumption.
  apply extends_snoc. exact Ha.
Qed.

Lemma insert_paper_author_do_nothing_appended s0 x :
  keeps (appended s0) (Store.insert_paper_author_do_nothing x).
Proof.
  intros s [Hp [Ha [Hc [Hpa Hpc]]]]. unfold Store.insert_paper_author_do_nothing.
  destruct (Store.has_paper_author (Store.pa_key x) s); [repeat split; assumption|].
  repeat split; simpl; try assumption. apply extends_snoc. exact Hpa.
Qed.

Lemma insert_paper_category_do_nothing_appended s0 x :
  keeps (appended s0) (Store.insert_paper_category_do_nothing x).
Proof.
  intros s [Hp [Ha [Hc [Hpa Hpc]]]]. unfold Store.insert_paper_category_do_nothing.
  destruct (Store.has_paper_category x s); [repeat split; assumption|].
  repeat split; simpl; try assumption. apply extends_snoc. exact Hpc.
Qed.

(** X6. The batched import is insert-or-ignore on every table: whatever the
    file holds and whichever statements raise, each of the five tables is,
    once the import is over, the table as it was with rows added at its
    end; no stored row of any table is changed or removed. *)
Theorem batched_import_only_appends
    (raises : nat -> bool)
    (fromisoformat : string -> option Py.datetime)
    (strptime : string -> string -> option Py.datetime)
    (papers : list ImportArxiv.Paper) (s : Store.t) :
  appended s (ImportArxiv.imported raises fromisoformat strptime papers s).
Proof.
  apply imported_keeps.
  - intros paper pid _ _ _. apply insert_paper_do_nothing_appended.
  - apply insert_category_do_nothing_appended.
  - apply insert_author_do_nothing_appended.
  - apply insert_paper_author_do_nothing_appended.
  - apply insert_paper_category_do_nothing_appended.
  - apply tables_past_draws. intros s0 n H. exact H.
  - apply appended_refl.
Qed.

(** X7. The batched import keeps the unique constraints of the store,
    whatever the file holds (identifiers, names or pairs given twice
    included) and whichever statements raise. *)
Theorem batched_import_keeps_unique_constraints
    (raises : nat -> bool)
    (fromisoformat : string -> option Py.datetime)
    (strptime : string -> string -> option Py.datetime)
    (papers : list ImportArxiv.Paper) (s : Store.t) :
  Store.unique s ->
  Store.unique (ImportArxiv.imported raises fromisoformat strptime papers s).
Proof.
  apply imported_keeps.
  - intros paper pid _ _ _. apply insert_paper_do_nothing_unique.
  - apply insert_category_do_nothing_unique.
  - apply insert_author_do_nothing_unique.
  - apply insert_paper_author_do_nothing_unique.
  - apply insert_paper_category_do_nothing_unique.
  - apply unique_past_draws.
Qed.

(** A file that gives the same element twice, imported into the empty
    store. *)
Lemma batched_import_keeps_unique_constraints_witness :
  Store.unique
    (ImportArxiv.imported never no_iso no_strptime
       (file_with_paper_A_revised ++ file_with_paper_A_revised) Store.empty).
Proof.
  apply (@batched_import_keeps_unique_constraints never no_iso no_strptime
           (file_with_paper_A_revised ++ file_with_paper_A_revised) Store.empty).
  apply empty_unique.
Defined.

(** ** The batched import: an error on one element *)




Section OnlyDriverErrors.

Variable raises : nat -> bool.














End OnlyDriverErrors.


Lemma collect_new_paper_categories categories authors st :
  ImportArxiv.new_paper_categories
    (ImportArxiv.collect_authors authors (ImportArxiv.collect_categories categories st))
  = ImportArxiv.new_paper_categories st.
Proof.
  assert (C : forall st0,
             ImportArxiv.new_paper_categories
               (ImportArxiv.collect_categories categories st0)
             = ImportArxiv.new_paper_categories st0).
  { unfold ImportArxiv.collect_categories.
    induction categories as [|c l IH]; intros st0; [reflexivity|].
    simpl. rewrite IH. destruct (_ && _); reflexivity. }
  assert (A : forall st0,
             ImportArxiv.new_paper_categories (ImportArxiv.collect_authors authors st0)
             = ImportArxiv.new_paper_categories st0).
  { unfold ImportArxiv.collect_authors.
    induction authors as [|c l IH]; intros st0; [reflexivity|].
    simpl. rewrite IH. destruct (negb (Py.truthy c)); [reflexivity|].
    destruct (negb _); reflexivity. }
  rewrite A, C. reflexivity.
Qed.

(** ** The batched import: what a raising statement leaves durable *)

Section RaisingKeepsCommitted.

Variable raises : nat -> bool.
Variable s0 : Store.t.

Let J (st : ImportArxiv.state) : Prop := Db.committed (ImportArxiv.conn st) = s0.

Lemma db_keeps_committed A (m : M Db.conn A) :
  maintains (fun c => Db.committed c = s0) m -> maintains J (ImportArxiv.db m).
Proof.
  intros Hm st r st' Hst H. unfold ImportArxiv.db in H.
  destruct (m (ImportArxiv.conn st)) as [r0 c] eqn:E.
  injection H as <- <-. exact (Hm _ _ _ Hst E).
Qed.

Lemma modify_keeps_committed (f : ImportArxiv.state -> ImportArxiv.state) :
  (forall st, ImportArxiv.conn (f st) = ImportArxiv.conn st) ->
  maintains J (ImportArxiv.modify f).
Proof.
  intros Hf st r st' Hst H. unfold ImportArxiv.modify in H.
  injection H as <- <-. unfold J. rewrite Hf. exact Hst.
Qed.

Lemma when_keeps_committed (b : ImportArxiv.state -> bool)
    (m : M ImportArxiv.state unit) :
  maintains J m -> maintains J (fun st => if b st then m st else (Ok tt, st)).
Proof.
  intros Hm st r st' Hst H. destruct (b st).
  - exact (Hm _ _ _ Hst H).
  - injection H as <- <-. exact Hst.
Qed.

Lemma refresh_author_ids_keeps_committed :
  maintains J (ImportArxiv.refresh_author_ids raises).
Proof.
  intros st0 r st' Hst H. unfold ImportArxiv.refresh_author_ids in H.
  eapply maintains_for_each; [| exact Hst | exact H].
  intros author st r1 st1 Hst1 H1. cbv beta in H1.
  destruct (ImportArxiv.dict_get (ImportArxiv.author_name_to_id st) author)
    as [[aid|]|].
  - injection H1 as <- <-. exact Hst1.
  - revert H1. apply maintains_bind; [| | exact Hst1].
    + apply db_keeps_committed. apply query_keeps_committed.
    + intros [aid|]; [apply modify_keeps_committed; reflexivity | apply maintains_ret].
  - injection H1 as <- <-. exact Hst1.
Qed.

Lemma flush_list_keeps_committed R (rows : ImportArxiv.state -> list R)
    (row : R -> Store.t -> Store.t) :
  maintains J (ImportArxiv.flush_list raises rows row).
Proof.
  intros st r st' Hst H. unfold ImportArxiv.flush_list in H.
  destruct (rows st) as [|x l].
  - injection H as <- <-. exact Hst.
  - revert H. apply db_keeps_committed; [| exact Hst].
    apply execute_values_keeps_committed.
Qed.

Lemma append_relations_keeps_committed ps :
  maintains J (ImportArxiv.append_relations ps).
Proof.
  unfold ImportArxiv.append_relations. apply maintains_for_each. intros paper.
  destruct (ImportArxiv.p_id paper) as [pid|]; [|apply maintains_ret].
  destruct (negb (Py.truthy pid)); [apply maintains_ret|].
  destruct (ImportArxiv.p_authors paper) as [authors|].
  - apply modify_keeps_committed. reflexivity.
  - intros st r st' Hst H. injection H as <- <-. exact Hst.
Qed.

(** The statements of the inner [try]: when one of them raises, its commit
    included, what is durable is what was. *)
Lemma flush_window_raising papers i :
  triple J (ImportArxiv.flush_window raises papers i)
         (fun o st' => match o with Raise _ => J st' | Ok _ => True end).
Proof.
  unfold ImportArxiv.flush_window.
  apply triple_bind; [| auto |].
  { apply when_keeps_committed
      with (b := fun st => ImportArxiv.nonempty (ImportArxiv.new_categories st)).
    apply maintains_bind; [apply flush_list_keeps_committed|].
    intros _. apply modify_keeps_committed. reflexivity. }
  intros _. apply triple_bind; [| auto |].
  { apply when_keeps_committed
      with (b := fun st => ImportArxiv.nonempty (ImportArxiv.new_authors st)).
    apply maintains_bind; [apply flush_list_keeps_committed|].
    intros _. apply maintains_bind; [apply modify_keeps_committed; reflexivity|].
    intros _. apply refresh_author_ids_keeps_committed. }
  intros _. apply triple_bind; [apply append_relations_keeps_committed | auto |].
  intros _. apply triple_bind; [| auto |].
  { apply when_keeps_committed
      with (b := fun st => ImportArxiv.nonempty (ImportArxiv.new_paper_authors st)).
    apply maintains_bind; [apply flush_list_keeps_committed|].
    intros _. apply modify_keeps_committed. reflexivity. }
  intros _. apply triple_bind; [| auto |].
  { apply when_keeps_committed
      with (b := fun st => ImportArxiv.nonempty (ImportArxiv.new_paper_categories st)).
    apply maintains_bind; [apply flush_list_keeps_committed|].
    intros _. apply modify_keeps_committed. reflexivity. }
  intros _ st r st' Hst H. unfold ImportArxiv.db in H.
  destruct (Db.commit raises (ImportArxiv.conn st)) as [r0 c] eqn:E.
  injection H as <- <-.
  pose proof (@commit_spec raises s0 _ _ _ Hst E) as Hc.
  destruct r0; [exact I | exact Hc].
Qed.

Lemma try_paper_raising fromisoformat strptime papers i pid title paper :
  triple J (ImportArxiv.try_paper raises fromisoformat strptime papers i pid title paper)
         (fun o st' => match o with Raise _ => J st' | Ok _ => True end).
Proof.
  unfold ImportArxiv.try_paper.
  apply triple_bind; [| auto |].
  { apply modify_keeps_committed. intros st. apply prints_conn. }
  intros _. apply triple_bind; [| auto |].
  { apply db_keeps_committed. apply query_keeps_committed. }
  intros _. apply triple_bind; [| auto |].
  { destruct (ImportArxiv.p_categories paper).
    - apply modify_keeps_committed. reflexivity.
    - intros st r st' Hst H. injection H as <- <-. exact Hst. }
  intros _. destruct (Nat.eqb _ 0).
  - apply flush_window_raising.
  - intros st r st' Hst H. injection H as <- <-. exact I.
Qed.

End RaisingKeepsCommitted.

Lemma at_try_conn pid paper categories authors st :
  ImportArxiv.conn (at_try pid paper categories authors st) = ImportArxiv.conn st.
Proof.
  unfold at_try. rewrite collect_authors_conn, collect_categories_conn.
  destruct (negb _); reflexivity.
Qed.

Lemma at_try_messages pid paper categories authors st :
  ImportArxiv.messages (at_try pid paper categories authors st)
  = ImportArxiv.messages st ++
    (if negb (Py.truthy_opt (ImportArxiv.p_title paper))
     then [ImportArxiv.WarnNoTitle pid] else []).
Proof.
  unfold at_try. rewrite collect_messages.
  destruct (negb _); [reflexivity | symmetry; apply app_nil_r].
Qed.

(** One element whose inner [try] raises an error of the store: the handler
    reports it and rolls back, and the loop goes on; what was durable is
    durable. *)
Lemma import_paper_on_error raises fromisoformat strptime papers i paper pid
    categories authors st st3 :
  ImportArxiv.p_id paper = Some pid -> Py.truthy pid = true ->
  ImportArxiv.p_categories paper = Some categories ->
  ImportArxiv.p_authors paper = Some authors ->
  ImportArxiv.try_paper raises fromisoformat strptime papers i pid
    (title_or_empty paper) paper (at_try pid paper categories authors st)
  = (Raise Psycopg2Error, st3) ->
  ImportArxiv.import_paper raises fromisoformat strptime papers (i, paper) st
  = (Ok tt, ImportArxiv.set_conn (Db.rollback (ImportArxiv.conn st3))
              (ImportArxiv.print (ImportArxiv.ErrorProcessing pid) st3)) /\
  Db.committed (ImportArxiv.conn st3) = Db.committed (ImportArxiv.conn st).
Proof.
  intros Hid Ht Hc Ha H. split.
  - unfold ImportArxiv.import_paper. rewrite Hid. cbn [Py.truthy_opt]. rewrite Ht.
    cbn [negb]. unfold at_try, title_or_empty in H.
    destruct (Py.truthy_opt (ImportArxiv.p_title paper)); cbn [negb] in *;
      rewrite Hc, Ha, H; reflexivity.
  - apply (@try_paper_raising raises (Db.committed (ImportArxiv.conn st))
             fromisoformat strptime papers i pid (title_or_empty paper) paper
             _ _ _ (f_equal Db.committed (at_try_conn pid paper categories authors st))
             H).
Qed.

Lemma set_author_seq_same (s : Store.t) : Store.set_author_seq (Store.author_seq s) s = s.
Proof. destruct s. reflexivity. Qed.

(** X9. When the [INSERT INTO papers] of an element raises, the iteration
    reports the error under the element's identifier, after the warnings of
    the element, and rolls back: the connection then sees the tables that
    were durable before, so whatever the earlier iterations of the window
    had written without committing is gone with it; the tables that are
    durable do not change and the categories of the element are not queued
    for [paper_categories].  Only the sequence of the author identifiers
    keeps the values drawn since the last commit: when none was drawn, the
    store the connection sees and the durable one are exactly the durable
    one of before. *)
Theorem failed_insert_rolls_back_to_last_commit
    (raises : nat -> bool)
    (fromisoformat : string -> option Py.datetime)
    (strptime : string -> string -> option Py.datetime)
    (papers : list ImportArxiv.Paper)
    (i : nat) (paper : ImportArxiv.Paper) (pid : string)
    (categories authors : list string) (st : ImportArxiv.state) :
  ImportArxiv.p_id paper = Some pid -> Py.truthy pid = true ->
  ImportArxiv.p_categories paper = Some categories ->
  ImportArxiv.p_authors paper = Some authors ->
  raises (Db.clock (ImportArxiv.conn st)) = true ->
  exists st',
    ImportArxiv.import_paper raises fromisoformat strptime papers (i, paper) st
    = (Ok tt, st') /\
    Db.working (ImportArxiv.conn st') = Db.committed (ImportArxiv.conn st') /\
    Db.committed (ImportArxiv.conn st')
    = Store.set_author_seq
        (Nat.max (Store.author_seq (Db.committed (ImportArxiv.conn st)))
                 (Store.author_seq (Db.working (ImportArxiv.conn st))))
        (Db.committed (ImportArxiv.conn st)) /\
    same_tables (Db.committed (ImportArxiv.conn st))
                (Db.committed (ImportArxiv.conn st')) /\
    (Store.author_seq (Db.working (ImportArxiv.conn st))
     <= Store.author_seq (Db.committed (ImportArxiv.conn st)) ->
     Db.working (ImportArxiv.conn st') = Db.committed (ImportArxiv.conn st) /\
     Db.committed (ImportArxiv.conn st') = Db.committed (ImportArxiv.conn st)) /\
    ImportArxiv.messages st'
    = ImportArxiv.messages st ++ printed_for fromisoformat strptime (i, paper) ++
      [ImportArxiv.ErrorProcessing pid] /\
    ImportArxiv.new_paper_categories st' = ImportArxiv.new_paper_categories st.
Proof.
  intros Hid Ht Hc Ha Hr.
  set (st2 := at_try pid paper categories authors st).
  set (dts := datetime_warnings fromisoformat strptime paper).
  set (st2p := fold_left (fun st m => ImportArxiv.print m st) dts st2).
  set (st3 := ImportArxiv.set_conn
                {| Db.committed := Db.committed (ImportArxiv.conn st);
                   Db.working := Db.working (ImportArxiv.conn st);
                   Db.clock := S (Db.clock (ImportArxiv.conn st)) |} st2p).
  assert (C2p : ImportArxiv.conn st2p = ImportArxiv.conn st).
  { unfold st2p. rewrite prints_conn. apply at_try_conn. }
  assert (E : ImportArxiv.try_paper raises fromisoformat strptime papers i pid
                (title_or_empty paper) paper st2 = (Raise Psycopg2Error, st3)).
  { unfold ImportArxiv.try_paper.
    assert (Q0 : ImportArxiv.modify
                   (fun st => fold_left (fun st m => ImportArxiv.print m st)
                                (ImportArxiv.parse_datetime_prints fromisoformat strptime
                                   (ImportArxiv.p_arxiv_published_at paper) ++
                                 ImportArxiv.parse_datetime_prints fromisoformat strptime
                                   (ImportArxiv.p_arxiv_updated_at paper)) st) st2
                 = (Ok tt, st2p)) by reflexivity.
    rewrite (bind_step _ _ _ Q0).
    unfold bind, ImportArxiv.db, Db.query. rewrite C2p, Hr. reflexivity. }
  destruct (@import_paper_on_error raises fromisoformat strptime papers i paper pid
              categories authors st st3 Hid Ht Hc Ha E) as [R _].
  eexists. split; [exact R|].
  cbn [ImportArxiv.conn ImportArxiv.set_conn ImportArxiv.print st3].
  split; [reflexivity|]. split; [reflexivity|]. split; [repeat split|]. split.
  { intros Hle. unfold Db.rollback.
    cbn [Db.committed Db.working].
    rewrite (Nat.max_l _ _ Hle), set_author_seq_same. split; reflexivity. }
  split.
  - cbn [ImportArxiv.messages ImportArxiv.set_conn ImportArxiv.print st3].
    unfold st2p. rewrite prints_messages. unfold st2. rewrite at_try_messages.
    unfold printed_for, warnings. cbn [snd]. rewrite Hid. cbn [Py.truthy_opt].
    rewrite Ht. cbn [negb]. fold dts. rewrite <- !app_assoc. reflexivity.
  - cbn [ImportArxiv.new_paper_categories ImportArxiv.set_conn ImportArxiv.print st3].
    unfold st2p. rewrite prints_new_paper_categories. unfold st2, at_try.
    rewrite collect_new_paper_categories. destruct (negb _); reflexivity.
Qed.

(** The first statement of the connection raises on an element without
    title. *)
Lemma failed_insert_rolls_back_to_last_commit_witness :
  exists st',
    ImportArxiv.import_paper (only 0) no_iso no_strptime file_of_three
      (1, json_paper (Some "2401.00002") None ["Y"] ["cs.LG"]) (state_at 0)
    = (Ok tt, st') /\
    Db.working (ImportArxiv.conn st') = Db.committed (ImportArxiv.conn st') /\
    Db.committed (ImportArxiv.conn st')
    = Store.set_author_seq
        (Nat.max (Store.author_seq (Db.committed (ImportArxiv.conn (state_at 0))))
                 (Store.author_seq (Db.working (ImportArxiv.conn (state_at 0)))))
        (Db.committed (ImportArxiv.conn (state_at 0))) /\
    same_tables (Db.committed (ImportArxiv.conn (state_at 0)))
                (Db.committed (ImportArxiv.conn st')) /\
    (Store.author_seq (Db.working (ImportArxiv.conn (state_at 0)))
     <= Store.author_seq (Db.committed (ImportArxiv.conn (state_at 0))) ->
     Db.working (ImportArxiv.conn st') = Db.committed (ImportArxiv.conn (state_at 0)) /\
     Db.committed (ImportArxiv.conn st') = Db.committed (ImportArxiv.conn (state_at 0))) /\
    ImportArxiv.messages st'
    = ImportArxiv.messages (state_at 0) ++
      printed_for no_iso no_strptime
        (1, json_paper (Some "2401.00002") None ["Y"] ["cs.LG"]) ++
      [ImportArxiv.ErrorProcessing "2401.00002"] /\
    ImportArxiv.new_paper_categories st'
    = ImportArxiv.new_paper_categories (state_at 0).
Proof.
  apply (@failed_insert_rolls_back_to_last_commit (only 0) no_iso no_strptime
           file_of_three 1 (json_paper (Some "2401.00002") None ["Y"] ["cs.LG"])
           "2401.00002" ["cs.LG"] ["Y"] (state_at 0)).
  - reflexivity.
  - reflexivity.
  - reflexivity.
  - reflexivity.
  - reflexivity.
Defined.

(** ** What a failed apply leaves *)

(** C3. When a statement of steps 1 to 4 of an apply (or its commit) raises,
    [insert_paper_data] rolls back and returns [False]: every table is
    then as it was when the apply began, for what is durable and for what
    the connection sees alike, and the records applied before on the same
    connection keep their effect and their count; the sequence of the
    author identifiers alone is not rolled back and stays where the failed
    apply left it.  In the batched import, when a statement of the inner
    [try] of an element raises an error of the store, the error is
    reported under the identifier of the element, the transaction is
    rolled back, the loop goes on, and the tables that were durable are
    durable. *)
Theorem failed_apply_restores_the_tables (raises : nat -> bool) :
  (forall (s : Store.t) (before : list PeriodFetcher.Result) (n : nat)
          (r : PeriodFetcher.Result) (e : exn) (c1 : Db.conn),
     let done := PeriodFetcher.insert_results raises before n (Db.connect s) in
     PeriodFetcher.insert_paper_steps raises r (snd done) = (Raise e, c1) ->
     exists c',
       PeriodFetcher.insert_paper_data raises (snd done) r = (false, c') /\
       same_tables (Db.committed (snd done)) (Db.committed c') /\
       Db.working c' = Db.committed c' /\
       Store.author_seq (Db.committed c') = Store.author_seq (Db.working c1) /\
       Store.author_seq (Db.committed (snd done))
       <= Store.author_seq (Db.committed c') /\
       PeriodFetcher.insert_results raises (before ++ [r]) n (Db.connect s)
       = (fst done, c')) /\
  (forall (fromisoformat : string -> option Py.datetime)
          (strptime : string -> string -> option Py.datetime)
          (papers : list ImportArxiv.Paper) (i : nat) (paper : ImportArxiv.Paper)
          (pid : string) (categories authors : list string)
          (st st3 : ImportArxiv.state),
     ImportArxiv.p_id paper = Some pid -> Py.truthy pid = true ->
     ImportArxiv.p_categories paper = Some categories ->
     ImportArxiv.p_authors paper = Some authors ->
     ImportArxiv.try_paper raises fromisoformat strptime papers i pid
       (title_or_empty paper) paper (at_try pid paper categories authors st)
     = (Raise Psycopg2Error, st3) ->
     exists st',
       ImportArxiv.import_paper raises fromisoformat strptime papers (i, paper) st
       = (Ok tt, st') /\
       same_tables (Db.committed (ImportArxiv.conn st))
                   (Db.committed (ImportArxiv.conn st')) /\
       Db.working (ImportArxiv.conn st') = Db.committed (ImportArxiv.conn st') /\
       ImportArxiv.messages st'
       = ImportArxiv.messages st3 ++ [ImportArxiv.ErrorProcessing pid]).
Proof.
  split.
  - intros s before n r e c1 done H.
    assert (Hclean : Db.clean (snd done)).
    { apply insert_results_clean. reflexivity. }
    assert (E : PeriodFetcher.insert_paper_data raises (snd done) r
                = (false, Db.rollback c1)).
    { unfold PeriodFetcher.insert_paper_data. rewrite H. reflexivity. }
    pose proof (@insert_paper_steps_spec raises r (Db.committed (snd done))
                  (snd done) (Raise e) c1 eq_refl H) as Hk.
    cbv beta iota in Hk.
    pose proof (@insert_paper_steps_draws raises r
                  (Store.author_seq (Db.committed (snd done)))
                  (snd done) (Raise e) c1) as Hd.
    destruct Hd as [_ Hd]; [split; [|rewrite Hclean]; apply Nat.le_refl | exact H |].
    destruct (rollback_spec c1) as [Hc [Ht Hs]].
    assert (Hm : Store.author_seq (Db.committed (Db.rollback c1))
                 = Store.author_seq (Db.working c1)).
    { rewrite Hs, Hk. apply Nat.max_r. exact Hd. }
    exists (Db.rollback c1). split; [exact E|]. split; [rewrite <- Hk; exact Ht|].
    split; [exact Hc|]. split; [exact Hm|]. split; [rewrite Hm; exact Hd|].
    rewrite insert_results_app. fold done.
    cbn [PeriodFetcher.insert_results]. rewrite E. reflexivity.
  - intros fromisoformat strptime papers i paper pid categories authors st st3
           Hid Ht Hc Ha H.
    destruct (@import_paper_on_error raises fromisoformat strptime papers i paper pid
                categories authors st st3 Hid Ht Hc Ha H) as [R C].
    eexists. split; [exact R|].
    cbn [ImportArxiv.conn ImportArxiv.set_conn ImportArxiv.print ImportArxiv.messages].
    destruct (rollback_spec (ImportArxiv.conn st3)) as [Hcl [Hst _]].
    split; [rewrite <- C; exact Hst|]. split; [exact Hcl | reflexivity].
Qed.

(** After the apply of [sample_result], the statement that follows the
    insertion of the author Z of the next record raises; in the batched
    import, the [INSERT] of the second element of [file_of_three]
    raises. *)
Lemma failed_apply_restores_the_tables_witness :
  (exists c',
     PeriodFetcher.insert_paper_data (only 11)
       (snd (PeriodFetcher.insert_results (only 11) [sample_result] 0
               (Db.connect Store.empty))) result_by_Z = (false, c') /\
     same_tables
       (Db.committed (snd (PeriodFetcher.insert_results (only 11) [sample_result] 0
                             (Db.connect Store.empty))))
       (Db.committed c') /\
     Db.working c' = Db.committed c' /\
     Store.author_seq (Db.committed c')
     = Store.author_seq
         (Db.working
            (snd (PeriodFetcher.insert_paper_steps (only 11) result_by_Z
                    (snd (PeriodFetcher.insert_results (only 11) [sample_result] 0
                            (Db.connect Store.empty)))))) /\
     Store.author_seq
       (Db.committed (snd (PeriodFetcher.insert_results (only 11) [sample_result] 0
                             (Db.connect Store.empty))))
     <= Store.author_seq (Db.committed c') /\
     PeriodFetcher.insert_results (only 11) ([sample_result] ++ [result_by_Z]) 0
       (Db.connect Store.empty)
     = (fst (PeriodFetcher.insert_results (only 11) [sample_result] 0
               (Db.connect Store.empty)), c')) /\
  (exists st',
     ImportArxiv.import_paper (only 0) no_iso no_strptime file_of_three
       (1, json_paper (Some "2401.00002") None ["Y"] ["cs.LG"]) (state_at 0)
     = (Ok tt, st') /\
     same_tables (Db.committed (ImportArxiv.conn (state_at 0)))
                 (Db.committed (ImportArxiv.conn st')) /\
     Db.working (ImportArxiv.conn st') = Db.committed (ImportArxiv.conn st') /\
     ImportArxiv.messages st'
     = ImportArxiv.messages
         (snd (ImportArxiv.try_paper (only 0) no_iso no_strptime file_of_three 1
                 "2401.00002"
                 (title_or_empty (json_paper (Some "2401.00002") None ["Y"] ["cs.LG"]))
                 (json_paper (Some "2401.00002") None ["Y"] ["cs.LG"])
                 (at_try "2401.00002"
                    (json_paper (Some "2401.00002") None ["Y"] ["cs.LG"])
                    ["cs.LG"] ["Y"] (state_at 0)))) ++
       [ImportArxiv.ErrorProcessing "2401.00002"]).
Proof.
  split.
  - apply (proj1 (failed_apply_restores_the_tables (only 11)) Store.empty
             [sample_result] 0 result_by_Z Psycopg2Error
             (snd (PeriodFetcher.insert_paper_steps (only 11) result_by_Z
                     (snd (PeriodFetcher.insert_results (only 11) [sample_result] 0
                             (Db.connect Store.empty)))))).
    vm_compute. reflexivity.
  - apply (proj2 (failed_apply_restores_the_tables (only 0)) no_iso no_strptime
             file_of_three 1 (json_paper (Some "2401.00002") None ["Y"] ["cs.LG"])
             "2401.00002" ["cs.LG"] ["Y"] (state_at 0)
             (snd (ImportArxiv.try_paper (only 0) no_iso no_strptime file_of_three 1
                     "2401.00002"
                     (title_or_empty
                        (json_paper (Some "2401.00002") None ["Y"] ["cs.LG"]))
                     (json_paper (Some "2401.00002") None ["Y"] ["cs.LG"])
                     (at_try "2401.00002"
                        (json_paper (Some "2401.00002") None ["Y"] ["cs.LG"])
                        ["cs.LG"] ["Y"] (state_at 0))))).
    + reflexivity.
    + reflexivity.
    + reflexivity.
    + reflexivity.
    + vm_compute. reflexivity.
Defined.

(** The claim fails as stated.  Per record: after the apply of
    [sample_result], an apply of the record by Z fails on the statement
    that follows the insertion of Z; the durable store is then not the one
    of before, and the next new author, W, gets the identifier 4 where it
    would have got 3.  In the batched import of [file_of_two], the [INSERT]
    of the second element raises: no error is reported for the first
    element, which is stored when nothing raises, and it is not in the
    store when the import is over. *)
Lemma failed_apply_is_not_without_effect :
  (fst (PeriodFetcher.insert_paper_data (only 11) conn_after_sample result_by_Z) = false /\
   Db.committed (snd (PeriodFetcher.insert_paper_data (only 11) conn_after_sample
                        result_by_Z))
   <> Db.committed conn_after_sample /\
   Store.find_author "W"
     (Db.committed
        (snd (PeriodFetcher.insert_paper_data never
                (snd (PeriodFetcher.insert_paper_data (only 11) conn_after_sample
                        result_by_Z))
                result_by_W))) = Some 4 /\
   Store.find_author "W"
     (Db.committed
        (snd (PeriodFetcher.insert_paper_data never conn_after_sample result_by_W)))
   = Some 3) /\
  (Store.has_paper "2401.00001"
     (ImportArxiv.imported (only 3) no_iso no_strptime file_of_two Store.empty)
   = false /\
   ~ In (ImportArxiv.ErrorProcessing "2401.00001")
        (ImportArxiv.messages
           (ImportArxiv.main (only 3) no_iso no_strptime file_of_two Store.empty)) /\
   Store.has_paper "2401.00001"
     (ImportArxiv.imported never no_iso no_strptime file_of_two Store.empty)
   = true).
Proof.
  split; [split; [|split; [|split]] | split; [|split]].
  - vm_compute. reflexivity.
  - vm_compute. intros H. discriminate H.
  - vm_compute. reflexivity.
  - vm_compute. reflexivity.
  - vm_compute. reflexivity.
  - vm_compute. intros H.
    repeat (destruct H as [H|H]; [discriminate H|]). exact H.
  - vm_compute. reflexivity.
Qed.

(** ** The batched import: ordinals *)

Lemma enumerate_in A (l : list A) :
  forall start k x, nth_error l k = Some x -> In (start + k, x) (Py.enumerate start l).
Proof.
  induction l as [|a l IH]; intros start k x H; [destruct k; discriminate|].
  destruct k as [|k]; simpl in *.
  - injection H as <-. left. rewrite Nat.add_0_r. reflexivity.
  - right. replace (start + S k) with (S start + k) by lia. apply IH. exact H.
Qed.

Lemma dict_get_mem d k v : ImportArxiv.dict_get d k = Some v -> ImportArxiv.dict_mem d k = true.
Proof.
  unfold ImportArxiv.dict_get, ImportArxiv.dict_mem.
  induction d as [|kv d IH]; simpl; [discriminate|].
  destruct (String.eqb (fst kv) k); [reflexivity|]. exact IH.
Qed.

Lemma paper_relations_spec cache pid authors p aid order :
  In (p, aid, order) (ImportArxiv.paper_relations cache pid authors) <->
  p = pid /\ 1 <= order /\
  exists author,
    nth_error authors (order - 1) = Some author /\
    Py.truthy author = true /\
    ImportArxiv.dict_get cache author = Some (Some aid).
Proof.
  unfold ImportArxiv.paper_relations. rewrite in_flat_map. split.
  - intros [[o author] [Ho H]].
    apply in_enumerate in Ho. destruct Ho as [Hn Hle].
    destruct (Py.truthy author) eqn:Ha; simpl in H; [|destruct H].
    destruct (ImportArxiv.dict_mem cache author); simpl in H; [|destruct H].
    destruct (ImportArxiv.dict_get cache author) as [[a|]|] eqn:Hg;
      try (destruct H; fail).
    destruct H as [H|[]]. injection H as <- <- <-.
    split; [reflexivity|]. split; [exact Hle|]. exists author. auto.
  - intros [-> [Hle [author [Hn [Ha Hg]]]]].
    exists (order, author). split.
    + replace order with (1 + (order - 1)) at 1 by lia. apply enumerate_in. exact Hn.
    + rewrite Ha, (dict_get_mem _ _ Hg), Hg. simpl. left. reflexivity.
Qed.

(** The loop over the authors of the elements of [ps], none of them holding
    [null] for its authors under an identifier. *)
Lemma append_relations_spec (ps : list ImportArxiv.Paper) :
  (forall paper, In paper ps -> Py.truthy_opt (ImportArxiv.p_id paper) = true ->
                 ImportArxiv.p_authors paper <> None) ->
  forall st,
    exists st',
      ImportArxiv.append_relations ps st = (Ok tt, st') /\
      ImportArxiv.author_name_to_id st' = ImportArxiv.author_name_to_id st /\
      ImportArxiv.new_paper_authors st'
      = ImportArxiv.new_paper_authors st ++
        flat_map (relations_of (ImportArxiv.author_name_to_id st)) ps.
Proof.
  unfold ImportArxiv.append_relations.
  induction ps as [|paper ps IH]; intros L st.
  - exists st. split; [reflexivity|]. split; [reflexivity|].
    simpl. symmetry. apply app_nil_r.
  - assert (S1 : exists st1,
               match ImportArxiv.p_id paper with
               | None => ret tt
               | Some pid =>
                   if negb (Py.truthy pid) then ret tt
                   else
                     match ImportArxiv.p_authors paper with
                     | None => ImportArxiv.not_iterable
                     | Some authors =>
                         ImportArxiv.modify
                           (fun st =>
                              ImportArxiv.set_new_paper_authors
                                (ImportArxiv.new_paper_authors st ++
                                 ImportArxiv.paper_relations
                                   (ImportArxiv.author_name_to_id st) pid authors)
                                st)
                     end
               end st = (Ok tt, st1) /\
               ImportArxiv.author_name_to_id st1 = ImportArxiv.author_name_to_id st /\
               ImportArxiv.new_paper_authors st1
               = ImportArxiv.new_paper_authors st ++
                 relations_of (ImportArxiv.author_name_to_id st) paper).
    { unfold relations_of.
      pose proof (L paper (or_introl eq_refl)) as Hn.
      destruct (ImportArxiv.p_id paper) as [pid|] eqn:Hid.
      2:{ exists st. repeat split. simpl. destruct (ImportArxiv.p_authors paper);
            symmetry; apply app_nil_r. }
      cbn [Py.truthy_opt] in Hn.
      destruct (Py.truthy pid) eqn:Ht; cbn [negb].
      2:{ exists st. repeat split.
          destruct (ImportArxiv.p_authors paper); symmetry; apply app_nil_r. }
      destruct (ImportArxiv.p_authors paper) as [authors|];
        [|exfalso; apply (Hn eq_refl); reflexivity].
      eexists. split; [reflexivity|]. split; reflexivity. }
    destruct S1 as [st1 [E1 [C1 N1]]].
    destruct (IH (fun p Hp => L p (or_intror Hp)) st1) as [st' [E' [C' N']]].
    exists st'. cbn [for_each]. rewrite (bind_step _ _ _ E1).
    split; [exact E'|]. split; [rewrite C', C1; reflexivity|].
    rewrite N', N1, C1. cbn [flat_map]. rewrite <- app_assoc. reflexivity.
Qed.

(** X10. The (paper, author, ordinal) rows the batched import proposes for
    a list of elements are exactly these: for an element with a non-empty
    identifier, each non-empty author name whose identifier is known, with
    the 1-based position of the name in the element's author list as
    ordinal.  Blank names give no row and still count in the positions.
    The loop that appends them returns when no element with an identifier
    holds [null] for its authors, and leaves the cache as it was. *)
Theorem author_relations_carry_list_positions
    (ps : list ImportArxiv.Paper) (st : ImportArxiv.state) :
  (forall paper, In paper ps -> Py.truthy_opt (ImportArxiv.p_id paper) = true ->
                 ImportArxiv.p_authors paper <> None) ->
  exists st' rows,
    ImportArxiv.append_relations ps st = (Ok tt, st') /\
    ImportArxiv.new_paper_authors st' = ImportArxiv.new_paper_authors st ++ rows /\
    ImportArxiv.author_name_to_id st' = ImportArxiv.author_name_to_id st /\
    forall (pid : string) (aid order : nat),
      In (pid, aid, order) rows <->
      exists paper authors author,
        In paper ps /\ ImportArxiv.p_id paper = Some pid /\ Py.truthy pid = true /\
        1 <= order /\
        ImportArxiv.p_authors paper = Some authors /\
        nth_error authors (order - 1) = Some author /\
        Py.truthy author = true /\
        ImportArxiv.dict_get (ImportArxiv.author_name_to_id st) author
        = Some (Some aid).
Proof.
  intros L. destruct (append_relations_spec ps L st) as [st' [E [C N]]].
  exists st', (flat_map (relations_of (ImportArxiv.author_name_to_id st)) ps).
  split; [exact E|]. split; [exact N|]. split; [exact C|].
  intros pid aid order. rewrite in_flat_map. split.
  - intros [paper [Hin H]]. unfold relations_of in H.
    destruct (ImportArxiv.p_id paper) as [p|] eqn:Hid; [|destruct H].
    destruct (ImportArxiv.p_authors paper) as [authors|] eqn:Ha; [|destruct H].
    destruct (Py.truthy p) eqn:Ht; [|destruct H].
    apply paper_relations_spec in H. destruct H as [-> [Hle [author [Hn [Hy Hg]]]]].
    exists paper, authors, author. repeat split; assumption.
  - intros [paper [authors [author [Hin [Hid [Ht [Hle [Ha [Hn [Hy Hg]]]]]]]]]].
    exists paper. split; [exact Hin|]. unfold relations_of. rewrite Hid, Ha, Ht.
    apply paper_relations_spec. split; [reflexivity|]. split; [exact Hle|].
    exists author. auto.
Qed.

(** On [file_with_blank_author], whose second element lists a blank name
    between Z and W, with a cache that knows the names of the file. *)
Lemma author_relations_carry_list_positions_witness :
  exists st' rows,
    ImportArxiv.append_relations file_with_blank_author
      (ImportArxiv.set_author_name_to_id cache_of_four (state_at 0)) = (Ok tt, st') /\
    ImportArxiv.new_paper_authors st'
    = ImportArxiv.new_paper_authors
        (ImportArxiv.set_author_name_to_id cache_of_four (state_at 0)) ++ rows /\
    ImportArxiv.author_name_to_id st'
    = ImportArxiv.author_name_to_id
        (ImportArxiv.set_author_name_to_id cache_of_four (state_at 0)) /\
    forall (pid : string) (aid order : nat),
      In (pid, aid, order) rows <->
      exists paper authors author,
        In paper file_with_blank_author /\
        ImportArxiv.p_id paper = Some pid /\ Py.truthy pid = true /\
        1 <= order /\
        ImportArxiv.p_authors paper = Some authors /\
        nth_error authors (order - 1) = Some author /\
        Py.truthy author = true /\
        ImportArxiv.dict_get
          (ImportArxiv.author_name_to_id
             (ImportArxiv.set_author_name_to_id cache_of_four (state_at 0))) author
        = Some (Some aid).
Proof.
  apply (@author_relations_carry_list_positions file_with_blank_author
           (ImportArxiv.set_author_name_to_id cache_of_four (state_at 0))).
  intros paper Hin _. simpl in Hin.
  repeat (destruct Hin as [<-|Hin]; [discriminate|]). contradiction.
Defined.

(** ** The JSON variant: the merge keeps the first paper of each identifier *)

Lemma remember_keyed d p : keyed_by_id d -> keyed_by_id (DailyFetcherMerge.remember d p).
Proof.
  intros H. unfold DailyFetcherMerge.remember.
  destruct (existsb _ d); [exact H|].
  intros kv Hin. apply in_app_or in Hin. destruct Hin as [Hin|[<-|[]]];
    [apply H; exact Hin | reflexivity].
Qed.

Lemma remember_keys_unique d p :
  NoDup (map fst d) -> NoDup (map fst (DailyFetcherMerge.remember d p)).
Proof.
  intros H. unfold DailyFetcherMerge.remember.
  destruct (existsb _ d) eqn:E; [exact H|].
  rewrite map_app. simpl. apply NoDup_snoc; [exact H|].
  intros Hin. apply in_map_iff in Hin. destruct Hin as [kv [Hk Hin]].
  assert (T : existsb (fun kv => String.eqb (fst kv) (DailyFetcher.paper_id p)) d = true).
  { apply existsb_exists. exists kv. split; [exact Hin|]. apply String.eqb_eq. exact Hk. }
  rewrite T in E. discriminate.
Qed.

Lemma first_with_id_values pid d :
  keyed_by_id d ->
  first_with_id pid (map snd d)
  = option_map snd (find (fun kv => String.eqb (fst kv) pid) d).
Proof.
  unfold first_with_id. induction d as [|kv d IH]; intros K; [reflexivity|].
  simpl. rewrite <- (K kv (or_introl eq_refl)).
  destruct (String.eqb (fst kv) pid); [reflexivity|].
  apply IH. intros x Hx. apply K. right. exact Hx.
Qed.

Lemma first_with_id_remember pid d p :
  keyed_by_id d ->
  first_with_id pid (map snd (DailyFetcherMerge.remember d p))
  = match first_with_id pid (map snd d) with
    | Some q => Some q
    | None => first_with_id pid [p]
    end.
Proof.
  intros K. unfold DailyFetcherMerge.remember.
  destruct (existsb _ d) eqn:E.
  - destruct (first_with_id pid (map snd d)) as [q|] eqn:F; [reflexivity|].
    unfold first_with_id. simpl.
    destruct (String.eqb (DailyFetcher.paper_id p) pid) eqn:Q; [|reflexivity].
    apply String.eqb_eq in Q. subst pid.
    rewrite first_with_id_values in F by exact K.
    apply existsb_exists in E. destruct E as [kv [Hin Hk]].
    destruct (find _ d) as [x|] eqn:G; [discriminate|].
    rewrite (find_none _ _ G kv Hin) in Hk. discriminate.
  - rewrite map_app. unfold first_with_id. simpl.
    destruct (find _ (map snd d)) as [q|] eqn:F.
    + apply find_app_some. exact F.
    + apply find_app_none. exact F.
Qed.

Lemma fold_remember (l : list DailyFetcher.paper) :
  forall d, keyed_by_id d -> NoDup (map fst d) ->
    keyed_by_id (fold_left DailyFetcherMerge.remember l d) /\
    NoDup (map fst (fold_left DailyFetcherMerge.remember l d)) /\
    forall pid,
      first_with_id pid (map snd (fold_left DailyFetcherMerge.remember l d))
      = match first_with_id pid (map snd d) with
        | Some q => Some q
        | None => first_with_id pid l
        end.
Proof.
  induction l as [|p l IH]; intros d K N.
  - split; [exact K|]. split; [exact N|]. intros pid. simpl.
    destruct (first_with_id pid (map snd d)); reflexivity.
  - cbn [fold_left].
    destruct (IH _ (@remember_keyed d p K) (@remember_keys_unique d p N)) as [K' [N' F']].
    split; [exact K'|]. split; [exact N'|]. intros pid.
    rewrite F', (@first_with_id_remember pid d p K).
    destruct (first_with_id pid (map snd d)) as [q|]; [reflexivity|].
    unfold first_with_id. simpl.
    destruct (String.eqb (DailyFetcher.paper_id p) pid); reflexivity.
Qed.

Lemma keyed_ids d : keyed_by_id d -> map DailyFetcher.paper_id (map snd d) = map fst d.
Proof.
  intros K. rewrite map_map. apply map_ext_in. intros kv Hin. symmetry. apply K. exact Hin.
Qed.

(** X11. The merge at the end of [fetch_daily_papers] (and of
    [merge_temp_papers]) leaves one paper per identifier, and it is the
    first one the list had under that identifier: a paper fetched under
    several categories is kept as its first category returned it. *)
Theorem merge_keeps_first_paper_of_each_id (all_papers : list DailyFetcher.paper) :
  NoDup (map DailyFetcher.paper_id (DailyFetcherMerge.result_papers all_papers)) /\
  forall pid,
    first_with_id pid (DailyFetcherMerge.result_papers all_papers)
    = first_with_id pid all_papers.
Proof.
  unfold DailyFetcherMerge.result_papers.
  destruct (@fold_remember all_papers [] (fun kv H => match H with end) (NoDup_nil _))
    as [K [N F]].
  split.
  - rewrite keyed_ids by exact K. exact N.
  - intros pid. rewrite F. reflexivity.
Qed.

Lemma fold_remember_fresh (l : list DailyFetcher.paper) :
  forall d,
    NoDup (map fst d ++ map DailyFetcher.paper_id l) ->
    fold_left DailyFetcherMerge.remember l d
    = d ++ map (fun p => (DailyFetcher.paper_id p, p)) l.
Proof.
  induction l as [|p l IH]; intros d N; simpl.
  - symmetry. apply app_nil_r.
  - assert (E : existsb (fun kv => String.eqb (fst kv) (DailyFetcher.paper_id p)) d = false).
    { destruct (existsb _ d) eqn:E; [|reflexivity]. exfalso.
      apply existsb_exists in E. destruct E as [kv [Hin Hk]].
      apply String.eqb_eq in Hk.
      apply NoDup_remove_2 in N. apply N. apply in_or_app. left.
      rewrite <- Hk. apply in_map. exact Hin. }
    unfold DailyFetcherMerge.remember at 2. rewrite E.
    rewrite IH.
    + rewrite <- app_assoc. reflexivity.
    + rewrite map_app, <- app_assoc. exact N.
Qed.

(** X12. A list in which no identifier occurs twice goes through the merge
    unchanged: nothing is dropped and the order of the list is kept. *)
Theorem merge_leaves_distinct_papers_alone (all_papers : list DailyFetcher.paper) :
  NoDup (map DailyFetcher.paper_id all_papers) ->
  DailyFetcherMerge.result_papers all_papers = all_papers.
Proof.
  intros N. unfold DailyFetcherMerge.result_papers.
  rewrite fold_remember_fresh by exact N.
  simpl. rewrite map_map. simpl. apply map_id.
Qed.

(** The papers of three results with different identifiers. *)
Lemma merge_leaves_distinct_papers_alone_witness :
  DailyFetcherMerge.result_papers (map DailyFetcher.to_paper three_results)
  = map DailyFetcher.to_paper three_results.
Proof.
  apply (@merge_leaves_distinct_papers_alone (map DailyFetcher.to_paper three_results)).
  vm_compute.
  repeat (constructor; [simpl; intros H; repeat (destruct H as [H|H]; try discriminate H); exact H|]).
  constructor.
Defined.

(** ** The JSON variant: what one search returns *)

Section Consume.

Variable batch_size : nat.
Hypothesis batch_size_positive : 1 <= batch_size.

(** The loop over the results while the cap is not reached: the batches
    that were completed hold a multiple of [batch_size] results, each was
    followed by a sleep of 3 seconds, and with the batch being filled they
    are the results read so far, in order. *)
Lemma consume_below_cap (max_total : option nat) :
  forall (items : list PeriodFetcher.Result) i batch papers w,
    List.length batch < batch_size ->
    below_cap max_total (i + List.length items) ->
    exists k rest,
      DailyFetcher.consume batch_size max_total (Py.enumerate i items) batch papers w
      = (papers ++ map DailyFetcher.to_paper (firstn (k * batch_size) (batch ++ items)),
         rest, false,
         {| DailyFetcher.calls := DailyFetcher.calls w;
            DailyFetcher.slept := DailyFetcher.slept w ++ repeat 3 k |}) /\
      batch ++ items = firstn (k * batch_size) (batch ++ items) ++ rest /\
      List.length rest < batch_size /\
      k * batch_size <= List.length (batch ++ items).
Proof.
  induction items as [|x items IH]; intros i batch papers w Hb Hc.
  - exists 0, batch. simpl. rewrite !app_nil_r. destruct w.
    repeat split; auto. lia.
  - cbn [Py.enumerate DailyFetcher.consume].
    assert (R : match max_total with
                | Some (S n) => (S n <=? i + 1)%nat
                | _ => false
                end = false).
    { destruct max_total as [[|n]|]; try reflexivity.
      apply Nat.leb_gt. simpl in Hc. lia. }
    rewrite R, orb_false_r.
    assert (Hc' : below_cap max_total (S i + List.length items)).
    { destruct max_total as [[|n]|]; simpl in *; try exact I. lia. }
    destruct (batch_size <=? List.length (batch ++ [x]))%nat eqn:Full.
    + apply Nat.leb_le in Full. rewrite length_app in Full. simpl in Full.
      assert (Hlen : List.length (batch ++ [x]) = batch_size).
      { rewrite length_app. simpl. lia. }
      destruct (IH (S i) [] (papers ++ map DailyFetcher.to_paper (batch ++ [x]))
                   (DailyFetcher.sleep 3 w)) as [k [rest [E [S1 [S2 S3]]]]].
      { simpl. lia. }
      { exact Hc'. }
      exists (S k), rest. rewrite E. simpl in S1. simpl in S3.
      assert (F : firstn (S k * batch_size) (batch ++ x :: items)
                  = (batch ++ [x]) ++ firstn (k * batch_size) items).
      { replace (batch ++ x :: items) with ((batch ++ [x]) ++ items)
          by (rewrite <- app_assoc; reflexivity).
        rewrite firstn_app, Hlen.
        replace (S k * batch_size - batch_size) with (k * batch_size) by lia.
        rewrite firstn_all2 by lia. reflexivity. }
      rewrite F. split; [|split; [|split; [exact S2|]]].
      * cbn [app DailyFetcher.sleep DailyFetcher.calls DailyFetcher.slept repeat].
        rewrite !map_app, <- !app_assoc. reflexivity.
      * rewrite <- app_assoc. simpl. rewrite <- app_assoc. simpl.
        f_equal. f_equal. exact S1.
      * rewrite length_app. simpl. lia.
    + apply Nat.leb_gt in Full.
      destruct (IH (S i) (batch ++ [x]) papers w Full Hc') as [k [rest [E [S1 [S2 S3]]]]].
      exists k, rest. rewrite E.
      replace ((batch ++ [x]) ++ items) with (batch ++ x :: items) in *
        by (rewrite <- app_assoc; reflexivity).
      auto.
Qed.

End Consume.

(** The loop over the results when the cap [S n] is reached: it ends by
    [break] with the first [S n] results, whatever the batch size. *)
Lemma consume_reaches_cap (batch_size n : nat) :
  forall (items : list PeriodFetcher.Result) i batch papers w,
    i <= n -> S n <= i + List.length items ->
    exists w',
      DailyFetcher.consume batch_size (Some (S n)) (Py.enumerate i items) batch papers w
      = (papers ++ map DailyFetcher.to_paper (batch ++ firstn (S n - i) items),
         [], true, w').
Proof.
  induction items as [|x items IH]; intros i batch papers w Hi Hc.
  - simpl in Hc. lia.
  - cbn [Py.enumerate DailyFetcher.consume].
    destruct (S n <=? i + 1)%nat eqn:R.
    + apply Nat.leb_le in R. rewrite orb_true_r.
      replace (S n - i) with 1 by lia. simpl. eexists. reflexivity.
    + apply Nat.leb_gt in R. rewrite orb_false_r.
      replace (S n - i) with (S (S n - S i)) by lia. cbn [firstn].
      destruct (batch_size <=? List.length (batch ++ [x]))%nat.
      * destruct (IH (S i) [] (papers ++ map DailyFetcher.to_paper (batch ++ [x]))
                     (DailyFetcher.sleep 3 w)) as [w' E]; [lia | simpl in Hc; lia |].
        exists w'. rewrite E. simpl. rewrite <- app_assoc, <- map_app, <- app_assoc.
        reflexivity.
      * destruct (IH (S i) (batch ++ [x]) papers w) as [w' E]; [lia | simpl in Hc; lia |].
        exists w'. rewrite E. rewrite <- app_assoc. reflexivity.
Qed.


(** X13. A search of the JSON variant whose results the catalog yields
    without raising, or yields up to the cap, returns at its first attempt
    the papers of those results in the order of the catalog, none lost at
    the borders of the batches, and no more than the cap. *)
Theorem search_returns_the_capped_results
    (client : nat -> string -> option nat -> list PeriodFetcher.Result * bool)
    (fuel : nat) (category date_str : string) (batch_size : nat)
    (max_total : option nat) (w : DailyFetcher.world)
    (yielded : list PeriodFetcher.Result) (raised : bool) :
  1 <= batch_size ->
  client (DailyFetcher.calls w) (json_query category date_str) max_total
  = (yielded, raised) ->
  raised = false \/ ~ below_cap max_total (List.length yielded) ->
  exists w',
    DailyFetcher.fetch_papers_by_category client (S fuel) category date_str
      batch_size max_total w
    = Some (map DailyFetcher.to_paper (capped max_total yielded), w').
Proof.
  intros Hb Hq Hc. cbn [DailyFetcher.fetch_papers_by_category].
  change (client (DailyFetcher.calls w) _ max_total)
    with (client (DailyFetcher.calls w) (json_query category date_str) max_total).
  rewrite Hq.
  assert (D : below_cap max_total (List.length yielded) \/
              exists n, max_total = Some (S n) /\ S n <= List.length yielded).
  { destruct max_total as [[|n]|]; simpl; auto.
    destruct (Nat.le_gt_cases (List.length yielded) n); [left; assumption|].
    right. exists n. split; [reflexivity | lia]. }
  destruct D as [D|[n [-> D]]].
  - destruct Hc as [Hc|Hc]; [|contradiction]. subst raised.
    destruct (@consume_below_cap batch_size Hb max_total yielded 0 []
                [] (DailyFetcher.count_call w)) as [k [rest [E [S1 [S2 S3]]]]];
      [simpl; lia | exact D |].
    rewrite E. simpl. eexists. f_equal. f_equal.
    rewrite <- map_app. simpl in S1. rewrite <- S1.
    destruct max_total as [[|m]|]; try reflexivity.
    unfold capped. simpl in D. rewrite firstn_all2 by lia. reflexivity.
  - destruct (@consume_reaches_cap batch_size n yielded 0 [] []
                (DailyFetcher.count_call w)) as [w' E]; [lia | simpl; lia |].
    rewrite E. cbn [orb app]. rewrite app_nil_r, Nat.sub_0_r. eexists. reflexivity.
Qed.

(** Three results read by batches of two under no cap. *)
Lemma search_returns_the_capped_results_witness :
  exists w',
    DailyFetcher.fetch_papers_by_category (client_of_three false) 1 "cs.AI"
      "20240115" 2 None idle
    = Some (map DailyFetcher.to_paper (capped None three_results), w').
Proof.
  apply (@search_returns_the_capped_results (client_of_three false) 0 "cs.AI"
           "20240115" 2 None idle three_results false).
  - lia.
  - reflexivity.
  - left. reflexivity.
Defined.

(** X14. When the catalog raises before the cap is reached, the search
    keeps the papers of the batches it had completed, a multiple of
    [batch_size] results, drops the results of the batch it was filling,
    sleeps 10 seconds and appends whatever its retry returns, which starts
    again from the first result under the reduced cap. *)
Theorem failed_search_keeps_whole_batches_only
    (client : nat -> string -> option nat -> list PeriodFetcher.Result * bool)
    (fuel : nat) (category date_str : string) (batch_size : nat)
    (max_total : option nat) (w : DailyFetcher.world)
    (yielded : list PeriodFetcher.Result) :
  1 <= batch_size ->
  client (DailyFetcher.calls w) (json_query category date_str) max_total
  = (yielded, true) ->
  below_cap max_total (List.length yielded) ->
  exists k,
    k * batch_size <= List.length yielded < (k + 1) * batch_size /\
    DailyFetcher.fetch_papers_by_category client (S fuel) category date_str
      batch_size max_total w
    = match DailyFetcher.fetch_papers_by_category client fuel category date_str
              batch_size
              (Some (match max_total with
                     | Some (S n) => Nat.max 50 (S n / 2)
                     | _ => 200
                     end))
              {| DailyFetcher.calls := S (DailyFetcher.calls w);
                 DailyFetcher.slept := DailyFetcher.slept w ++ repeat 3 k ++ [10] |}
      with
      | Some (retry_papers, w') =>
          Some (map DailyFetcher.to_paper (firstn (k * batch_size) yielded)
                ++ retry_papers, w')
      | None => None
      end.
Proof.
  intros Hb Hq D. cbn [DailyFetcher.fetch_papers_by_category].
  change (client (DailyFetcher.calls w) _ max_total)
    with (client (DailyFetcher.calls w) (json_query category date_str) max_total).
  rewrite Hq.
  destruct (@consume_below_cap batch_size Hb max_total yielded 0 []
              [] (DailyFetcher.count_call w)) as [k [rest [E [S1 [S2 S3]]]]];
    [simpl; lia | exact D |].
  exists k. rewrite E. simpl. simpl in S1. simpl in S3. split.
  - apply (f_equal (@List.length _)) in S1. rewrite length_app, length_firstn in S1.
    lia.
  - unfold DailyFetcher.sleep. simpl. rewrite <- app_assoc. reflexivity.
Qed.

(** The first search raises after three results read by batches of two:
    the first two are kept, the third is dropped, and the retry runs under
    cap 200. *)
Lemma failed_search_keeps_whole_batches_only_witness :
  exists k,
    k * 2 <= List.length three_results < (k + 1) * 2 /\
    DailyFetcher.fetch_papers_by_category client_failing_once 2 "cs.AI" "20240115"
      2 None idle
    = match DailyFetcher.fetch_papers_by_category client_failing_once 1 "cs.AI"
              "20240115" 2 (Some 200)
              {| DailyFetcher.calls := S (DailyFetcher.calls idle);
                 DailyFetcher.slept := DailyFetcher.slept idle ++ repeat 3 k ++ [10] |}
      with
      | Some (retry_papers, w') =>
          Some (map DailyFetcher.to_paper (firstn (k * 2) three_results)
                ++ retry_papers, w')
      | None => None
      end.
Proof.
  apply (@failed_search_keeps_whole_batches_only client_failing_once 1 "cs.AI"
           "20240115" 2 None idle three_results).
  - lia.
  - reflexivity.
  - exact I.
Defined.

(** ** The categories known in advance *)

Lemma prepopulate_steps_one_page raises :
  PeriodFetcherInit.prepopulate_steps raises
  = bind (bind (Db.execute raises
                  (Store.insert_rows Store.insert_category_do_nothing
                     PeriodFetcherInit.category_data))
               (fun _ => ret tt))
         (fun _ => Db.commit raises).
Proof. reflexivity. Qed.

Lemma stored_description_insert x c s :
  stored_description c (Store.insert_category_do_nothing x s)
  = match stored_description c s with
    | Some d => Some d
    | None => if String.eqb (fst x) c then Some (snd x) else None
    end.
Proof.
  unfold Store.insert_category_do_nothing, stored_description.
  destruct (Store.has_category (fst x) s) eqn:E.
  - match goal with
    | |- context [@find ?A ?f (Store.categories_meta s)] =>
        destruct (@find A f (Store.categories_meta s)) as [r|] eqn:F
    end; [reflexivity|].
    simpl. destruct (String.eqb (fst x) c) eqn:Q; [|reflexivity].
    apply String.eqb_eq in Q. subst c. unfold Store.has_category in E.
    apply existsb_exists in E. destruct E as [r [Hin Hr]].
    rewrite (find_none _ _ F r Hin) in Hr. discriminate.
  - simpl.
    match goal with
    | |- context [@find ?A ?f (Store.categories_meta s)] =>
        destruct (@find A f (Store.categories_meta s)) as [r|] eqn:F
    end.
    + rewrite (find_app_some _ _ _ F). reflexivity.
    + rewrite (find_app_none _ _ _ F). simpl.
      destruct (String.eqb (fst x) c); reflexivity.
Qed.

Lemma stored_description_has c s :
  Store.has_category c s = true <-> stored_description c s <> None.
Proof.
  unfold Store.has_category, stored_description.
  induction (Store.categories_meta s) as [|r l IH]; simpl.
  - split; [discriminate | intros H; contradiction H; reflexivity].
  - destruct (String.eqb (fst r) c); simpl; [|exact IH].
    split; [discriminate | reflexivity].
Qed.

(** The rows of a [VALUES] list of category rows: a code that was stored
    keeps its description, and a code that was not gets the description of
    the first row that proposes it. *)
Lemma stored_description_insert_rows rows :
  forall c s,
    stored_description c (Store.insert_rows Store.insert_category_do_nothing rows s)
    = match stored_description c s with
      | Some d => Some d
      | None => option_map snd (find (fun r => String.eqb (fst r) c) rows)
      end.
Proof.
  unfold Store.insert_rows.
  induction rows as [|x rows IH]; intros c s; simpl.
  - destruct (stored_description c s); reflexivity.
  - rewrite IH, stored_description_insert.
    destruct (stored_description c s) as [d|]; [reflexivity|].
    destruct (String.eqb (fst x) c); reflexivity.
Qed.

Lemma find_category_data c :
  In c PeriodFetcherInit.ALL_CS_CATEGORIES ->
  option_map snd (find (fun r : Store.CategoryRow => String.eqb (fst r) c)
                       PeriodFetcherInit.category_data)
  = Some (Some (PeriodFetcherInit.description c)).
Proof.
  unfold PeriodFetcherInit.category_data.
  induction PeriodFetcherInit.ALL_CS_CATEGORIES as [|a l IH]; intros Hin;
    [destruct Hin|].
  simpl. destruct (String.eqb a c) eqn:E.
  - apply String.eqb_eq in E. subst a. reflexivity.
  - destruct Hin as [->|Hin]; [rewrite String.eqb_refl in E; discriminate|].
    apply IH. exact Hin.
Qed.

Lemma prepopulate_never s :
  PeriodFetcherInit.prepopulate never s
  = Store.insert_rows Store.insert_category_do_nothing
      PeriodFetcherInit.category_data s.
Proof.
  unfold PeriodFetcherInit.prepopulate. rewrite prepopulate_steps_one_page.
  reflexivity.
Qed.

(** X15. The pre-population of the known categories is all or nothing:
    whichever statement raises, the store it leaves is either the store it
    found or the store a run without error leaves; in both cases every row
    that was stored is still there, unchanged. *)
Theorem prepopulation_is_all_or_nothing (raises : nat -> bool) (s : Store.t) :
  (PeriodFetcherInit.prepopulate raises s = s \/
   PeriodFetcherInit.prepopulate raises s = PeriodFetcherInit.prepopulate never s) /\
  appended s (PeriodFetcherInit.prepopulate raises s).
Proof.
  assert (A : appended s (PeriodFetcherInit.prepopulate never s)).
  { rewrite prepopulate_never. apply insert_rows_keeps.
    - apply insert_category_do_nothing_appended.
    - apply appended_refl. }
  assert (D : PeriodFetcherInit.prepopulate raises s = s \/
              PeriodFetcherInit.prepopulate raises s
              = PeriodFetcherInit.prepopulate never s).
  { rewrite prepopulate_never.
    unfold PeriodFetcherInit.prepopulate. rewrite prepopulate_steps_one_page.
    assert (Q : Store.author_seq
                  (Store.insert_rows Store.insert_category_do_nothing
                     PeriodFetcherInit.category_data s) = Store.author_seq s).
    { apply (@insert_rows_keeps _ (fun s' => Store.author_seq s' = Store.author_seq s));
        [|reflexivity].
      intros row s' Hs'. unfold Store.insert_category_do_nothing.
      destruct (Store.has_category _ _); exact Hs'. }
    unfold bind, Db.execute, Db.query, Db.commit, ret, Db.rollback.
    cbn [Db.connect Db.clock Db.committed Db.working fst snd].
    destruct (raises 0).
    { left. cbn [Db.committed Db.working]. rewrite Nat.max_id.
      apply set_author_seq_same. }
    cbn [Db.connect Db.clock Db.committed Db.working fst snd].
    destruct (raises 1); [left | right; reflexivity].
    cbn [Db.committed Db.working]. rewrite Q, Nat.max_id.
    apply set_author_seq_same. }
  split; [exact D|].
  destruct D as [-> | ->]; [apply appended_refl | exact A].
Qed.

Lemma prepopulated_description (s : Store.t) (c : string) :
  In c PeriodFetcherInit.ALL_CS_CATEGORIES ->
  stored_description c (PeriodFetcherInit.prepopulate never s)
  = match stored_description c s with
    | Some d => Some d
    | None => Some (Some (PeriodFetcherInit.description c))
    end.
Proof.
  intros Hin.
  rewrite prepopulate_never, stored_description_insert_rows, find_category_data
    by exact Hin.
  reflexivity.
Qed.

(** X16. After a pre-population without error every known category is
    stored; one that was stored before keeps the description it had, and
    one that was not is described as "Computer Science - " followed by the
    part of its code after the dot. *)
Theorem prepopulation_covers_known_categories (s : Store.t) (c : string) :
  In c PeriodFetcherInit.ALL_CS_CATEGORIES ->
  Store.has_category c (PeriodFetcherInit.prepopulate never s) = true /\
  stored_description c (PeriodFetcherInit.prepopulate never s)
  = match stored_description c s with
    | Some d => Some d
    | None => Some (Some (PeriodFetcherInit.description c))
    end.
Proof.
  intros Hin. pose proof (prepopulated_description s Hin) as E.
  split; [|exact E].
  apply stored_description_has. rewrite E.
  destruct (stored_description c s); discriminate.
Qed.

(** On the empty store, cs.LG is described as Computer Science - LG. *)
Lemma prepopulation_covers_known_categories_witness :
  Store.has_category "cs.LG" (PeriodFetcherInit.prepopulate never Store.empty) = true /\
  stored_description "cs.LG" (PeriodFetcherInit.prepopulate never Store.empty)
  = match stored_description "cs.LG" Store.empty with
    | Some d => Some d
    | None => Some (Some (PeriodFetcherInit.description "cs.LG"))
    end.
Proof.
  apply (@prepopulation_covers_known_categories Store.empty "cs.LG").
  simpl. right. right. left. reflexivity.
Defined.

Lemma retains_stored_description s0 s c d :
  retains s0 s -> stored_description c s0 = Some d -> stored_description c s = Some d.
Proof.
  intros [_ [_ [[extra E] _]]] H. unfold stored_description in *. rewrite E.
  match type of H with
  | context [@find ?A ?f (Store.categories_meta s0)] =>
      destruct (@find A f (Store.categories_meta s0)) as [r|] eqn:F
  end; [|discriminate].
  refine (eq_trans (f_equal (option_map snd) (find_app_some _ _ extra F)) _).
  exact H.
Qed.

(* The hypothesis below applies [prepopulate] to a closed schedule; the
   inference of implicit arguments would normalise it, so it is switched
   off for this statement. *)
Unset Implicit Arguments.

(** X17. A daily run that starts on a pre-populated store leaves every
    known category with the description the pre-population gave or found:
    the generic description an apply proposes for the categories of a
    record ("Category - ...") never replaces it, whatever the catalog
    answers and whichever statements raise. *)
Theorem known_categories_keep_their_description
    (raises : nat -> bool)
    (api : nat -> string -> option nat -> outcome (list PeriodFetcher.Result))
    (target_date_dt : Py.datetime) (w : PeriodFetcher.world)
    (s : Store.t) (c : string) :
  In c PeriodFetcherInit.ALL_CS_CATEGORIES ->
  Db.committed (PeriodFetcher.db w) = PeriodFetcherInit.prepopulate never s ->
  exists r w',
    PeriodFetcher.fetch_daily_papers_to_db raises api target_date_dt w = Some (r, w') /\
    stored_description c (Db.committed (PeriodFetcher.db w'))
    = match stored_description c s with
      | Some d => Some d
      | None => Some (Some (PeriodFetcherInit.description c))
      end.
Proof.
  intros Hin Hw.
  destruct (daily_run_schedule raises api target_date_dt w) as [r [w' [E _]]].
  exists r, w'. split; [exact E|].
  destruct (@daily_run_settled raises api
              (retains (Db.committed (PeriodFetcher.db w)))
              (@applied_retains (Db.committed (PeriodFetcher.db w)))
              (@retains_past_draws (Db.committed (PeriodFetcher.db w)))
              target_date_dt w r w' (retains_refl _) E) as [_ H].
  pose proof (prepopulated_description s Hin) as D.
  rewrite <- Hw in D.
  destruct (stored_description c s) as [d|];
    apply (retains_stored_description _ H D).
Qed.

Set Implicit Arguments.

(** A run on the pre-populated empty store, the catalog returning for each
    query a record of cs.AI and cs.LG. *)
Lemma known_categories_keep_their_description_witness :
  exists r w',
    PeriodFetcher.fetch_daily_papers_to_db never (fun _ _ _ => Ok [sample_result])
      sample_datetime (world_on (PeriodFetcherInit.prepopulate never Store.empty))
    = Some (r, w') /\
    stored_description "cs.LG" (Db.committed (PeriodFetcher.db w'))
    = match stored_description "cs.LG" Store.empty with
      | Some d => Some d
      | None => Some (Some (PeriodFetcherInit.description "cs.LG"))
      end.
Proof.
  apply (@known_categories_keep_their_description never
           (fun _ _ _ => Ok [sample_result]) sample_datetime
           (world_on (PeriodFetcherInit.prepopulate never Store.empty))
           Store.empty "cs.LG").
  - simpl. right. right. left. reflexivity.
  - reflexivity.
Defined.

(** ** The dates of the command line *)

Lemma digit_value_digit (n : Z) :
  PeriodFetcherMain.digit_value (PeriodFetcher.digit n) = Some (n mod 10)%Z.
Proof.
  unfold PeriodFetcherMain.digit_value, PeriodFetcher.digit.
  pose proof (Z.mod_pos_bound n 10 ltac:(lia)) as B.
  rewrite nat_ascii_embedding by lia.
  replace (48 <=? 48 + Z.to_nat (n mod 10))%nat with true
    by (symmetry; apply Nat.leb_le; lia).
  replace (48 + Z.to_nat (n mod 10) <=? 57)%nat with true
    by (symmetry; apply Nat.leb_le; lia).
  simpl. f_equal. lia.
Qed.

Lemma digit_value_inv (c : ascii) (v : Z) :
  PeriodFetcherMain.digit_value c = Some v ->
  (0 <= v <= 9)%Z /\ c = PeriodFetcher.digit v.
Proof.
  unfold PeriodFetcherMain.digit_value, PeriodFetcher.digit.
  destruct (48 <=? nat_of_ascii c)%nat eqn:L; [|discriminate].
  destruct (nat_of_ascii c <=? 57)%nat eqn:U; [|discriminate].
  apply Nat.leb_le in L. apply Nat.leb_le in U. cbn [andb].
  intros H. injection H as <-. split; [lia|].
  rewrite Z.mod_small by lia.
  replace (48 + Z.to_nat (Z.of_nat (nat_of_ascii c - 48))) with (nat_of_ascii c) by lia.
  symmetry. apply ascii_nat_embedding.
Qed.

Lemma digit_congruent (n v : Z) :
  (n mod 10 = v mod 10)%Z -> PeriodFetcher.digit n = PeriodFetcher.digit v.
Proof. intros H. unfold PeriodFetcher.digit. rewrite H. reflexivity. Qed.

Lemma datetime_utc_valid y m d dt :
  PeriodFetcherMain.datetime_utc y m d = Some dt ->
  Catalog.valid_date dt /\ midnight dt /\
  Py.year dt = y /\ Py.month dt = m /\ Py.day dt = d.
Proof.
  unfold PeriodFetcherMain.datetime_utc.
  destruct (_ && _)%bool eqn:E; [|discriminate].
  intros H. injection H as <-.
  repeat (apply andb_true_iff in E; destruct E as [E ?]).
  unfold Catalog.valid_date, midnight. simpl.
  repeat match goal with
         | H : (_ <=? _)%Z = true |- _ => apply Z.leb_le in H
         end.
  repeat split; try reflexivity; assumption.
Qed.

Lemma datetime_utc_of_valid dt :
  Catalog.valid_date dt ->
  PeriodFetcherMain.datetime_utc (Py.year dt) (Py.month dt) (Py.day dt)
  = Some (Catalog.at_time dt 0 0 0 0).
Proof.
  intros [[Y1 Y2] [[M1 M2] [D1 D2]]]. unfold PeriodFetcherMain.datetime_utc.
  apply Z.leb_le in Y1, Y2, M1, M2, D1, D2.
  rewrite Y1, Y2, M1, M2, D1, D2. reflexivity.
Qed.

(** The digits of an accepted string, and the date they give. *)
Lemma parse_date_str_inv (date_str : string) (dt : Py.datetime) :
  PeriodFetcherMain.parse_date_str date_str = Some dt ->
  Catalog.valid_date dt /\ midnight dt /\ spelled dt = date_str.
Proof.
  unfold PeriodFetcherMain.parse_date_str.
  destruct (Nat.eqb (String.length date_str) 8) eqn:L; [|discriminate].
  apply Nat.eqb_eq in L.
  destruct date_str as [|c1 [|c2 [|c3 [|c4 [|c5 [|c6 [|c7 [|c8 [|c9 r]]]]]]]]];
    try discriminate L.
  unfold PeriodFetcherMain.isdigit. cbn [String.eqb negb andb PeriodFetcherMain.all_digits].
  destruct (PeriodFetcherMain.digit_value c1) as [v1|] eqn:E1; [|discriminate].
  destruct (PeriodFetcherMain.digit_value c2) as [v2|] eqn:E2; [|discriminate].
  destruct (PeriodFetcherMain.digit_value c3) as [v3|] eqn:E3; [|discriminate].
  destruct (PeriodFetcherMain.digit_value c4) as [v4|] eqn:E4; [|discriminate].
  destruct (PeriodFetcherMain.digit_value c5) as [v5|] eqn:E5; [|discriminate].
  destruct (PeriodFetcherMain.digit_value c6) as [v6|] eqn:E6; [|discriminate].
  destruct (PeriodFetcherMain.digit_value c7) as [v7|] eqn:E7; [|discriminate].
  destruct (PeriodFetcherMain.digit_value c8) as [v8|] eqn:E8; [|discriminate].
  cbn [negb String.length Nat.sub String.substring PeriodFetcherMain.int
       PeriodFetcherMain.int_from].
  rewrite E1, E2, E3, E4, E5, E6, E7, E8.
  intros H. apply datetime_utc_valid in H.
  destruct H as [V [Mn [Hy [Hm Hd]]]].
  split; [exact V|]. split; [exact Mn|].
  apply digit_value_inv in E1, E2, E3, E4, E5, E6, E7, E8.
  destruct E1 as [B1 ->], E2 as [B2 ->], E3 as [B3 ->], E4 as [B4 ->],
           E5 as [B5 ->], E6 as [B6 ->], E7 as [B7 ->], E8 as [B8 ->].
  unfold spelled, PeriodFetcher.pad4, PeriodFetcher.pad2.
  rewrite Hy, Hm, Hd. cbn [String.append].
  repeat (apply f_equal2;
          [apply digit_congruent; Z.to_euclidean_division_equations; lia|]).
  reflexivity.
Qed.

(** From the year 1000 on, [%Y] writes four digits; before, fewer. *)
Lemma strftime_Ymd_spelled (dt : Py.datetime) :
  (1000 <= Py.year dt)%Z -> PeriodFetcher.strftime_Ymd dt = spelled dt.
Proof.
  intros H. unfold PeriodFetcher.strftime_Ymd, spelled, PeriodFetcher.strftime_Y.
  destruct (Z.ltb_spec (Py.year dt) 10); [lia|].
  destruct (Z.ltb_spec (Py.year dt) 100); [lia|].
  destruct (Z.ltb_spec (Py.year dt) 1000); [lia|]. reflexivity.
Qed.

Lemma strftime_Ymd_short (dt : Py.datetime) :
  (Py.year dt < 1000)%Z -> String.length (PeriodFetcher.strftime_Ymd dt) < 8.
Proof.
  intros H. unfold PeriodFetcher.strftime_Ymd, PeriodFetcher.strftime_Y.
  destruct (Z.ltb_spec (Py.year dt) 10); [simpl; lia|].
  destruct (Z.ltb_spec (Py.year dt) 100); [simpl; lia|].
  destruct (Z.ltb_spec (Py.year dt) 1000); [simpl; lia | lia].
Qed.

Lemma spelled_length (dt : Py.datetime) : String.length (spelled dt) = 8.
Proof. reflexivity. Qed.

(** X18. From the year 1000 on, a date written as [strftime('%Y%m%d')]
    writes it is read back by [parse_date_str] as that date at midnight:
    the string a daily run puts in its queries is the string the command
    line accepts for that day.  Before the year 1000 the year is written
    without leading zeros, the string has fewer than eight characters and
    [parse_date_str] rejects it. *)
Theorem parse_reads_back_strftime (dt : Py.datetime) :
  Catalog.valid_date dt ->
  ((1000 <= Py.year dt)%Z ->
   PeriodFetcherMain.parse_date_str (PeriodFetcher.strftime_Ymd dt)
   = Some (Catalog.at_time dt 0 0 0 0)) /\
  ((Py.year dt < 1000)%Z ->
   String.length (PeriodFetcher.strftime_Ymd dt) < 8 /\
   PeriodFetcherMain.parse_date_str (PeriodFetcher.strftime_Ymd dt) = None).
Proof.
  intros V. split.
  - intros Hy. rewrite (strftime_Ymd_spelled dt Hy).
    pose proof V as [[Y1 Y2] [[M1 M2] [D1 D2]]].
    assert (D3 : (Py.day dt <= 31)%Z).
    { revert D2. unfold Catalog.days_in_month.
      destruct (_ =? 2)%Z; [destruct (Catalog.is_leap _); lia|].
      destruct (_ || _)%bool; lia. }
    unfold PeriodFetcherMain.parse_date_str, spelled,
      PeriodFetcher.pad4, PeriodFetcher.pad2, PeriodFetcherMain.isdigit,
      PeriodFetcherMain.int.
    cbn [String.append String.length Nat.eqb String.eqb andb negb Nat.sub
         String.substring PeriodFetcherMain.all_digits PeriodFetcherMain.int_from].
    rewrite !digit_value_digit.
    cbn [andb negb].
    replace (10 * (10 * (10 * (10 * 0 + (Py.year dt / 100 / 10) mod 10)
                         + (Py.year dt / 100) mod 10)
                   + (Py.year dt / 10) mod 10) + Py.year dt mod 10)%Z
      with (Py.year dt) by (Z.to_euclidean_division_equations; lia).
    replace (10 * (10 * 0 + (Py.month dt / 10) mod 10) + Py.month dt mod 10)%Z
      with (Py.month dt) by (Z.to_euclidean_division_equations; lia).
    replace (10 * (10 * 0 + (Py.day dt / 10) mod 10) + Py.day dt mod 10)%Z
      with (Py.day dt) by (Z.to_euclidean_division_equations; lia).
    apply datetime_utc_of_valid. exact V.
  - intros Hy. pose proof (strftime_Ymd_short dt Hy) as Hs.
    split; [exact Hs|]. unfold PeriodFetcherMain.parse_date_str.
    replace (Nat.eqb (String.length (PeriodFetcher.strftime_Ymd dt)) 8) with false
      by (symmetry; apply Nat.eqb_neq; lia).
    reflexivity.
Qed.

(** The day of the sample record. *)
Lemma parse_reads_back_strftime_witness :
  ((1000 <= Py.year sample_datetime)%Z ->
   PeriodFetcherMain.parse_date_str (PeriodFetcher.strftime_Ymd sample_datetime)
   = Some (Catalog.at_time sample_datetime 0 0 0 0)) /\
  ((Py.year sample_datetime < 1000)%Z ->
   String.length (PeriodFetcher.strftime_Ymd sample_datetime) < 8 /\
   PeriodFetcherMain.parse_date_str (PeriodFetcher.strftime_Ymd sample_datetime) = None).
Proof.
  apply (@parse_reads_back_strftime sample_datetime).
  unfold Catalog.valid_date. vm_compute.
  repeat split; intros H; discriminate H.
Defined.

(** X19. [parse_date_str] accepts an ASCII string only when it has eight
    characters, all decimal digits, that spell a day of the calendar
    (years 0001 to 9999): the date it returns is that day at midnight, and
    its eight digits, zeros included, are the string.  Written back with
    [strftime('%Y%m%d')] the date gives the string when its year is 1000 or
    later, and a shorter string, which is not the argument, when it is
    earlier. *)
Theorem accepted_dates_are_calendar_days (date_str : string) (dt : Py.datetime) :
  isascii date_str = true ->
  PeriodFetcherMain.parse_date_str date_str = Some dt ->
  String.length date_str = 8 /\
  PeriodFetcherMain.isdigit date_str = true /\
  Catalog.valid_date dt /\ midnight dt /\
  spelled dt = date_str /\
  ((1000 <= Py.year dt)%Z -> PeriodFetcher.strftime_Ymd dt = date_str) /\
  ((Py.year dt < 1000)%Z -> PeriodFetcher.strftime_Ymd dt <> date_str).
Proof.
  intros _ H. destruct (parse_date_str_inv _ H) as [V [Mn S]].
  assert (L : String.length date_str = 8 /\ PeriodFetcherMain.isdigit date_str = true).
  { unfold PeriodFetcherMain.parse_date_str in H.
    destruct (Nat.eqb (String.length date_str) 8) eqn:L; [|discriminate].
    destruct (PeriodFetcherMain.isdigit date_str); [|discriminate].
    split; [apply Nat.eqb_eq; exact L | reflexivity]. }
  destruct L as [L D].
  split; [exact L|]. split; [exact D|]. split; [exact V|]. split; [exact Mn|].
  split; [exact S|]. split.
  - intros Hy. rewrite (strftime_Ymd_spelled dt Hy). exact S.
  - intros Hy E. pose proof (strftime_Ymd_short dt Hy) as Hs.
    rewrite E, L in Hs. lia.
Qed.

(** The last day of February 2024, and the last day of the year 999. *)
Lemma accepted_dates_are_calendar_days_witness :
  (String.length "20240229" = 8 /\
   PeriodFetcherMain.isdigit "20240229" = true /\
   Catalog.valid_date
     {| Py.year := 2024; Py.month := 2; Py.day := 29;
        Py.hour := 0; Py.minute := 0; Py.second := 0; Py.microsecond := 0 |} /\
   midnight
     {| Py.year := 2024; Py.month := 2; Py.day := 29;
        Py.hour := 0; Py.minute := 0; Py.second := 0; Py.microsecond := 0 |} /\
   spelled
     {| Py.year := 2024; Py.month := 2; Py.day := 29;
        Py.hour := 0; Py.minute := 0; Py.second := 0; Py.microsecond := 0 |}
   = "20240229" /\
   ((1000 <= 2024)%Z ->
    PeriodFetcher.strftime_Ymd
      {| Py.year := 2024; Py.month := 2; Py.day := 29;
         Py.hour := 0; Py.minute := 0; Py.second := 0; Py.microsecond := 0 |}
    = "20240229") /\
   ((2024 < 1000)%Z ->
    PeriodFetcher.strftime_Ymd
      {| Py.year := 2024; Py.month := 2; Py.day := 29;
         Py.hour := 0; Py.minute := 0; Py.second := 0; Py.microsecond := 0 |}
    <> "20240229")) /\
  (String.length "09991231" = 8 /\
   PeriodFetcherMain.isdigit "09991231" = true /\
   Catalog.valid_date
     {| Py.year := 999; Py.month := 12; Py.day := 31;
        Py.hour := 0; Py.minute := 0; Py.second := 0; Py.microsecond := 0 |} /\
   midnight
     {| Py.year := 999; Py.month := 12; Py.day := 31;
        Py.hour := 0; Py.minute := 0; Py.second := 0; Py.microsecond := 0 |} /\
   spelled
     {| Py.year := 999; Py.month := 12; Py.day := 31;
        Py.hour := 0; Py.minute := 0; Py.second := 0; Py.microsecond := 0 |}
   = "09991231" /\
   ((1000 <= 999)%Z ->
    PeriodFetcher.strftime_Ymd
      {| Py.year := 999; Py.month := 12; Py.day := 31;
         Py.hour := 0; Py.minute := 0; Py.second := 0; Py.microsecond := 0 |}
    = "09991231") /\
   ((999 < 1000)%Z ->
    PeriodFetcher.strftime_Ymd
      {| Py.year := 999; Py.month := 12; Py.day := 31;
         Py.hour := 0; Py.minute := 0; Py.second := 0; Py.microsecond := 0 |}
    <> "09991231")).
Proof.
  split.
  - apply (@accepted_dates_are_calendar_days "20240229").
    + reflexivity.
    + vm_compute. reflexivity.
  - apply (@accepted_dates_are_calendar_days "09991231").
    + reflexivity.
    + vm_compute. reflexivity.
Defined.

(** ** The days between two dates *)

Lemma datetime_leb_dates (a b : Py.datetime) :
  midnight a -> midnight b ->
  (PeriodFetcherMain.datetime_leb a b = true <-> date_le a b).
Proof.
  destruct a as [y m d h mi s us], b as [y' m' d' h' mi' s' us'].
  unfold midnight, date_le, PeriodFetcherMain.datetime_leb, PeriodFetcherMain.fields.
  cbn [Py.year Py.month Py.day Py.hour Py.minute Py.second Py.microsecond].
  intros [-> [-> [-> ->]]] [-> [-> [-> ->]]].
  cbn [PeriodFetcherMain.lex_leb].
  change ((0 <? 0)%Z) with false. change ((0 =? 0)%Z) with true.
  cbn [orb andb]. rewrite andb_true_r.
  destruct (Z.ltb_spec y y'), (Z.eqb_spec y y'), (Z.ltb_spec m m'),
    (Z.eqb_spec m m'), (Z.ltb_spec d d'), (Z.eqb_spec d d');
    cbn [orb andb]; split; intros Hx; try reflexivity; try discriminate Hx; lia.
Qed.

Lemma days_in_month_bounds y m : (28 <= Catalog.days_in_month y m <= 31)%Z.
Proof.
  unfold Catalog.days_in_month.
  destruct (m =? 2)%Z; [destruct (Catalog.is_leap y); lia|].
  destruct (_ || _)%bool; lia.
Qed.

(** The day after a day of the calendar: it is a day of the calendar
    unless the year 9999 is over, it comes later, it is at the same time
    of the day, and no day lies between the two. *)
Lemma next_day_spec (dt : Py.datetime) :
  Catalog.valid_date dt ->
  ((Py.year (Catalog.next_day dt) <= 9999)%Z -> Catalog.valid_date (Catalog.next_day dt)) /\
  (calendar_rank dt + 1 <= calendar_rank (Catalog.next_day dt))%Z /\
  (Py.year (Catalog.next_day dt) <= Py.year dt + 1)%Z /\
  (midnight dt -> midnight (Catalog.next_day dt)) /\
  (forall e, Catalog.valid_date e -> date_le dt e ->
             ~ date_le (Catalog.next_day dt) e ->
             Py.year e = Py.year dt /\ Py.month e = Py.month dt /\
             Py.day e = Py.day dt).
Proof.
  intros [[Y1 Y2] [[M1 M2] [D1 D2]]].
  pose proof (days_in_month_bounds (Py.year dt) (Py.month dt)) as B.
  unfold Catalog.next_day, calendar_rank, Catalog.valid_date, date_le, midnight.
  destruct (Z.ltb_spec (Py.day dt) (Catalog.days_in_month (Py.year dt) (Py.month dt)))
    as [L|L];
    [|destruct (Z.ltb_spec (Py.month dt) 12) as [L2|L2]];
    cbn [Py.year Py.month Py.day Py.hour Py.minute Py.second Py.microsecond].
  - split; [intros _; lia|]. split; [lia|]. split; [lia|]. split; [tauto|].
    intros e' [[? ?] [[? ?] [? He]]] Hq1 Hq2. lia.
  - pose proof (days_in_month_bounds (Py.year dt) (Py.month dt + 1)) as B'.
    split; [intros _; lia|]. split; [lia|]. split; [lia|]. split; [tauto|].
    intros e' [[? ?] [[? ?] [? He]]] Hq1 Hq2.
    assert (Hm : Py.year e' = Py.year dt /\ Py.month e' = Py.month dt) by lia.
    destruct Hm as [Hy Hm]; rewrite Hy, Hm in He; lia.
  - pose proof (days_in_month_bounds (Py.year dt + 1) 1) as B'.
    split; [intros ?; lia|]. split; [lia|]. split; [lia|]. split; [tauto|].
    intros e' [[? ?] [[? ?] [? He]]] Hq1 Hq2.
    assert (Hm : Py.year e' = Py.year dt /\ Py.month e' = Py.month dt) by lia.
    destruct Hm as [Hy Hm]; rewrite Hy, Hm in He; lia.
Qed.

Lemma date_le_rank a b :
  Catalog.valid_date a -> Catalog.valid_date b -> date_le a b ->
  (calendar_rank a <= calendar_rank b)%Z.
Proof.
  intros [[? ?] [[? ?] [? Ha]]] [[? ?] [[? ?] [? Hb]]] Hle.
  pose proof (days_in_month_bounds (Py.year a) (Py.month a)).
  pose proof (days_in_month_bounds (Py.year b) (Py.month b)).
  unfold date_le in Hle. unfold calendar_rank. lia.
Qed.

Lemma last_default A (l : list A) (x d d' : A) : last (x :: l) d = last (x :: l) d'.
Proof.
  revert x. induction l as [|y l IH]; intros x; [reflexivity|].
  change (last (y :: l) d = last (y :: l) d'). apply IH.
Qed.

(** The loop over the days, when the end is before the last year. *)
Lemma date_range_spec :
  forall fuel current_dt end_dt,
    Catalog.valid_date current_dt -> Catalog.valid_date end_dt ->
    midnight current_dt -> midnight end_dt ->
    date_le current_dt end_dt -> (Py.year end_dt < 9999)%Z ->
    (calendar_rank end_dt - calendar_rank current_dt + 2 <= Z.of_nat fuel)%Z ->
    exists n,
      PeriodFetcherMain.date_range fuel current_dt end_dt
      = Some (Ok (consecutive_days (S n) current_dt)) /\
      last (consecutive_days (S n) current_dt) current_dt = end_dt.
Proof.
  induction fuel as [|fuel IH]; intros cur e Vc Ve Mc Me Hle Hy Hf.
  - pose proof (date_le_rank Vc Ve Hle). lia.
  - cbn [PeriodFetcherMain.date_range].
    rewrite (proj2 (datetime_leb_dates Mc Me) Hle).
    destruct (next_day_spec Vc) as [Vn [Rn [Yn [Mn Bn]]]].
    assert (Yc : (Py.year cur <= Py.year e)%Z) by (unfold date_le in Hle; lia).
    replace (9999 <? Py.year (Catalog.next_day cur))%Z with false
      by (symmetry; apply Z.ltb_ge; lia).
    destruct (PeriodFetcherMain.datetime_leb (Catalog.next_day cur) e) eqn:L.
    + apply (datetime_leb_dates (Mn Mc) Me) in L.
      destruct (IH (Catalog.next_day cur) e) as [n [E Hl]]; try assumption.
      * apply Vn. lia.
      * apply Mn. exact Mc.
      * lia.
      * exists (S n). rewrite E. split; [reflexivity|].
        change (last (consecutive_days (S n) (Catalog.next_day cur)) cur = e).
        cbn [consecutive_days] in *. rewrite (last_default _ _ cur (Catalog.next_day cur)).
        exact Hl.
    + assert (N : ~ date_le (Catalog.next_day cur) e).
      { intros H. apply (datetime_leb_dates (Mn Mc) Me) in H. congruence. }
      destruct (Bn e Ve Hle N) as [E1 [E2 E3]].
      pose proof (date_le_rank Vc Ve Hle).
      destruct fuel as [|fuel]; [lia|].
      cbn [PeriodFetcherMain.date_range]. rewrite L.
      exists 0. split; [reflexivity|]. simpl.
      destruct cur, e. unfold midnight in *. simpl in *.
      destruct Mc as [-> [-> [-> ->]]], Me as [-> [-> [-> ->]]]. subst. reflexivity.
Qed.

(** More fuel does not change what the loop returns. *)
Lemma date_range_more_fuel :
  forall fuel current_dt end_dt r,
    PeriodFetcherMain.date_range fuel current_dt end_dt = Some r ->
    forall fuel', fuel <= fuel' ->
      PeriodFetcherMain.date_range fuel' current_dt end_dt = Some r.
Proof.
  induction fuel as [|fuel IH]; intros cur e r H fuel' Hf; [discriminate|].
  destruct fuel' as [|fuel']; [lia|].
  cbn [PeriodFetcherMain.date_range] in *.
  destruct (PeriodFetcherMain.datetime_leb cur e); [|exact H].
  destruct (9999 <? Py.year (Catalog.next_day cur))%Z; [exact H|].
  destruct (PeriodFetcherMain.date_range fuel (Catalog.next_day cur) e) as [r0|] eqn:E;
    [|discriminate].
  rewrite (IH _ _ _ E fuel') by lia. exact H.
Qed.

(** The loop over the days, when the end is the last day of the year
    9999: the addition of a day overflows. *)
Lemma date_range_overflow :
  forall fuel current_dt end_dt,
    Catalog.valid_date current_dt -> Catalog.valid_date end_dt ->
    midnight current_dt -> midnight end_dt ->
    (Py.year end_dt = 9999 /\ Py.month end_dt = 12 /\ Py.day end_dt = 31)%Z ->
    (calendar_rank end_dt - calendar_rank current_dt + 1 <= Z.of_nat fuel)%Z ->
    PeriodFetcherMain.date_range fuel current_dt end_dt = Some (Raise OtherException).
Proof.
  assert (Top : forall a e, Catalog.valid_date a ->
                  (Py.year e = 9999 /\ Py.month e = 12 /\ Py.day e = 31)%Z ->
                  date_le a e).
  { intros a e [[? ?] [[? ?] [? Ha]]] [E1 [E2 E3]].
    pose proof (days_in_month_bounds (Py.year a) (Py.month a)).
    unfold date_le. lia. }
  induction fuel as [|fuel IH]; intros cur e Vc Ve Mc Me He Hf.
  - pose proof (date_le_rank Vc Ve (Top _ _ Vc He)). lia.
  - cbn [PeriodFetcherMain.date_range].
    rewrite (proj2 (datetime_leb_dates Mc Me) (Top _ _ Vc He)).
    destruct (next_day_spec Vc) as [Vn [Rn [Yn [Mn Bn]]]].
    destruct (Z.ltb_spec 9999 (Py.year (Catalog.next_day cur))) as [O|O];
      [reflexivity|].
    rewrite (IH (Catalog.next_day cur) e); try assumption.
    + reflexivity.
    + apply Vn. exact O.
    + apply Mn. exact Mc.
    + lia.
Qed.

Lemma lower_length s : String.length (PeriodFetcherMain.lower s) = String.length s.
Proof. induction s as [|c s IH]; simpl; [reflexivity | rewrite IH; reflexivity]. Qed.

Lemma parsed_is_not_today (date_str : string) (dt : Py.datetime) :
  PeriodFetcherMain.parse_date_str date_str = Some dt ->
  String.eqb (PeriodFetcherMain.lower date_str) "today" = false.
Proof.
  intros H. apply String.eqb_neq. intros E.
  apply (f_equal String.length) in E. rewrite lower_length in E.
  unfold PeriodFetcherMain.parse_date_str in H.
  destruct (Nat.eqb (String.length date_str) 8) eqn:L; [|discriminate].
  apply Nat.eqb_eq in L. rewrite L in E. discriminate E.
Qed.

(** X20. Given a start date and an end date that [parse_date_str] accepts,
    the start not after the end and the end before the year 9999, [main]
    plans the days from the start to the end, both included, each once and
    in order, a day being followed by the next day of the calendar. *)
Theorem planned_days_run_from_start_to_end
    (script_run_utc_datetime : Py.datetime)
    (start_date_input_str end_date_input_str : string)
    (start_dt end_dt : Py.datetime) :
  PeriodFetcherMain.parse_date_str start_date_input_str = Some start_dt ->
  PeriodFetcherMain.parse_date_str end_date_input_str = Some end_dt ->
  date_le start_dt end_dt -> (Py.year end_dt < 9999)%Z ->
  exists fuel0 n,
    last (consecutive_days (S n) start_dt) start_dt = end_dt /\
    forall fuel, fuel0 <= fuel ->
      PeriodFetcherMain.target_dates fuel script_run_utc_datetime
        start_date_input_str (Some end_date_input_str)
      = Some (PeriodFetcherMain.Dates (consecutive_days (S n) start_dt)).
Proof.
  intros Hs He Hle Hy.
  destruct (parse_date_str_inv _ Hs) as [Vs [Ms _]].
  destruct (parse_date_str_inv _ He) as [Ve [Me _]].
  set (fuel0 := Z.to_nat (calendar_rank end_dt - calendar_rank start_dt + 2)).
  destruct (@date_range_spec fuel0 start_dt end_dt Vs Ve Ms Me Hle Hy) as [n [E Hl]].
  { unfold fuel0. pose proof (date_le_rank Vs Ve Hle). lia. }
  exists fuel0, n. split; [exact Hl|].
  intros fuel Hf. unfold PeriodFetcherMain.target_dates.
  rewrite Hs, (parsed_is_not_today _ He), He.
  rewrite (proj2 (datetime_leb_dates Ms Me) Hle). cbn [negb].
  rewrite (date_range_more_fuel _ _ E Hf). reflexivity.
Qed.

(** From 27 February to 1 March of a leap year. *)
Lemma planned_days_run_from_start_to_end_witness :
  exists fuel0 n,
    last (consecutive_days (S n)
            {| Py.year := 2024; Py.month := 2; Py.day := 27;
               Py.hour := 0; Py.minute := 0; Py.second := 0; Py.microsecond := 0 |})
         {| Py.year := 2024; Py.month := 2; Py.day := 27;
            Py.hour := 0; Py.minute := 0; Py.second := 0; Py.microsecond := 0 |}
    = {| Py.year := 2024; Py.month := 3; Py.day := 1;
         Py.hour := 0; Py.minute := 0; Py.second := 0; Py.microsecond := 0 |} /\
    forall fuel, fuel0 <= fuel ->
      PeriodFetcherMain.target_dates fuel sample_datetime "20240227" (Some "20240301")
      = Some (PeriodFetcherMain.Dates
                (consecutive_days (S n)
                   {| Py.year := 2024; Py.month := 2; Py.day := 27;
                      Py.hour := 0; Py.minute := 0; Py.second := 0;
                      Py.microsecond := 0 |})).
Proof.
  apply (@planned_days_run_from_start_to_end sample_datetime "20240227" "20240301").
  - vm_compute. reflexivity.
  - vm_compute. reflexivity.
  - unfold date_le. simpl. lia.
  - simpl. lia.
Defined.

(** X21. A start date after the end date makes [main] exit with status 1
    before any day is processed. *)
Theorem inverted_range_exits
    (fuel : nat) (script_run_utc_datetime : Py.datetime)
    (start_date_input_str end_date_input_str : string)
    (start_dt end_dt : Py.datetime) :
  PeriodFetcherMain.parse_date_str start_date_input_str = Some start_dt ->
  PeriodFetcherMain.parse_date_str end_date_input_str = Some end_dt ->
  ~ date_le start_dt end_dt ->
  PeriodFetcherMain.target_dates fuel script_run_utc_datetime
    start_date_input_str (Some end_date_input_str)
  = Some (PeriodFetcherMain.Exit 1).
Proof.
  intros Hs He Hn.
  destruct (parse_date_str_inv _ Hs) as [_ [Ms _]].
  destruct (parse_date_str_inv _ He) as [_ [Me _]].
  unfold PeriodFetcherMain.target_dates.
  rewrite Hs, (parsed_is_not_today _ He), He.
  destruct (PeriodFetcherMain.datetime_leb start_dt end_dt) eqn:L; [|reflexivity].
  apply (datetime_leb_dates Ms Me) in L. contradiction.
Qed.

Lemma inverted_range_exits_witness :
  PeriodFetcherMain.target_dates 0 sample_datetime "20240116" (Some "20240115")
  = Some (PeriodFetcherMain.Exit 1).
Proof.
  apply (@inverted_range_exits 0 sample_datetime "20240116" "20240115"
           {| Py.year := 2024; Py.month := 1; Py.day := 16;
              Py.hour := 0; Py.minute := 0; Py.second := 0; Py.microsecond := 0 |}
           {| Py.year := 2024; Py.month := 1; Py.day := 15;
              Py.hour := 0; Py.minute := 0; Py.second := 0; Py.microsecond := 0 |}).
  - vm_compute. reflexivity.
  - vm_compute. reflexivity.
  - unfold date_le. simpl. lia.
Defined.

(** X22. With 99991231 as end date, [main] exits with status 1 whatever
    the start date it accepted: after the last day is appended to the list
    the addition of one more day overflows, and the handler of the [try]
    takes it for an error in the date arguments. *)
Theorem last_day_of_9999_cannot_be_planned
    (script_run_utc_datetime : Py.datetime)
    (start_date_input_str : string) (start_dt : Py.datetime) :
  PeriodFetcherMain.parse_date_str start_date_input_str = Some start_dt ->
  exists fuel0,
    forall fuel, fuel0 <= fuel ->
      PeriodFetcherMain.target_dates fuel script_run_utc_datetime
        start_date_input_str (Some "99991231")
      = Some (PeriodFetcherMain.Exit 1).
Proof.
  intros Hs.
  destruct (parse_date_str_inv _ Hs) as [Vs [Ms _]].
  set (end_dt := {| Py.year := 9999; Py.month := 12; Py.day := 31;
                    Py.hour := 0; Py.minute := 0; Py.second := 0;
                    Py.microsecond := 0 |}).
  assert (He : PeriodFetcherMain.parse_date_str "99991231" = Some end_dt)
    by (vm_compute; reflexivity).
  destruct (parse_date_str_inv _ He) as [Ve [Me _]].
  assert (Hle : date_le start_dt end_dt).
  { destruct Vs as [[? ?] [[? ?] [? Hd]]].
    pose proof (days_in_month_bounds (Py.year start_dt) (Py.month start_dt)).
    unfold date_le, end_dt. simpl. lia. }
  exists (Z.to_nat (calendar_rank end_dt - calendar_rank start_dt + 1)).
  intros fuel Hf. unfold PeriodFetcherMain.target_dates.
  rewrite Hs. change (String.eqb (PeriodFetcherMain.lower "99991231") "today") with false.
  cbv iota. rewrite He.
  rewrite (proj2 (datetime_leb_dates Ms Me) Hle). cbn [negb].
  rewrite (@date_range_overflow fuel start_dt end_dt Vs Ve Ms Me).
  - reflexivity.
  - repeat split.
  - pose proof (date_le_rank Vs Ve Hle). lia.
Qed.

Lemma last_day_of_9999_cannot_be_planned_witness :
  exists fuel0,
    forall fuel, fuel0 <= fuel ->
      PeriodFetcherMain.target_dates fuel sample_datetime "99991230" (Some "99991231")
      = Some (PeriodFetcherMain.Exit 1).
Proof.
  apply (@last_day_of_9999_cannot_be_planned sample_datetime "99991230"
           {| Py.year := 9999; Py.month := 12; Py.day := 30;
              Py.hour := 0; Py.minute := 0; Py.second := 0; Py.microsecond := 0 |}).
  vm_compute. reflexivity.
Defined.

(** ** Several days in a row *)

Lemma daily_run_never
    (api : nat -> string -> option nat -> outcome (list PeriodFetcher.Result))
    (target_date_dt : Py.datetime) (w : PeriodFetcher.world) :
  exists total w',
    PeriodFetcher.fetch_daily_papers_to_db never api target_date_dt w
    = Some (Ok total, w') /\
    schedule_of (PeriodFetcher.trace w') =
      schedule_of (PeriodFetcher.trace w) ++ expected_daily_schedule.
Proof.
  unfold PeriodFetcher.fetch_daily_papers_to_db, PeriodFetcher.process_tiers,
    PeriodFetcher.run_bind.
  destruct (tiers_fold_schedule never api (PeriodFetcher.strftime_Ymd target_date_dt)
              PeriodFetcher.category_processing_order 0
              (PeriodFetcher.set_db
                 (Db.connect (Db.committed (PeriodFetcher.db w))) w))
    as [total [w1 [E Hs]]].
  rewrite E. exists total. eexists. split; [reflexivity|].
  rewrite <- tiers_schedule_expected. exact Hs.
Qed.

Lemma process_dates_schedule
    (api : nat -> string -> option nat -> outcome (list PeriodFetcher.Result))
    (len : nat) :
  forall (l : list Py.datetime) (start total : nat) (w : PeriodFetcher.world),
    start + List.length l = len ->
    exists total' w',
      PeriodFetcher.run_fold (Py.enumerate start l)
        (fun total (id : nat * Py.datetime) =>
           let (i, target_date_dt_loop_var) := id in
           PeriodFetcher.run_bind
             (PeriodFetcher.fetch_daily_papers_to_db never api target_date_dt_loop_var)
             (fun inserted_for_day w =>
                if (1 <? len)%nat && (i <? len - 1)%nat
                then Some (Ok (total + inserted_for_day),
                           PeriodFetcher.log (PeriodFetcher.Pause 10) w)
                else Some (Ok (total + inserted_for_day), w)))
        total w
      = Some (Ok total', w') /\
      schedule_of (PeriodFetcher.trace w') =
        schedule_of (PeriodFetcher.trace w) ++ days_schedule (List.length l).
Proof.
  induction l as [|d l IH]; intros start total w Hlen.
  - exists total, w. split; [reflexivity|]. simpl. rewrite app_nil_r. reflexivity.
  - cbn [Py.enumerate PeriodFetcher.run_fold].
    destruct (daily_run_never api d w) as [n [w1 [E1 S1]]].
    unfold PeriodFetcher.run_bind at 1. unfold PeriodFetcher.run_bind at 1.
    rewrite E1. simpl in Hlen.
    destruct l as [|d' l].
    + replace ((1 <? len)%nat && (start <? len - 1)%nat) with false.
      * exists (total + n), w1. split; [reflexivity|]. exact S1.
      * symmetry. apply andb_false_iff. right. apply Nat.ltb_ge. simpl in Hlen. lia.
    + replace ((1 <? len)%nat && (start <? len - 1)%nat) with true.
      * destruct (IH (S start) (total + n)
                     (PeriodFetcher.log (PeriodFetcher.Pause 10) w1))
          as [total' [w' [E' S']]]; [simpl in *; lia|].
        exists total', w'. split; [exact E'|].
        rewrite S'. cbn [PeriodFetcher.log PeriodFetcher.trace].
        rewrite schedule_of_app, S1.
        change (days_schedule (List.length (d :: d' :: l)))
          with (expected_daily_schedule ++ [PeriodFetcher.Pause 10]
                ++ days_schedule (List.length (d' :: l))).
        rewrite <- !app_assoc. reflexivity.
      * symmetry. apply andb_true_iff. simpl in Hlen.
        split; apply Nat.ltb_lt; lia.
Qed.

Lemma process_dates_trace
    (api : nat -> string -> option nat -> outcome (list PeriodFetcher.Result))
    (len : nat) :
  forall (l : list Py.datetime) (start total : nat) (w : PeriodFetcher.world),
    start + List.length l = len ->
    exists total' w' jss,
      PeriodFetcher.run_fold (Py.enumerate start l)
        (fun total (id : nat * Py.datetime) =>
           let (i, target_date_dt_loop_var) := id in
           PeriodFetcher.run_bind
             (PeriodFetcher.fetch_daily_papers_to_db never api target_date_dt_loop_var)
             (fun inserted_for_day w =>
                if (1 <? len)%nat && (i <? len - 1)%nat
                then Some (Ok (total + inserted_for_day),
                           PeriodFetcher.log (PeriodFetcher.Pause 10) w)
                else Some (Ok (total + inserted_for_day), w)))
        total w
      = Some (Ok total', w') /\
      List.length jss = List.length l /\
      Forall (fun js => List.length js = 40 /\ Forall (fun j => j <= 2) js) jss /\
      PeriodFetcher.trace w' = PeriodFetcher.trace w ++ days_trace l jss.
Proof.
  induction l as [|d l IH]; intros start total w Hlen.
  - exists total, w, []. split; [reflexivity|]. split; [reflexivity|].
    split; [constructor|]. simpl. rewrite app_nil_r. reflexivity.
  - cbn [Py.enumerate PeriodFetcher.run_fold].
    destruct (daily_run_trace never api d w) as [r [w1 [js [E1 [R1 [L1 [B1 T1]]]]]]].
    destruct (R1 eq_refl) as [n ->].
    unfold PeriodFetcher.run_bind at 1. unfold PeriodFetcher.run_bind at 1.
    rewrite E1. simpl in Hlen.
    destruct l as [|d' l].
    + replace ((1 <? len)%nat && (start <? len - 1)%nat) with false.
      * exists (total + n), w1, [js]. split; [reflexivity|]. split; [reflexivity|].
        split; [constructor; [split; assumption | constructor]|].
        rewrite T1. cbn [days_trace hd]. rewrite app_nil_r. reflexivity.
      * symmetry. apply andb_false_iff. right. apply Nat.ltb_ge. simpl in Hlen. lia.
    + replace ((1 <? len)%nat && (start <? len - 1)%nat) with true.
      * destruct (IH (S start) (total + n)
                     (PeriodFetcher.log (PeriodFetcher.Pause 10) w1))
          as [total' [w' [jss [E' [L' [B' T']]]]]]; [simpl in Hlen |- *; lia|].
        exists total', w', (js :: jss). split; [exact E'|].
        split; [simpl; rewrite L'; reflexivity|].
        split; [constructor; [split; assumption | exact B']|].
        rewrite T'. cbn [PeriodFetcher.log PeriodFetcher.trace]. rewrite T1.
        change (days_trace (d :: d' :: l) (js :: jss))
          with (with_queries (PeriodFetcher.strftime_Ymd d) js expected_daily_schedule
                ++ PeriodFetcher.Pause 10 :: days_trace (d' :: l) jss).
        rewrite <- !app_assoc. reflexivity.
      * symmetry. apply andb_true_iff. simpl in Hlen.
        split; apply Nat.ltb_lt; lia.
Qed.

(** X23. When the store raises no error, [main] processes the planned days
    in the order of the plan, whatever the catalog answers: each day runs
    the schedule of the tier table in full, its queries bearing the date of
    that day, and the run sleeps 10 seconds between two days and not after
    the last one.  The whole trace is, day after day, the tier table of the
    day with the queries of its 40 fetches, each fetch sending one query
    more than the attempts (at most 2) that failed with [HTTPError]. *)
Theorem days_are_processed_in_order_with_pauses
    (api : nat -> string -> option nat -> outcome (list PeriodFetcher.Result))
    (target_dates_dt_list : list Py.datetime) (w : PeriodFetcher.world) :
  exists total w' jss,
    PeriodFetcherMain.process_dates never api target_dates_dt_list w
    = Some (Ok total, w') /\
    schedule_of (PeriodFetcher.trace w') =
      schedule_of (PeriodFetcher.trace w)
      ++ days_schedule (List.length target_dates_dt_list) /\
    List.length jss = List.length target_dates_dt_list /\
    Forall (fun js => List.length js = 40 /\ Forall (fun j => j <= 2) js) jss /\
    PeriodFetcher.trace w' =
      PeriodFetcher.trace w ++ days_trace target_dates_dt_list jss.
Proof.
  unfold PeriodFetcherMain.process_dates.
  destruct (@process_dates_schedule api (List.length target_dates_dt_list)
              target_dates_dt_list 0 0 w eq_refl) as [total [w' [E S]]].
  destruct (@process_dates_trace api (List.length target_dates_dt_list)
              target_dates_dt_list 0 0 w eq_refl) as [total2 [w2 [jss [E2 [L [B T]]]]]].
  rewrite E in E2. injection E2 as <- <-.
  exists total, w', jss. split; [exact E|]. split; [exact S|].
  split; [exact L|]. split; [exact B | exact T].
Qed.

(** ** Identifiers, descriptions and abstracts *)

Lemma contains_app c a b :
  Py.contains c (a ++ b) = Py.contains c a || Py.contains c b.
Proof.
  induction a as [|d a IH]; simpl; [reflexivity|].
  rewrite IH, orb_assoc. reflexivity.
Qed.

Lemma last_segment_free sep s : Py.contains sep (Py.last_segment sep s) = false.
Proof.
  induction s as [|c r IH]; simpl; [reflexivity|].
  destruct (Py.contains sep r) eqn:E; [exact IH|].
  destruct (Ascii.eqb c sep) eqn:Q; [exact E|].
  simpl. rewrite Q, E. reflexivity.
Qed.

Lemma last_segment_after sep a b :
  Py.contains sep b = false ->
  Py.last_segment sep (a ++ String sep b) = b.
Proof.
  intros Hb. induction a as [|c a IH]; simpl.
  - rewrite Hb, Ascii.eqb_refl. reflexivity.
  - rewrite contains_app. simpl. rewrite Ascii.eqb_refl, orb_true_r. exact IH.
Qed.

Lemma last_segment_whole sep s :
  Py.contains sep s = false -> Py.last_segment sep s = s.
Proof.
  destruct s as [|c r]; simpl; [reflexivity|].
  intros H. apply orb_false_iff in H. destruct H as [Q E].
  rewrite E, Q. reflexivity.
Qed.

(** X24. The identifier both fetchers store for a record is the text of its
    [entry_id] after the last slash: it never holds a slash, and an
    [entry_id] that ends with a slash followed by a text without slash
    gives that text, version suffix included, so two versions of a paper
    are stored under two identifiers. *)
Theorem paper_id_is_the_text_after_the_last_slash
    (r : PeriodFetcher.Result) (prefix ident : string) :
  PeriodFetcher.entry_id r = (prefix ++ "/" ++ ident)%string ->
  Py.contains "/"%char ident = false ->
  PeriodFetcher.paper_id r = ident /\
  Store.id (PeriodFetcher.paper_row r) = ident /\
  DailyFetcher.paper_id (DailyFetcher.to_paper r) = ident /\
  Py.contains "/"%char (PeriodFetcher.paper_id r) = false.
Proof.
  intros He Hi.
  assert (E : PeriodFetcher.paper_id r = ident).
  { unfold PeriodFetcher.paper_id. rewrite He.
    apply (last_segment_after "/"%char prefix ident Hi). }
  split; [exact E|]. split; [exact E|]. split; [exact E|].
  rewrite E. exact Hi.
Qed.

Lemma paper_id_is_the_text_after_the_last_slash_witness :
  PeriodFetcher.paper_id (result_of "http://arxiv.org/abs/2401.00001v2" "S")
  = "2401.00001v2" /\
  Store.id (PeriodFetcher.paper_row (result_of "http://arxiv.org/abs/2401.00001v2" "S"))
  = "2401.00001v2" /\
  DailyFetcher.paper_id
    (DailyFetcher.to_paper (result_of "http://arxiv.org/abs/2401.00001v2" "S"))
  = "2401.00001v2" /\
  Py.contains "/"%char
    (PeriodFetcher.paper_id (result_of "http://arxiv.org/abs/2401.00001v2" "S"))
  = false.
Proof.
  apply (@paper_id_is_the_text_after_the_last_slash
           (result_of "http://arxiv.org/abs/2401.00001v2" "S")
           "http://arxiv.org/abs" "2401.00001v2").
  - reflexivity.
  - reflexivity.
Defined.

(** X25. The description an apply proposes for a category code is
    "Category - " followed by the part of the code after its last dot, or
    by the whole code when it has no dot; the pre-population does the same
    with "Computer Science - ".  The part after the marker never holds a
    dot. *)
Theorem descriptions_end_with_the_code_suffix (code : string) :
  (Py.contains "."%char code = false ->
   PeriodFetcher.category_description code = ("Category - " ++ code)%string /\
   PeriodFetcherInit.description code = ("Computer Science - " ++ code)%string) /\
  (forall archive suffix,
     code = (archive ++ "." ++ suffix)%string -> Py.contains "."%char suffix = false ->
     PeriodFetcher.category_description code = ("Category - " ++ suffix)%string /\
     PeriodFetcherInit.description code = ("Computer Science - " ++ suffix)%string) /\
  (exists suffix,
     PeriodFetcher.category_description code = ("Category - " ++ suffix)%string /\
     PeriodFetcherInit.description code = ("Computer Science - " ++ suffix)%string /\
     Py.contains "."%char suffix = false).
Proof.
  unfold PeriodFetcher.category_description, PeriodFetcherInit.description.
  split; [|split].
  - intros H. rewrite H. split; reflexivity.
  - intros archive suffix -> Hs.
    rewrite contains_app. simpl. rewrite orb_true_r.
    rewrite (last_segment_after "."%char archive suffix Hs). split; reflexivity.
  - destruct (Py.contains "."%char code) eqn:E.
    + exists (Py.last_segment "."%char code).
      split; [reflexivity|]. split; [reflexivity|]. apply last_segment_free.
    + exists code. split; [reflexivity|]. split; [reflexivity|]. exact E.
Qed.

Lemma replace_newlines_spec s :
  Py.contains newline (Py.replace_newlines s) = false /\
  String.length (Py.replace_newlines s) = String.length s /\
  (Py.contains newline s = false -> Py.replace_newlines s = s).
Proof.
  unfold newline. induction s as [|c r [IH1 [IH2 IH3]]]; simpl.
  - repeat split.
  - split; [|split].
    + rewrite IH1. destruct (Ascii.eqb c "010"%char) eqn:E; [reflexivity|].
      rewrite E. reflexivity.
    + rewrite IH2. reflexivity.
    + intros H. apply orb_false_iff in H. destruct H as [Q H].
      rewrite Q, (IH3 H). reflexivity.
Qed.

Lemma replace_newlines_get s :
  forall i,
    String.get i (Py.replace_newlines s)
    = option_map (fun c => if Ascii.eqb c newline then " "%char else c)
                 (String.get i s).
Proof.
  unfold newline. induction s as [|c r IH]; intros i; [reflexivity|].
  destruct i as [|i]; simpl; [reflexivity | apply IH].
Qed.

(** X26. The abstract both fetchers store for a record is its summary with
    every line feed turned into a space and nothing else changed: at each
    position it holds the character of the summary at that position, or a
    space where the summary holds a line feed.  So it has the length of the
    summary, holds no line feed, and is the summary itself when the summary
    has none. *)
Theorem stored_abstract_has_no_line_feed (r : PeriodFetcher.Result) :
  exists abstract,
    Store.abstract (PeriodFetcher.paper_row r) = Some abstract /\
    DailyFetcher.paper_abstract (DailyFetcher.to_paper r) = abstract /\
    (forall i,
       String.get i abstract
       = option_map (fun c => if Ascii.eqb c newline then " "%char else c)
                    (String.get i (PeriodFetcher.summary r))) /\
    Py.contains newline abstract = false /\
    String.length abstract = String.length (PeriodFetcher.summary r) /\
    (Py.contains newline (PeriodFetcher.summary r) = false ->
     abstract = PeriodFetcher.summary r).
Proof.
  exists (Py.replace_newlines (PeriodFetcher.summary r)).
  split; [reflexivity|]. split; [reflexivity|].
  split; [apply replace_newlines_get|].
  apply replace_newlines_spec.
Qed.

(** ** The count a fetch reports *)

Lemma conn_query_returns A (q : Store.t -> A * Store.t) :
  steady (fun _ : Db.conn => True) (Db.query never q).
Proof.
  intros c _. rewrite query_never. do 2 eexists. split; [reflexivity | exact I].
Qed.

Lemma conn_execute_values_returns R (row : R -> Store.t -> Store.t) (rows : list R) :
  steady (fun _ : Db.conn => True) (Db.execute_values never row rows).
Proof.
  unfold Db.execute_values. apply steady_for_each.
  intros page. apply conn_query_returns.
Qed.

Lemma conn_commit_returns : steady (fun _ : Db.conn => True) (Db.commit never).
Proof.
  intros c _. unfold Db.commit, never. do 2 eexists. split; [reflexivity | exact I].
Qed.

Lemma steady_fold_each S A B (I : S -> Prop) (l : list A) (body : B -> A -> M S B) :
  (forall acc x, steady I (body acc x)) ->
  forall acc, steady I (fold_each l body acc).
Proof.
  intros Hb. induction l as [|x l IH]; intros acc; simpl.
  - apply steady_ret.
  - apply steady_bind; [apply Hb | intros acc'; apply IH].
Qed.

Lemma link_author_returns pid acc ia :
  steady (fun _ : Db.conn => True) (PeriodFetcher.link_author never pid acc ia).
Proof.
  destruct ia as [i name]. unfold PeriodFetcher.link_author.
  apply steady_bind; [apply conn_query_returns|].
  intros [aid|]; [apply steady_ret|].
  apply steady_bind; [apply conn_query_returns|].
  intros [aid|]; apply steady_ret.
Qed.

Lemma insert_paper_steps_returns (r : PeriodFetcher.Result) :
  steady (fun _ : Db.conn => True) (PeriodFetcher.insert_paper_steps never r).
Proof.
  unfold PeriodFetcher.insert_paper_steps.
  apply steady_bind.
  { destruct (PeriodFetcher.primary_category r) as [p|]; [|apply steady_ret].
    destruct (Py.truthy p); [apply conn_query_returns | apply steady_ret]. }
  intros _. apply steady_bind; [apply conn_query_returns|].
  intros _. apply steady_bind.
  { apply steady_fold_each. intros acc x. apply link_author_returns. }
  intros rows. apply steady_bind.
  { destruct rows; [apply steady_ret | apply conn_execute_values_returns]. }
  intros _. apply steady_bind; [|intros _; apply conn_commit_returns].
  destruct (PeriodFetcher.categories r) as [|c cs]; [apply steady_ret|].
  apply steady_bind.
  - destruct (map _ _); [apply steady_ret | apply conn_execute_values_returns].
  - intros _. destruct (map _ _); [apply steady_ret | apply conn_execute_values_returns].
Qed.

Lemma insert_paper_data_never (c : Db.conn) (r : PeriodFetcher.Result) :
  exists c',
    PeriodFetcher.insert_paper_data never c r = (true, c') /\
    Db.working c' = applied r (Db.working c) /\
    Db.committed c' = applied r (Db.working c).
Proof.
  destruct (@insert_paper_steps_returns r c I) as [u [c1 [E _]]].
  assert (H : PeriodFetcher.insert_paper_data never c r = (true, c1)).
  { unfold PeriodFetcher.insert_paper_data. rewrite E. reflexivity. }
  exists c1. split; [exact H|].
  exact (insert_paper_data_true never c r H).
Qed.

Lemma insert_results_never (l : list PeriodFetcher.Result) :
  forall n c, Db.clean c ->
    exists c',
      PeriodFetcher.insert_results never l n c = (n + List.length l, c') /\
      Db.clean c' /\
      Db.committed c' = applied_all l (Db.committed c).
Proof.
  induction l as [|r l IH]; intros n c Hc.
  - exists c. simpl. rewrite Nat.add_0_r. auto.
  - destruct (insert_paper_data_never c r) as [c1 [E [W C]]].
    cbn [PeriodFetcher.insert_results]. rewrite E.
    assert (Hc1 : Db.clean c1) by (unfold Db.clean; congruence).
    destruct (IH (n + 1) c1 Hc1) as [c' [E' [Hc' C']]].
    exists c'. rewrite E'. split; [|split].
    + f_equal. simpl. lia.
    + exact Hc'.
    + rewrite C', C, Hc. reflexivity.
Qed.

(** X27. The count a fetch reports is the number of records the catalog
    returned, not the number of new papers: when no statement raises and
    the catalog answers the query, the fetch returns the length of the
    answer whatever the store already holds and even if a record comes
    twice, after one query, and what is durable is the store after the
    applies of the records in order. *)
Theorem fetch_counts_every_returned_record
    (api : nat -> string -> option nat -> outcome (list PeriodFetcher.Result))
    (category date_str : string) (max_total : option nat)
    (w : PeriodFetcher.world) (l : list PeriodFetcher.Result) :
  Db.clean (PeriodFetcher.db w) ->
  api (PeriodFetcher.api_calls w) (PeriodFetcher.fetch_query category date_str)
      (if PeriodFetcher.truthy_nat max_total then max_total else None) = Ok l ->
  exists w',
    PeriodFetcher.fetch_papers_by_category_to_db never api category date_str
      max_total w = Some (Ok (List.length l), w') /\
    Db.committed (PeriodFetcher.db w')
    = applied_all l (Db.committed (PeriodFetcher.db w)) /\
    PeriodFetcher.api_calls w' = S (PeriodFetcher.api_calls w) /\
    PeriodFetcher.trace w'
    = PeriodFetcher.trace w ++ [query_event category date_str max_total].
Proof.
  intros Hc Ha.
  unfold PeriodFetcher.fetch_papers_by_category_to_db.
  cbn [PeriodFetcher.fetch_loop].
  change (0 <? PeriodFetcher.max_api_call_failures)%nat with true. cbv iota.
  unfold PeriodFetcher.fetch_attempt. rewrite Ha.
  destruct l as [|r l].
  - eexists. split; [reflexivity|]. repeat split.
  - match goal with
    | |- context [PeriodFetcher.insert_results never ?rs 0 ?c] =>
        destruct (@insert_results_never rs 0 c Hc) as [c' [E [_ C]]]
    end.
    rewrite E. eexists. split; [reflexivity|]. split; [exact C|].
    split; reflexivity.
Qed.

(** The same record returned twice for cs.AI on the empty store. *)
Lemma fetch_counts_every_returned_record_witness :
  exists w',
    PeriodFetcher.fetch_papers_by_category_to_db never
      (api_returning [sample_result; sample_result]) "cs.AI" "20240101"
      (Some 500) fresh_world = Some (Ok 2, w') /\
    Db.committed (PeriodFetcher.db w')
    = applied_all [sample_result; sample_result]
        (Db.committed (PeriodFetcher.db fresh_world)) /\
    PeriodFetcher.api_calls w' = S (PeriodFetcher.api_calls fresh_world) /\
    PeriodFetcher.trace w'
    = PeriodFetcher.trace fresh_world ++ [query_event "cs.AI" "20240101" (Some 500)].
Proof.
  apply (@fetch_counts_every_returned_record
           (api_returning [sample_result; sample_result]) "cs.AI" "20240101"
           (Some 500) fresh_world [sample_result; sample_result]).
  - reflexivity.
  - reflexivity.
Defined.

(** ** The helper [batch_insert] *)

Lemma fold_left_map A B C (f : C -> B -> C) (g : A -> B) (l : list A) :
  forall c, fold_left f (map g l) c = fold_left (fun acc x => f acc (g x)) l c.
Proof.
  induction l as [|x l IH]; intros c; simpl; [reflexivity | apply IH].
Qed.

Lemma conn_query_quiet A (q : Store.t -> A * Store.t) (s : Store.t) :
  steady (fun c : Db.conn => Db.committed c = s) (Db.query never q).
Proof.
  intros c Hc. rewrite query_never. do 2 eexists. split; [reflexivity | exact Hc].
Qed.

Lemma conn_execute_values_quiet R (row : R -> Store.t -> Store.t) (rows : list R)
    (s : Store.t) :
  steady (fun c : Db.conn => Db.committed c = s) (Db.execute_values never row rows).
Proof.
  unfold Db.execute_values. apply steady_for_each.
  intros page. apply conn_query_quiet.
Qed.

Lemma batch_insert_sees (raises : nat -> bool) R (row : R -> Store.t -> Store.t)
    (values : list R) (batch_size : nat) (s0 : Store.t) :
  0 < batch_size ->
  sees (eq s0) (ImportArxivBatch.batch_insert raises row values batch_size)
       (fun _ s => s = Store.insert_rows row values s0).
Proof.
  intros Hb. unfold ImportArxivBatch.batch_insert.
  destruct batch_size as [|b]; [lia|]. cbv zeta.
  eapply sees_weaken;
    [apply (@sees_for_each _ (Py.range 0 (List.length values) (S b))
              (fun i => Db.execute_values raises row (Py.slice values i (i + S b)))
              (fun i s => Store.insert_rows row (Py.slice values i (i + S b)) s)) | | ].
  - intros i s1. apply sees_execute_values.
  - intros s Hs. exact Hs.
  - intros u s ->. unfold Store.insert_rows.
    pose proof (@groups_of_concat R (S b) values Hb) as G.
    unfold Py.groups_of in G.
    rewrite <- G at 2.
    rewrite <- (fold_left_concat (fun acc r => row r acc)).
    rewrite fold_left_map. reflexivity.
Qed.

(** X28. The size of the batches of [batch_insert] does not change what is
    inserted: for a positive size, a call that returns has proposed all
    the rows once, in the order of the list, and has committed nothing;
    when no statement raises the call returns. *)
Theorem batch_size_does_not_change_the_insert
    R (row : R -> Store.t -> Store.t) (values : list R) (batch_size : nat)
    (c : Db.conn) :
  0 < batch_size ->
  (forall raises u c',
      ImportArxivBatch.batch_insert raises row values batch_size c = (Ok u, c') ->
      Db.working c' = Store.insert_rows row values (Db.working c) /\
      Db.committed c' = Db.committed c) /\
  (exists c',
      ImportArxivBatch.batch_insert never row values batch_size c = (Ok tt, c')).
Proof.
  intros Hb. split.
  - intros raises u c' E. split.
    + exact (@batch_insert_sees raises R row values batch_size (Db.working c) Hb
               c u c' eq_refl E).
    + revert E. unfold ImportArxivBatch.batch_insert.
      destruct batch_size as [|b]; [lia|]. cbv zeta.
      intros E.
      match type of E with
      | ?m c = _ =>
          assert (Hm : maintains (fun c0 => Db.committed c0 = Db.committed c) m)
      end.
      { apply maintains_for_each. intros i. apply execute_values_keeps_committed. }
      exact (Hm c (Ok u) c' eq_refl E).
  - unfold ImportArxivBatch.batch_insert.
    destruct batch_size as [|b]; [lia|]. cbv zeta.
    assert (Hs : steady (fun c0 : Db.conn => Db.committed c0 = Db.committed c)
                   (for_each (Py.range 0 (List.length values) (S b))
                      (fun i => Db.execute_values never row
                                  (Py.slice values i (i + S b))))).
    { apply steady_for_each. intros i. apply conn_execute_values_quiet. }
    destruct (Hs c eq_refl) as [[] [c' [E _]]].
    exists c'. exact E.
Qed.

(** Three category rows in batches of two on the empty store. *)
Lemma batch_size_does_not_change_the_insert_witness :
  (forall raises u c',
      ImportArxivBatch.batch_insert raises Store.insert_category_do_nothing
        three_categories 2 (Db.connect Store.empty) = (Ok u, c') ->
      Db.working c'
      = Store.insert_rows Store.insert_category_do_nothing three_categories
          (Db.working (Db.connect Store.empty)) /\
      Db.committed c' = Db.committed (Db.connect Store.empty)) /\
  (exists c',
      ImportArxivBatch.batch_insert never Store.insert_category_do_nothing
        three_categories 2 (Db.connect Store.empty) = (Ok tt, c')).
Proof.
  apply (@batch_size_does_not_change_the_insert _ Store.insert_category_do_nothing
           three_categories 2 (Db.connect Store.empty)).
  lia.
Defined.

(** ** The window of the statistics *)

Lemma lex_leb_cons x y a b :
  PeriodFetcherMain.lex_leb (x :: a) (y :: b) = true
  <-> (x < y \/ (x = y /\ PeriodFetcherMain.lex_leb a b = true))%Z.
Proof.
  cbn [PeriodFetcherMain.lex_leb].
  destruct (Z.ltb_spec x y) as [Hlt|Hge]; cbn [orb].
  - split; [intros _; left; exact Hlt | reflexivity].
  - destruct (Z.eqb_spec x y) as [He|Hne]; cbn [andb].
    + split; [intros Hx; right; split; assumption | intros [Hx|[_ Hx]]; [lia | exact Hx]].
    + split; [discriminate | intros [Hx|[Hx _]]; lia].
Qed.

Lemma window_start (t p : Py.datetime) :
  time_of_day p ->
  (PeriodFetcherMain.datetime_leb (PeriodFetcherStatistics.date_start_dt t) p = true
   <-> date_le t p).
Proof.
  destruct t as [y m d h mi s us], p as [y' m' d' h' mi' s' us'].
  unfold time_of_day, date_le, PeriodFetcherMain.datetime_leb,
    PeriodFetcherMain.fields, PeriodFetcherStatistics.date_start_dt, Catalog.at_time.
  cbn [Py.year Py.month Py.day Py.hour Py.minute Py.second Py.microsecond].
  intros [Hh [Hm [Hs Hu]]].
  rewrite !lex_leb_cons. cbn [PeriodFetcherMain.lex_leb].
  split.
  - intros [Hx|[Hx [Hx1|[Hx1 [Hx2|[Hx2 _]]]]]]; lia.
  - intros [Hx|[Hx [Hx1|[Hx1 Hx2]]]].
    + left. exact Hx.
    + right. split; [exact Hx|]. left. exact Hx1.
    + right. split; [exact Hx|]. right. split; [exact Hx1|].
      assert (Hd : (d < d' \/ d = d')%Z) by lia.
      destruct Hd as [Hd|Hd]; [left; exact Hd|]. right. split; [exact Hd|].
      assert (H0 : (0 < h' \/ 0 = h')%Z) by lia.
      destruct H0 as [H0|H0]; [left; exact H0|]. right. split; [exact H0|].
      assert (H1 : (0 < mi' \/ 0 = mi')%Z) by lia.
      destruct H1 as [H1|H1]; [left; exact H1|]. right. split; [exact H1|].
      assert (H2 : (0 < s' \/ 0 = s')%Z) by lia.
      destruct H2 as [H2|H2]; [left; exact H2|]. right. split; [exact H2|].
      assert (H3 : (0 < us' \/ 0 = us')%Z) by lia.
      destruct H3 as [H3|H3]; [left; exact H3|]. right. split; [exact H3|].
      reflexivity.
Qed.

Lemma window_end (t p : Py.datetime) :
  time_of_day p ->
  (PeriodFetcherMain.datetime_leb p (PeriodFetcherStatistics.date_end_dt t) = true
   <-> date_le p t).
Proof.
  destruct t as [y m d h mi s us], p as [y' m' d' h' mi' s' us'].
  unfold time_of_day, date_le, PeriodFetcherMain.datetime_leb,
    PeriodFetcherMain.fields, PeriodFetcherStatistics.date_end_dt, Catalog.at_time.
  cbn [Py.year Py.month Py.day Py.hour Py.minute Py.second Py.microsecond].
  intros [Hh [Hm [Hs Hu]]].
  rewrite !lex_leb_cons. cbn [PeriodFetcherMain.lex_leb].
  split.
  - intros [Hx|[Hx [Hx1|[Hx1 [Hx2|[Hx2 _]]]]]]; lia.
  - intros [Hx|[Hx [Hx1|[Hx1 Hx2]]]].
    + left. exact Hx.
    + right. split; [exact Hx|]. left. exact Hx1.
    + right. split; [exact Hx|]. right. split; [exact Hx1|].
      assert (Hd : (d' < d \/ d' = d)%Z) by lia.
      destruct Hd as [Hd|Hd]; [left; exact Hd|]. right. split; [exact Hd|].
      assert (H0 : (h' < 23 \/ h' = 23)%Z) by lia.
      destruct H0 as [H0|H0]; [left; exact H0|]. right. split; [exact H0|].
      assert (H1 : (mi' < 59 \/ mi' = 59)%Z) by lia.
      destruct H1 as [H1|H1]; [left; exact H1|]. right. split; [exact H1|].
      assert (H2 : (s' < 59 \/ s' = 59)%Z) by lia.
      destruct H2 as [H2|H2]; [left; exact H2|]. right. split; [exact H2|].
      assert (H3 : (us' < 999999 \/ us' = 999999)%Z) by lia.
      destruct H3 as [H3|H3]; [left; exact H3|]. right. split; [exact H3|].
      reflexivity.
Qed.

(** X29. The window of the statistics of a day is the day: a paper whose
    publication instant has a time of day in range is selected exactly
    when that instant falls on the target day, whatever the time of day
    of the target; a paper without publication instant is never selected;
    and the total printed for the day is at most the total of the papers
    stored. *)
Theorem statistics_select_the_papers_of_the_day
    (target_date_dt : Py.datetime) (s : Store.t) :
  (forall row published,
      Store.arxiv_published_at row = Some published -> time_of_day published ->
      (PeriodFetcherStatistics.in_window target_date_dt row = true
       <-> same_day published target_date_dt)) /\
  (forall row,
      Store.arxiv_published_at row = None ->
      PeriodFetcherStatistics.in_window target_date_dt row = false) /\
  PeriodFetcherStatistics.total_published_today target_date_dt s
  <= PeriodFetcherStatistics.total_papers_in_db s.
Proof.
  split; [|split].
  - intros row p Hp Ht. unfold PeriodFetcherStatistics.in_window. rewrite Hp.
    rewrite andb_true_iff, (window_start target_date_dt Ht),
      (window_end target_date_dt Ht).
    unfold date_le, same_day. lia.
  - intros row Hp. unfold PeriodFetcherStatistics.in_window. rewrite Hp. reflexivity.
  - unfold PeriodFetcherStatistics.total_published_today,
      PeriodFetcherStatistics.total_papers_in_db.
    apply filter_length_le.
Qed.
